(* ===== verification/_CoqProject ===== *)
-Q . S2P
Prelude.v
JsString.v
Json.v
Http.v
Types.v
Search.v
Scraper.v
Analyzer.v
Regex.v
Store.v
Health.v
History.v
Orchestrator.v
Concurrency.v
Wiring.v
VendorForm.v
FormView.v
HomePage.v
ComparisonTable.v
StatusPage.v
StatusContent.v
Export.v
PageView.v
