(* ===== verification/Prelude.v ===== *)
(** * Vendor discovery platform: a verification development

    The repository is a Next.js application that turns a free-text need
    and a list of weighted requirements into a ranked vendor comparison.
    Its core is the POST handler of
    [src/src/app/api/shortlist/create/route.ts]: create a shortlist row
    in [processing] -> search (SerpAPI, [src/src/lib/search/serpapi.ts])
    -> scrape the top six results ([src/src/lib/scraper/scraper.ts]) ->
    LLM analysis ([src/src/lib/ai/gemini.ts]) -> write the vendors and
    mark the row [completed] (Prisma).  Around it sit the history and
    health routes, two alternative search providers (Google Custom
    Search, Brave) and the React UI.

    ** Library layout (dependency order, as in _CoqProject)

    - [Prelude] (this file): the scope [vdp_scope]; the monad
      [run St Err A := St -> (Err + A) * St] of every handler that
      touches the store, whose exceptions keep the writes done before
      them (a completed Prisma write is not rolled back when a later
      [await] throws), with [promise_all] for [Promise.all] (every call
      runs, the first rejection in list order is returned); [stable R c],
      "running [c] relates the states by [R]", with one lemma per
      combinator and the tactic [solve_stable]; hint databases [vdp] and
      [vdp_rw]; generic lemmas on lists, [mapM] and sorted lists.
    - [JsString]: the string built-ins the code calls ([trim],
      [startsWith], [includes], [toLowerCase], [slice], [join],
      [replace(/\s+/g,' ')] and the fence [replace]s) and their lemmas,
      among them [includes s p <-> exists u v, s = u ++ p ++ v].
    - [Json]: JSON values, JavaScript truthiness, property reads ([o.f],
      [x?.f], [o.f || d]) and an executable [JSON.parse].
    - [Http]: the request [axios] is given and its outcome.
    - [Types]: [src/src/types/index.ts]: the records the code builds,
      and every interface as a type of JSON values ([ts_type],
      [has_type]) for the JSON the parts exchange.
    - [Search]: the three providers of [src/src/lib/search/] as
      instances of the class [SearchProvider], the contract
      [SearchProviderSpec] they meet and the query builders written once
      against the class.
    - [Scraper]: [scraper.ts] over a DOM tree with cheerio's selectors.
    - [Analyzer]: [gemini.ts]: Module [Parse] ([parseVendorAnalysis]),
      Module [Prompt] ([buildAnalysisPrompt]), Module [Gemini]
      ([analyzeVendors], [generateVendorSuggestions]).
    - [Regex]: the reference for the regular expressions the code
      applies: ECMAScript's backtracking matcher in continuation-passing
      style ([bm_go], greedy [?] and [*] refusing an empty iteration),
      [RegExpBuiltinExec]'s search ([search]) and the [g] loops of
      [match] and [replace] ([js_match_all], [js_replace_all]); the
      patterns [/\s+/], the price pattern and the fences as values of
      [regex]; Modules [Price], [Whitespace] and [Fence] relate each to
      the scanner its component uses.
    - [Store]: the Prisma tables as finite maps (spec-modelled: the
      client and schema are not in the repository), the calls as
      operations of [run], the invariants [wf] and [row_ok].
    - [Health], [History]: the two GET routes.
    - [Orchestrator]: [route.ts]'s POST against a record [deps] of the
      three components, so that its theorems hold for any search,
      scraper and analyzer; the requests as a step relation on stores.
    - [Concurrency]: many requests of the same POST at once, as Node runs
      them on one event loop: each request cut at its Prisma calls (a
      [stage] between two of them, [handler_step] the code up to the
      next), each [vendor.create] of the [Promise.all] settling on its
      own, and a [server] whose [event]s choose which request resumes,
      which pending create settles and whether the database answers
      ([prisma_call]).
    - [Wiring]: [deps] instantiated with the SerpAPI, scraper and Gemini
      models: the route as deployed.
    - [VendorForm]: [src/src/components/VendorForm.tsx]: the form state,
      one function per handler, the controls the markup enables, and
      [parseInt].
    - [FormView]: what the form draws from its state: the rows, their
      badges and remove buttons, the disabled controls, the submit
      label.
    - [HomePage]: [src/src/app/page.tsx]: the page state and the calls in
      flight; [fetchHistory] and [handleCreateShortlist] cut at their
      [await]s, each call settling as an event, in any order.
    - [ComparisonTable]: [src/src/components/ComparisonTable.tsx]: the
      values each card shows, or the [TypeError] rendering throws.
    - [StatusPage]: [src/src/app/status/page.tsx]: [checkHealth] and the
      rendering of the health route's answer.
    - [StatusContent]: the health route's body as JSON ([health_json]),
      the interfaces the status page declares for it, and the page's
      fixed header, service information, setup guide and cost card.
    - [Export]: [generateMarkdown] and [handleExport] of [page.tsx].
    - [PageView]: what [page.tsx] draws from its state (lines 140-240):
      tab labels, loading and error cards, the results summary with the
      comparison table, the history cards; the fixed header, hero,
      features grid and footer.

    The UI files sit on top of the routes: the form's submissions are
    the create route's requests, the home page consumes the [response]
    of [Orchestrator.POST] and the [history_response] of [History.v],
    the table renders the [vendor_row]s those carry, and the status page
    renders [Health.HealthRoute.GET]'s answer.

    ** What is proved

    - The handler (Orchestrator): the outcome of every path (400, 404,
      the two 500s, success with the vendors sorted by score); store
      well-formedness and row shape preserved by every request and hence
      by every reachable store (rule induction on [rtc request_step]);
      rows never change once written; a run whose analysis throws stays
      [processing] forever; a vendor that fails validation leaves the
      others written under a [processing] run.
    - Concurrent requests (Concurrency): one request run alone with the
      database up is [POST] (refinement); under every interleaving and
      every pattern of outages the store stays well formed, each row a
      request still writes is [processing], and no two requests write the
      same row ([isolated], a rely-guarantee argument on the footprint of
      one step); a completed or failed row and its vendors never change
      again; a [200] answer lists exactly the vendors of the request's own
      analysis; every request finishes when resumed alone, whatever the
      others do.  Examples show a [500] sent before the sibling creates
      of a rejected [Promise.all] land, and an outage at the last update
      leaving a run [processing] with all its vendors.
    - The analyzer: fence stripping is a round trip for both fence tags;
      [parseVendorAnalysis] is total, throws each of its four errors
      exactly on its own class of inputs and nowhere else, and
      applies the spec's defaults; scores are not clamped; the prompt
      embeds every page and requirement; the request path composes the
      envelope with the parser.
    - The scraper: the pages kept are exactly those of the URLs whose
      scrape resolved, in input order; no page iff every fetch failed; content, title and feature bounds; the pricing-model rules;
      soundness of the price pattern; the pricing guess reads the whole
      page; empty [main] and nested lists on concrete pages.
    - The providers: result mapping and its independence of [count];
      the three providers compared on a 429; a [TypeError] escaping the
      SerpAPI [catch]; the shared contract.
    - Health and history: the aggregate status is never [degraded];
      when it is [healthy]; the writes; the history is the newest five
      completed runs, each with its vendors by score.
    - The JSON parser: every step consumes text and its fuel is
      adequate, so [json_parse] never gives up before the text ends.
    - The regular expressions (equivalence): the scanners the scraper
      and the analyzer are modelled with ([price_matches], [collapse_ws],
      [strip_all], [strip_end], hence [Parse.clean_response]) equal, on
      every text, the JavaScript calls of the source under the reference
      semantics.  The generic part: the matcher only reads suffixes and
      its fuel is adequate ([bm_fuel]); a pattern that matches one way
      ([det_len]) under a greedy loop whose continuation cannot fail
      takes every iteration ([star_greedy], [opt_greedy]); a scanner
      that follows [search] step by step is the [g] loop
      ([match_all_by_steps], [replace_by_steps]).  [euro_amounts_not_extracted]
      shows the price pattern ignores the euro and pound amounts the
      keywords select.
    - The UI: every request the form submits passes the route's
      validation; the form keeps one to ten requirements with distinct
      ids when the clock readings of the add clicks increase (and
      [same_ms_empties_form] shows the list emptied when two adds share
      a millisecond); any integer typed as a weight, outside 1-10
      included, is submitted unchecked; the home page is
      loading exactly while a create is in flight, shows either a
      completed shortlist with sorted vendors or a non-empty error once
      the route answers, and its history tab lists the answer of the
      history call that settled last, not of the one made last (a stale
      list when the call made on mount arrives late); the table's ranks
      follow the scores; for any components, a successful run with a
      vendor whose [matchedRequirements] is not an array is answered 200
      and makes the home page's table throw, while vendors of the declared types
      always render, and the export numbers the vendors as
      the table ranks them; in every reachable state the error card
      shows exactly the page's error, and the results summary counts the
      cards the table draws; on the health route's answer every status
      card is the green "Operational" or the red "Down" one; the
      controls the rendered form leaves usable are exactly the events
      the form model allows ([form_view_offers_enabled]); every health
      body has the type the status page declares, none of its services
      the type [HealthStatus] of [types/index.ts], and each service has
      its entry in the page's service information.  Examples show the
      mis-encoded emoji of the headings and buttons, the features grid
      crediting Claude AI with the Gemini analysis, and the hero's
      average time beyond the route's [maxDuration].
    - The spec's example run through the deployed components.
    - Consistency of the model with itself, as lemmas rather than claims
      about the program: one request run alone in [Concurrency] is the
      sequential [POST] ([run_alone_is_POST]) and finishes
      ([request_finishes]); the hand-written scanners equal the
      reference regular-expression semantics; [json_parse] has enough
      fuel; the rendered form offers exactly the events of [enabled]
      ([form_view_offers_enabled]); the health body the model writes
      has the declared type ([health_json_typed]).  A bug of the source
      would show on both sides of these equations: they check the
      translation, not the program.

    ** Bounds, fuel and what is left out

    [JSON.parse] runs [parse_value] with fuel [1 + length] of the text.
    That is enough: every nested value and every further element or
    member consumes at least one character ([parse_value_length]), so
    with any fuel above the length the parser returns the same result
    ([parse_value_fuel], and [json_parse_fuel] for [json_parse]).  The price
    pattern is matched by structural recursion with a skip counter.  The
    reference matcher [bm] takes [1 + length] of the input as fuel: only
    a loop iteration spends fuel and each consumes a character, so more
    fuel changes nothing ([bm_fuel]); the [g] loops likewise
    ([match_all_fuel], [replace_fuel]).  The regular expressions cover
    what the code's patterns use: no capture groups, back-references,
    look-around, flags other than [g], or [$] replacement patterns.
    Strings are byte strings: lengths count bytes where JavaScript
    counts UTF-16 code units, and [toLowerCase] and [\s] are their ASCII
    parts (the code's keywords and delimiters are ASCII).  Numbers are
    rationals (no binary64 rounding).  The HTML parser, [fetch] and
    [axios] and the clock are inputs; the database's availability is an
    input of each Prisma call in [Concurrency] (the sequential
    [Orchestrator] model takes it up).  In [Concurrency] the search,
    scrape and analysis awaits run inside one step: they touch no shared
    state, so their interleaving with other requests changes nothing.  A
    URL that is not a JSON string counts as a rejected fetch.  In the UI,
    [Date.now()], [new Date()], [toLocaleString] and [String(number)]
    are inputs; the fixed text of the pages is modelled as strings
    (the emoji as the bytes the files hold), while class names and
    styling, the icons' SVG components, the scroll timer and the
    download of the exported file are not, and React's
    re-render between two user events is assumed (each handler sees the
    state the previous one left).  The form's add clicks are bounded by
    the rendered limit of ten rows.  [next.config.js] and the Tailwind
    and TypeScript configuration are build settings with no behaviour
    of the program, and are not modelled. *)

From Stdlib Require Export String Ascii.
From stdpp Require Export base list strings gmap sorting pretty.

Declare Scope vdp_scope.
Delimit Scope vdp_scope with vdp.
Open Scope vdp_scope.

(** ** A state monad whose exceptions keep the state *)

Section Run.
Context {St Err : Type}.

(** A computation reads the store, then either throws an [Err] or
    returns an [A]; in both cases it yields the store it leaves. *)
Definition run (A : Type) : Type := St -> (Err + A) * St.

Definition ret {A} (a : A) : run A := fun s => (inr a, s).
Definition throw {A} (e : Err) : run A := fun s => (inl e, s).
Definition bind {A B} (c : run A) (k : A -> run B) : run B :=
  fun s => match c s with
           | (inl e, s') => (inl e, s')
           | (inr a, s') => k a s'
           end.
Definition get_st : run St := fun s => (inr s, s).
Definition put_st (s' : St) : run unit := fun _ => (inr tt, s').

(** [try { c } catch (e) { h(e) }] *)
Definition catch_run {A} (c : run A) (h : Err -> run A) : run A :=
  fun s => match c s with
           | (inl e, s') => h e s'
           | (inr a, s') => (inr a, s')
           end.

(** A value of [Err + A] as a computation that leaves the state alone. *)
Definition of_sum {A} (x : Err + A) : run A := fun s => (x, s).

(** [await Promise.all(xs.map(f))] where every [f x] is launched before
    any settles: each one runs to completion and keeps its effect on the
    state, and the combined promise rejects when one of them does (with
    the first rejection in the order of [xs]). *)
Fixpoint promise_all {A B} (f : A -> run B) (xs : list A) : run (list B) :=
  match xs with
  | [] => ret []
  | x :: xs' =>
      fun s => match f x s with
               | (inl e, s1) => (inl e, snd (promise_all f xs' s1))
               | (inr b, s1) =>
                   match promise_all f xs' s1 with
                   | (inl e, s2) => (inl e, s2)
                   | (inr bs, s2) => (inr (b :: bs), s2)
                   end
               end
  end.
End Run.

Arguments run : clear implicits.

(** Rethrow the errors of [c] through [f]. *)
Definition lift_err {St E1 E2 A} (f : E1 -> E2) (c : run St E1 A) : run St E2 A :=
  fun s => match c s with
           | (inl e, s') => (inl (f e), s')
           | (inr a, s') => (inr a, s')
           end.

(** [c] relates every state it starts from to the state it leaves. *)
Definition stable {St E A} (R : St -> St -> Prop) (c : run St E A) : Prop :=
  forall s, R s (snd (c s)).

Arguments run : clear implicits.

Notation "x <- c ;; k" := (bind c (fun x => k))
  (at level 100, c at next level, right associativity) : vdp_scope.
Notation "c ;; k" := (bind c (fun _ => k))
  (at level 100, right associativity) : vdp_scope.

(** ** Tactics and the hint database *)

Create HintDb vdp.
Create Rewrite HintDb vdp_rw.

Ltac inv_clear H := inversion H; subst; clear H.

(** Unfold the monad's plumbing in the goal. *)
Ltac run_simpl := unfold bind, ret, throw, get_st, put_st, catch_run in *; simpl in *.

(** Case split on the first [match] or [if] of the goal, keeping the
    equation. *)
Ltac split_match :=
  match goal with
  | |- context [match ?x with _ => _ end] =>
      let E := fresh "E" in destruct x eqn:E
  end.

(** ** Generic lemmas *)

Section Generic.
Context {A St Err : Type}.

Lemma bind_ret_l {B} (a : A) (k : A -> run St Err B) s :
  bind (ret a) k s = k a s.
Proof. reflexivity. Qed.

Lemma bind_throw {B} (e : Err) (k : A -> run St Err B) s :
  bind (throw e) k s = (inl e, s).
Proof. reflexivity. Qed.

Lemma length_take_le (n : nat) (l : list A) : length (take n l) <= n.
Proof. rewrite length_take. lia. Qed.

Lemma filter_length_le (P : A -> Prop) `{!∀ x, Decision (P x)} (l : list A) :
  length (filter P l) <= length l.
Proof.
  induction l as [|x l IH]; [done|]. rewrite filter_cons.
  case_decide; simpl; lia.
Qed.

Lemma Forall_filter_P (P : A -> Prop) `{!∀ x, Decision (P x)} (l : list A) :
  Forall P (filter P l).
Proof. apply Forall_forall. intros x Hx. by apply list_elem_of_filter in Hx as []. Qed.
Lemma omap_mapM {B} (f : A -> option B) (l : list A) (k : list B) :
  mapM f l = Some k -> omap f l = k.
Proof.
  intros H%mapM_Some_1. induction H as [|x y l k Hxy _ IH]; [done|]. simpl.
  rewrite Hxy. f_equal. exact IH.
Qed.
Lemma mapM_map_Some {B C} (f : C -> option B) (h : A -> C) (g : A -> B) (l : list A) :
  Forall (fun x => f (h x) = Some (g x)) l -> mapM f (map h l) = Some (map g l).
Proof. induction 1 as [|x l Hx _ IH]; [done|]. simpl. by rewrite Hx, IH. Qed.
Lemma mapM_Forall {B} (f : A -> option B) (P : B -> Prop) (l : list A) (k : list B) :
  (forall x y, f x = Some y -> P y) -> mapM f l = Some k -> Forall P k.
Proof.
  intros HP H%mapM_Some_1. induction H; constructor; eauto.
Qed.
Lemma mapM_total {B} (f : A -> option B) (l : list A) :
  Forall (fun x => exists y, f x = Some y) l -> exists k, mapM f l = Some k /\ length k = length l.
Proof.
  induction 1 as [|x l [y Hy] _ [k [Hk Hl]]]; [by exists []|].
  exists (y :: k). simpl. rewrite Hy, Hk. simpl. by rewrite Hl.
Qed.
(** [mapM] succeeds on a permutation of a list it succeeds on, with a
    permutation of the results. *)
Lemma mapM_Permutation {B} (f : A -> option B) (l l' : list A) (k : list B) :
  l ≡ₚ l' -> mapM f l = Some k -> exists k', mapM f l' = Some k' /\ k' ≡ₚ k.
Proof.
  intros Hp. revert k.
  induction Hp as [|x l l' _ IH|x y l|l l' l'' _ IH1 _ IH2]; intros k Hk.
  - by exists k.
  - cbn in Hk. destruct (f x) as [b|] eqn:Hb, (mapM f l) as [k0|] eqn:E; try discriminate.
    injection Hk as <-. destruct (IH k0 eq_refl) as (k' & Hk' & Hp'). exists (b :: k').
    cbn. rewrite Hb. cbn. rewrite Hk'. split; [done|]. by rewrite Hp'.
  - cbn in Hk. destruct (f y) as [b|] eqn:Hb, (f x) as [c|] eqn:Hc, (mapM f l) as [k0|] eqn:E;
      try discriminate.
    injection Hk as <-. exists (c :: b :: k0).
    cbn. rewrite Hc. cbn. rewrite Hb. cbn. rewrite E. split; [done|]. by constructor.
  - destruct (IH1 k Hk) as (k1 & Hk1 & P1). destruct (IH2 k1 Hk1) as (k2 & Hk2 & P2).
    exists k2. split; [done|]. by rewrite P2.
Qed.

Lemma StronglySorted_app_l (R : relation A) (l1 l2 : list A) :
  StronglySorted R (l1 ++ l2) -> StronglySorted R l1.
Proof.
  induction l1 as [|x l1 IH]; intros H; [constructor|]. inversion H as [|? ? Hs Hf]; subst.
  constructor; [by apply IH|]. apply Forall_app in Hf as [? _]. done.
Qed.
Lemma StronglySorted_app_rel (R : relation A) (l1 l2 : list A) :
  StronglySorted R (l1 ++ l2) -> forall x y, x ∈ l1 -> y ∈ l2 -> R x y.
Proof.
  induction l1 as [|z l1 IH]; intros H x y Hx Hy; [by apply elem_of_nil in Hx|].
  inversion H as [|? ? Hs Hf]; subst. apply elem_of_cons in Hx as [->|Hx]; [|by eapply IH].
  apply Forall_app in Hf as [_ Hf]. by eapply Forall_forall in Hf.
Qed.
Lemma StronglySorted_map {B} (f : A -> B) (R : relation B) (l : list A) :
  StronglySorted (fun a b => R (f a) (f b)) l -> StronglySorted R (map f l).
Proof.
  induction 1 as [|x l _ IH Hf]; simpl; constructor; [done|]. by apply Forall_map.
Qed.
Lemma StronglySorted_Forall2 {B} (P : A -> B -> Prop) (R : relation A) (R' : relation B)
    (l : list A) (k : list B) :
  Forall2 P l k -> (forall a1 a2 b1 b2, P a1 b1 -> P a2 b2 -> R a1 a2 -> R' b1 b2) ->
  StronglySorted R l -> StronglySorted R' k.
Proof.
  intros HP HR. induction HP as [|a b l k Hab Hlk IH]; intros Hs; [constructor|].
  inversion Hs as [|? ? Hs' Hf]; subst. constructor; [by apply IH|].
  clear IH Hs Hs'. induction Hlk as [|a' b' l k Hab' _ IHl]; [constructor|].
  inversion Hf; subst. constructor; [by eapply HR|by apply IHl].
Qed.
Lemma sublist_map_l {B} (f : A -> B) (l1 l2 : list A) :
  l1 `sublist_of` l2 -> map f l1 `sublist_of` map f l2.
Proof. induction 1; simpl; by constructor. Qed.
End Generic.

(** ** The calculus of [stable] *)

Section Stable.
Context {St E : Type} (R : St -> St -> Prop) `{!PreOrder R}.

Lemma stable_ret {A} (a : A) : stable R (ret (Err:=E) (St:=St) a).
Proof. intros s. reflexivity. Qed.

Lemma stable_throw {A} (e : E) : stable R (throw (A:=A) (St:=St) e).
Proof. intros s. reflexivity. Qed.

Lemma stable_get : stable R (get_st (Err:=E) (St:=St)).
Proof. intros s. reflexivity. Qed.

Lemma stable_of_sum {A} (x : E + A) : stable R (of_sum (St:=St) x).
Proof. intros s. reflexivity. Qed.

Lemma stable_bind {A B} (c : run St E A) (k : A -> run St E B) :
  stable R c -> (forall a, stable R (k a)) -> stable R (bind c k).
Proof.
  intros Hc Hk s. unfold bind. specialize (Hc s).
  destruct (c s) as [[e|a] s'] eqn:E1; [done|]. simpl in Hc. etrans; [exact Hc|apply Hk].
Qed.

Lemma stable_catch {A} (c : run St E A) (h : E -> run St E A) :
  stable R c -> (forall e, stable R (h e)) -> stable R (catch_run c h).
Proof.
  intros Hc Hh s. unfold catch_run. specialize (Hc s).
  destruct (c s) as [[e|a] s'] eqn:E1; [|done]. simpl in Hc. etrans; [exact Hc|apply Hh].
Qed.

Lemma stable_promise_all {A B} (f : A -> run St E B) (xs : list A) :
  (forall x, stable R (f x)) -> stable R (promise_all f xs).
Proof.
  intros Hf. induction xs as [|x xs IH]; intros s; [reflexivity|]. simpl.
  specialize (Hf x s). destruct (f x s) as [[e|b] s1]; simpl in Hf.
  - etrans; [exact Hf|apply IH].
  - specialize (IH s1). destruct (promise_all f xs s1) as [[e|bs] s2]; simpl in *;
      etrans; eassumption.
Qed.
End Stable.

Lemma stable_lift_err {St E1 E2 A} (R : St -> St -> Prop) (f : E1 -> E2) (c : run St E1 A) :
  stable R c -> stable R (lift_err f c).
Proof. intros Hc s. unfold lift_err. specialize (Hc s). by destruct (c s) as [[e|a] s']. Qed.

(** The calls of [Promise.all] after the first run on the store the first
    leaves, whether it rejected or not. *)
Lemma promise_all_cons_snd {St E A B} (f : A -> run St E B) (x : A) (xs : list A) (s : St) :
  snd (promise_all f (x :: xs) s) = snd (promise_all f xs (snd (f x s))).
Proof.
  simpl. destruct (f x s) as [[e|b] s1]; [done|]. simpl.
  by destruct (promise_all f xs s1) as [[e|bs] s2].
Qed.

#[export] Hint Resolve stable_ret stable_throw stable_get stable_of_sum stable_bind stable_catch
  stable_promise_all stable_lift_err : vdp.

(** Prove [stable R c] by following the structure of [c]; the leaves are
    closed by the [vdp] hints. *)
Ltac solve_stable :=
  repeat first
    [ apply stable_bind; [apply _| |intros ?]
    | apply stable_catch; [apply _| |intros ?]
    | apply stable_lift_err
    | apply stable_promise_all; [apply _|intros ?]
    | apply stable_ret; apply _
    | apply stable_throw; apply _
    | apply stable_get; apply _
    | apply stable_of_sum; apply _
    | match goal with |- stable _ (match ?x with _ => _ end) => destruct x end
    | solve [eauto with vdp] ].

(** ** The calculus of [returns]

    [returns Q c]: whatever state [c] starts from, the value it returns
    (when it does not throw) satisfies [Q]. *)

Definition returns {St E A} (Q : A -> Prop) (c : run St E A) : Prop :=
  forall s, match fst (c s) with inr a => Q a | inl _ => True end.

Section Returns.
Context {St E : Type}.

Lemma returns_ret {A} (Q : A -> Prop) (a : A) : Q a -> returns Q (ret (Err:=E) (St:=St) a).
Proof. intros Ha s. exact Ha. Qed.

Lemma returns_throw {A} (Q : A -> Prop) (e : E) : returns Q (throw (A:=A) (St:=St) e).
Proof. intros s. exact I. Qed.

Lemma returns_any {A} (c : run St E A) : returns (fun _ => True) c.
Proof. intros s. by destruct (fst (c s)). Qed.

Lemma returns_bind {A B} (P : A -> Prop) (Q : B -> Prop) (c : run St E A) (k : A -> run St E B) :
  returns P c -> (forall a, P a -> returns Q (k a)) -> returns Q (bind c k).
Proof.
  intros Hc Hk s. unfold bind. specialize (Hc s).
  destruct (c s) as [[e|a] s']; [done|]. by apply Hk.
Qed.

Lemma returns_catch {A} (Q : A -> Prop) (c : run St E A) (h : E -> run St E A) :
  returns Q c -> (forall e, returns Q (h e)) -> returns Q (catch_run c h).
Proof.
  intros Hc Hh s. unfold catch_run. specialize (Hc s).
  destruct (c s) as [[e|a] s']; [apply Hh|done].
Qed.
End Returns.

Lemma returns_lift_err {St E1 E2 A} (Q : A -> Prop) (f : E1 -> E2) (c : run St E1 A) :
  returns Q c -> returns Q (lift_err f c).
Proof. intros Hc s. unfold lift_err. specialize (Hc s). by destruct (c s) as [[e|a] s']. Qed.

(** A computation with a [catch] whose handler answers never throws. *)
Lemma catch_run_inr {St E A} (c : run St E A) (h : E -> A) (s : St) :
  exists a, fst (catch_run c (fun e => ret (h e)) s) = inr a.
Proof. unfold catch_run. destruct (c s) as [[e|a] s']; eauto. Qed.

#[export] Hint Rewrite @bind_ret_l @bind_throw : vdp_rw.
#[export] Hint Resolve length_take_le filter_length_le Forall_filter_P : vdp.
