(* ===== verification/JsString.v ===== *)
(** * JavaScript string primitives

    The string methods the repository calls, as executable functions on
    [String.string]: [trim], [startsWith], [includes], [toLowerCase],
    [toUpperCase], [slice(0, n)], [split]-free [join], the two regular
    expression replacements of [gemini.ts] ([/```json\n?/g] and
    [/```\n?$/g]) and the whitespace collapse [/\s+/g -> ' '] of
    [scraper.ts].  Characters are 7-bit ASCII: on that range JavaScript's
    [\s] is {9,...,13, 32} and the case maps are the Latin letters'. *)

From S2P Require Import Prelude.

Open Scope string_scope.

(** ** Characters *)

Definition is_ws (c : ascii) : bool :=
  let n := nat_of_ascii c in Nat.eqb n 32 || (Nat.leb 9 n && Nat.leb n 13).

Definition lower_char (c : ascii) : ascii :=
  let n := nat_of_ascii c in
  if Nat.leb 65 n && Nat.leb n 90 then ascii_of_nat (n + 32) else c.

Definition upper_char (c : ascii) : ascii :=
  let n := nat_of_ascii c in
  if Nat.leb 97 n && Nat.leb n 122 then ascii_of_nat (n - 32) else c.

(** ** Whole-string operations *)

Fixpoint map_chars (f : ascii -> ascii) (s : string) : string :=
  match s with
  | EmptyString => EmptyString
  | String c s' => String (f c) (map_chars f s')
  end.

(** [s.toLowerCase()], [s.toUpperCase()] *)
Definition to_lower : string -> string := map_chars lower_char.
Definition to_upper : string -> string := map_chars upper_char.

Section TrimBy.
Variable ws : ascii -> bool.

Fixpoint trim_start_by (s : string) : string :=
  match s with
  | EmptyString => EmptyString
  | String c s' => if ws c then trim_start_by s' else s
  end.

Fixpoint trim_end_by (s : string) : string :=
  match s with
  | EmptyString => EmptyString
  | String c s' =>
      let t := trim_end_by s' in
      if ws c && String.eqb t "" then "" else String c t
  end.

Definition all_ws_by (s : string) : bool := String.eqb (trim_start_by s) "".
End TrimBy.

Definition trim_start : string -> string := trim_start_by is_ws.
Definition trim_end : string -> string := trim_end_by is_ws.

(** [s.trim()] *)
Definition trim (s : string) : string := trim_end (trim_start s).

(** [p] is a prefix of [s]; the recursion is on the pattern. *)
Fixpoint is_prefix (p s : string) : bool :=
  match p with
  | EmptyString => true
  | String a p' =>
      match s with
      | EmptyString => false
      | String b s' => Ascii.eqb a b && is_prefix p' s'
      end
  end.

(** [s.startsWith(p)] *)
Definition starts_with (s p : string) : bool := is_prefix p s.

(** [s.includes(p)] *)
Fixpoint includes (s p : string) : bool :=
  is_prefix p s ||
  match s with
  | EmptyString => false
  | String _ s' => includes s' p
  end.

(** [s.slice(0, n)] *)
Definition slice (s : string) (n : nat) : string := String.substring 0 n s.

(** [s.endsWith(p)] *)
Definition ends_with (s p : string) : bool :=
  Nat.leb (String.length p) (String.length s) &&
  String.eqb (String.substring (String.length s - String.length p) (String.length p) s) p.

(** [s.replace(/\s+/g, ' ')]: every maximal run of whitespace becomes one
    space.  [in_ws] records that the previous character was whitespace. *)
Fixpoint collapse_aux (in_ws : bool) (s : string) : string :=
  match s with
  | EmptyString => EmptyString
  | String c s' =>
      if is_ws c then
        if in_ws then collapse_aux true s' else String " " (collapse_aux true s')
      else String c (collapse_aux false s')
  end.

Definition collapse_ws (s : string) : string := collapse_aux false s.

(** The length of a match of the regular expression [pat\n?] at the head
    of [s] ([?] is greedy). *)
Definition fence_match_len (pat s : string) : nat :=
  if is_prefix (pat ++ String "010" "") s then S (String.length pat)
  else String.length pat.

(** [s.replace(/pat\n?/g, '')] for a literal non-empty [pat]: the scan
    goes left to right, removes each match and resumes after it; [skip]
    counts the characters of the current match still to be dropped. *)
Fixpoint strip_all_aux (pat : string) (skip : nat) (s : string) : string :=
  match s with
  | EmptyString => EmptyString
  | String c s' =>
      match skip with
      | S k => strip_all_aux pat k s'
      | O => if is_prefix pat s
             then strip_all_aux pat (fence_match_len pat s - 1) s'
             else String c (strip_all_aux pat 0 s')
      end
  end.

Definition strip_all (pat s : string) : string := strip_all_aux pat 0 s.

Definition drop_suffix (s p : string) : string :=
  String.substring 0 (String.length s - String.length p) s.

(** [s.replace(/pat\n?$/g, '')]: without the [m] flag [$] matches only at
    the end of the input, so the only match is a suffix [pat\n] or [pat]. *)
Definition strip_end (pat s : string) : string :=
  if ends_with s (pat ++ String "010" "") then drop_suffix s (pat ++ String "010" "")
  else if ends_with s pat then drop_suffix s pat
  else s.

(** [xs.join(sep)] *)
(** [s.slice(n)] *)
Fixpoint sdrop (n : nat) (s : string) : string :=
  match n, s with
  | 0, _ => s
  | S n', String _ s' => sdrop n' s'
  | S _, EmptyString => EmptyString
  end.

Definition join (sep : string) (xs : list string) : string := String.concat sep xs.

(** A string given by its bytes, for the non-ASCII text of the markup. *)
Definition of_bytes (bs : list ascii) : string := fold_right String EmptyString bs.

(** [a || b] on strings: [b] when [a] is empty. *)
Definition str_or (a b : string) : string := if String.eqb a "" then b else a.

(** ** Lemmas *)

(** stdpp blocks [simpl] on [String.append]; these two equations are
    its defining clauses. *)
Lemma str_app_nil (t : string) : "" ++ t = t.
Proof. reflexivity. Qed.

Lemma str_app_cons (c : ascii) (s t : string) : String c s ++ t = String c (s ++ t).
Proof. reflexivity. Qed.

#[export] Hint Rewrite str_app_nil str_app_cons : vdp_rw.

Section TrimByLemmas.
Variable ws : ascii -> bool.

Lemma trim_start_app_ws (w s : string) :
  all_ws_by ws w = true -> trim_start_by ws (w ++ s) = trim_start_by ws s.
Proof.
  unfold all_ws_by. induction w as [|c w IH]; autorewrite with vdp_rw; simpl; [done|].
  destruct (ws c); [done|]. intros H. apply String.eqb_eq in H. discriminate.
Qed.

Lemma trim_end_all_ws (w : string) : all_ws_by ws w = true -> trim_end_by ws w = "".
Proof.
  unfold all_ws_by. induction w as [|d w IH]; simpl; [done|].
  destruct (ws d); [|intros H; apply String.eqb_eq in H; discriminate].
  intros H. by rewrite IH.
Qed.

Lemma trim_end_app_ws (s w : string) :
  all_ws_by ws w = true -> trim_end_by ws (s ++ w) = trim_end_by ws s.
Proof.
  intros Hw. induction s as [|c s IH]; autorewrite with vdp_rw; simpl;
    [by apply trim_end_all_ws|].
  by rewrite IH.
Qed.

(** Trimming both ends ignores whitespace added on either side. *)
Lemma trim_both_app_ws (w1 s w2 : string) :
  all_ws_by ws w1 = true -> all_ws_by ws w2 = true ->
  trim_end_by ws (trim_start_by ws (w1 ++ s ++ w2)) =
  trim_end_by ws (trim_start_by ws s).
Proof.
  intros H1 H2. rewrite trim_start_app_ws by done.
  induction s as [|c s IH]; autorewrite with vdp_rw; simpl.
  - unfold all_ws_by in H2. apply String.eqb_eq in H2. by rewrite H2.
  - destruct (ws c) eqn:E; [done|].
    pose proof (trim_end_app_ws (String c s) w2 H2) as Hc.
    autorewrite with vdp_rw in Hc. exact Hc.
Qed.
End TrimByLemmas.

Lemma prefix_app (p s t : string) :
  is_prefix p s = true -> is_prefix p (s ++ t) = true.
Proof.
  revert s. induction p as [|a p IH]; intros [|b s] H; simpl in *; try done.
  autorewrite with vdp_rw. simpl. apply andb_true_iff in H as [-> H]. by apply IH.
Qed.

Lemma includes_empty (t : string) : includes t "" = true.
Proof. by destruct t. Qed.

Lemma includes_app_l (s t p : string) : includes s p = true -> includes (s ++ t) p = true.
Proof.
  induction s as [|c s IH]; autorewrite with vdp_rw; simpl; intros H.
  - destruct p; [apply includes_empty|discriminate].
  - apply orb_true_iff in H as [H|H]; apply orb_true_iff.
    + left. by apply (prefix_app p (String c s)).
    + right. by apply IH.
Qed.

Lemma length_slice_le (s : string) (n : nat) : String.length (slice s n) <= n.
Proof.
  unfold slice. revert s. induction n as [|n IH]; intros [|c s]; simpl; try lia.
  specialize (IH s). lia.
Qed.

Lemma str_app_assoc (a b c : string) : a ++ (b ++ c) = (a ++ b) ++ c.
Proof. induction a as [|x a IH]; autorewrite with vdp_rw; [done|by rewrite IH]. Qed.

Lemma str_app_nil_r (a : string) : a ++ "" = a.
Proof. induction a as [|x a IH]; autorewrite with vdp_rw; [done|by rewrite IH]. Qed.

Lemma str_length_app (a b : string) :
  String.length (a ++ b) = String.length a + String.length b.
Proof. induction a as [|x a IH]; autorewrite with vdp_rw; simpl; lia. Qed.

Lemma prefix_length (p x : string) :
  is_prefix p x = true -> String.length p <= String.length x.
Proof.
  revert x. induction p as [|a p IH]; intros [|b x] H; simpl in *; try lia; try done.
  apply andb_true_iff in H as [_ H]. specialize (IH x H). lia.
Qed.

(** A match of [a ++ b] on a text whose first part is at least as long as
    [a] is a match of [a] on that part. *)
Lemma prefix_app_split (a b s w : string) :
  is_prefix (a ++ b) (s ++ w) = true -> String.length a <= String.length s ->
  is_prefix a s = true.
Proof.
  revert s. induction a as [|e a IH]; intros [|c s] H Hl;
    autorewrite with vdp_rw in *; simpl in *; try done; try lia.
  apply andb_true_iff in H as [-> H]. simpl. apply IH; [done|lia].
Qed.

Lemma includes_cons_false (c : ascii) (t p : string) :
  includes (String c t) p = false ->
  is_prefix p (String c t) = false /\ includes t p = false.
Proof. simpl. intros H. by apply orb_false_iff in H. Qed.

Lemma includes_false_prefix (t p : string) :
  includes t p = false -> is_prefix p t = false.
Proof. destruct t; simpl; intros H; by apply orb_false_iff in H as [H _]. Qed.

Lemma trim_end_app_nonempty (ws : ascii -> bool) (u v : string) :
  trim_end_by ws v <> "" -> trim_end_by ws (u ++ v) = u ++ trim_end_by ws v.
Proof.
  intros Hv. induction u as [|d u IH]; autorewrite with vdp_rw; simpl; [done|].
  rewrite IH. destruct (ws d); simpl; [|done].
  destruct (String.eqb (u ++ trim_end_by ws v) "") eqn:E; [|done].
  apply String.eqb_eq in E. destruct u; autorewrite with vdp_rw in E; [done|discriminate].
Qed.

Lemma substring_app_l (u v : string) : String.substring 0 (String.length u) (u ++ v) = u.
Proof. induction u as [|c u IH]; autorewrite with vdp_rw; simpl; [by destruct v|by rewrite IH]. Qed.

Lemma substring_all (v : string) : String.substring 0 (String.length v) v = v.
Proof. pose proof (substring_app_l v "") as H. by rewrite str_app_nil_r in H. Qed.

Lemma substring_app_r (u v : string) :
  String.substring (String.length u) (String.length v) (u ++ v) = v.
Proof.
  induction u as [|c u IH]; autorewrite with vdp_rw; simpl; [apply substring_all|done].
Qed.

Lemma drop_suffix_app (u v : string) : drop_suffix (u ++ v) v = u.
Proof.
  unfold drop_suffix. rewrite str_length_app, Nat.add_sub. apply substring_app_l.
Qed.

(** The last [length v] characters of [u ++ v] are [v]. *)
Lemma ends_with_app_iff (u v p : string) :
  String.length p = String.length v -> ends_with (u ++ v) p = String.eqb v p.
Proof.
  intros Hl. unfold ends_with. rewrite str_length_app, Hl.
  replace (String.length u + String.length v - String.length v) with (String.length u) by lia.
  rewrite substring_app_r. destruct (Nat.leb_spec (String.length v) (String.length u + String.length v));
    [done|lia].
Qed.

(** A scan that finds no match leaves the text unchanged. *)
Lemma strip_all_aux_no_match (pat s : string) :
  includes s pat = false -> strip_all_aux pat 0 s = s.
Proof.
  induction s as [|c s IH]; [done|]. intros [Hp Hs]%includes_cons_false.
  cbn [strip_all_aux]. rewrite Hp. by rewrite IH.
Qed.

(** The characters of a match being removed are dropped whatever they are. *)
Lemma strip_all_aux_skip (pat u x : string) :
  strip_all_aux pat (String.length u) (u ++ x) = strip_all_aux pat 0 x.
Proof. induction u as [|c u IH]; autorewrite with vdp_rw; simpl; done. Qed.

Lemma prefix_app_inv (a b x : string) :
  is_prefix (a ++ b) x = true -> is_prefix a x = true.
Proof.
  revert x. induction a as [|e a IH]; intros [|c x] H; autorewrite with vdp_rw in *;
    simpl in *; try done.
  apply andb_true_iff in H as [-> H]. simpl. by apply IH.
Qed.

Lemma includes_app_inv (a b x : string) :
  includes x a = false -> includes x (a ++ b) = false.
Proof.
  induction x as [|c x IH].
  - destruct a; autorewrite with vdp_rw; simpl; [discriminate|done].
  - intros [Hp Hx]%includes_cons_false. simpl. apply orb_false_iff. split; [|by apply IH].
    destruct (is_prefix (a ++ b) (String c x)) eqn:E; [|done].
    apply prefix_app_inv in E. congruence.
Qed.

(** A pattern without the character [d] cannot match across it: a match
    starting less than [length p] characters before [d] fails. *)
Lemma prefix_straddle (d : ascii) (p s w : string) :
  includes p (String d "") = false -> String.length s < String.length p ->
  is_prefix p (s ++ String d w) = false.
Proof.
  revert p. induction s as [|c s IH]; intros [|e p] Hp Hl; cbn [String.length] in Hl;
    try lia; autorewrite with vdp_rw.
  - apply includes_cons_false in Hp as [Hp _]. simpl in Hp |- *.
    rewrite andb_true_r in Hp. rewrite Ascii.eqb_sym, Hp. done.
  - simpl. destruct (Ascii.eqb e c); [|done].
    apply IH; [by apply includes_cons_false in Hp as [_ Hp]|lia].
Qed.

(** Scanning [t ++ d ++ w] with a pattern that occurs in [t] nowhere and
    contains no [d] keeps [t] and [d] and goes on with [w]. *)
Lemma strip_all_aux_app_sep (pat t w : string) (d : ascii) :
  pat <> "" -> includes pat (String d "") = false -> includes t pat = false ->
  strip_all_aux pat 0 (t ++ String d w) = t ++ String d (strip_all_aux pat 0 w).
Proof.
  intros Hne Hd. induction t as [|c t IH]; intros Ht; autorewrite with vdp_rw.
  - cbn [strip_all_aux]. pose proof (prefix_straddle d pat "" w Hd) as F.
    autorewrite with vdp_rw in F. rewrite F; [done|].
    destruct pat; [done|simpl; lia].
  - apply includes_cons_false in Ht as [Hp Ht]. cbn [strip_all_aux].
    destruct (is_prefix pat (String c (t ++ String d w))) eqn:E.
    + exfalso. destruct (Nat.le_gt_cases (String.length pat) (String.length (String c t))).
      * assert (is_prefix (pat ++ "") (String c t ++ String d w) = true) as E'
          by (rewrite str_app_nil_r; done).
        apply prefix_app_split in E'; [congruence|done].
      * pose proof (prefix_straddle d pat (String c t) w Hd H) as F.
        autorewrite with vdp_rw in F. congruence.
    + by rewrite IH.
Qed.

#[export] Hint Resolve trim_start_app_ws trim_end_all_ws trim_end_app_ws trim_both_app_ws
  prefix_app includes_app_l
  length_slice_le : vdp.

Lemma prefix_substring (n : nat) (s : string) : is_prefix (String.substring 0 n s) s = true.
Proof.
  revert n. induction s as [|c s IH]; intros [|n]; simpl; try done.
  by rewrite Ascii.eqb_refl, IH.
Qed.

Lemma includes_prefix (s p : string) : is_prefix p s = true -> includes s p = true.
Proof. intros H. destruct s; simpl; by rewrite H. Qed.

Lemma includes_substring (n : nat) (s : string) : includes s (String.substring 0 n s) = true.
Proof. apply includes_prefix, prefix_substring. Qed.

Lemma includes_cons (c : ascii) (s p : string) :
  includes s p = true -> includes (String c s) p = true.
Proof. intros H. simpl. by rewrite H, orb_true_r. Qed.

Lemma is_prefix_spec (p s : string) : is_prefix p s = true <-> exists v, s = p ++ v.
Proof.
  revert s. induction p as [|a p IH]; intros s; simpl.
  - split; [by exists s|done].
  - destruct s as [|b s]; split.
    + done.
    + by intros [v ?].
    + intros [Hab%Ascii.eqb_eq Hp]%andb_true_iff. apply IH in Hp as [v ->]. subst. by exists v.
    + intros [v Hv]. injection Hv as -> ->. rewrite Ascii.eqb_refl. apply IH. by exists v.
Qed.

Lemma includes_spec (s p : string) : includes s p = true <-> exists u v, s = u ++ p ++ v.
Proof.
  split.
  - induction s as [|c s IH]; simpl; intros H.
    + destruct p; [by exists "", ""|done].
    + apply orb_true_iff in H as [H|H].
      * apply is_prefix_spec in H as [v ->]. by exists "", v.
      * destruct (IH H) as (u & v & ->). by exists (String c u), v.
  - intros (u & v & ->). induction u as [|c u IH]; autorewrite with vdp_rw.
    + apply includes_prefix, is_prefix_spec. by exists v.
    + by apply includes_cons.
Qed.

Lemma includes_app_r (s t p : string) : includes t p = true -> includes (s ++ t) p = true.
Proof.
  intros (u & v & ->)%includes_spec. apply includes_spec. exists (s ++ u), v.
  by rewrite <- str_app_assoc.
Qed.

Lemma includes_trans (s t p : string) :
  includes s t = true -> includes t p = true -> includes s p = true.
Proof.
  rewrite !includes_spec. intros (u & v & ->) (u' & v' & ->).
  exists (u ++ u'), (v' ++ v). by rewrite <- !str_app_assoc.
Qed.

Lemma includes_join (sep x : string) (xs : list string) :
  x ∈ xs -> includes (join sep xs) x = true.
Proof.
  unfold join. induction xs as [|y [|z xs] IH]; intros Hx.
  - by apply elem_of_nil in Hx.
  - apply list_elem_of_singleton in Hx as ->. apply includes_spec. exists "", "".
    by rewrite str_app_nil_r.
  - apply elem_of_cons in Hx as [->|Hx]; apply includes_spec.
    + by exists "", (sep ++ String.concat sep (z :: xs)).
    + apply IH, includes_spec in Hx as (u & v & Hv). exists (y ++ sep ++ u), v.
      change (String.concat sep (y :: z :: xs)) with (y ++ sep ++ String.concat sep (z :: xs)).
      rewrite Hv. by rewrite <- !str_app_assoc.
Qed.

Lemma str_or_nonempty (a b : string) : b <> "" -> str_or a b <> "".
Proof. unfold str_or. destruct (String.eqb_spec a ""); congruence. Qed.

Lemma sdrop_app (p v : string) : sdrop (String.length p) (p ++ v) = v.
Proof. induction p as [|c p IH]; [done|]. simpl. exact IH. Qed.

Lemma length_sdrop_le (n : nat) (s : string) : String.length (sdrop n s) <= String.length s.
Proof. revert s. induction n as [|n IH]; intros [|c s]; simpl; try lia. specialize (IH s). lia. Qed.

Lemma length_sdrop (n : nat) (s : string) : String.length (sdrop n s) = String.length s - n.
Proof. revert s. induction n as [|n IH]; intros [|c s]; simpl; try lia. apply IH. Qed.

Lemma sdrop_sdrop (n m : nat) (s : string) : sdrop m (sdrop n s) = sdrop (n + m) s.
Proof. revert s. induction n as [|n IH]; intros [|c s]; simpl; try done. by destruct m. Qed.

(** The text before the suffix [sdrop n s] is [slice(0, n)]. *)
Lemma substring_before_sdrop (n : nat) (s : string) :
  String.substring 0 (String.length s - String.length (sdrop n s)) s = String.substring 0 n s.
Proof.
  revert n. induction s as [|c s IH]; intros [|n]; simpl; try done.
  - by rewrite Nat.sub_diag.
  - pose proof (length_sdrop_le n s). replace (S (String.length s) - String.length (sdrop n s))
      with (S (String.length s - String.length (sdrop n s))) by lia. simpl. by rewrite IH.
Qed.

(** [is_prefix p] reads the first [length p] characters. *)
Lemma is_prefix_app_r (p q s : string) :
  is_prefix p s = true -> is_prefix (p ++ q) s = is_prefix q (sdrop (String.length p) s).
Proof.
  revert s. induction p as [|a p IH]; intros [|b s] H; simpl in *; try done.
  apply andb_true_iff in H as [-> H]. by apply IH.
Qed.

Lemma ends_with_length (s q : string) : ends_with s q = true -> String.length q <= String.length s.
Proof. unfold ends_with. intros [H _]%andb_true_iff. by apply Nat.leb_le. Qed.

Lemma ends_with_self (q : string) : ends_with q q = true.
Proof. rewrite <- (str_app_nil q) at 1. rewrite ends_with_app_iff by done. apply String.eqb_refl. Qed.

(** Before the last character, [endsWith] looks at the tail. *)
Lemma ends_with_cons (c : ascii) (s q : string) :
  String c s <> q -> ends_with (String c s) q = ends_with s q.
Proof.
  intros Hne. unfold ends_with. cbn [String.length].
  destruct (Nat.leb_spec (String.length q) (String.length s)) as [Hl|Hl].
  - rewrite (proj2 (Nat.leb_le _ _)) by lia.
    replace (S (String.length s) - String.length q) with (S (String.length s - String.length q)) by lia.
    done.
  - destruct (Nat.leb_spec (String.length q) (S (String.length s))) as [Hl'|]; [|done].
    replace (String.length q) with (String.length (String c s)) by (simpl; lia).
    rewrite Nat.sub_diag, substring_all, andb_true_l. by apply String.eqb_neq.
Qed.

Lemma drop_suffix_cons (c : ascii) (s q : string) :
  String.length q <= String.length s -> drop_suffix (String c s) q = String c (drop_suffix s q).
Proof.
  intros Hl. unfold drop_suffix. cbn [String.length].
  by replace (S (String.length s) - String.length q) with (S (String.length s - String.length q)) by lia.
Qed.

Lemma str_eqb_app_l (p u v : string) : String.eqb (p ++ u) (p ++ v) = String.eqb u v.
Proof.
  induction p as [|a p IH]; [done|]. autorewrite with vdp_rw. simpl. by rewrite Ascii.eqb_refl.
Qed.

Lemma str_eqb_app_nil (p v : string) : String.eqb (p ++ v) p = String.eqb v "".
Proof. rewrite <- (str_app_nil_r p) at 2. apply str_eqb_app_l. Qed.

Lemma drop_suffix_self (q : string) : drop_suffix q q = "".
Proof. rewrite <- (str_app_nil q) at 1. apply drop_suffix_app. Qed.
