(* ===== verification/Json.v ===== *)
(** * JSON values as JavaScript sees them

    [JSON.parse] is the boundary between the LLM's text and the code of
    [gemini.ts]: this file holds the values it produces ([json]), the
    JavaScript operations the code applies to them (property access
    [v.f], truthiness and the default operator [v.f || d]) and an
    executable [JSON.parse] ([json_parse]) over ASCII text.

    Numbers are the rationals their decimal literal denotes ([Q]); the
    rounding to binary64 is not modelled (it only matters for literals
    beyond 1e308 or below 1e-323).  A [\uXXXX] escape denoting a code
    point outside 7-bit ASCII is rejected, as the strings of the model
    are ASCII.  Object members keep their order and duplicates; a
    property read returns the last one, as [JSON.parse] does. *)

From S2P Require Import Prelude JsString.
From Stdlib Require Import QArith ZArith.

Close Scope Q_scope.
Open Scope nat_scope.
Open Scope string_scope.
#[local] Set Warnings "-register-all".

Inductive json : Type :=
| JNull
| JBool (b : bool)
| JNum (q : Q)
| JStr (s : string)
| JArr (xs : list json)
| JObj (kvs : list (string * json)).

(** ** Truthiness and [||] *)

(** JavaScript's [ToBoolean] on the values [JSON.parse] builds:
    [null], [false], [0], [-0] and [""] are falsy; arrays and objects,
    empty or not, are truthy. *)
Definition truthy (v : json) : bool :=
  match v with
  | JNull => false
  | JBool b => b
  | JNum q => negb (Z.eqb (Qnum q) 0)
  | JStr s => negb (String.eqb s "")
  | JArr _ | JObj _ => true
  end.

(** A property read [o.f]: [None] is [undefined]. *)
Inductive prop_read :=
| PropValue (v : json)
| PropUndefined
| PropTypeError.

Fixpoint assoc_last (k : string) (kvs : list (string * json)) : option json :=
  match kvs with
  | [] => None
  | (k', v) :: kvs' =>
      match assoc_last k kvs' with
      | Some w => Some w
      | None => if String.eqb k k' then Some v else None
      end
  end.

(** [o.f] for a value [o] produced by [JSON.parse]: reading a property of
    [null] throws a [TypeError]; booleans, numbers, strings and arrays
    have none of the own or inherited properties the code reads. *)
Definition get_prop (o : json) (f : string) : prop_read :=
  match o with
  | JNull => PropTypeError
  | JObj kvs => match assoc_last f kvs with
                | Some v => PropValue v
                | None => PropUndefined
                end
  | _ => PropUndefined
  end.

(** [x?.f], [x] being [undefined] ([None]) or a value: [undefined] on
    [null] and [undefined]. *)
Definition opt_get (x : option json) (f : string) : option json :=
  match x with
  | Some v => match get_prop v f with
              | PropValue w => Some w
              | _ => None
              end
  | None => None
  end.

(** [x || d] where [x] is the value read (or [undefined]). *)
Definition or_default (x : option json) (d : json) : json :=
  match x with
  | Some v => if truthy v then v else d
  | None => d
  end.

(** [o.f || d] evaluated for its value: [None] when the read throws a
    [TypeError] ([o] is [null]). *)
Definition prop_or (o : json) (f : string) (d : json) : option json :=
  match get_prop o f with
  | PropTypeError => None
  | PropValue v => Some (or_default (Some v) d)
  | PropUndefined => Some d
  end.

(** ** [JSON.parse] *)

Definition json_ws (c : ascii) : bool :=
  let n := nat_of_ascii c in
  Nat.eqb n 32 || Nat.eqb n 9 || Nat.eqb n 10 || Nat.eqb n 13.

Definition skip_ws : string -> string := trim_start_by json_ws.

Definition digit_val (c : ascii) : option nat :=
  let n := nat_of_ascii c in
  if Nat.leb 48 n && Nat.leb n 57 then Some (n - 48) else None.

Definition hex_val (c : ascii) : option nat :=
  let n := nat_of_ascii c in
  if Nat.leb 48 n && Nat.leb n 57 then Some (n - 48)
  else if Nat.leb 97 n && Nat.leb n 102 then Some (n - 87)
  else if Nat.leb 65 n && Nat.leb n 70 then Some (n - 55)
  else None.

(** [[0-9]*]: the value of the digits read (on top of [acc]), their
    number, and the rest. *)
Fixpoint read_digits (acc : Z) (k : nat) (s : string) : Z * nat * string :=
  match s with
  | String c s' =>
      match digit_val c with
      | Some d => read_digits (acc * 10 + Z.of_nat d) (S k) s'
      | None => (acc, k, s)
      end
  | EmptyString => (acc, k, s)
  end.

(** [m * 10^e] as a rational. *)
Definition q_of_dec (m : Z) (e : Z) : Q :=
  if Z.leb 0 e then inject_Z (m * 10 ^ e)
  else Qmake m (Z.to_pos (10 ^ (- e))).

Definition is_exp_mark (c : ascii) : bool :=
  match c with "e" | "E" => true | _ => false end%char.

(** The integer part: [0] or a non-zero digit and more digits. *)
Definition parse_int (s1 : string) : option (Z * string) :=
  match s1 with
  | String "0" r => Some (0%Z, r)
  | String c r =>
      match digit_val c with
      | Some d => let '(m, _, r') := read_digits (Z.of_nat d) 0 r in Some (m, r')
      | None => None
      end
  | EmptyString => None
  end.

(** The fraction: [.] and at least one digit, or nothing. *)
Definition parse_frac (m0 : Z) (s2 : string) : option (Z * nat * string) :=
  match s2 with
  | String "." r =>
      let '(m, k, r') := read_digits m0 0 r in
      if Nat.eqb k 0 then None else Some (m, k, r')
  | _ => Some (m0, 0, s2)
  end.

(** The exponent: [e] or [E], an optional sign and at least one digit,
    or nothing. *)
Definition parse_exp (s3 : string) : option (Z * string) :=
  match s3 with
  | String c r =>
      if is_exp_mark c then
        let '(eneg, r1) := match r with
                           | String "-" r' => (true, r')
                           | String "+" r' => (false, r')
                           | _ => (false, r)
                           end in
        let '(e, k', r2) := read_digits 0 0 r1 in
        if Nat.eqb k' 0 then None
        else Some ((if eneg then - e else e)%Z, r2)
      else Some (0%Z, s3)
  | EmptyString => Some (0%Z, s3)
  end.

(** [-? (0 | [1-9][0-9]* ) (. [0-9]+)? ([eE] [+-]? [0-9]+)?] *)
Definition parse_number (s : string) : option (Q * string) :=
  let '(neg, s1) := match s with
                    | String "-" r => (true, r)
                    | _ => (false, s)
                    end in
  match parse_int s1 with
  | None => None
  | Some (m0, s2) =>
      match parse_frac m0 s2 with
      | None => None
      | Some (m, k, s3) =>
          match parse_exp s3 with
          | None => None
          | Some (e, s4) =>
              let m' := if neg then (- m)%Z else m in
              Some (q_of_dec m' (e - Z.of_nat k)%Z, s4)
          end
      end
  end.

Definition escape_char (e : ascii) : option ascii :=
  match e with
  | "034" => Some "034"%char
  | "\" => Some "\"%char
  | "/" => Some "/"%char
  | "b" => Some (ascii_of_nat 8)
  | "f" => Some (ascii_of_nat 12)
  | "n" => Some (ascii_of_nat 10)
  | "r" => Some (ascii_of_nat 13)
  | "t" => Some (ascii_of_nat 9)
  | _ => None
  end%char.

(** The body of a string literal after its opening quote. *)
Fixpoint parse_string_body (s : string) : option (string * string) :=
  match s with
  | EmptyString => None
  | String c r =>
      if ascii_dec c "034" then Some ("", r)
      else if ascii_dec c "\" then
        match r with
        | String "u" (String h1 (String h2 (String h3 (String h4 r')))) =>
            match hex_val h1, hex_val h2, hex_val h3, hex_val h4 with
            | Some a, Some b, Some d, Some e =>
                let n := ((a * 16 + b) * 16 + d) * 16 + e in
                if Nat.ltb n 128 then
                  match parse_string_body r' with
                  | Some (t, rest) => Some (String (ascii_of_nat n) t, rest)
                  | None => None
                  end
                else None
            | _, _, _, _ => None
            end
        | String e r' =>
            match escape_char e with
            | Some ch =>
                match parse_string_body r' with
                | Some (t, rest) => Some (String ch t, rest)
                | None => None
                end
            | None => None
            end
        | EmptyString => None
        end
      else if Nat.ltb (nat_of_ascii c) 32 then None
      else match parse_string_body r with
           | Some (t, rest) => Some (String c t, rest)
           | None => None
           end
  end.

(** The elements of an array after its [[], each parsed by [pv]; [g]
    bounds the number of elements. *)
Fixpoint parse_elems (pv : string -> option (json * string)) (g : nat) (t : string)
    (acc : list json) : option (json * string) :=
  match g with
  | O => None
  | S g' =>
      match pv t with
      | None => None
      | Some (v, t1) =>
          match skip_ws t1 with
          | String "," t2 => parse_elems pv g' t2 (v :: acc)
          | String "]" t2 => Some (JArr (rev (v :: acc)), t2)
          | _ => None
          end
      end
  end.

(** The members of an object after its [{], each value parsed by [pv]. *)
Fixpoint parse_members (pv : string -> option (json * string)) (g : nat) (t : string)
    (acc : list (string * json)) : option (json * string) :=
  match g with
  | O => None
  | S g' =>
      match skip_ws t with
      | String "034" t0 =>
          match parse_string_body t0 with
          | None => None
          | Some (k, t1) =>
              match skip_ws t1 with
              | String ":" t2 =>
                  match pv t2 with
                  | None => None
                  | Some (v, t3) =>
                      match skip_ws t3 with
                      | String "," t4 => parse_members pv g' t4 ((k, v) :: acc)
                      | String "}" t4 => Some (JObj (rev ((k, v) :: acc)), t4)
                      | _ => None
                      end
                  end
              | _ => None
              end
          end
      | _ => None
      end
  end.

(** [null], [true], [false] or a number at the head of [s]. *)
Definition parse_atom (s : string) : option (json * string) :=
  if is_prefix "null" s then Some (JNull, sdrop 4 s)
  else if is_prefix "true" s then Some (JBool true, sdrop 4 s)
  else if is_prefix "false" s then Some (JBool false, sdrop 5 s)
  else match parse_number s with
       | Some (q, rest) => Some (JNum q, rest)
       | None => None
       end.

(** A value after optional whitespace; [fuel] bounds the nesting depth
    and the number of elements of each array and object. *)
Fixpoint parse_value (fuel : nat) (s : string) : option (json * string) :=
  match fuel with
  | O => None
  | S f =>
      match skip_ws s with
      | EmptyString => None
      | String c r =>
          if Ascii.eqb c "034" then
            match parse_string_body r with
            | Some (t, rest) => Some (JStr t, rest)
            | None => None
            end
          else if Ascii.eqb c "[" then
            match skip_ws r with
            | String "]" r' => Some (JArr [], r')
            | _ => parse_elems (parse_value f) f r []
            end
          else if Ascii.eqb c "{" then
            match skip_ws r with
            | String "}" r' => Some (JObj [], r')
            | _ => parse_members (parse_value f) f r []
            end
          else parse_atom (String c r)
      end
  end.

(** [JSON.parse(s)]: [None] is the [SyntaxError] it throws.  Surrounding
    JSON whitespace is dropped first; what is left must be one value.
    The fuel [length s + 1] covers the nesting depth and the element
    count, each at most the length of the text. *)
Definition json_parse (s : string) : option json :=
  let t := trim_end_by json_ws (skip_ws s) in
  match parse_value (S (String.length t)) t with
  | Some (v, EmptyString) => Some v
  | _ => None
  end.

(** ** [JSON.stringify] on strings *)

Definition hex_digit (n : nat) : ascii :=
  if Nat.ltb n 10 then ascii_of_nat (48 + n) else ascii_of_nat (87 + n).

(** The escape [QuoteJSONString] writes for one character: the short
    escapes, [\u00xx] (lowercase hex) for the other control characters. *)
Definition escape_out (c : ascii) : string :=
  let n := nat_of_ascii c in
  if Nat.eqb n 34 then String "\" (String c "")
  else if Nat.eqb n 92 then String "\" (String c "")
  else if Nat.eqb n 8 then "\b"
  else if Nat.eqb n 12 then "\f"
  else if Nat.eqb n 10 then "\n"
  else if Nat.eqb n 13 then "\r"
  else if Nat.eqb n 9 then "\t"
  else if Nat.ltb n 32 then
    String "\" (String "u" (String "0" (String "0"
      (String (hex_digit (n / 16)) (String (hex_digit (n mod 16)) "")))))
  else String c "".

Fixpoint escape_json_string (s : string) : string :=
  match s with
  | EmptyString => EmptyString
  | String c r => escape_out c ++ escape_json_string r
  end.

(** [JSON.stringify(s)] for a string [s]. *)
Definition json_quote (s : string) : string :=
  String "034" (escape_json_string s ++ String "034" "").

(** ** Lemmas *)

(** [JSON.parse] ignores JSON whitespace around the text. *)
Lemma json_parse_ws (w1 s w2 : string) :
  all_ws_by json_ws w1 = true -> all_ws_by json_ws w2 = true ->
  json_parse (w1 ++ s ++ w2) = json_parse s.
Proof.
  intros H1 H2. unfold json_parse, skip_ws.
  by rewrite trim_both_app_ws.
Qed.

Lemma truthy_or_default (v d : json) :
  truthy v = true -> or_default (Some v) d = v.
Proof. unfold or_default. by intros ->. Qed.

Lemma falsy_or_default (v d : json) :
  truthy v = false -> or_default (Some v) d = d.
Proof. unfold or_default. by intros ->. Qed.

(** Only [null] makes a property read throw. *)
Lemma get_prop_type_error (o : json) (f : string) :
  get_prop o f = PropTypeError <-> o = JNull.
Proof.
  split; [|by intros ->]. destruct o; simpl; try done.
  by destruct (assoc_last f kvs).
Qed.

#[export] Hint Resolve json_parse_ws : vdp.
#[export] Hint Rewrite truthy_or_default falsy_or_default using done : vdp_rw.

Lemma prop_or_obj (kvs : list (string * json)) (f : string) (d : json) :
  prop_or (JObj kvs) f d = Some (or_default (assoc_last f kvs) d).
Proof. unfold prop_or. simpl. by destruct (assoc_last f kvs). Qed.

(** [o.f || d] is truthy or is [d]. *)
Lemma prop_or_truthy (o : json) (f : string) (d v : json) :
  prop_or o f d = Some v -> truthy v = true \/ v = d.
Proof.
  unfold prop_or, or_default. destruct (get_prop o f); intros; simplify_eq; [|by right].
  destruct (truthy v0) eqn:?; [left|right]; congruence.
Qed.

(** ** Every step of the parser consumes text *)

Section Consumption.
Local Open Scope nat_scope.

Lemma skip_ws_length (s : string) : String.length (skip_ws s) <= String.length s.
Proof.
  unfold skip_ws. induction s as [|c s IH]; simpl; [lia|]. case_match; simpl; lia.
Qed.

Lemma read_digits_length (acc : Z) (k : nat) (s : string) (m : Z) (k' : nat) (r : string) :
  read_digits acc k s = (m, k', r) -> String.length r <= String.length s.
Proof.
  revert acc k. induction s as [|c s IH]; intros acc k; simpl; [intros [= _ _ <-]; simpl; lia|].
  destruct (digit_val c); [intros H%IH; lia|intros [= _ _ <-]; simpl; lia].
Qed.

Lemma parse_string_body_length (s t r : string) :
  parse_string_body s = Some (t, r) -> String.length r < String.length s.
Proof.
  revert t. induction s as [s IH] using (induction_ltof1 _ String.length); intros t.
  destruct s as [|c s]; [discriminate|]. simpl. unfold ltof in IH.
  repeat case_match; intros; simplify_eq/=; try lia;
    match goal with
    | H : parse_string_body ?x = Some _ |- _ => apply IH in H; simpl in *; lia
    end.
Qed.

Ltac read_digits_len :=
  repeat match goal with
  | H : read_digits _ _ _ = (_, _, _) |- _ => apply read_digits_length in H
  end.

Lemma parse_int_length (s r : string) (m : Z) :
  parse_int s = Some (m, r) -> String.length r < String.length s.
Proof. unfold parse_int. intros H. repeat (case_match; simplify_eq/=); read_digits_len; simpl in *; lia. Qed.

Lemma parse_frac_length (m0 : Z) (s r : string) (m : Z) (k : nat) :
  parse_frac m0 s = Some (m, k, r) -> String.length r <= String.length s.
Proof. unfold parse_frac. intros H. repeat (case_match; simplify_eq/=); read_digits_len; simpl in *; lia. Qed.

Lemma parse_exp_length (s r : string) (e : Z) :
  parse_exp s = Some (e, r) -> String.length r <= String.length s.
Proof.
  destruct s as [|c t]; simpl; [intros ?; simplify_eq/=; lia|].
  destruct (is_exp_mark c); [|intros ?; simplify_eq/=; lia].
  destruct (match t with String "-" r' => (true, r') | String "+" r' => (false, r')
            | _ => (false, t) end) as [b t'] eqn:Hb.
  assert (String.length t' <= String.length t) by (revert Hb; repeat case_match; intros ?; simplify_eq/=; lia).
  destruct (read_digits 0 0 t') as [[x k'] r2] eqn:Hr. apply read_digits_length in Hr.
  destruct (k' =? 0); intros ?; simplify_eq/=; lia.
Qed.

Lemma parse_number_length (s r : string) (q : Q) :
  parse_number s = Some (q, r) -> String.length r < String.length s.
Proof.
  unfold parse_number.
  destruct (match s with String "-" r => (true, r) | _ => (false, s) end) as [b s1] eqn:Hb.
  assert (String.length s1 <= String.length s) by (revert Hb; repeat case_match; intros ?; simplify_eq/=; lia).
  destruct (parse_int s1) as [[m0 s2]|] eqn:Hi; [|intros ?; simplify_eq].
  destruct (parse_frac m0 s2) as [[[m k] s3]|] eqn:Hf; [|intros ?; simplify_eq].
  destruct (parse_exp s3) as [[e s4]|] eqn:He; intros ?; simplify_eq.
  apply parse_int_length in Hi. apply parse_frac_length in Hf. apply parse_exp_length in He.
  lia.
Qed.

Section Loops.
Context (pv : string -> option (json * string)).
Hypothesis Hpv : forall t v t1, pv t = Some (v, t1) -> String.length t1 < String.length t.

Lemma parse_elems_length (g : nat) (t r : string) (acc : list json) (v : json) :
  parse_elems pv g t acc = Some (v, r) -> String.length r < String.length t.
Proof.
  revert t acc. induction g as [|g IH]; intros t acc; simpl; [discriminate|].
  destruct (pv t) as [[w t1]|] eqn:Ht; [|discriminate]. apply Hpv in Ht.
  pose proof (skip_ws_length t1).
  destruct (skip_ws t1) as [|c t2]; [discriminate|]. simpl in *.
  repeat case_match; intros; simplify_eq;
    try match goal with Hx : parse_elems _ _ _ _ = _ |- _ => apply IH in Hx end; lia.
Qed.
Lemma parse_members_length (g : nat) (t r : string) (acc : list (string * json)) (v : json) :
  parse_members pv g t acc = Some (v, r) -> String.length r < String.length t.
Proof.
  revert t acc. induction g as [|g IH]; intros t acc; simpl; [discriminate|].
  pose proof (skip_ws_length t).
  destruct (skip_ws t) as [|c t0]; [discriminate|]. simpl in *.
  repeat case_match; intros; simplify_eq; try discriminate;
    repeat match goal with
    | Hx : parse_string_body _ = Some _ |- _ => apply parse_string_body_length in Hx
    | Hx : pv _ = Some _ |- _ => apply Hpv in Hx
    | Hx : parse_members _ _ _ _ = _ |- _ => apply IH in Hx
    | Hx : skip_ws ?x = String _ _ |- _ =>
        let Hl := fresh in pose proof (skip_ws_length x) as Hl; rewrite Hx in Hl; clear Hx
    end; simpl in *; lia.
Qed.
End Loops.
Lemma parse_atom_length (s r : string) (v : json) :
  parse_atom s = Some (v, r) -> String.length r < String.length s.
Proof.
  unfold parse_atom.
  repeat match goal with
  | |- context [is_prefix ?p s] =>
      let Hp := fresh in
      destruct (is_prefix p s) eqn:Hp;
        [apply is_prefix_spec in Hp as [w ->]; intros ?; simplify_eq;
         rewrite (sdrop_app p), str_length_app; simpl; lia|]
  end.
  destruct (parse_number s) as [[q rest]|] eqn:Hn; intros ?; simplify_eq.
  by apply parse_number_length in Hn.
Qed.

Lemma parse_value_length (f : nat) (s r : string) (v : json) :
  parse_value f s = Some (v, r) -> String.length r < String.length s.
Proof.
  revert s v r. induction f as [|f IH]; intros s v r; [discriminate|].
  cbn [parse_value]. pose proof (skip_ws_length s) as Hl.
  destruct (skip_ws s) as [|c w]; [discriminate|]. simpl in Hl.
  pose proof (skip_ws_length w) as Hw.
  destruct (Ascii.eqb c "034"); [|destruct (Ascii.eqb c "[")]; [| |destruct (Ascii.eqb c "{")].
  - destruct (parse_string_body w) as [[t rest]|] eqn:Hb; [|discriminate].
    intros ?; simplify_eq. apply parse_string_body_length in Hb. lia.
  - destruct (skip_ws w) as [|d w'] eqn:Hs; [intros Hx%parse_elems_length; [lia|exact IH]|].
    destruct (Ascii.eqb d "]") eqn:Hd.
    + apply Ascii.eqb_eq in Hd as ->. intros ?; simplify_eq. simpl in Hw. lia.
    + intros Hx. assert (parse_elems (parse_value f) f w [] = Some (v, r)) as He
        by (destruct d as [[][][][][][][][]]; done).
      apply parse_elems_length in He; [lia|exact IH].
  - destruct (skip_ws w) as [|d w'] eqn:Hs; [intros Hx%parse_members_length; [lia|exact IH]|].
    destruct (Ascii.eqb d "}") eqn:Hd.
    + apply Ascii.eqb_eq in Hd as ->. intros ?; simplify_eq. simpl in Hw. lia.
    + intros Hx. assert (parse_members (parse_value f) f w [] = Some (v, r)) as He
        by (destruct d as [[][][][][][][][]]; done).
      apply parse_members_length in He; [lia|exact IH].
  - intros Ha%parse_atom_length. simpl in *. lia.
Qed.
End Consumption.

(** ** Adequacy of the fuel

    Once the fuel exceeds the length of the text, more fuel changes
    nothing: every nested call and every further element consumes a
    character, so the fuel of [json_parse] never runs out before the
    text does. *)

Section Fuel.
Context (pv pv' : string -> option (json * string)) (n : nat).
Hypothesis Hext : forall t, String.length t <= n -> pv t = pv' t.
Hypothesis Hpv : forall t v t1, pv t = Some (v, t1) -> String.length t1 < String.length t.

Lemma parse_elems_ext (g g' : nat) (t : string) (acc : list json) :
  String.length t <= n -> String.length t < g -> String.length t < g' ->
  parse_elems pv g t acc = parse_elems pv' g' t acc.
Proof.
  revert g' t acc. induction g as [|g IH]; intros [|g'] t acc Hn Hg Hg'; try lia. simpl.
  rewrite <- (Hext t) by done.
  destruct (pv t) as [[v t1]|] eqn:Ht; [apply Hpv in Ht|done].
  pose proof (skip_ws_length t1) as Hw.
  destruct (skip_ws t1) as [|c t2]; [done|]. simpl in Hw.
  repeat case_match; try done; apply IH; lia.
Qed.

Lemma parse_members_ext (g g' : nat) (t : string) (acc : list (string * json)) :
  String.length t <= n -> String.length t < g -> String.length t < g' ->
  parse_members pv g t acc = parse_members pv' g' t acc.
Proof.
  revert g' t acc. induction g as [|g IH]; intros [|g'] t acc Hn Hg Hg'; try lia. simpl.
  pose proof (skip_ws_length t) as Hw0.
  destruct (skip_ws t) as [|c t0]; [done|]. simpl in Hw0.
  destruct (parse_string_body t0) as [[k t1]|] eqn:Hb; [apply parse_string_body_length in Hb|
    by repeat case_match].
  pose proof (skip_ws_length t1) as Hw1.
  destruct (skip_ws t1) as [|c1 t2]; [by repeat case_match|]. simpl in Hw1.
  rewrite <- (Hext t2) by lia.
  destruct (pv t2) as [[v t3]|] eqn:Ht; [apply Hpv in Ht|by repeat case_match].
  pose proof (skip_ws_length t3) as Hw3.
  destruct (skip_ws t3) as [|c3 t4]; [by repeat case_match|]. simpl in Hw3.
  repeat case_match; try done; apply IH; lia.
Qed.
End Fuel.

Lemma parse_value_fuel (f f' : nat) (s : string) :
  String.length s < f -> String.length s < f' -> parse_value f s = parse_value f' s.
Proof.
  revert f' s. induction f as [|f IH]; intros [|f'] s Hf Hf'; try lia. cbn [parse_value].
  pose proof (skip_ws_length s) as Hl.
  destruct (skip_ws s) as [|c r]; [done|]. simpl in Hl.
  assert (forall t, String.length t <= String.length r -> parse_value f t = parse_value f' t)
    as Hext by (intros t Ht; apply IH; lia).
  rewrite (parse_elems_ext _ _ _ Hext (fun t v t1 => parse_value_length f t t1 v) f f' r []) by lia.
  rewrite (parse_members_ext _ _ _ Hext (fun t v t1 => parse_value_length f t t1 v) f f' r []) by lia.
  reflexivity.
Qed.


(** The fuel [json_parse] gives the parser is enough: with any fuel
    larger than the length of the trimmed text the parser returns the
    same result, so [json_parse] is [JSON.parse] with unbounded
    recursion, not an approximation that gives up on deep or long
    values. *)
Theorem json_parse_fuel (s : string) (f : nat) :
  String.length (trim_end_by json_ws (skip_ws s)) < f ->
  json_parse s =
    match parse_value f (trim_end_by json_ws (skip_ws s)) with
    | Some (v, EmptyString) => Some v
    | _ => None
    end.
Proof. intros Hf. unfold json_parse. by rewrite (parse_value_fuel (S _) f) by lia. Qed.

Lemma json_parse_fuel_witness :
  json_parse " [1, [true, {}], -2.5e1] " =
    match parse_value 1000 (trim_end_by json_ws (skip_ws " [1, [true, {}], -2.5e1] ")) with
    | Some (v, EmptyString) => Some v
    | _ => None
    end.
Proof. apply json_parse_fuel. apply Nat.ltb_lt. vm_compute. reflexivity. Defined.
