(* ===== verification/Http.v ===== *)
(** * The HTTP client as the code calls it ([axios])

    [axios.get] and [axios.post] are the only effects of the search
    providers, the scraper and the health route besides the database.
    A call is modelled by the request the code builds ([http_request]:
    URL, headers, query parameters, timeout, redirect bound) and an
    environment function from requests to outcomes ([http_outcome]): a
    2xx response's [data], or a rejection carrying [error.message] and,
    when the server answered, [error.response] ([status] and [data]).
    The transport itself (DNS, TLS, timers, redirects) is the
    environment's. *)

From S2P Require Import Prelude JsString Json.
From Stdlib Require Import ZArith.

Open Scope string_scope.

Record http_request : Type := mk_request {
  rq_url : string;
  rq_headers : list (string * string);
  rq_params : list (string * json);
  rq_timeout : Z;
  rq_max_redirects : option nat
}.

Inductive http_outcome : Type :=
| HttpOk (data : json)
| HttpFail (message : string) (response : option (Z * json)).

(** [error.response?.status] *)
Definition response_status (r : option (Z * json)) : option Z := option_map fst r.

(** [error.response?.data] *)
Definition response_data (r : option (Z * json)) : option json := option_map snd r.

(** [!x] for a configuration value read from [process.env]: [undefined]
    and the empty string are both falsy. *)
Definition env_set (x : option string) : option string :=
  match x with
  | None | Some EmptyString => None
  | Some k => Some k
  end.
