(* ===== verification/Types.v ===== *)
(** * The data model of [src/src/types/index.ts]

    The interfaces every component exchanges.  [Requirement],
    [ScrapedData] and [SearchResult] are built by the code itself and keep
    their TypeScript field types.  [VendorComparison] is what
    [parseVendorAnalysis] builds from the LLM's JSON with [v.f || d]: at
    run time each field holds whatever JSON value the model produced, so
    its fields are [json] values, not the declared [string] and [number]
    types.  The declared types themselves are the [ts_type]s at the end
    of the file, read as predicates on JSON values ([has_type]). *)

From S2P Require Import Prelude JsString Json.
From Stdlib Require Import ZArith.

Open Scope string_scope.

Inductive priority : Type :=
| MustHave
| NiceToHave
| Optional.

(** The string literal of each member of the union type. *)
Definition priority_str (p : priority) : string :=
  match p with
  | MustHave => "must-have"
  | NiceToHave => "nice-to-have"
  | Optional => "optional"
  end.

(** [Requirement]; an absent [weight] is [None]. *)
Record requirement : Type := mk_requirement {
  req_id : string;
  req_description : string;
  req_priority : priority;
  req_weight : option Z
}.

Record pricing : Type := mk_pricing {
  pricing_model : string;
  pricing_range : string;
  pricing_currency : string
}.

(** [ScrapedData]; [metadata] ([scrapedAt], [contentLength]) is written
    by the scraper and read by nobody, so it is left out. *)
Record scraped_data : Type := mk_scraped {
  sd_url : string;
  sd_title : string;
  sd_content : string;
  sd_pricing : option pricing;
  sd_features : option (list string)
}.

(** [SearchResult] as the providers build it: each field is [r.f || d]
    of a JSON value of the provider's response, so it holds that value
    whatever its type. *)
Record search_result : Type := mk_search_result {
  sr_title : json;
  sr_url : json;
  sr_snippet : json;
  sr_relevance : json
}.

(** [VendorComparison] as [parseVendorAnalysis] returns it. *)
Record vendor_comparison : Type := mk_vendor {
  vc_name : json;
  vc_website : json;
  vc_description : json;
  vc_priceRange : json;
  vc_pricingModel : json;
  vc_currency : json;
  vc_keyFeatures : json;
  vc_matchedRequirements : json;
  vc_risks : json;
  vc_evidenceLinks : json;
  vc_overallScore : json;
  vc_requirementMatch : json
}.

(** [ShortlistResult['status']] *)
Inductive status : Type :=
| Pending
| Processing
| Completed
| Failed.

#[export] Instance priority_eq_dec : EqDecision priority.
Proof. solve_decision. Defined.

#[export] Instance status_eq_dec : EqDecision status.
Proof. solve_decision. Defined.

(** [HealthStatus['status']] *)
Inductive service_status : Type :=
| Healthy
| Degraded
| Down.

#[export] Instance service_status_eq_dec : EqDecision service_status.
Proof. solve_decision. Defined.

(** ** The declared types, as predicates on JSON values

    The interfaces describe the JSON the parts exchange (the routes'
    bodies, the columns the analyzer fills).  A JSON value has a type
    when it has the declared shape; [?] marks a member that may be
    absent. *)
Inductive ts_type : Type :=
| TString
| TNumber
| TBoolean
| TLiteral (alts : list string)                       (** a union of string literals *)
| TArray (t : ts_type)
| TObject (fields : list (string * bool * ts_type)).  (** name, optional, type *)

Fixpoint has_type (t : ts_type) (v : json) : bool :=
  match t, v with
  | TString, JStr _ => true
  | TNumber, JNum _ => true
  | TBoolean, JBool _ => true
  | TLiteral alts, JStr s => existsb (String.eqb s) alts
  | TArray t', JArr xs => forallb (has_type t') xs
  | TObject fs, JObj kvs =>
      forallb (fun '(f, opt, t') =>
                 match assoc_last f kvs with Some x => has_type t' x | None => opt end) fs
  | _, _ => false
  end.

(** [Requirement], lines 3-8 *)
Definition requirement_ty : ts_type :=
  TObject [("id", false, TString); ("description", false, TString);
           ("priority", false, TLiteral ["must-have"; "nice-to-have"; "optional"]);
           ("weight", true, TNumber)].

(** [VendorInput], lines 10-15 *)
Definition vendor_input_ty : ts_type :=
  TObject [("need", false, TString); ("requirements", false, TArray requirement_ty);
           ("excludeVendors", true, TArray TString); ("maxVendors", true, TNumber)].

(** [Evidence], lines 17-22 *)
Definition evidence_ty : ts_type :=
  TObject [("url", false, TString); ("snippet", false, TString);
           ("relevance", false, TLiteral ["high"; "medium"; "low"]); ("timestamp", false, TString)].

(** The elements of [VendorComparison.matchedRequirements], lines 31-35 *)
Definition matched_requirement_ty : ts_type :=
  TObject [("requirement", false, TString); ("met", false, TBoolean); ("evidence", false, TString)].

(** [VendorComparison], lines 24-41 *)
Definition vendor_comparison_ty : ts_type :=
  TObject [("name", false, TString); ("website", false, TString); ("description", false, TString);
           ("priceRange", false, TString); ("pricingModel", false, TString); ("currency", false, TString);
           ("keyFeatures", false, TArray TString);
           ("matchedRequirements", false, TArray matched_requirement_ty);
           ("risks", false, TArray TString); ("evidenceLinks", false, TArray evidence_ty);
           ("overallScore", false, TNumber); ("requirementMatch", false, TNumber)].

(** [ShortlistResult], lines 43-52 *)
Definition shortlist_result_ty : ts_type :=
  TObject [("id", false, TString); ("needDescription", false, TString);
           ("requirements", false, TArray requirement_ty);
           ("vendors", false, TArray vendor_comparison_ty); ("processingTime", false, TNumber);
           ("status", false, TLiteral ["pending"; "processing"; "completed"; "failed"]);
           ("createdAt", false, TString); ("errorMessage", true, TString)].

(** [HealthStatus], lines 54-60 *)
Definition health_status_ty : ts_type :=
  TObject [("service", false, TString); ("status", false, TLiteral ["healthy"; "degraded"; "down"]);
           ("responseTime", true, TNumber); ("message", true, TString); ("timestamp", false, TString)].

(** A required member of an object of its type is present, with its type. *)
Lemma has_type_field (fs : list (string * bool * ts_type)) (kvs : list (string * json))
    (f : string) (t : ts_type) :
  has_type (TObject fs) (JObj kvs) = true -> In (f, false, t) fs ->
  exists x, assoc_last f kvs = Some x /\ has_type t x = true.
Proof.
  simpl. intros Hall Hin. apply forallb_forall with (x := (f, false, t)) in Hall; [|done].
  simpl in Hall. destruct (assoc_last f kvs); [by eexists|discriminate].
Qed.

Lemma has_type_string (x : json) : has_type TString x = true -> exists s, x = JStr s.
Proof. destruct x; simpl; try discriminate. by eexists. Qed.

Lemma has_type_object (fs : list (string * bool * ts_type)) (x : json) :
  has_type (TObject fs) x = true -> exists kvs, x = JObj kvs.
Proof. destruct x; simpl; try discriminate. by eexists. Qed.
