(* ===== verification/Search.v ===== *)
(** * Search providers: [src/src/lib/search/{serpapi,google,brave}.ts]

    Three interchangeable modules, each exporting [searchVendors] and the
    three [searchVendor*] helpers over its own [searchWith*] function;
    the create route imports the SerpAPI one.  They share one interface
    here, the class [SearchProvider]: a provider's configuration and
    HTTP environment ([E]) and its [searchWith*] function.  The query
    builders ([searchVendors] and the helpers) are written once against
    the class, which is how serpapi.ts's are modelled; the Google and
    Brave modules carry their own copies, equal to the class's at their
    provider ([provider_queries_generic]).

    Each [searchWith*] is modelled whole: the configuration check made
    before the [try], the request it sends (parameters, timeout), the
    mapping of the response's array with [r.f || d] (a [TypeError] on a
    [null] element or a non-array list), and the [catch] block that
    classifies the rejection.  The thrown [Error]s are [search_error]s. *)

From S2P Require Import Prelude JsString Json Http Types.
From Stdlib Require Import ZArith QArith.

Close Scope Q_scope.
Open Scope nat_scope.
Open Scope string_scope.

(** What the [try] block can throw: [axios] rejecting, or a [TypeError]
    from the mapping of the response. *)
Inductive try_error : Type :=
| TE_Axios (message : string) (response : option (Z * json))
| TE_Type.

(** The [Error]s a [searchWith*] function throws. *)
Inductive search_error : Type :=
| SearchThrown (message : string)   (** [new Error(message)] with a literal message *)
| SearchFailed (cause : try_error)  (** [new Error(`Search failed: ${error.message}`)] *)
| SearchCatchTypeError.             (** a [TypeError] raised by the [catch] block itself *)

(** [xs.map(f)] on a value: a [TypeError] unless it is an array. *)
Definition js_map {A} (f : json -> option A) (v : json) : option (list A) :=
  match v with
  | JArr xs => mapM f xs
  | _ => None
  end.

(** [x?.includes('limit')] for the value of [x] ([None] is [undefined]):
    [String.prototype.includes] on a string, [Array.prototype.includes]
    (strict equality) on an array, [undefined] on [null]; any other
    value has no [includes] method and the call throws ([None]). *)
Definition includes_limit (x : option json) : option bool :=
  match x with
  | None | Some JNull => Some false
  | Some (JStr s) => Some (includes s "limit")
  | Some (JArr xs) =>
      Some (existsb (fun v => match v with JStr s => String.eqb s "limit" | _ => false end) xs)
  | Some _ => None
  end.

(** ** The provider interface *)

Class SearchProvider (E : Type) := {
  provider_search : E -> string -> nat -> search_error + list search_result
}.

Section Queries.
Context `{SearchProvider E}.

(** [searchVendors] (serpapi.ts lines 43-47) *)
Definition searchVendors (env : E) (need : string) (count : nat)
    : search_error + list search_result :=
  provider_search env (need ++ " vendors pricing features comparison") count.

Definition searchVendorPricing (env : E) (vendorName : string) :=
  provider_search env (vendorName ++ " pricing plans cost") 5.

Definition searchVendorFeatures (env : E) (vendorName : string) :=
  provider_search env (vendorName ++ " features capabilities specifications") 5.

Definition searchVendorReviews (env : E) (vendorName : string) :=
  provider_search env (vendorName ++ " reviews limitations problems issues") 5.

End Queries.

(** ** What a provider promises the route

    Each field of a result is built as [r.f || d]: it holds a truthy
    value or its default.  The create route relies on this for the URLs
    it hands to the scraper. *)

Definition field_ok (d v : json) : Prop := truthy v = true \/ v = d.

Definition result_ok (r : search_result) : Prop :=
  field_ok (JStr "") (sr_title r) /\ field_ok (JStr "") (sr_url r) /\
  field_ok (JStr "") (sr_snippet r).

Class SearchProviderSpec (E : Type) `{!SearchProvider E} := {
  provider_results_ok : forall env query count rs,
    provider_search env query count = inr rs -> Forall result_ok rs
}.

Lemma js_map_Forall {A} (f : json -> option A) (P : A -> Prop) (v : json) (k : list A) :
  (forall x y, f x = Some y -> P y) -> js_map f v = Some k -> Forall P k.
Proof. destruct v; try discriminate. apply mapM_Forall. Qed.

(** A result built from three [r.f || ''] reads satisfies [result_ok]. *)
Lemma mk_result_ok (o : json) (ft fu fs : string) (t u sn rel : json) :
  prop_or o ft (JStr "") = Some t -> prop_or o fu (JStr "") = Some u ->
  prop_or o fs (JStr "") = Some sn -> result_ok (mk_search_result t u sn rel).
Proof. intros Ht Hu Hs. repeat split; eapply prop_or_truthy; eauto. Qed.

Ltac split_binds :=
  repeat match goal with
  | H : _ ≫= _ = Some _ |- _ => apply bind_Some in H as (? & ? & H)
  end.

Ltac solve_results_ok :=
  intros ???? Hs; repeat (case_match; simplify_eq/=); try discriminate; split_binds;
  match goal with
  | |- Forall _ [] => apply Forall_nil
  | H : mret [] = Some _ |- _ => injection H as <-; by apply Forall_nil
  | H : js_map _ _ = Some ?rs |- Forall result_ok ?rs =>
      revert H; apply js_map_Forall; intros ?? Hy; split_binds; simplify_eq;
      eapply mk_result_ok; eauto
  end.

(** ** SerpAPI (serpapi.ts) *)

Module Serp.

(** The module constant [SERP_API_KEY] and [axios.get]. *)
Record serp_env : Type := mk_serp_env {
  SERP_API_KEY : option string;
  serp_get : http_request -> http_outcome
}.

Definition SERP_API_URL : string := "https://serpapi.com/search".

Definition quota_message : string :=
  "Monthly search quota exceeded (100 searches/month). Please try again next month or upgrade your plan.".

(** Lines 13-21 *)
Definition serp_request (key query : string) (count : nat) : http_request :=
  mk_request SERP_API_URL []
    [("api_key", JStr key); ("q", JStr query);
     ("num", JNum (inject_Z (Z.of_nat (Nat.min count 10)))); ("engine", JStr "google")]
    30000 None.

(** Lines 25-30, one element *)
Definition serp_result (result : json) : option search_result :=
  title ← prop_or result "title" (JStr "");
  url ← prop_or result "link" (JStr "");
  snippet ← prop_or result "snippet" (JStr "");
  rel ← prop_or result "position" (JNum 0%Q);
  Some (mk_search_result title url snippet rel).

(** Lines 23-30 *)
Definition serp_results (data : json) : option (list search_result) :=
  organic ← prop_or data "organic_results" (JArr []);
  js_map serp_result organic.

(** Lines 31-40: the [catch] block. *)
Definition serp_catch (e : try_error) : search_error :=
  let resp := match e with TE_Axios _ r => r | TE_Type => None end in
  if bool_decide (response_status resp = Some 429%Z) then SearchThrown quota_message
  else match includes_limit (opt_get (response_data resp) "error") with
       | None => SearchCatchTypeError
       | Some true => SearchThrown quota_message
       | Some false => SearchFailed e
       end.

(** [searchWithSerpAPI], lines 7-41 *)
Definition searchWithSerpAPI (env : serp_env) (query : string) (count : nat)
    : search_error + list search_result :=
  match env_set (SERP_API_KEY env) with
  | None => inl (SearchThrown "SERP_API_KEY is not configured")
  | Some key =>
      match serp_get env (serp_request key query count) with
      | HttpFail msg resp => inl (serp_catch (TE_Axios msg resp))
      | HttpOk data =>
          match serp_results data with
          | Some rs => inr rs
          | None => inl (serp_catch TE_Type)
          end
      end
  end.

#[export] Instance serp_provider : SearchProvider serp_env := {
  provider_search := searchWithSerpAPI
}.


#[export] Instance serp_spec : SearchProviderSpec serp_env.
Proof.
  split. simpl. unfold searchWithSerpAPI, serp_results, serp_result. solve_results_ok.
Qed.

(** What an organic result that is an object becomes. *)
Definition of_object (kvs : list (string * json)) : search_result :=
  mk_search_result (or_default (assoc_last "title" kvs) (JStr ""))
    (or_default (assoc_last "link" kvs) (JStr ""))
    (or_default (assoc_last "snippet" kvs) (JStr ""))
    (or_default (assoc_last "position" kvs) (JNum 0%Q)).

(** C21 (functional): with the key configured and a response whose [organic_results]
    is an array of objects, [searchWithSerpAPI] returns one result per
    object, in the provider's order: the list is not cut to [count]
    (only the [num] parameter asks the provider for at most
    [min count 10]). *)
Theorem serp_results_map (env : serp_env) (key query : string) (count : nat) (data : json)
    (xs : list (list (string * json))) :
  env_set (SERP_API_KEY env) = Some key ->
  serp_get env (serp_request key query count) = HttpOk data ->
  get_prop data "organic_results" = PropValue (JArr (map JObj xs)) ->
  searchWithSerpAPI env query count = inr (map of_object xs).
Proof.
  intros Hk Hg Ho. unfold searchWithSerpAPI, serp_results, prop_or. rewrite Hk, Hg, Ho.
  simpl. rewrite (mapM_map_Some _ JObj of_object); [done|].
  apply Forall_forall. intros kvs _. unfold serp_result. by rewrite !prop_or_obj.
Qed.

(** C37 (error): the [catch] block reads [error.response.data.error.includes]:
    when the provider answers with a status other than 429 and an
    [error] field that is a number, a boolean or an object, that call
    itself throws a [TypeError], which escapes instead of the
    [Search failed] error. *)
Theorem serp_catch_type_error (env : serp_env) (key query : string) (count : nat)
    (msg : string) (status : Z) (data v : json) :
  env_set (SERP_API_KEY env) = Some key ->
  serp_get env (serp_request key query count) = HttpFail msg (Some (status, data)) ->
  status <> 429%Z -> get_prop data "error" = PropValue v ->
  match v with JNum _ | JBool _ | JObj _ => True | _ => False end ->
  searchWithSerpAPI env query count = inl SearchCatchTypeError.
Proof.
  intros Hk Hg Hs Hv Hty. unfold searchWithSerpAPI, serp_catch. rewrite Hk, Hg. simpl.
  rewrite bool_decide_false by congruence. rewrite Hv. by destruct v.
Qed.

End Serp.

(** ** Google Custom Search (google.ts) *)

Module Google.

Record google_env : Type := mk_google_env {
  GOOGLE_API_KEY : option string;
  GOOGLE_SEARCH_ENGINE_ID : option string;
  google_get : http_request -> http_outcome
}.

Definition quota_message : string :=
  "Daily search quota exceeded (100 searches/day). Please try again tomorrow.".

(** Lines 18-26 *)
Definition google_request (key cx query : string) (count : nat) : http_request :=
  mk_request "https://www.googleapis.com/customsearch/v1" []
    [("key", JStr key); ("cx", JStr cx); ("q", JStr query);
     ("num", JNum (inject_Z (Z.of_nat (Nat.min count 10))))]
    10000 None.

(** Lines 30-35, one element: the relevance is the constant [1]. *)
Definition google_result (item : json) : option search_result :=
  title ← prop_or item "title" (JStr "");
  url ← prop_or item "link" (JStr "");
  snippet ← prop_or item "snippet" (JStr "");
  Some (mk_search_result title url snippet (JNum 1%Q)).

(** Lines 28-35 *)
Definition google_results (data : json) : option (list search_result) :=
  items ← prop_or data "items" (JArr []);
  js_map google_result items.

(** Lines 36-44 *)
Definition google_catch (e : try_error) : search_error :=
  let resp := match e with TE_Axios _ r => r | TE_Type => None end in
  if bool_decide (response_status resp = Some 429%Z) then SearchThrown quota_message
  else SearchFailed e.

(** [searchWithGoogle], lines 8-45 *)
Definition searchWithGoogle (env : google_env) (query : string) (count : nat)
    : search_error + list search_result :=
  match env_set (GOOGLE_API_KEY env), env_set (GOOGLE_SEARCH_ENGINE_ID env) with
  | None, _ => inl (SearchThrown "GOOGLE_API_KEY is not configured")
  | Some _, None => inl (SearchThrown "GOOGLE_SEARCH_ENGINE_ID is not configured")
  | Some key, Some cx =>
      match google_get env (google_request key cx query count) with
      | HttpFail msg resp => inl (google_catch (TE_Axios msg resp))
      | HttpOk data =>
          match google_results data with
          | Some rs => inr rs
          | None => inl (google_catch TE_Type)
          end
      end
  end.

#[export] Instance google_provider : SearchProvider google_env := {
  provider_search := searchWithGoogle
}.


#[export] Instance google_spec : SearchProviderSpec google_env.
Proof.
  split. simpl. unfold searchWithGoogle, google_results, google_result. solve_results_ok.
Qed.

(** The module's own query helpers, lines 47-65. *)
Definition searchVendors (env : google_env) (need : string) (count : nat) :=
  searchWithGoogle env (need ++ " vendors pricing features comparison") count.

Definition searchVendorPricing (env : google_env) (vendorName : string) :=
  searchWithGoogle env (vendorName ++ " pricing plans cost") 5.

Definition searchVendorFeatures (env : google_env) (vendorName : string) :=
  searchWithGoogle env (vendorName ++ " features capabilities specifications") 5.

Definition searchVendorReviews (env : google_env) (vendorName : string) :=
  searchWithGoogle env (vendorName ++ " reviews limitations problems issues") 5.

End Google.

(** ** Brave Search (brave.ts) *)

Module Brave.

Record brave_env : Type := mk_brave_env {
  BRAVE_SEARCH_API_KEY : option string;
  brave_get : http_request -> http_outcome
}.

(** Lines 13-26: the key travels in a header; [count] is sent as is. *)
Definition brave_request (key query : string) (count : nat) : http_request :=
  mk_request "https://api.search.brave.com/res/v1/web/search"
    [("Accept", "application/json"); ("Accept-Encoding", "gzip");
     ("X-Subscription-Token", key)]
    [("q", JStr query); ("count", JNum (inject_Z (Z.of_nat count)));
     ("search_lang", JStr "en"); ("safesearch", JStr "moderate")]
    10000 None.

(** Lines 30-35, one element *)
Definition brave_result (result : json) : option search_result :=
  title ← prop_or result "title" (JStr "");
  url ← prop_or result "url" (JStr "");
  snippet ← prop_or result "description" (JStr "");
  rel ← prop_or result "page_age_rank" (JNum 0%Q);
  Some (mk_search_result title url snippet rel).

(** Lines 28-35: [response.data.web?.results || []]. *)
Definition brave_results (data : json) : option (list search_result) :=
  match get_prop data "web" with
  | PropTypeError => None
  | PropValue web => js_map brave_result (or_default (opt_get (Some web) "results") (JArr []))
  | PropUndefined => js_map brave_result (JArr [])
  end.

(** [searchWithBrave], lines 7-40: every rejection becomes
    [Search failed: ...]. *)
Definition searchWithBrave (env : brave_env) (query : string) (count : nat)
    : search_error + list search_result :=
  match env_set (BRAVE_SEARCH_API_KEY env) with
  | None => inl (SearchThrown "BRAVE_SEARCH_API_KEY is not configured")
  | Some key =>
      match brave_get env (brave_request key query count) with
      | HttpFail msg resp => inl (SearchFailed (TE_Axios msg resp))
      | HttpOk data =>
          match brave_results data with
          | Some rs => inr rs
          | None => inl (SearchFailed TE_Type)
          end
      end
  end.

#[export] Instance brave_provider : SearchProvider brave_env := {
  provider_search := searchWithBrave
}.


#[export] Instance brave_spec : SearchProviderSpec brave_env.
Proof.
  split. simpl. unfold searchWithBrave, brave_results, brave_result. solve_results_ok.
Qed.

(** The module's own query helpers, lines 42-61. *)
Definition searchVendors (env : brave_env) (need : string) (count : nat) :=
  searchWithBrave env (need ++ " vendors pricing features comparison") count.

Definition searchVendorPricing (env : brave_env) (vendorName : string) :=
  searchWithBrave env (vendorName ++ " pricing plans cost") 5.

Definition searchVendorFeatures (env : brave_env) (vendorName : string) :=
  searchWithBrave env (vendorName ++ " features capabilities specifications") 5.

Definition searchVendorReviews (env : brave_env) (vendorName : string) :=
  searchWithBrave env (vendorName ++ " reviews limitations problems issues") 5.

End Brave.

(** The three modules write the same four helpers: each is the class's
    helper at its provider, so what is proved of [searchVendors] and the
    others holds of every module's. *)
Lemma provider_queries_generic (need name : string) (count : nat) :
  (forall env : Google.google_env,
     Google.searchVendors env need count = @searchVendors _ Google.google_provider env need count /\
     Google.searchVendorPricing env name = @searchVendorPricing _ Google.google_provider env name /\
     Google.searchVendorFeatures env name = @searchVendorFeatures _ Google.google_provider env name /\
     Google.searchVendorReviews env name = @searchVendorReviews _ Google.google_provider env name) /\
  (forall env : Brave.brave_env,
     Brave.searchVendors env need count = @searchVendors _ Brave.brave_provider env need count /\
     Brave.searchVendorPricing env name = @searchVendorPricing _ Brave.brave_provider env name /\
     Brave.searchVendorFeatures env name = @searchVendorFeatures _ Brave.brave_provider env name /\
     Brave.searchVendorReviews env name = @searchVendorReviews _ Brave.brave_provider env name).
Proof. split; intros env; split_and!; reflexivity. Qed.

(** ** The providers compared *)

(** C22 (error): on an HTTP 429 answer, SerpAPI and Google throw their quota
    error while Brave throws the generic [Search failed] error: only two
    of the three providers tell a quota limit from an operational
    failure. *)
Theorem quota_on_429 (se : Serp.serp_env) (ge : Google.google_env) (be : Brave.brave_env)
    (query : string) (count : nat) (msg : string) (data : json) :
  is_Some (env_set (Serp.SERP_API_KEY se)) ->
  is_Some (env_set (Google.GOOGLE_API_KEY ge)) ->
  is_Some (env_set (Google.GOOGLE_SEARCH_ENGINE_ID ge)) ->
  is_Some (env_set (Brave.BRAVE_SEARCH_API_KEY be)) ->
  (forall rq, Serp.serp_get se rq = HttpFail msg (Some (429%Z, data))) ->
  (forall rq, Google.google_get ge rq = HttpFail msg (Some (429%Z, data))) ->
  (forall rq, Brave.brave_get be rq = HttpFail msg (Some (429%Z, data))) ->
  Serp.searchWithSerpAPI se query count = inl (SearchThrown Serp.quota_message) /\
  Google.searchWithGoogle ge query count = inl (SearchThrown Google.quota_message) /\
  Brave.searchWithBrave be query count = inl (SearchFailed (TE_Axios msg (Some (429%Z, data)))).
Proof.
  intros [ks Hs] [kg Hg] [kc Hc] [kb Hb] Gs Gg Gb.
  unfold Serp.searchWithSerpAPI, Google.searchWithGoogle, Brave.searchWithBrave.
  rewrite Hs, Hg, Hc, Hb, Gs, Gg, Gb. done.
Qed.

(** Whatever provider the route is wired to, every URL of a
    successful [searchVendors] is a truthy JSON value or the empty
    string. *)
Theorem searchVendors_urls `{SearchProviderSpec E} (env : E) (need : string) (count : nat)
    (rs : list search_result) :
  searchVendors env need count = inr rs ->
  Forall (fun u => truthy u = true \/ u = JStr "") (map sr_url rs).
Proof.
  intros Hs%provider_results_ok. apply Forall_fmap. eapply Forall_impl; [exact Hs|].
  by intros r (_ & Hu & _).
Qed.

(** ** Witnesses *)

Module SearchWitnesses.
Import Serp.

Definition organic : list (list (string * json)) :=
  [[("title", JStr "Mailer"); ("link", JStr "https://mailer.example"); ("position", JNum 1%Q)];
   [("link", JStr "https://sender.example"); ("position", JNum 2%Q)]].

Definition serp_ok : Serp.serp_env :=
  Serp.mk_serp_env (Some "key")
    (fun _ => HttpOk (JObj [("organic_results", JArr (map JObj organic))])).

(** Two results although one was asked for. *)
Lemma serp_results_map_witness :
  Serp.searchWithSerpAPI serp_ok "email" 1 = inr (map Serp.of_object organic).
Proof. by apply (Serp.serp_results_map serp_ok "key" "email" 1 (JObj [("organic_results", JArr (map JObj organic))])). Defined.

Definition serp_bad_error : Serp.serp_env :=
  Serp.mk_serp_env (Some "key")
    (fun _ => HttpFail "Request failed with status code 400"
                (Some (400%Z, JObj [("error", JNum 5%Q)]))).

Lemma serp_catch_type_error_witness :
  Serp.searchWithSerpAPI serp_bad_error "email" 10 = inl SearchCatchTypeError.
Proof.
  apply (Serp.serp_catch_type_error serp_bad_error "key" "email" 10
           "Request failed with status code 400" 400%Z (JObj [("error", JNum 5%Q)]) (JNum 5%Q));
    [reflexivity|reflexivity|lia|reflexivity|exact I].
Defined.

Definition limited : http_outcome := HttpFail "Too Many Requests" (Some (429%Z, JNull)).

Lemma quota_on_429_witness :
  Serp.searchWithSerpAPI (Serp.mk_serp_env (Some "k") (fun _ => limited)) "q" 10 =
    inl (SearchThrown Serp.quota_message) /\
  Google.searchWithGoogle (Google.mk_google_env (Some "k") (Some "cx") (fun _ => limited)) "q" 10 =
    inl (SearchThrown Google.quota_message) /\
  Brave.searchWithBrave (Brave.mk_brave_env (Some "k") (fun _ => limited)) "q" 10 =
    inl (SearchFailed (TE_Axios "Too Many Requests" (Some (429%Z, JNull)))).
Proof. apply quota_on_429; try (intros; reflexivity); eexists; reflexivity. Defined.

Lemma searchVendors_urls_witness :
  Forall (fun u => truthy u = true \/ u = JStr "") (map sr_url (map Serp.of_object organic)).
Proof. apply (searchVendors_urls serp_ok "email" 1). reflexivity. Defined.

End SearchWitnesses.
