(* ===== verification/Scraper.v ===== *)
(** * The page scraper: [src/src/lib/scraper/scraper.ts]

    [scrapeWebsite] fetches a URL with [axios], loads the HTML with
    [cheerio], removes the [script], [style], [nav], [footer] and
    [header] elements and extracts a title, the main text, a pricing
    guess and a feature list; [scrapeMultipleUrls] runs it on every URL
    with [Promise.allSettled] and keeps the fulfilled results.

    The document is the tree [cheerio.load] builds ([node]); the HTML
    parser is the environment's ([cheerio_load]).  The selectors the code
    uses ([selector]) are evaluated over the document in document order,
    as cheerio does.  Strings are byte strings: [length] and [slice]
    count bytes where JavaScript counts UTF-16 code units, and
    [toLowerCase] and [\s] are their ASCII parts. *)

From S2P Require Import Prelude JsString Json Http Types.
From Stdlib Require Import ZArith.

Open Scope nat_scope.
Open Scope string_scope.
#[local] Set Warnings "-register-all".

(** ** The document *)

(** A DOM node: text, or an element with its tag name, attributes (in
    source order) and children.  Tag and attribute names are lower case,
    as the parser leaves them. *)
Inductive node : Type :=
| NText (s : string)
| NElem (tag : string) (attrs : list (string * string)) (children : list node).

(** [$(el).text()]: the text of every descendant text node, in order. *)
Fixpoint text (n : node) : string :=
  match n with
  | NText s => s
  | NElem _ _ cs =>
      (fix go (cs : list node) : string :=
         match cs with
         | [] => ""
         | c :: cs' => text c ++ go cs'
         end) cs
  end.

(** The node and its descendants in document order. *)
Fixpoint descendants (n : node) : list node :=
  match n with
  | NText _ => [n]
  | NElem _ _ cs =>
      n :: (fix go (cs : list node) : list node :=
              match cs with
              | [] => []
              | c :: cs' => (descendants c ++ go cs')%list
              end) cs
  end.

Definition forest_nodes (ns : list node) : list node := concat (map descendants ns).

(** [$(sel).remove()] for a list of tag names: the elements with those
    tags are cut out with their subtrees. *)
Fixpoint remove_tags (ts : list string) (n : node) : list node :=
  match n with
  | NText _ => [n]
  | NElem t a cs =>
      if existsb (String.eqb t) ts then []
      else [NElem t a ((fix go (cs : list node) : list node :=
                          match cs with
                          | [] => []
                          | c :: cs' => (remove_tags ts c ++ go cs')%list
                          end) cs)]
  end.

Definition remove_forest (ts : list string) (ns : list node) : list node :=
  concat (map (remove_tags ts) ns).

(** ** Selectors *)

(** The first value of an attribute: the parser keeps the first of
    duplicated attributes. *)
Fixpoint attr (name : string) (attrs : list (string * string)) : option string :=
  match attrs with
  | [] => None
  | (k, v) :: rest => if String.eqb k name then Some v else attr name rest
  end.

(** The whitespace-separated tokens of a [class] attribute. *)
Fixpoint split_ws (s : string) : list string :=
  match s with
  | EmptyString => []
  | String c s' =>
      if is_ws c then split_ws s'
      else match s' with
           | String c' _ =>
               if is_ws c' then String c "" :: split_ws s'
               else match split_ws s' with
                    | w :: ws => String c w :: ws
                    | [] => [String c ""]
                    end
           | EmptyString => [String c ""]
           end
  end.

Inductive selector : Type :=
| SelTag (t : string)                  (** [main] *)
| SelAttrEq (name value : string)      (** [[role="main"]] *)
| SelClass (c : string)                (** [.content] *)
| SelId (i : string)                   (** [#content] *)
| SelAny                               (** [*] *)
| SelOr (s1 s2 : selector).            (** [ul, ol] *)

Fixpoint matches (sel : selector) (n : node) : bool :=
  match n with
  | NText _ => false
  | NElem t a _ =>
      match sel with
      | SelTag t' => String.eqb t t'
      | SelAttrEq k v => match attr k a with Some v' => String.eqb v' v | None => false end
      | SelClass c => match attr "class" a with
                      | Some cl => existsb (String.eqb c) (split_ws cl)
                      | None => false
                      end
      | SelId i => match attr "id" a with Some v => String.eqb v i | None => false end
      | SelAny => true
      | SelOr s1 s2 => matches s1 n || matches s2 n
      end
  end.

(** [$(sel)] on the loaded document: the matching elements in document
    order. *)
Definition select (sel : selector) (doc : list node) : list node :=
  filter (fun n => matches sel n = true) (forest_nodes doc).

(** [.text()] of a selection: the texts of all its elements. *)
Definition selection_text (ns : list node) : string := String.concat "" (map text ns).

(** [.first().text()] *)
Definition first_text (ns : list node) : string :=
  match ns with
  | n :: _ => text n
  | [] => ""
  end.

(** [.replace(/\s+/g, ' ').trim()] *)
Definition normalize (s : string) : string := trim (collapse_ws s).

(** ** Extraction (lines 60-139) *)

(** Lines 62-70 *)
Definition main_selectors : list selector :=
  [SelTag "main"; SelTag "article"; SelAttrEq "role" "main"; SelClass "content";
   SelId "content"; SelClass "main-content"; SelTag "body"].

(** The loop of lines 72-77 and the fallback of line 79: the first
    selector that matches some element gives the text of its first
    element, whether that text is empty or not. *)
Fixpoint first_content (doc : list node) (sels : list selector) : string :=
  match sels with
  | [] => slice (normalize (selection_text (select (SelTag "body") doc))) 5000
  | sel :: rest =>
      match select sel doc with
      | el :: _ => slice (normalize (text el)) 5000
      | [] => first_content doc rest
      end
  end.

(** [extractMainContent], lines 60-80 *)
Definition extractMainContent (doc : list node) : string := first_content doc main_selectors.

(** [extractPricingModel], lines 107-118 *)
Definition extractPricingModel (t : string) : string :=
  let lowerText := to_lower t in
  if includes lowerText "per user" || includes lowerText "per seat" then "Per User"
  else if includes lowerText "per month" then "Monthly"
  else if includes lowerText "per year" || includes lowerText "annual" then "Annual"
  else if includes lowerText "usage" || includes lowerText "pay as you go" then "Usage-based"
  else if includes lowerText "free" then "Freemium"
  else if includes lowerText "tier" then "Tiered"
  else "Contact Sales".

Definition is_digit (c : ascii) : bool :=
  let n := nat_of_ascii c in Nat.leb 48 n && Nat.leb n 57.

(** The length of the run of digits ([\d+] greedy) at the head. *)
Fixpoint lead_digits (s : string) : nat :=
  match s with
  | String c s' => if is_digit c then S (lead_digits s') else 0
  | EmptyString => 0
  end.

(** [(?:,\d{3})*] greedy: the length of the groups at the head. *)
Fixpoint groups_len (s : string) : nat :=
  match s with
  | String "," (String a (String b (String c s'))) =>
      if is_digit a && is_digit b && is_digit c then 4 + groups_len s' else 0
  | _ => 0
  end.

(** [(?:\.\d{2})?] greedy. *)
Definition cents_len (s : string) : nat :=
  match s with
  | String "." (String a (String b _)) => if is_digit a && is_digit b then 3 else 0
  | _ => 0
  end.

(** The length of the match of [/\$\d+(?:,\d{3})*(?:\.\d{2})?/] at the
    head of [s], [0] when there is none.  Nothing follows the greedy
    quantifiers in the pattern, so the first match the backtracking
    matcher finds is the one where each quantifier takes all it can
    (Theorem [Regex.price_matches_regex]). *)
Definition price_at (s : string) : nat :=
  match s with
  | String "$" t =>
      let n := lead_digits t in
      if Nat.eqb n 0 then 0
      else let g := groups_len (sdrop n t) in
           1 + n + g + cents_len (sdrop g (sdrop n t))
  | _ => 0
  end.

(** [text.match(/.../g)] as a list: the matches from left to right, the
    search resuming after each match; [skip] counts the characters of
    the last match still to pass. *)
Fixpoint price_matches_aux (skip : nat) (s : string) : list string :=
  match s with
  | EmptyString => []
  | String _ s' =>
      match skip with
      | S k => price_matches_aux k s'
      | 0 => let n := price_at s in
             if Nat.eqb n 0 then price_matches_aux 0 s'
             else substring 0 n s :: price_matches_aux (n - 1) s'
      end
  end.

Definition price_matches (s : string) : list string := price_matches_aux 0 s.

Definition euro : string := String "226"%char (String "130"%char (String "172"%char "")).
Definition pound : string := String "194"%char (String "163"%char "").

(** Line 83 ([€] and [£] in UTF-8) *)
Definition pricingKeywords : list string :=
  ["pricing"; "price"; "plan"; "cost"; "$"; euro; pound; "free"; "paid"].

(** Lines 86-89 *)
Definition mentions_pricing (el : node) : bool :=
  let t := to_lower (text el) in existsb (includes t) pricingKeywords.

(** [extractPricing], lines 82-105: [$('*')] lists every element, the
    [html] element first, so the first match is the outermost element
    whose text mentions a keyword. *)
Definition extractPricing (doc : list node) : option pricing :=
  match filter (fun el => mentions_pricing el = true) (select SelAny doc) with
  | el :: _ =>
      let t := normalize (text el) in
      let priceMatches := price_matches t in
      Some (mk_pricing (extractPricingModel t)
              (match priceMatches with [] => "See website" | _ => join " - " priceMatches end)
              "USD")
  | [] => None
  end.

(** Lines 124-127 *)
Definition mentions_feature (el : node) : bool :=
  let t := to_lower (text el) in
  includes t "feature" || includes t "include" || includes t "capability".

(** The condition of line 132. *)
Definition keep_feature (f : string) : bool :=
  negb (String.eqb f "") && Nat.ltb (String.length f) 200 &&
  negb (includes (to_lower f) "learn more").

(** [$(list).find('li')]: the [li] descendants of the list. *)
Definition list_items (l : node) : list node :=
  match l with
  | NElem _ _ cs => select (SelTag "li") cs
  | NText _ => []
  end.

(** [extractFeatures], lines 120-139 *)
Definition extractFeatures (doc : list node) : list string :=
  let featureLists :=
    filter (fun el => mentions_feature el = true) (select (SelOr (SelTag "ul") (SelTag "ol")) doc) in
  let features :=
    filter (fun f => keep_feature f = true)
      (concat (map (fun l => map (fun item => trim (text item)) (list_items l)) featureLists)) in
  take 10 features.

(** Line 32 *)
Definition page_title (doc : list node) : string :=
  str_or (trim (selection_text (select (SelTag "title") doc)))
    (str_or (trim (first_text (select (SelTag "h1") doc))) "Untitled").

(** ** Fetching (lines 5-58, 141-149) *)

(** The module constant [TIMEOUT] (the parsed [SCRAPING_TIMEOUT_MS]),
    [axios.get] and the HTML parser of [cheerio.load] ([None] when it
    throws). *)
Record scrape_env : Type := mk_scrape_env {
  TIMEOUT : Z;
  scrape_get : http_request -> http_outcome;
  cheerio_load : json -> option (list node)
}.

(** Lines 12-16 *)
Definition DEFAULT_HEADERS : list (string * string) :=
  [("User-Agent", "Mozilla/5.0 (Windows NT 10.0; Win64; x64) AppleWebKit/537.36 (KHTML, like Gecko) Chrome/120.0.0.0 Safari/537.36");
   ("Accept", "text/html,application/xhtml+xml,application/xml;q=0.9,image/webp,*/*;q=0.8");
   ("Accept-Language", "en-US,en;q=0.5")].

(** Lines 20-24, with [options = {}]. *)
Definition scrape_request (env : scrape_env) (url : string) : http_request :=
  mk_request url DEFAULT_HEADERS [] (TIMEOUT env) (Some 5).

(** What the [catch] of lines 54-57 rethrows as
    [Failed to scrape ${url}: ${error.message}]. *)
Inductive scrape_cause : Type :=
| SC_Axios (message : string)   (** the request was rejected *)
| SC_Load                       (** [cheerio.load] threw *)
| SC_InvalidUrl.                (** the URL is not a string: [axios] rejects it *)

Record scrape_error : Type := mk_scrape_error {
  failed_url : json;
  failed_cause : scrape_cause
}.

(** Line 29 *)
Definition removed_tags : list string := ["script"; "style"; "nav"; "footer"; "header"].

(** [scrapeWebsite], lines 18-58.  The URL is whatever the search result
    held; a value that is not a string cannot be fetched. *)
Definition scrapeWebsite (env : scrape_env) (url : json) : scrape_error + scraped_data :=
  match url with
  | JStr u =>
      match scrape_get env (scrape_request env u) with
      | HttpFail msg _ => inl (mk_scrape_error url (SC_Axios msg))
      | HttpOk data =>
          match cheerio_load env data with
          | None => inl (mk_scrape_error url SC_Load)
          | Some loaded =>
              let doc := remove_forest removed_tags loaded in
              inr (mk_scraped u (page_title doc) (extractMainContent doc)
                     (extractPricing doc) (Some (extractFeatures doc)))
          end
      end
  | _ => inl (mk_scrape_error url SC_InvalidUrl)
  end.

(** [scrapeMultipleUrls], lines 141-149: [Promise.allSettled] keeps the
    results in the order of [urls]; the rejected ones are dropped. *)
Definition scrapeMultipleUrls (env : scrape_env) (urls : list json) : list scraped_data :=
  omap (fun url => match scrapeWebsite env url with
                   | inr d => Some d
                   | inl _ => None
                   end) urls.

(** ** Lemmas *)

Lemma descendants_elem (t : string) (a : list (string * string)) (cs : list node) :
  descendants (NElem t a cs) = NElem t a cs :: forest_nodes cs.
Proof.
  simpl. f_equal. unfold forest_nodes. induction cs as [|c cs IH]; [done|]. simpl. by rewrite IH.
Qed.

Lemma scrapeWebsite_url (env : scrape_env) (url : json) (d : scraped_data) :
  scrapeWebsite env url = inr d -> url = JStr (sd_url d).
Proof. unfold scrapeWebsite. repeat case_match; intros; simplify_eq; done. Qed.


Lemma first_content_bound (doc : list node) (sels : list selector) :
  String.length (first_content doc sels) <= 5000.
Proof. induction sels; simpl; [|case_match]; auto using length_slice_le. Qed.

(** The match of the price pattern starts with [$] and a digit. *)
Lemma price_at_shape (s : string) :
  price_at s <> 0 -> exists d rest, s = String "$" (String d rest) /\ is_digit d = true /\
                                    2 <= price_at s.
Proof.
  unfold price_at. destruct s as [|c [|d t]]; [done| |].
  - repeat case_match; simpl; done.
  - destruct (Ascii.ascii_dec c "$"); [subst|by destruct c as [[][][][][][][][]]].
    simpl lead_digits. destruct (is_digit d) eqn:Hd; [|done]. simpl. intros _. eauto with lia.
Qed.

Definition price_shape (m : string) : Prop :=
  exists d rest, m = String "$" (String d rest) /\ is_digit d = true.

Lemma price_sound_cons (c : ascii) (s : string) (ms : list string) :
  Forall (fun m => includes s m = true /\ price_shape m) ms ->
  Forall (fun m => includes (String c s) m = true /\ price_shape m) ms.
Proof. intros H. eapply Forall_impl; [exact H|]. intros m [Hm ?]. split; [by apply includes_cons|done]. Qed.

Lemma price_matches_aux_sound (k : nat) (s : string) :
  Forall (fun m => includes s m = true /\ price_shape m) (price_matches_aux k s).
Proof.
  revert k. induction s as [|c s IH]; intros [|k]; cbn [price_matches_aux]; try constructor;
    [|by apply price_sound_cons].
  destruct (Nat.eqb (price_at (String c s)) 0) eqn:Hn; [by apply price_sound_cons|].
  constructor; [|by apply price_sound_cons].
  split; [apply includes_substring|].
  destruct (price_at_shape (String c s)) as (d & rest & Hs & Hd & Hle); [by apply Nat.eqb_neq|].
  destruct (price_at (String c s)) as [|[|n]]; [lia|lia|]. rewrite Hs. simpl. by exists d, (substring 0 n rest).
Qed.

(** ** Properties *)

(** C18 (functional): [scrapeMultipleUrls] keeps exactly the pages whose scrape
    succeeded, in the order of the input URLs: the URLs of its result
    are the input URLs whose scrape resolved, none dropped, none added,
    none reordered, and each page is what [scrapeWebsite] returned for
    its URL. *)
Theorem scrapeMultipleUrls_in_order (env : scrape_env) (urls : list json) :
  map (fun d => JStr (sd_url d)) (scrapeMultipleUrls env urls) =
    List.filter (fun u => if scrapeWebsite env u is inr _ then true else false) urls /\
  Forall (fun d => scrapeWebsite env (JStr (sd_url d)) = inr d) (scrapeMultipleUrls env urls).
Proof.
  induction urls as [|u us [IHs IHf]]; [split; [done|constructor]|]. unfold scrapeMultipleUrls in *.
  cbn [omap list_omap List.filter]. destruct (scrapeWebsite env u) as [e|d] eqn:Hu; [done|].
  apply scrapeWebsite_url in Hu as Hd. split; [cbn [map]; by rewrite IHs, <- Hd|].
  constructor; [by rewrite <- Hd|exact IHf].
Qed.

(** No page survives exactly when every scrape failed. *)
Lemma scrape_all_failed (env : scrape_env) (urls : list json) :
  scrapeMultipleUrls env urls = [] <->
  Forall (fun u => exists e, scrapeWebsite env u = inl e) urls.
Proof.
  induction urls as [|u us IH]; [split; constructor|]. unfold scrapeMultipleUrls in *. simpl.
  destruct (scrapeWebsite env u) eqn:Hu; rewrite Forall_cons.
  - rewrite IH. split; [by intros; eauto|tauto].
  - split; [done|]. intros [[e ?] _]. congruence.
Qed.

(** [scrapeMultipleUrls] returns no page exactly when the scrape of
    every URL failed: the all-or-nothing failure the route turns into
    [Failed to scrape vendor websites]. *)
Theorem scrapeMultipleUrls_nil (env : scrape_env) (urls : list json) :
  scrapeMultipleUrls env urls = [] <->
  Forall (fun u => exists e, scrapeWebsite env u = inl e) urls.
Proof. apply scrape_all_failed. Qed.

(** What the spec promises of a scraped page. *)
Definition page_ok (d : scraped_data) : Prop :=
  String.length (sd_content d) <= 5000 /\ sd_title d <> "" /\
  match sd_features d with
  | Some fs => length fs <= 10 /\ Forall (fun f => keep_feature f = true) fs
  | None => False
  end.

(** C19 (bounds): every page [scrapeWebsite] returns has a non-empty title, at
    most 5000 characters of content and a feature list of at most ten
    items, each non-empty, shorter than 200 characters and without
    [learn more]. *)
Theorem scrapeWebsite_page_ok (env : scrape_env) (url : json) (d : scraped_data) :
  scrapeWebsite env url = inr d -> page_ok d.
Proof.
  unfold scrapeWebsite. repeat case_match; intros; simplify_eq.
  split; [apply first_content_bound|split].
  - apply str_or_nonempty, str_or_nonempty. discriminate.
  - split; [apply length_take_le|]. apply Forall_take, Forall_filter_P.
Qed.

(** The keywords [extractPricingModel] tests, in its order. *)
Definition model_keywords : list string :=
  ["per user"; "per seat"; "per month"; "per year"; "annual"; "usage"; "pay as you go";
   "free"; "tier"].

(** C40 (functional): [extractPricingModel] yields one of its seven labels, and
    [Contact Sales] exactly when the lower-cased text contains none of
    the keywords. *)
Theorem extractPricingModel_labels (t : string) :
  extractPricingModel t ∈ ["Per User"; "Monthly"; "Annual"; "Usage-based"; "Freemium";
                              "Tiered"; "Contact Sales"] /\
  (extractPricingModel t = "Contact Sales" <->
   existsb (includes (to_lower t)) model_keywords = false).
Proof.
  unfold extractPricingModel, model_keywords. simpl.
  repeat match goal with |- context [includes (to_lower t) ?k] =>
    destruct (includes (to_lower t) k) end; simpl; split; try set_solver; split; congruence.
Qed.

(** Every amount the pricing guess reports is a substring of the
    text that begins with [$] and a digit. *)
Theorem price_matches_sound (s : string) :
  Forall (fun m => includes s m = true /\ price_shape m) (price_matches s).
Proof. apply price_matches_aux_sound. Qed.

(** C20 (functional): [$('*')] lists the root element first, so when the page's text
    mentions a pricing keyword anywhere, the pricing guess is read from
    the text of the whole page, not from a pricing section. *)
Theorem extractPricing_whole_page (t : string) (a : list (string * string)) (cs : list node) :
  mentions_pricing (NElem t a cs) = true ->
  extractPricing [NElem t a cs] =
    Some (mk_pricing (extractPricingModel (normalize (text (NElem t a cs))))
            (match price_matches (normalize (text (NElem t a cs))) with
             | [] => "See website"
             | ms => join " - " ms
             end) "USD").
Proof.
  intros Hm. unfold extractPricing, select, forest_nodes. cbn [map concat].
  rewrite app_nil_r, descendants_elem, !filter_cons_True by done. cbn iota beta. by case_match.
Qed.

(** ** A page *)

Module ScraperExamples.

(** A vendor page whose [main] element is empty (filled by script) and
    whose feature list nests a second list. *)
Definition root : node :=
  NElem "html" []
    [NElem "head" [] [NElem "title" [] [NText "Mailer - Email API"]];
     NElem "body" []
       [NElem "nav" [] [NText "Pricing Docs"];
        NElem "main" [] [];
        NElem "ul" []
          [NElem "li" [] [NText " Fast delivery "];
           NElem "li" [] [NText "Learn more"];
           NElem "li" [] [NElem "ul" [] [NElem "li" [] [NText "Features: SMTP"]]]];
        NElem "p" [] [NText "Plans from $19.99 per month or $1,200 per year"]]].

Definition page : list node := remove_forest removed_tags [root].

(** The main content is the text of the first element of the first
    selector that matches, even when that text is empty: an empty
    [main] hides the text of the body, where the spec takes the first
    non-empty text. *)
Example empty_main_hides_body :
  extractMainContent page = "" /\
  normalize (selection_text (select (SelTag "body") page)) <> "".
Proof. split; [vm_compute; reflexivity|vm_compute; discriminate]. Qed.

(** A feature list nested in another feature list is read as a
    list of its own and again through the [li] descendants of the outer
    list, whose [li] holding it also counts as an item with the same
    text: the nested item is reported three times. *)
Example nested_lists_duplicate :
  extractFeatures page =
    ["Fast delivery"; "Features: SMTP"; "Features: SMTP"; "Features: SMTP"].
Proof. vm_compute. reflexivity. Qed.

Definition env : scrape_env :=
  mk_scrape_env 10000 (fun _ => HttpOk (JStr "<html>...</html>")) (fun _ => Some [root]).

Definition scraped : scraped_data :=
  Eval vm_compute in
  match scrapeWebsite env (JStr "https://mailer.example") with
  | inr d => d
  | inl _ => mk_scraped "" "" "" None None
  end.

Lemma scrapeWebsite_page_ok_witness : page_ok scraped.
Proof. apply (scrapeWebsite_page_ok env (JStr "https://mailer.example")). vm_compute. reflexivity. Defined.

Lemma extractPricing_whole_page_witness :
  extractPricing [root] =
    Some (mk_pricing (extractPricingModel (normalize (text root)))
            (match price_matches (normalize (text root)) with
             | [] => "See website"
             | ms => join " - " ms
             end) "USD").
Proof. apply extractPricing_whole_page. vm_compute. reflexivity. Defined.

End ScraperExamples.
