(* ===== verification/Analyzer.v ===== *)
(** * The LLM analysis of [src/src/lib/ai/gemini.ts]

    [parseVendorAnalysis] (the validation boundary between the LLM's text
    and the pipeline), [buildAnalysisPrompt] and [analyzeVendors].  The
    LLM endpoint is an argument: a function from the request's prompt to
    the outcome of the [fetch] (a thrown network error, or a response
    with its [ok] flag, status and body text).  Errors are values of
    [parse_error] and [analysis_error], one constructor per [throw] of the
    code. *)

From S2P Require Import Prelude JsString Json Types.
From Stdlib Require Import ZArith QArith.

Close Scope Q_scope.
Open Scope nat_scope.
Open Scope string_scope.

(** The newline character, and the code fences the parser strips. *)
Definition nl : string := String "010" "".
Definition fence : string := "```".
Definition fence_json : string := "```json".

(** The double quote character and a JSON string literal of [s]. *)
Definition dq : string := String "034" "".
Definition quoted (s : string) : string := dq ++ s ++ dq.

(** ** [parseVendorAnalysis] *)

Module Parse.

(** The reasons [parseVendorAnalysis] throws, all rethrown as
    [Failed to parse AI response: ...]. *)
Inductive parse_error : Type :=
| PE_NotString    (** [responseText.trim] is not a function *)
| PE_Syntax       (** [JSON.parse] throws a [SyntaxError] *)
| PE_NotArray     (** [Response is not an array] *)
| PE_NullElement. (** [vendor.name] on a [null] element *)

(** Lines 129-134: trim, then strip the Markdown fences. *)
Definition clean_response (responseText : string) : string :=
  let cleaned := trim responseText in
  if starts_with cleaned fence_json then strip_end fence (strip_all fence_json cleaned)
  else if starts_with cleaned fence then strip_all fence cleaned
  else cleaned.

(** [vendor.f || d] for a [vendor] that is not [null]: a missing
    property reads as [undefined]. *)
Definition read_or (vendor : json) (f : string) (d : json) : json :=
  or_default (match get_prop vendor f with
              | PropValue v => Some v
              | _ => None
              end) d.

(** The object literal of lines 146-159. *)
Definition to_vendor (vendor : json) : vendor_comparison :=
  mk_vendor (read_or vendor "name" (JStr "Unknown Vendor"))
            (read_or vendor "website" (JStr ""))
            (read_or vendor "description" (JStr ""))
            (read_or vendor "priceRange" (JStr "Contact Sales"))
            (read_or vendor "pricingModel" (JStr "Contact Sales"))
            (read_or vendor "currency" (JStr "USD"))
            (read_or vendor "keyFeatures" (JArr []))
            (read_or vendor "matchedRequirements" (JArr []))
            (read_or vendor "risks" (JArr []))
            (read_or vendor "evidenceLinks" (JArr []))
            (read_or vendor "overallScore" (JNum 0%Q))
            (read_or vendor "requirementMatch" (JNum 0%Q)).

(** The callback of [parsed.map]: its first read, [vendor.name], throws a
    [TypeError] on a [null] element; on any other value no read throws. *)
Definition vendor_of_json (vendor : json) : parse_error + vendor_comparison :=
  match get_prop vendor "name" with
  | PropTypeError => inl PE_NullElement
  | _ => inr (to_vendor vendor)
  end.

Fixpoint map_vendors (xs : list json) : parse_error + list vendor_comparison :=
  match xs with
  | [] => inr []
  | x :: xs' =>
      match vendor_of_json x with
      | inl e => inl e
      | inr v => match map_vendors xs' with
                 | inl e => inl e
                 | inr vs => inr (v :: vs)
                 end
      end
  end.

(** [parseVendorAnalysis(responseText)]; [responseText] is the value of
    [data.candidates?.[0]?.content?.parts?.[0]?.text || ''], any JSON
    value. *)
Definition parseVendorAnalysis (responseText : json) : parse_error + list vendor_comparison :=
  match responseText with
  | JStr t =>
      match json_parse (clean_response t) with
      | None => inl PE_Syntax
      | Some (JArr xs) => map_vendors xs
      | Some _ => inl PE_NotArray
      end
  | _ => inl PE_NotString
  end.

(** A response wrapped in a Markdown code block tagged [tag]. *)
Definition fenced (tag t : string) : string := fence ++ tag ++ nl ++ t ++ nl ++ fence.

(** *** Lemmas on the fence stripping *)

Lemma fenced_assoc (tag t : string) : fenced tag t = (fence ++ tag ++ nl ++ t ++ nl) ++ fence.
Proof. unfold fenced. by rewrite !str_app_assoc. Qed.

Lemma trim_fenced (tag t : string) : trim (fenced tag t) = fenced tag t.
Proof.
  unfold trim, trim_end. replace (trim_start (fenced tag t)) with (fenced tag t)
    by (unfold fenced, fence; autorewrite with vdp_rw; reflexivity).
  rewrite fenced_assoc, trim_end_app_nonempty; done.
Qed.

Lemma prefix_fence_false (tag t : string) :
  includes t fence = false -> is_prefix (fence ++ tag) t = false.
Proof.
  intros Hp%includes_false_prefix.
  destruct (is_prefix (fence ++ tag) t) eqn:E; [|done].
  apply prefix_app_inv in E. congruence.
Qed.

Lemma clean_unfenced (t : string) :
  includes t fence = false -> trim t = t -> clean_response t = t.
Proof.
  intros Hf Ht. unfold clean_response, starts_with. rewrite Ht.
  change fence_json with (fence ++ "json").
  by rewrite prefix_fence_false, includes_false_prefix.
Qed.

Lemma strip_end_nl_fence (t : string) : strip_end fence (t ++ nl ++ fence) = t ++ nl.
Proof.
  unfold strip_end. rewrite ends_with_app_iff by reflexivity. simpl.
  rewrite str_app_assoc, ends_with_app_iff by reflexivity.
  rewrite String.eqb_refl. apply drop_suffix_app.
Qed.

Lemma fenced_head (tag t : string) :
  fenced tag t = fence ++ tag ++ String "010" (t ++ nl ++ fence).
Proof. reflexivity. Qed.

Lemma clean_fenced_json (t : string) :
  includes t fence = false -> clean_response (fenced "json" t) = t ++ nl.
Proof.
  intros Hf. unfold clean_response. rewrite trim_fenced.
  change (starts_with (fenced "json" t) fence_json) with true. cbv iota.
  rewrite fenced_head.
  change (strip_all fence_json (fence ++ "json" ++ String "010" (t ++ nl ++ fence)))
    with (strip_all_aux fence_json 0 (t ++ String "010" fence)).
  rewrite strip_all_aux_app_sep; [|done|done|by apply (includes_app_inv fence "json")].
  change (String "010" (strip_all_aux fence_json 0 fence)) with (nl ++ fence).
  apply strip_end_nl_fence.
Qed.

Lemma clean_fenced_plain (t : string) :
  includes t fence = false -> clean_response (fenced "" t) = t ++ nl.
Proof.
  intros Hf. unfold clean_response. rewrite trim_fenced.
  change (starts_with (fenced "" t) fence_json) with false.
  change (starts_with (fenced "" t) fence) with true. cbv iota.
  rewrite fenced_head.
  change (strip_all fence (fence ++ "" ++ String "010" (t ++ nl ++ fence)))
    with (strip_all_aux fence 0 (t ++ String "010" fence)).
  by rewrite strip_all_aux_app_sep.
Qed.

Lemma json_parse_nl (t : string) : json_parse (t ++ nl) = json_parse t.
Proof.
  rewrite <- (str_app_nil t) at 1. rewrite <- str_app_assoc.
  by apply json_parse_ws.
Qed.

(** *** Properties of [parseVendorAnalysis] *)

(** C15 (round trip, spec section 8): a response wrapped in a [```json]
    code block parses to the same vendors as the bare response, for
    every response text with no code fence inside and no surrounding
    whitespace. *)
Theorem parseVendorAnalysis_fence_json (t : string) :
  includes t fence = false -> trim t = t ->
  parseVendorAnalysis (JStr (fenced "json" t)) = parseVendorAnalysis (JStr t).
Proof.
  intros Hf Ht. simpl. by rewrite clean_fenced_json, clean_unfenced, json_parse_nl.
Qed.

(** The same for an untagged [```] code block. *)
Theorem parseVendorAnalysis_fence_plain (t : string) :
  includes t fence = false -> trim t = t ->
  parseVendorAnalysis (JStr (fenced "" t)) = parseVendorAnalysis (JStr t).
Proof.
  intros Hf Ht. simpl. by rewrite clean_fenced_plain, clean_unfenced, json_parse_nl.
Qed.

(** [k] is missing from the object, or holds a falsy value. *)
Definition absent_or_falsy (kvs : list (string * json)) (k : string) : bool :=
  match assoc_last k kvs with
  | None => true
  | Some v => negb (truthy v)
  end.

Lemma vendor_of_json_ok (v : json) : v <> JNull -> vendor_of_json v = inr (to_vendor v).
Proof.
  intros Hv. unfold vendor_of_json.
  destruct (get_prop v "name") eqn:E; try done. by apply get_prop_type_error in E.
Qed.

Lemma map_vendors_ok (xs : list json) :
  JNull ∉ xs -> map_vendors xs = inr (map to_vendor xs).
Proof.
  induction xs as [|x xs IH]; intros Hn; [done|].
  apply not_elem_of_cons in Hn as [Hx Hxs]. simpl.
  by rewrite vendor_of_json_ok, IH.
Qed.

Lemma map_vendors_null (xs : list json) :
  JNull ∈ xs -> map_vendors xs = inl PE_NullElement.
Proof.
  induction xs as [|x xs IH]; intros Hn; [by apply not_elem_of_nil in Hn|].
  simpl. apply elem_of_cons in Hn as [<-|Hn]; [done|].
  destruct (vendor_of_json x) as [e|v] eqn:E; [|by rewrite IH].
  unfold vendor_of_json in E. by destruct (get_prop x "name"); simplify_eq.
Qed.

Lemma map_vendors_inl (xs : list json) (e : parse_error) :
  map_vendors xs = inl e <-> e = PE_NullElement /\ JNull ∈ xs.
Proof.
  split; [|intros [-> Hn]; by apply map_vendors_null].
  induction xs as [|x xs IH]; [done|]. simpl.
  destruct x as [| | | | |]; [intros [= <-]; split; [done|by left]|..];
    rewrite vendor_of_json_ok by done;
    destruct (map_vendors xs); intros [= <-]; destruct (IH eq_refl) as [-> Hn]; split; try done; by right.
Qed.

Lemma read_or_falsy (kvs : list (string * json)) (k : string) (d : json) :
  absent_or_falsy kvs k = true -> read_or (JObj kvs) k d = d.
Proof.
  unfold absent_or_falsy, read_or. simpl.
  destruct (assoc_last k kvs) as [v|]; [|done].
  intros H. apply negb_true_iff in H. by rewrite falsy_or_default.
Qed.

(** A parsed array without [null] maps to its vendors. *)
Lemma parse_ok_vendors (t : string) (xs : list json) :
  json_parse (clean_response t) = Some (JArr xs) -> JNull ∉ xs ->
  parseVendorAnalysis (JStr t) = inr (map to_vendor xs).
Proof. intros Hp Hn. simpl. rewrite Hp. by apply map_vendors_ok. Qed.

(** C12 (functional): an array of non-[null] elements never makes
    [parseVendorAnalysis] throw; it yields one vendor per element, in
    the order of the array. *)
Theorem parseVendorAnalysis_ok (t : string) (xs : list json) :
  json_parse (clean_response t) = Some (JArr xs) -> JNull ∉ xs ->
  parseVendorAnalysis (JStr t) = inr (map to_vendor xs).
Proof. apply parse_ok_vendors. Qed.

(** C13 (error): [parseVendorAnalysis] throws exactly in four ways, each
    with its own error: a response text that is not a string, text that
    is not JSON, JSON that is not an array, and an array with a [null]
    element; it throws on no other input. *)
Theorem parseVendorAnalysis_errors (v : json) (e : parse_error) :
  parseVendorAnalysis v = inl e <->
  (e = PE_NotString /\ forall u, v <> JStr u) \/
  (exists t, v = JStr t /\
     ((e = PE_Syntax /\ json_parse (clean_response t) = None) \/
      (e = PE_NotArray /\ exists j, json_parse (clean_response t) = Some j /\ forall xs, j <> JArr xs) \/
      (e = PE_NullElement /\ exists xs, json_parse (clean_response t) = Some (JArr xs) /\ JNull ∈ xs))).
Proof.
  split.
  - destruct v as [| | |t| |]; simpl; try (intros [= <-]; left; split; [done|by intros u]).
    destruct (json_parse (clean_response t)) as [[| | | |xs|]|] eqn:Hp; intros He;
      right; exists t; (split; [done|]);
      try (injection He as <-; right; left; split; [done|]; by eexists).
    + apply map_vendors_inl in He as [-> Hn]. right; right. eauto.
    + injection He as <-. by left.
  - intros [[-> Hv]|(t & -> & [[-> Hp]|[[-> (j & Hp & Hj)]|[-> (xs & Hp & Hn)]]])]; simpl.
    + destruct v; try done. by destruct (Hv s).
    + by rewrite Hp.
    + rewrite Hp. destruct j; try done. by destruct (Hj xs).
    + rewrite Hp. by apply map_vendors_inl.
Qed.

(** C14 (functional, spec section 8 "Defaulting"): an element whose
    [keyFeatures], [risks] and [overallScore] are missing (or falsy)
    parses without throwing, to [keyFeatures: []], [risks: []] and
    [overallScore: 0]. *)
Theorem parseVendorAnalysis_defaults (t : string) (xs : list json) (i : nat)
    (kvs : list (string * json)) :
  json_parse (clean_response t) = Some (JArr xs) -> JNull ∉ xs ->
  xs !! i = Some (JObj kvs) ->
  absent_or_falsy kvs "keyFeatures" = true -> absent_or_falsy kvs "risks" = true ->
  absent_or_falsy kvs "overallScore" = true ->
  exists vs v, parseVendorAnalysis (JStr t) = inr vs /\ vs !! i = Some v /\
    vc_keyFeatures v = JArr [] /\ vc_risks v = JArr [] /\ vc_overallScore v = JNum 0%Q.
Proof.
  intros Hp Hn Hi Hk Hr Hs. exists (map to_vendor xs), (to_vendor (JObj kvs)).
  split_and!; [by apply parse_ok_vendors|by rewrite list_lookup_fmap, Hi| | |];
    simpl; by apply read_or_falsy.
Qed.

(** C16 (bounds; spec section 8 says scores are clamped to [0, 100]): the
    parser passes a truthy [overallScore] through unchanged, whatever its
    value or type. *)
Theorem parseVendorAnalysis_score_unclamped (t : string) (xs : list json) (i : nat)
    (kvs : list (string * json)) (v : json) :
  json_parse (clean_response t) = Some (JArr xs) -> JNull ∉ xs ->
  xs !! i = Some (JObj kvs) -> assoc_last "overallScore" kvs = Some v -> truthy v = true ->
  exists vs w, parseVendorAnalysis (JStr t) = inr vs /\ vs !! i = Some w /\
    vc_overallScore w = v.
Proof.
  intros Hp Hn Hi Hv Ht. exists (map to_vendor xs), (to_vendor (JObj kvs)).
  split_and!; [by apply parse_ok_vendors|by rewrite list_lookup_fmap, Hi|].
  simpl. unfold read_or. simpl. rewrite Hv. by apply truthy_or_default.
Qed.

(** *** Witnesses at concrete LLM responses *)

(** [[{"name":"Acme","overallScore":88}]] *)
Definition sample_response : string :=
  "[{" ++ quoted "name" ++ ":" ++ quoted "Acme" ++ "," ++ quoted "overallScore" ++ ":88}]".

Lemma parseVendorAnalysis_fence_json_witness :
  includes sample_response fence = false /\ trim sample_response = sample_response /\
  parseVendorAnalysis (JStr (fenced "json" sample_response)) =
  parseVendorAnalysis (JStr sample_response).
Proof.
  split; [reflexivity|split; [reflexivity|]].
  apply parseVendorAnalysis_fence_json; reflexivity.
Defined.

Lemma parseVendorAnalysis_fence_plain_witness :
  includes sample_response fence = false /\ trim sample_response = sample_response /\
  parseVendorAnalysis (JStr (fenced "" sample_response)) =
  parseVendorAnalysis (JStr sample_response).
Proof.
  split; [reflexivity|split; [reflexivity|]].
  apply parseVendorAnalysis_fence_plain; reflexivity.
Defined.

Lemma parseVendorAnalysis_ok_witness :
  exists xs, json_parse (clean_response sample_response) = Some (JArr xs) /\ (JNull ∉ xs) /\
  parseVendorAnalysis (JStr sample_response) = inr (map to_vendor xs).
Proof.
  eexists. split; [vm_compute; reflexivity|].
  assert (Hn : JNull ∉ [JObj [("name", JStr "Acme"); ("overallScore", JNum (88 # 1))]])
    by (intros [H|H]%elem_of_cons; [discriminate|by apply not_elem_of_nil in H]).
  split; [exact Hn|]. apply parseVendorAnalysis_ok; [vm_compute; reflexivity|exact Hn].
Defined.

(** [{}] is JSON but not an array. *)
Lemma parseVendorAnalysis_errors_witness :
  json_parse (clean_response "{}") = Some (JObj []) /\
  parseVendorAnalysis (JStr "{}") = inl PE_NotArray.
Proof.
  split; [reflexivity|].
  apply (parseVendorAnalysis_errors (JStr "{}") PE_NotArray).
  right. exists "{}". split; [done|]. right; left. split; [done|].
  exists (JObj []). split; [reflexivity|]. by intros xs.
Defined.

(** [[{"name":"Acme","risks":null}]]: [keyFeatures] and [overallScore]
    are missing, [risks] is [null]. *)
Definition sample_partial : string :=
  "[{" ++ quoted "name" ++ ":" ++ quoted "Acme" ++ "," ++ quoted "risks" ++ ":null}]".

Lemma parseVendorAnalysis_defaults_witness :
  exists vs v, parseVendorAnalysis (JStr sample_partial) = inr vs /\ vs !! 0 = Some v /\
    vc_keyFeatures v = JArr [] /\ vc_risks v = JArr [] /\ vc_overallScore v = JNum 0%Q.
Proof.
  apply (parseVendorAnalysis_defaults sample_partial
           [JObj [("name", JStr "Acme"); ("risks", JNull)]] 0
           [("name", JStr "Acme"); ("risks", JNull)]);
    try (vm_compute; reflexivity).
  intros [H|H]%elem_of_cons; [discriminate|by apply not_elem_of_nil in H].
Defined.

(** [[{"overallScore":150}]]: the score 150 reaches the caller. *)
Definition sample_out_of_range : string := "[{" ++ quoted "overallScore" ++ ":150}]".

Lemma parseVendorAnalysis_score_unclamped_witness :
  exists vs w, parseVendorAnalysis (JStr sample_out_of_range) = inr vs /\ vs !! 0 = Some w /\
    vc_overallScore w = JNum (150 # 1).
Proof.
  apply (parseVendorAnalysis_score_unclamped sample_out_of_range
           [JObj [("overallScore", JNum (150 # 1))]] 0 [("overallScore", JNum (150 # 1))]);
    try (vm_compute; reflexivity).
  intros [H|H]%elem_of_cons; [discriminate|by apply not_elem_of_nil in H].
Defined.

End Parse.

(** ** [buildAnalysisPrompt] *)

Module Prompt.

(** ["k": "v"] *)
Definition kv (k v : string) : string := quoted k ++ ": " ++ quoted v.

Definition lines (ls : list string) : string := join nl ls.

(** [`${idx + 1}. [${req.priority.toUpperCase()}] ${req.description}
    (Weight: ${req.weight || 5}/10)`] *)
Definition requirement_line (idx : nat) (req : requirement) : string :=
  pretty (S idx) ++ ". [" ++ to_upper (priority_str (req_priority req)) ++ "] " ++
  req_description req ++ " (Weight: " ++
  pretty (match req_weight req with
          | Some w => if Z.eqb w 0 then 5%Z else w
          | None => 5%Z
          end) ++ "/10)".

(** [JSON.stringify(data.pricing)]: the keys in the order [extractPricing]
    builds the object. *)
Definition pricing_json (p : pricing) : string :=
  "{" ++ quoted "model" ++ ":" ++ json_quote (pricing_model p) ++ "," ++
  quoted "range" ++ ":" ++ json_quote (pricing_range p) ++ "," ++
  quoted "currency" ++ ":" ++ json_quote (pricing_currency p) ++ "}".

(** One vendor block (lines 80-86); [data.features] is an array, truthy
    even when empty. *)
Definition vendor_block (idx : nat) (data : scraped_data) : string :=
  nl ++ "=== VENDOR " ++ pretty (S idx) ++ ": " ++ sd_title data ++ " ===" ++ nl ++
  "Website: " ++ sd_url data ++ nl ++
  "Content: " ++ slice (sd_content data) 2000 ++ nl ++
  match sd_pricing data with
  | Some p => "Pricing: " ++ pricing_json p
  | None => ""
  end ++ nl ++
  match sd_features data with
  | Some fs => "Features: " ++ join ", " fs
  | None => ""
  end ++ nl ++ "  ".

(** Lines 71-123; [now_iso] is [new Date().toISOString()]. *)
Definition buildAnalysisPrompt (now_iso need : string) (requirements : list requirement)
    (scrapedData : list scraped_data) : string :=
  let requirementsText := join nl (imap requirement_line requirements) in
  let vendorDataText := join (nl ++ nl) (imap vendor_block scrapedData) in
  lines [
    "You are a vendor analysis expert. Analyze these vendors for the following need and requirements.";
    "";
    "NEED: " ++ need;
    "";
    "REQUIREMENTS:";
    requirementsText;
    "";
    "VENDOR DATA:";
    vendorDataText;
    "";
    "Your task:";
    "1. For each vendor, analyze how well they meet the requirements";
    "2. Extract pricing information (range, model, currency)";
    "3. Identify key features that match the requirements";
    "4. Note any risks, limitations, or concerns";
    "5. Provide evidence (quotes from the content) for your analysis";
    "6. Score each vendor (0-100) based on requirement match";
    "";
    "Return your analysis as a JSON array with this EXACT structure:";
    "[";
    "  {";
    "    " ++ kv "name" "Vendor Name" ++ ",";
    "    " ++ kv "website" "https://..." ++ ",";
    "    " ++ kv "description" "Brief description" ++ ",";
    "    " ++ kv "priceRange" "$10-50/month or Contact Sales" ++ ",";
    "    " ++ kv "pricingModel" "Per User/Monthly/Annual/Usage-based/Freemium" ++ ",";
    "    " ++ kv "currency" "USD" ++ ",";
    "    " ++ quoted "keyFeatures" ++ ": [" ++ quoted "feature1" ++ ", " ++
      quoted "feature2" ++ ", " ++ quoted "feature3" ++ "],";
    "    " ++ quoted "matchedRequirements" ++ ": [";
    "      {";
    "        " ++ kv "requirement" "requirement description" ++ ",";
    "        " ++ quoted "met" ++ ": true,";
    "        " ++ kv "evidence" "Quote from content showing this";
    "      }";
    "    ],";
    "    " ++ quoted "risks" ++ ": [" ++ quoted "risk1" ++ ", " ++ quoted "risk2" ++ "],";
    "    " ++ quoted "evidenceLinks" ++ ": [";
    "      {";
    "        " ++ kv "url" "source url" ++ ",";
    "        " ++ kv "snippet" "relevant quote" ++ ",";
    "        " ++ kv "relevance" "high" ++ ",";
    "        " ++ kv "timestamp" now_iso;
    "      }";
    "    ],";
    "    " ++ quoted "overallScore" ++ ": 85,";
    "    " ++ quoted "requirementMatch" ++ ": 90";
    "  }";
    "]";
    "";
    "IMPORTANT:";
    "- Only include vendors that are clearly relevant to the need";
    "- Be honest about limitations and risks";
    "- Use actual quotes from the content as evidence";
    "- If pricing is not found, use " ++ quoted "Contact Sales";
    "- Scores should be realistic (50-95 range)";
    "- Return ONLY valid JSON, no markdown formatting, no backticks, no explanation"].

(** ** Properties *)

Lemma imap_elem {A B} (f : nat -> A -> B) (l : list A) (i : nat) (x : A) :
  l !! i = Some x -> f i x ∈ imap f l.
Proof. intros Hi. apply (list_elem_of_lookup_2 _ i). by rewrite list_lookup_imap, Hi. Qed.

Ltac in_prompt_list :=
  repeat first [apply elem_of_cons; left; reflexivity | apply elem_of_cons; right].

(** The prompt carries the block of every scraped page: its title,
    its URL, its content cut to 2000 characters, its pricing guess and
    its features, numbered from 1 in the order of the pages. *)
Theorem buildAnalysisPrompt_pages (now_iso need : string) (requirements : list requirement)
    (scrapedData : list scraped_data) (i : nat) (data : scraped_data) :
  scrapedData !! i = Some data ->
  includes (buildAnalysisPrompt now_iso need requirements scrapedData) (vendor_block i data) = true.
Proof.
  intros Hi. unfold buildAnalysisPrompt, lines.
  apply (includes_trans _ (join (nl ++ nl) (imap vendor_block scrapedData)));
    [apply includes_join; in_prompt_list|by apply includes_join, imap_elem].
Qed.



End Prompt.

(** ** [analyzeVendors] *)

Module Gemini.

Import Parse Prompt.

(** What [await fetch(...)] yields: a thrown network error, or a
    response with its [ok] flag, [status] and body text. *)
Inductive fetch_result : Type :=
| FetchThrows (msg : string)
| FetchResponse (ok : bool) (status : Z) (body : string).

(** The configuration and the endpoint [analyzeVendors] reads: the
    module constant [GEMINI_API_KEY] and the [fetch] of the request whose
    body carries the prompt. *)
Record gemini_env : Type := mk_gemini_env {
  gemini_api_key : option string;
  gemini_fetch : string -> fetch_result
}.

(** What is caught and rethrown as [AI analysis failed: ...]. *)
Inductive analysis_cause : Type :=
| AC_Network (msg : string)               (** [fetch] threw *)
| AC_Http (status : Z) (body : string)    (** [Gemini API error: ${status} ${error}] *)
| AC_BadBody                              (** [response.json()] threw *)
| AC_NullData                             (** [data.candidates] on [null] *)
| AC_Parse (e : parse_error).             (** [Failed to parse AI response: ...] *)

Inductive analysis_error : Type :=
| AE_NotConfigured                        (** [GOOGLE_GEMINI_API_KEY is not configured] *)
| AE_Failed (c : analysis_cause).

(** [x?.[0]]: the element [0] of an array, the property ["0"] of an
    object, the first character of a string; [undefined] otherwise. *)
Definition opt_index0 (x : option json) : option json :=
  match x with
  | Some (JArr (v :: _)) => Some v
  | Some (JObj kvs) => assoc_last "0" kvs
  | Some (JStr (String c _)) => Some (JStr (String c ""))
  | _ => None
  end.

(** [data.candidates?.[0]?.content?.parts?.[0]?.text || d]: the first
    read is not optional, and throws when [data] is [null] ([None]). *)
Definition response_text (d : string) (data : json) : option json :=
  match get_prop data "candidates" with
  | PropTypeError => None
  | PropValue c =>
      Some (or_default (opt_get (opt_index0 (opt_get (opt_get (opt_index0 (Some c))
              "content") "parts")) "text") (JStr d))
  | PropUndefined => Some (JStr d)
  end.

(** Lines 6-48.  The key check precedes the [try]; everything inside the
    [try] is rethrown with the prefix [AI analysis failed: ]. *)
Definition analyzeVendors (env : gemini_env) (now_iso need : string)
    (requirements : list requirement) (scrapedData : list scraped_data)
    : analysis_error + list vendor_comparison :=
  match gemini_api_key env with
  | None | Some EmptyString => inl AE_NotConfigured
  | Some _ =>
      let prompt := buildAnalysisPrompt now_iso need requirements scrapedData in
      match gemini_fetch env prompt with
      | FetchThrows msg => inl (AE_Failed (AC_Network msg))
      | FetchResponse false status body => inl (AE_Failed (AC_Http status body))
      | FetchResponse true _ body =>
          match json_parse body with
          | None => inl (AE_Failed AC_BadBody)
          | Some data =>
              match response_text "" data with
              | None => inl (AE_Failed AC_NullData)
              | Some responseText =>
                  match parseVendorAnalysis responseText with
                  | inl e => inl (AE_Failed (AC_Parse e))
                  | inr vs => inr vs
                  end
              end
          end
      end
  end.

(** The prompt of lines 169-174. *)
Definition suggestions_prompt (need : string) : string :=
  "Given this need: " ++ quoted need ++ nl ++ nl ++
  "Suggest 5-8 well-known vendors/services that could fulfill this need. " ++ nl ++
  "Return ONLY a JSON array of vendor names, nothing else." ++ nl ++ nl ++
  "Example format: [" ++ quoted "Vendor1" ++ ", " ++ quoted "Vendor2" ++ ", " ++
  quoted "Vendor3" ++ "]".

(** [generateVendorSuggestions], lines 164-208: after the key check,
    every failure of the [try] is caught and yields [[]]; a successful
    parse is returned as it is, whatever JSON value it is. *)
Definition generateVendorSuggestions (env : gemini_env) (need : string)
    : analysis_error + json :=
  match gemini_api_key env with
  | None | Some EmptyString => inl AE_NotConfigured
  | Some _ =>
      inr (match gemini_fetch env (suggestions_prompt need) with
           | FetchResponse true _ body =>
               match json_parse body with
               | Some data =>
                   match response_text "[]" data with
                   | Some (JStr responseText) =>
                       let cleaned := trim responseText in
                       let cleaned := if starts_with cleaned fence_json
                                      then strip_end fence (strip_all fence_json cleaned)
                                      else cleaned in
                       match json_parse cleaned with
                       | Some v => v
                       | None => JArr []
                       end
                   | _ => JArr []
                   end
               | None => JArr []
               end
           | _ => JArr []
           end)
  end.

(** The envelope of a Gemini answer whose first part is [t]. *)
Definition envelope (t : string) : json :=
  JObj [("candidates",
         JArr [JObj [("content", JObj [("parts", JArr [JObj [("text", JStr t)]])])]])].

(** C17 (functional): with the key configured, a 2xx answer whose body is the Gemini
    envelope of a non-empty text [t] makes [analyzeVendors] return what
    [parseVendorAnalysis] makes of [t], its errors wrapped as analysis
    failures. *)
Theorem analyzeVendors_text (env : gemini_env) (now_iso need : string)
    (requirements : list requirement) (scrapedData : list scraped_data)
    (key : string) (status : Z) (body t : string) :
  gemini_api_key env = Some key -> key <> "" ->
  gemini_fetch env (buildAnalysisPrompt now_iso need requirements scrapedData) =
    FetchResponse true status body ->
  json_parse body = Some (envelope t) -> t <> "" ->
  analyzeVendors env now_iso need requirements scrapedData =
    match parseVendorAnalysis (JStr t) with
    | inl e => inl (AE_Failed (AC_Parse e))
    | inr vs => inr vs
    end.
Proof.
  intros Hk Hne Hf Hp Ht. unfold analyzeVendors. rewrite Hk.
  destruct key; [done|]. rewrite Hf, Hp. unfold response_text. simpl.
  by destruct t.
Qed.

Lemma response_text_envelope (d t : string) :
  t <> "" -> response_text d (envelope t) = Some (JStr t).
Proof. intros Ht. unfold response_text. simpl. by destruct t. Qed.

(** [generateVendorSuggestions] returns the parsed answer without
    checking it: whatever JSON value the model's text holds (an object,
    a number, an array of non-strings) is returned as the [string[]] of
    vendor names. *)
Theorem generateVendorSuggestions_unchecked (env : gemini_env) (need key : string)
    (status : Z) (body t : string) (v : json) :
  gemini_api_key env = Some key -> key <> "" ->
  gemini_fetch env (suggestions_prompt need) = FetchResponse true status body ->
  json_parse body = Some (envelope t) -> t <> "" ->
  starts_with (trim t) fence_json = false -> json_parse (trim t) = Some v ->
  generateVendorSuggestions env need = inr v.
Proof.
  intros Hk Hne Hf Hp Ht Hs Hv. unfold generateVendorSuggestions. rewrite Hk.
  destruct key; [done|]. rewrite Hf, Hp, response_text_envelope by done.
  cbv beta iota zeta. rewrite Hs. by rewrite Hv.
Qed.

End Gemini.

(** ** Witnesses of the prompt and request theorems *)

Module AnalyzerWitnesses.
Import Prompt Gemini.

Definition req : requirement := mk_requirement "1" "Under $50/month" MustHave (Some 9%Z).

Definition page : scraped_data :=
  mk_scraped "https://mailer.example" "Mailer" "Transactional email API"
    (Some (mk_pricing "Monthly" "$19.99" "USD")) (Some ["SMTP relay"]).

Lemma buildAnalysisPrompt_pages_witness :
  includes (buildAnalysisPrompt "2026-01-01T00:00:00.000Z" "Email delivery" [req] [page])
    (vendor_block 0 page) = true.
Proof. by apply buildAnalysisPrompt_pages. Defined.


(** The body of a 2xx answer whose text is [[]]. *)
Definition body : string :=
  "{" ++ quoted "candidates" ++ ":[{" ++ quoted "content" ++ ":{" ++ quoted "parts" ++ ":[{" ++
  quoted "text" ++ ":" ++ quoted "[]" ++ "}]}}]}".

Definition env : gemini_env := mk_gemini_env (Some "key") (fun _ => FetchResponse true 200 body).

Lemma analyzeVendors_text_witness :
  analyzeVendors env "2026-01-01T00:00:00.000Z" "Email delivery" [req] [page] =
    match Parse.parseVendorAnalysis (JStr "[]") with
    | inl e => inl (AE_Failed (AC_Parse e))
    | inr vs => inr vs
    end.
Proof.
  apply (analyzeVendors_text env _ _ _ _ "key" 200 body "[]");
    [reflexivity|discriminate|reflexivity|vm_compute; reflexivity|discriminate].
Defined.

(** The model answers an object. *)
Definition body_obj : string :=
  "{" ++ quoted "candidates" ++ ":[{" ++ quoted "content" ++ ":{" ++ quoted "parts" ++ ":[{" ++
  quoted "text" ++ ":" ++ quoted "{}" ++ "}]}}]}".

Lemma generateVendorSuggestions_unchecked_witness :
  generateVendorSuggestions (mk_gemini_env (Some "key") (fun _ => FetchResponse true 200 body_obj))
    "Email delivery" = inr (JObj []).
Proof.
  apply (generateVendorSuggestions_unchecked _ _ "key" 200 body_obj "{}");
    first [reflexivity|discriminate|vm_compute; reflexivity].
Defined.

End AnalyzerWitnesses.
