(* ===== verification/Regex.v ===== *)
(** * JavaScript regular expressions, and the hand-written matchers

    The code applies four regular expressions: [/\s+/g] (scraper.ts,
    lines 75, 79 and 92), [/\$\d+(?:,\d{3})*(?:\.\d{2})?/g] (line 95),
    [/```json\n?/g], [/```\n?/g] and [/```\n?$/g] (gemini.ts, lines 131,
    133 and 200).  The components model each with a scanner of its own
    ([collapse_ws], [price_matches], [strip_all], [strip_end]).  This
    file gives the reference: the backtracking semantics of ECMAScript
    regular expressions (ECMA-262, section 22.2.2: a matcher takes a
    state and a continuation; quantifiers are greedy and an iteration
    that consumes nothing fails), the search of [RegExpBuiltinExec]
    (section 22.2.7.2: try at each index from left to right), the loop
    of [String.prototype.match] and [replace] with a [g] flag (sections
    22.2.6.8 and 22.2.6.11: resume after the match, one index further
    after an empty match), and proves each scanner equal to it.

    The matcher state is the rest of the input: the patterns have no
    look-behind, no back-reference and no [\b], so nothing reads what
    lies before the index; an index is the suffix that starts there. *)

From S2P Require Import Prelude JsString Scraper Analyzer.

Open Scope string_scope.

(** ** Patterns *)

Inductive regex : Type :=
| REmpty                          (** the empty alternative *)
| RChar (c : ascii)               (** a literal character *)
| RClass (p : ascii -> bool)      (** a character class such as [\d], [\s] *)
| RSeq (r1 r2 : regex)            (** [r1 r2] *)
| RAlt (r1 r2 : regex)            (** [r1|r2] *)
| ROpt (r : regex)                (** [r?], greedy *)
| RStar (r : regex)               (** [r*], greedy *)
| REnd.                           (** [$] without the [m] flag *)

(** [r+] is [r{1,}]: one iteration without the empty check, then [r*]. *)
Definition RPlus (r : regex) : regex := RSeq r (RStar r).

(** [r{n}]: [n] iterations, none of them optional. *)
Fixpoint RPow (n : nat) (r : regex) : regex :=
  match n with O => REmpty | S n' => RSeq r (RPow n' r) end.

(** A literal string. *)
Fixpoint RLit (s : string) : regex :=
  match s with EmptyString => REmpty | String c s' => RSeq (RChar c) (RLit s') end.

(** ** The backtracking matcher *)

(** A continuation receives the state after a match and answers the
    final state of the whole match, or failure. *)
Definition cont : Type := string -> option string.

(** One pass of the matcher over the pattern; [star r y k] continues a
    loop [r*] from [y] (with less fuel).  The [?] and [*] continuations
    refuse an iteration that did not advance ([y] is a suffix of [s], so
    its index differs from [s]'s exactly when it is shorter). *)
Fixpoint bm_go (star : regex -> string -> cont -> option string)
    (r : regex) (s : string) (k : cont) : option string :=
  match r with
  | REmpty => k s
  | RChar c => match s with String d s' => if Ascii.eqb c d then k s' else None | EmptyString => None end
  | RClass p => match s with String d s' => if p d then k s' else None | EmptyString => None end
  | RSeq r1 r2 => bm_go star r1 s (fun y => bm_go star r2 y k)
  | RAlt r1 r2 => match bm_go star r1 s k with Some z => Some z | None => bm_go star r2 s k end
  | ROpt r1 =>
      match bm_go star r1 s (fun y => if Nat.ltb (String.length y) (String.length s) then k y else None) with
      | Some z => Some z
      | None => k s
      end
  | RStar r1 =>
      match bm_go star r1 s (fun y => if Nat.ltb (String.length y) (String.length s) then star r1 y k else None) with
      | Some z => Some z
      | None => k s
      end
  | REnd => match s with EmptyString => k s | String _ _ => None end
  end.

(** Each loop iteration consumes a character, so [S (length s)] of fuel
    is enough (Lemma [bm_fuel]). *)
Fixpoint bm (fuel : nat) : regex -> string -> cont -> option string :=
  match fuel with
  | O => fun _ _ _ => None
  | S f => bm_go (fun r1 => bm f (RStar r1))
  end.

(** The matcher at one index, with the identity continuation: the state
    where the match ends. *)
Definition exec_at (r : regex) (s : string) : option string :=
  bm (S (String.length s)) r s Some.

(** [RegExpBuiltinExec] without the sticky flag: the first index where
    the pattern matches; the text before it, the match, the rest. *)
Fixpoint search (r : regex) (s : string) : option (string * string * string) :=
  match exec_at r s with
  | Some rest => Some ("", String.substring 0 (String.length s - String.length rest) s, rest)
  | None =>
      match s with
      | EmptyString => None
      | String c s' =>
          match search r s' with
          | Some (b, m, rest) => Some (String c b, m, rest)
          | None => None
          end
      end
  end.

(** [s.match(r)] with the [g] flag: the list of matches ([null] is the
    empty list). *)
Fixpoint match_all_aux (fuel : nat) (r : regex) (s : string) : list string :=
  match fuel with
  | O => []
  | S f =>
      match search r s with
      | None => []
      | Some (_, m, rest) =>
          m :: (if String.eqb m "" then
                  match rest with EmptyString => [] | String _ rest' => match_all_aux f r rest' end
                else match_all_aux f r rest)
      end
  end.

Definition js_match_all (r : regex) (s : string) : list string :=
  match_all_aux (S (String.length s)) r s.

(** [s.replace(r, rep)] with the [g] flag, for a replacement [rep]
    without [$] patterns. *)
Fixpoint replace_aux (fuel : nat) (r : regex) (rep s : string) : string :=
  match fuel with
  | O => s
  | S f =>
      match search r s with
      | None => s
      | Some (b, m, rest) =>
          b ++ rep ++
            (if String.eqb m "" then
               match rest with EmptyString => "" | String c rest' => String c (replace_aux f r rep rest') end
             else replace_aux f r rep rest)
      end
  end.

Definition js_replace_all (r : regex) (rep s : string) : string :=
  replace_aux (S (String.length s)) r rep s.

(** ** The patterns of the code *)

(** [\s+] *)
Definition ws_re : regex := RPlus (RClass is_ws).

(** [\$\d+(?:,\d{3})*(?:\.\d{2})?] *)
Definition price_re : regex :=
  RSeq (RSeq (RSeq (RChar "$") (RPlus (RClass is_digit)))
             (RStar (RSeq (RChar ",") (RPow 3 (RClass is_digit)))))
       (ROpt (RSeq (RChar ".") (RPow 2 (RClass is_digit)))).

(** [```json\n?] and [```\n?] *)
Definition fence_re (pat : string) : regex := RSeq (RLit pat) (ROpt (RChar "010")).

(** [```\n?$] *)
Definition fence_end_re (pat : string) : regex := RSeq (fence_re pat) REnd.

(** [cleanResponse] (gemini.ts lines 129-134) as the source writes it,
    with the library's [replace]. *)
Definition clean_response_js (text : string) : string :=
  let cleaned := trim text in
  if starts_with cleaned fence_json then
    js_replace_all (fence_end_re fence) "" (js_replace_all (fence_re fence_json) "" cleaned)
  else if starts_with cleaned fence then js_replace_all (fence_re fence) "" cleaned
  else cleaned.

(** ** The matcher: fuel and suffixes *)

Definition str_suffix (y s : string) : Prop := exists p, s = p ++ y.

Lemma str_suffix_refl (s : string) : str_suffix s s.
Proof. by exists "". Qed.

Lemma str_suffix_cons (c : ascii) (s : string) : str_suffix s (String c s).
Proof. by exists (String c ""). Qed.

Lemma str_suffix_trans (x y z : string) : str_suffix x y -> str_suffix y z -> str_suffix x z.
Proof. intros [p ->] [q ->]. exists (q ++ p). by rewrite str_app_assoc. Qed.

#[local] Hint Resolve str_suffix_refl str_suffix_cons str_suffix_trans : vdp.

Section Matcher.
Implicit Types (r : regex) (s y : string) (k : cont).

(** The matcher only calls its continuation and the loop on suffixes of
    its input: two continuations that agree there give the same answer. *)
Lemma bm_go_ext (n : nat) (star star' : regex -> string -> cont -> option string) :
  (forall r1 y k k', String.length y < n ->
     (forall z, String.length z <= String.length y -> k z = k' z) -> star r1 y k = star' r1 y k') ->
  forall r s k k', String.length s <= n ->
  (forall y, String.length y <= String.length s -> k y = k' y) ->
  bm_go star r s k = bm_go star' r s k'.
Proof.
  intros Hst r. induction r as [| | |r1 IH1 r2 IH2|r1 IH1 r2 IH2|r IH|r IH|];
    intros s k k' Hs Hk; simpl.
  - apply Hk; lia.
  - destruct s as [|d s]; [done|]. case_match; [apply Hk; simpl; lia|done].
  - destruct s as [|d s]; [done|]. case_match; [apply Hk; simpl; lia|done].
  - apply IH1; [done|]. intros y Hy. apply IH2; [lia|]. intros z Hz. apply Hk. lia.
  - rewrite (IH1 s k k') by done. case_match; [done|]. by apply IH2.
  - rewrite (IH s _ (fun y => if Nat.ltb (String.length y) (String.length s) then k' y else None));
      [case_match; [done|apply Hk; lia]|done|].
    intros y Hy. destruct (Nat.ltb_spec (String.length y) (String.length s)); [|done]. apply Hk; lia.
  - rewrite (IH s _ (fun y => if Nat.ltb (String.length y) (String.length s) then star' r y k' else None));
      [case_match; [done|apply Hk; lia]|done|].
    intros y Hy. destruct (Nat.ltb_spec (String.length y) (String.length s)); [|done].
    apply Hst; [lia|]. intros z Hz. apply Hk. lia.
  - destruct s; [apply Hk; lia|done].
Qed.

(** Fuel beyond the length of the input changes nothing. *)
Lemma bm_fuel (f f' : nat) r s k k' :
  String.length s < f -> String.length s < f' ->
  (forall y, String.length y <= String.length s -> k y = k' y) ->
  bm f r s k = bm f' r s k'.
Proof.
  revert f' r s k k'. induction f as [|f IH]; intros [|f'] r s k k' Hf Hf' Hk; try lia.
  simpl. apply (bm_go_ext (String.length s)); [|lia|done].
  intros r1 y k1 k1' Hy Hk1. apply IH; [lia|lia|done].
Qed.

(** A match answers what the continuation answers at a suffix. *)
Lemma bm_go_suffix (star : regex -> string -> cont -> option string) :
  (forall r1 y k z, star r1 y k = Some z -> exists y', str_suffix y' y /\ k y' = Some z) ->
  forall r s k z, bm_go star r s k = Some z -> exists y, str_suffix y s /\ k y = Some z.
Proof.
  intros Hst r. induction r as [| | |r1 IH1 r2 IH2|r1 IH1 r2 IH2|r IH|r IH|];
    intros s k z H; simpl in H.
  - eauto with vdp.
  - destruct s as [|d s]; [done|]. case_match; [eauto with vdp|done].
  - destruct s as [|d s]; [done|]. case_match; [eauto with vdp|done].
  - destruct (IH1 _ _ _ H) as (y & Hy & H2). destruct (IH2 _ _ _ H2) as (y' & Hy' & Hk).
    eauto with vdp.
  - destruct (bm_go star r1 s k) eqn:E; simplify_eq; eauto.
  - destruct (bm_go star r s _) eqn:E; simplify_eq; [|eauto with vdp].
    destruct (IH _ _ _ E) as (y & Hy & Hk). case_match; [eauto|done].
  - destruct (bm_go star r s _) eqn:E; simplify_eq; [|eauto with vdp].
    destruct (IH _ _ _ E) as (y & Hy & Hk). case_match; [|done].
    destruct (Hst _ _ _ _ Hk) as (y' & Hy' & Hk'). eauto with vdp.
  - destruct s; [eauto with vdp|done].
Qed.

Lemma bm_suffix (f : nat) r s k z :
  bm f r s k = Some z -> exists y, str_suffix y s /\ k y = Some z.
Proof.
  revert r s k z. induction f as [|f IH]; [done|]. simpl. apply bm_go_suffix.
  intros r1. apply IH.
Qed.

Lemma exec_at_suffix r s rest : exec_at r s = Some rest -> exists p, s = p ++ rest.
Proof. intros (y & Hy & [= ->])%bm_suffix. exact Hy. Qed.

Lemma exec_at_split r s rest :
  exec_at r s = Some rest -> String.substring 0 (String.length s - String.length rest) s ++ rest = s.
Proof. intros [p ->]%exec_at_suffix. by rewrite str_length_app, Nat.add_sub, substring_app_l. Qed.

(** The search answers the text before the match, the match and the rest. *)
Lemma search_split r s b m rest : search r s = Some (b, m, rest) -> s = b ++ m ++ rest.
Proof.
  revert b m rest. induction s as [|c s IH]; intros b m rest; simpl;
    destruct (exec_at r _) as [rest'|] eqn:E.
  1,3: intros [= <- <- <-]; rewrite str_app_nil; symmetry; apply (exec_at_split _ _ _ E).
  - done.
  - destruct (search r s) as [[[b' m'] rest'']|] eqn:Es; [|done]. intros [= <- <- <-].
    rewrite (IH _ _ _ eq_refl). done.
Qed.

End Matcher.

(** ** The [g] loops *)

(** A pattern that never matches the empty string. *)
Definition consumes (r : regex) : Prop :=
  forall t rest, exec_at r t = Some rest -> String.length rest < String.length t.

Section Global.
Variable r : regex.

Lemma search_length s b m rest :
  search r s = Some (b, m, rest) ->
  String.length s = String.length b + String.length m + String.length rest.
Proof. intros ->%search_split. rewrite !str_length_app. lia. Qed.

Lemma consumes_match t rest :
  consumes r -> exec_at r t = Some rest ->
  String.substring 0 (String.length t - String.length rest) t <> "".
Proof.
  intros Hc E Hm. pose proof (exec_at_split _ _ _ E) as Hs. rewrite Hm, str_app_nil in Hs.
  apply Hc in E. rewrite Hs in E. lia.
Qed.

Lemma search_consumes s b m rest :
  consumes r -> search r s = Some (b, m, rest) -> m <> "".
Proof.
  intros Hc. revert b m rest. induction s as [|c s IH]; intros b m rest; cbn [search];
    destruct (exec_at r _) as [rest'|] eqn:E.
  1,3: intros [= <- <- <-]; apply (consumes_match _ _ Hc E).
  - done.
  - destruct (search r s) as [[[b' m'] rest'']|] eqn:Es; [|done]. intros [= <- <- <-]. eauto.
Qed.

Lemma match_all_fuel (f f' : nat) s :
  String.length s < f -> String.length s < f' -> match_all_aux f r s = match_all_aux f' r s.
Proof.
  revert f' s. induction f as [|f IH]; intros [|f'] s Hf Hf'; try lia. simpl.
  destruct (search r s) as [[[b m] rest]|] eqn:E; [|done]. apply search_length in E.
  f_equal. destruct (String.eqb_spec m "") as [->|Hm].
  - destruct rest as [|c rest]; [done|]. simpl in E. apply IH; lia.
  - destruct m; [congruence|]. simpl in E. apply IH; lia.
Qed.

Lemma replace_fuel (rep : string) (f f' : nat) s :
  String.length s < f -> String.length s < f' -> replace_aux f r rep s = replace_aux f' r rep s.
Proof.
  revert f' s. induction f as [|f IH]; intros [|f'] s Hf Hf'; try lia. simpl.
  destruct (search r s) as [[[b m] rest]|] eqn:E; [|done]. apply search_length in E.
  do 2 f_equal. destruct (String.eqb_spec m "") as [->|Hm].
  - destruct rest as [|c rest]; [done|]. simpl in E. f_equal. apply IH; lia.
  - destruct m; [congruence|]. simpl in E. apply IH; lia.
Qed.

(** The fixpoint equations of the loops. *)
Lemma js_match_all_unfold s :
  js_match_all r s =
  match search r s with
  | None => []
  | Some (_, m, rest) =>
      m :: (if String.eqb m "" then
              match rest with EmptyString => [] | String _ rest' => js_match_all r rest' end
            else js_match_all r rest)
  end.
Proof.
  unfold js_match_all at 1. simpl. destruct (search r s) as [[[b m] rest]|] eqn:E; [|done].
  apply search_length in E. f_equal. unfold js_match_all.
  destruct (String.eqb_spec m "") as [->|Hm]; [destruct rest as [|c rest]; [done|]|];
    apply match_all_fuel; simpl in *; try lia. destruct m; [congruence|]. simpl in E. lia.
Qed.

Lemma js_replace_all_unfold (rep s : string) :
  js_replace_all r rep s =
  match search r s with
  | None => s
  | Some (b, m, rest) =>
      b ++ rep ++
        (if String.eqb m "" then
           match rest with EmptyString => "" | String c rest' => String c (js_replace_all r rep rest') end
         else js_replace_all r rep rest)
  end.
Proof.
  unfold js_replace_all at 1. simpl. destruct (search r s) as [[[b m] rest]|] eqn:E; [|done].
  apply search_length in E. do 2 f_equal. unfold js_replace_all.
  destruct (String.eqb_spec m "") as [->|Hm]; [destruct rest as [|c rest]; [done|]; f_equal|];
    apply replace_fuel; simpl in *; try lia. destruct m; [congruence|]. simpl in E. lia.
Qed.

(** A scanner that, at each step, answers the match the search finds
    and resumes after it is the [g] loop, for a pattern that never
    matches the empty string. *)
Section Scanners.
Hypothesis Hc : consumes r.

Lemma match_all_by_steps (model : string -> list string) :
  (forall s, model s = match search r s with None => [] | Some (_, m, rest) => m :: model rest end) ->
  forall s, model s = js_match_all r s.
Proof.
  intros Hstep s. remember (String.length s) as n eqn:Hn. revert s Hn.
  induction n as [n IH] using lt_wf_ind. intros s ->.
  rewrite Hstep, js_match_all_unfold. destruct (search r s) as [[[b m] rest]|] eqn:E; [|done].
  pose proof (search_consumes _ _ _ _ Hc E) as Hm. apply search_length in E.
  destruct (String.eqb_spec m "") as [->|_]; [done|]. f_equal.
  apply (IH (String.length rest)); [|done]. destruct m; [congruence|]. simpl in E. lia.
Qed.

Lemma replace_by_steps (rep : string) (model : string -> string) :
  (forall s, model s = match search r s with None => s | Some (b, _, rest) => b ++ rep ++ model rest end) ->
  forall s, model s = js_replace_all r rep s.
Proof.
  intros Hstep s. remember (String.length s) as n eqn:Hn. revert s Hn.
  induction n as [n IH] using lt_wf_ind. intros s ->.
  rewrite Hstep, js_replace_all_unfold. destruct (search r s) as [[[b m] rest]|] eqn:E; [|done].
  pose proof (search_consumes _ _ _ _ Hc E) as Hm. apply search_length in E.
  destruct (String.eqb_spec m "") as [->|_]; [done|]. do 2 f_equal.
  apply (IH (String.length rest)); [|done]. destruct m; [congruence|]. simpl in E. lia.
Qed.

End Scanners.
End Global.

(** ** Patterns that match one way *)

(** At each index, [r] matches [L s] characters or fails, whatever
    the continuation. *)
Definition det_len (r : regex) (L : string -> option nat) : Prop :=
  forall star s k, bm_go star r s k = match L s with Some n => k (sdrop n s) | None => None end.

(** A match consumes at least one character. *)
Definition advances (L : string -> option nat) : Prop :=
  forall s n, L s = Some n -> 0 < n <= String.length s.

Definition class_len (p : ascii -> bool) (s : string) : option nat :=
  match s with String d _ => if p d then Some 1 else None | EmptyString => None end.

Definition seq_len (L1 L2 : string -> option nat) (s : string) : option nat :=
  match L1 s with
  | Some n => match L2 (sdrop n s) with Some m => Some (n + m) | None => None end
  | None => None
  end.

Fixpoint pow_len (n : nat) (L : string -> option nat) : string -> option nat :=
  match n with O => fun _ => Some 0 | S n' => seq_len L (pow_len n' L) end.

Definition lit_len (pat s : string) : option nat :=
  if is_prefix pat s then Some (String.length pat) else None.

Section Det.
Implicit Types (r : regex) (L : string -> option nat).

Lemma det_class p : det_len (RClass p) (class_len p).
Proof. intros star [|d s] k; simpl; [done|]. by destruct (p d). Qed.

Lemma det_char c : det_len (RChar c) (class_len (Ascii.eqb c)).
Proof. intros star [|d s] k; simpl; [done|]. by destruct (Ascii.eqb c d). Qed.

Lemma det_seq r1 r2 L1 L2 : det_len r1 L1 -> det_len r2 L2 -> det_len (RSeq r1 r2) (seq_len L1 L2).
Proof.
  intros H1 H2 star s k. simpl. rewrite H1. unfold seq_len. destruct (L1 s) as [n|]; [|done].
  rewrite H2. destruct (L2 (sdrop n s)); [by rewrite sdrop_sdrop|done].
Qed.

Lemma det_pow n r L : det_len r L -> det_len (RPow n r) (pow_len n L).
Proof. intros H. induction n as [|n IH]; [done|]. by apply det_seq. Qed.

Lemma det_lit pat : det_len (RLit pat) (lit_len pat).
Proof.
  intros star s k. unfold lit_len. revert s k. induction pat as [|a pat IH]; intros s k; [done|].
  destruct s as [|d s]; [done|]. simpl. destruct (Ascii.eqb a d); [|done].
  rewrite IH. simpl. by destruct (is_prefix pat s).
Qed.

Lemma class_len_advances p : advances (class_len p).
Proof. intros [|d s] n; simpl; [done|]. destruct (p d); intros; simplify_eq; lia. Qed.

Lemma seq_len_advances L1 L2 : advances L1 -> (forall s n, L2 s = Some n -> n <= String.length s) ->
  advances (seq_len L1 L2).
Proof.
  intros H1 H2 s n. unfold seq_len. destruct (L1 s) as [a|] eqn:E1; [|done].
  destruct (L2 (sdrop a s)) as [b|] eqn:E2; [|done]. intros [= <-].
  apply H1 in E1. apply H2 in E2. rewrite length_sdrop in E2. lia.
Qed.

Lemma pow_len_le n L : (forall s m, L s = Some m -> m <= String.length s) ->
  forall s m, pow_len n L s = Some m -> m <= String.length s.
Proof.
  intros HL. induction n as [|n IH]; intros s m; simpl; [intros; simplify_eq; lia|].
  unfold seq_len. destruct (L s) as [a|] eqn:E1; [|done].
  destruct (pow_len n L (sdrop a s)) as [b|] eqn:E2; [|done]. intros [= <-].
  apply HL in E1. apply IH in E2. rewrite length_sdrop in E2. lia.
Qed.

Lemma lit_len_advances pat : pat <> "" -> advances (lit_len pat).
Proof.
  intros Hp s n. unfold lit_len. destruct (is_prefix pat s) eqn:E; [|done]. intros [= <-].
  apply prefix_length in E. destruct pat; [done|]. simpl in *. lia.
Qed.

Lemma bm_go_assoc star r1 r2 r3 s k :
  bm_go star (RSeq (RSeq r1 r2) r3) s k = bm_go star (RSeq r1 (RSeq r2 r3)) s k.
Proof. reflexivity. Qed.

Lemma seq_det star r1 r2 L s k : det_len r1 L ->
  bm_go star (RSeq r1 r2) s k = match L s with Some n => bm_go star r2 (sdrop n s) k | None => None end.
Proof. intros H. simpl. by rewrite H. Qed.

(** Greedy quantifiers over such a pattern, followed by a continuation
    that cannot fail: the loop takes every iteration it can. *)
Section Greedy.
Variables (r : regex) (L : string -> option nat).
Hypotheses (Hdet : det_len r L) (Hadv : advances L).

Definition opt_len (s : string) : nat := match L s with Some n => n | None => 0 end.

Lemma opt_greedy star s k :
  (forall y, String.length y <= String.length s -> k y <> None) ->
  bm_go star (ROpt r) s k = k (sdrop (opt_len s) s).
Proof.
  intros Hk. simpl. rewrite Hdet. unfold opt_len. destruct (L s) as [n|] eqn:E; [|done].
  destruct (Hadv _ _ E). rewrite length_sdrop.
  destruct (Nat.ltb_spec (String.length s - n) (String.length s)); [|lia].
  destruct (k (sdrop n s)) eqn:Ek; [done|]. exfalso. apply (Hk _ (length_sdrop_le n s) Ek).
Qed.

Lemma star_greedy (G : string -> nat) (f : nat) s k :
  (forall s, G s = match L s with Some n => n + G (sdrop n s) | None => 0 end) ->
  (forall y, String.length y <= String.length s -> k y <> None) ->
  String.length s < f -> bm f (RStar r) s k = k (sdrop (G s) s).
Proof.
  intros HG. revert s. induction f as [|f IH]; intros s Hk Hs; [lia|].
  cbn [bm bm_go]. rewrite Hdet, (HG s). destruct (L s) as [n|] eqn:E; [|done].
  destruct (Hadv _ _ E). rewrite length_sdrop.
  destruct (Nat.ltb_spec (String.length s - n) (String.length s)); [|lia].
  rewrite IH, sdrop_sdrop; [| |rewrite length_sdrop; lia].
  - destruct (k _) eqn:Ek; [done|]. exfalso. apply (Hk _ (length_sdrop_le _ s) Ek).
  - intros y Hy. apply Hk. rewrite length_sdrop in Hy. lia.
Qed.

(** The loop followed by more pattern. *)
Lemma star_seq (G : string -> nat) (f : nat) r2 s k :
  (forall s, G s = match L s with Some n => n + G (sdrop n s) | None => 0 end) ->
  (forall y, String.length y <= String.length s -> bm_go (fun r1 => bm f (RStar r1)) r2 y k <> None) ->
  String.length s <= f ->
  bm_go (fun r1 => bm f (RStar r1)) (RSeq (RStar r) r2) s k =
  bm_go (fun r1 => bm f (RStar r1)) r2 (sdrop (G s) s) k.
Proof.
  intros HG Hk Hs. change (bm (S f) (RStar r) s (fun y => bm_go (fun r1 => bm f (RStar r1)) r2 y k) =
                           bm_go (fun r1 => bm f (RStar r1)) r2 (sdrop (G s) s) k).
  apply (star_greedy G (S f) s (fun y => bm_go (fun r1 => bm f (RStar r1)) r2 y k)); [done|done|lia].
Qed.

End Greedy.
End Det.

Lemma advances_le (L : string -> option nat) : advances L ->
  forall s m, L s = Some m -> m <= String.length s.
Proof. intros H s m E. apply H in E. lia. Qed.

(** ** [/\$\d+(?:,\d{3})*(?:\.\d{2})?/g] is [price_matches] *)

Module Price.

Definition digit_len : string -> option nat := class_len is_digit.
Definition group_len : string -> option nat :=
  seq_len (class_len (Ascii.eqb ",")) (pow_len 3 digit_len).
Definition cents_re_len : string -> option nat :=
  seq_len (class_len (Ascii.eqb ".")) (pow_len 2 digit_len).

Lemma group_advances : advances group_len.
Proof.
  apply seq_len_advances; [apply class_len_advances|].
  apply pow_len_le, advances_le, class_len_advances.
Qed.

Lemma cents_advances : advances cents_re_len.
Proof.
  apply seq_len_advances; [apply class_len_advances|].
  apply pow_len_le, advances_le, class_len_advances.
Qed.

(** The scanner's helpers are the greedy lengths of the pattern's parts;
    the literal characters of their patterns are compared bit by bit. *)
Lemma lead_digits_eq s :
  lead_digits s = match digit_len s with Some n => n + lead_digits (sdrop n s) | None => 0 end.
Proof. destruct s as [|d s]; [done|]. simpl. by destruct (is_digit d). Qed.

(** Rewrites with the known digit tests until the matches reduce. *)
Ltac digits_simpl :=
  repeat (cbn; match goal with H : is_digit ?x = _ |- context [is_digit ?x] => rewrite H end).

Lemma groups_len_eq s :
  groups_len s = match group_len s with Some n => n + groups_len (sdrop n s) | None => 0 end.
Proof.
  destruct s as [|c [|a [|b [|d s]]]]; [done| | | |];
    destruct c as [[] [] [] [] [] [] [] []]; try reflexivity;
    cbv [group_len digit_len seq_len pow_len class_len];
    try destruct (is_digit a) eqn:Ha; try destruct (is_digit b) eqn:Hb;
    try destruct (is_digit d) eqn:Hd; digits_simpl; done.
Qed.

Lemma cents_len_eq s : cents_len s = opt_len cents_re_len s.
Proof.
  destruct s as [|c [|a [|b s]]]; [done| | |];
    destruct c as [[] [] [] [] [] [] [] []]; try reflexivity;
    cbv [opt_len cents_re_len digit_len seq_len pow_len class_len];
    try destruct (is_digit a) eqn:Ha; try destruct (is_digit b) eqn:Hb; digits_simpl; done.
Qed.

Lemma price_at_cons c t :
  price_at (String c t) =
  if Ascii.eqb "$" c then
    let n := lead_digits t in
    if Nat.eqb n 0 then 0
    else let g := groups_len (sdrop n t) in 1 + n + g + cents_len (sdrop g (sdrop n t))
  else 0.
Proof. destruct c as [[] [] [] [] [] [] [] []]; reflexivity. Qed.

Section Fuel.
Variable f : nat.
Abbreviation st := (fun r1 => bm f (RStar r1)).

Lemma price_tail y : String.length y <= f ->
  bm_go st (RSeq (RStar (RSeq (RChar ",") (RPow 3 (RClass is_digit))))
                 (ROpt (RSeq (RChar ".") (RPow 2 (RClass is_digit))))) y Some =
  Some (sdrop (cents_len (sdrop (groups_len y) y)) (sdrop (groups_len y) y)).
Proof.
  intros Hy. assert (Hc := det_seq _ _ _ _ (det_char ".") (det_pow 2 _ _ (det_class is_digit))).
  rewrite (star_seq _ group_len (det_seq _ _ _ _ (det_char ",") (det_pow 3 _ _ (det_class is_digit)))
             group_advances groups_len); [|apply groups_len_eq| |done].
  - rewrite (opt_greedy _ _ Hc cents_advances); [by rewrite cents_len_eq|done].
  - intros z _. rewrite (opt_greedy _ _ Hc cents_advances); done.
Qed.

Lemma price_re_match s : String.length s <= f ->
  bm_go st price_re s Some =
  if Nat.eqb (price_at s) 0 then None else Some (sdrop (price_at s) s).
Proof.
  intros Hs. unfold price_re, RPlus. rewrite !bm_go_assoc, (seq_det _ _ _ _ _ _ (det_char "$")).
  destruct s as [|c t]; [done|]. rewrite price_at_cons. cbn [class_len].
  destruct (Ascii.eqb "$" c); [|done]. cbn [sdrop].
  rewrite bm_go_assoc, (seq_det _ _ _ _ _ _ (det_class is_digit)).
  destruct t as [|d u]; [done|]. cbn [class_len lead_digits]. destruct (is_digit d); [|done].
  cbn [sdrop]. simpl in Hs.
  rewrite (star_seq _ digit_len (det_class is_digit) (class_len_advances _) lead_digits);
    [|apply lead_digits_eq| |lia].
  - rewrite price_tail by (rewrite length_sdrop; lia). cbn [Nat.eqb sdrop].
    replace (1 + S (lead_digits u) + _ + _) with (S (S (lead_digits u + groups_len (sdrop (lead_digits u) u) +
      cents_len (sdrop (groups_len (sdrop (lead_digits u) u)) (sdrop (lead_digits u) u))))) by lia.
    cbn [sdrop]. by rewrite !sdrop_sdrop, Nat.add_assoc.
  - intros z Hz. rewrite price_tail by lia. done.
Qed.

End Fuel.

Lemma exec_price s :
  exec_at price_re s = if Nat.eqb (price_at s) 0 then None else Some (sdrop (price_at s) s).
Proof. apply price_re_match. done. Qed.

Lemma price_consumes : consumes price_re.
Proof.
  intros [|c t] rest; rewrite exec_price; [done|]. remember (price_at (String c t)) as n.
  destruct (Nat.eqb_spec n 0); [done|]. intros [= <-].
  rewrite length_sdrop. cbn [String.length]. lia.
Qed.

Lemma price_matches_aux_skip k s : price_matches_aux k s = price_matches_aux 0 (sdrop k s).
Proof. revert k. induction s as [|c s IH]; intros [|k]; simpl; auto. Qed.

Lemma price_step s :
  price_matches s = match search price_re s with None => [] | Some (_, m, rest) => m :: price_matches rest end.
Proof.
  unfold price_matches. induction s as [|c s IH]; [done|].
  cbn [price_matches_aux search]. rewrite exec_price.
  destruct (Nat.eqb_spec (price_at (String c s)) 0) as [E|E].
  - cbv iota. rewrite IH. by destruct (search price_re s) as [[[b m] rest]|].
  - rewrite substring_before_sdrop, price_matches_aux_skip. destruct (price_at (String c s)); [done|].
    simpl. by rewrite Nat.sub_0_r.
Qed.

End Price.

(** ** [/\s+/g] replaced by [' '] is [collapse_ws] *)

Module Whitespace.

(** The length of the run of whitespace at the head. *)
Fixpoint ws_run (s : string) : nat :=
  match s with String c s' => if is_ws c then S (ws_run s') else 0 | EmptyString => 0 end.

Lemma ws_run_eq s :
  ws_run s = match class_len is_ws s with Some n => n + ws_run (sdrop n s) | None => 0 end.
Proof. destruct s as [|c s]; [done|]. simpl. by destruct (is_ws c). Qed.

Lemma exec_ws s :
  exec_at ws_re s =
  match s with String c t => if is_ws c then Some (sdrop (ws_run t) t) else None | EmptyString => None end.
Proof.
  unfold exec_at, ws_re, RPlus. cbn [bm]. rewrite (seq_det _ _ _ _ _ _ (det_class is_ws)).
  destruct s as [|c t]; [done|]. cbn [class_len]. destruct (is_ws c); [|done]. cbn [sdrop].
  change (bm (S (String.length (String c t))) (RStar (RClass is_ws)) t Some = Some (sdrop (ws_run t) t)).
  apply (star_greedy _ _ (det_class is_ws) (class_len_advances _)); [apply ws_run_eq|done|simpl; lia].
Qed.

Lemma ws_consumes : consumes ws_re.
Proof.
  intros [|c t] rest; rewrite exec_ws; [done|]. destruct (is_ws c); [|done].
  intros [= <-]. pose proof (length_sdrop_le (ws_run t) t). simpl. lia.
Qed.

(** Inside a run, the scanner drops the rest of the run. *)
Lemma collapse_in_run s : collapse_aux true s = collapse_aux false (sdrop (ws_run s) s).
Proof.
  induction s as [|c s IH]; [done|]. simpl. destruct (is_ws c) eqn:E; [exact IH|simpl; by rewrite E].
Qed.

Lemma collapse_step s :
  collapse_ws s = match search ws_re s with None => s | Some (b, _, rest) => b ++ " " ++ collapse_ws rest end.
Proof.
  unfold collapse_ws. induction s as [|c s IH]; [done|].
  cbn [collapse_aux search]. rewrite exec_ws. destruct (is_ws c).
  - cbv iota. rewrite collapse_in_run. done.
  - cbv iota. rewrite IH. by destruct (search ws_re s) as [[[b m] rest]|].
Qed.

End Whitespace.

(** ** The fence patterns of [cleanResponse] *)

Module Fence.
Section Pat.
Variable pat : string.
Hypothesis Hpat : pat <> "".

Lemma prefix_nil_false : is_prefix pat "" = false.
Proof. by destruct pat. Qed.

Lemma fence_match_len_pos s : 1 <= fence_match_len pat s.
Proof. unfold fence_match_len. destruct pat; [done|]. case_match; simpl; lia. Qed.

Lemma exec_fence s :
  exec_at (fence_re pat) s = if is_prefix pat s then Some (sdrop (fence_match_len pat s) s) else None.
Proof.
  unfold exec_at, fence_re. cbn [bm]. rewrite (seq_det _ _ _ _ _ _ (det_lit pat)). unfold lit_len.
  destruct (is_prefix pat s) eqn:Hp; [|done].
  rewrite (opt_greedy _ _ (det_char "010") (class_len_advances _)); [|done].
  rewrite sdrop_sdrop. unfold fence_match_len, opt_len. rewrite is_prefix_app_r by done.
  destruct (sdrop (String.length pat) s) as [|x u]; [cbn; by rewrite Nat.add_0_r|].
  cbn [class_len is_prefix]. destruct (Ascii.eqb "010" x); cbn [andb]; by rewrite ?Nat.add_0_r, ?Nat.add_1_r.
Qed.

Lemma fence_consumes : consumes (fence_re pat).
Proof.
  intros t rest. rewrite exec_fence. destruct (is_prefix pat t) eqn:Hp; [|done]. intros [= <-].
  apply prefix_length in Hp. pose proof (fence_match_len_pos t).
  rewrite length_sdrop. destruct pat; [done|]. simpl in Hp. lia.
Qed.

Lemma strip_all_aux_sdrop k s : strip_all_aux pat k s = strip_all_aux pat 0 (sdrop k s).
Proof. revert k. induction s as [|c s IH]; intros [|k]; simpl; auto. Qed.

Lemma strip_all_step s :
  strip_all pat s = match search (fence_re pat) s with None => s | Some (b, _, rest) => b ++ "" ++ strip_all pat rest end.
Proof.
  unfold strip_all. induction s as [|c s IH].
  - cbn [search]. rewrite exec_fence, prefix_nil_false. done.
  - cbn [strip_all_aux search]. rewrite exec_fence. destruct (is_prefix pat (String c s)).
    + cbv iota. rewrite strip_all_aux_sdrop. pose proof (fence_match_len_pos (String c s)).
      destruct (fence_match_len pat (String c s)) as [|n]; [lia|]. simpl. by rewrite Nat.sub_0_r.
    + cbv iota. rewrite IH. by destruct (search (fence_re pat) s) as [[[b m] rest]|].
Qed.

Lemma fence_end_tail star v :
  bm_go star (RSeq (ROpt (RChar "010")) REnd) v Some =
  if String.eqb v (String "010" "") || String.eqb v "" then Some "" else None.
Proof.
  destruct v as [|x [|e v]]; cbn [bm_go String.eqb]; [done| |].
  - destruct (Ascii.eqb_spec "010" x) as [<-|Hx]; [reflexivity|].
    rewrite (proj2 (Ascii.eqb_neq x "010")) by congruence. reflexivity.
  - destruct (Ascii.eqb "010" x), (Ascii.eqb x "010"); try destruct (Nat.ltb _ _); reflexivity.
Qed.

(** [```\n?$] matches only a whole remaining input [pat\n] or [pat]. *)
Lemma exec_fence_end t :
  exec_at (fence_end_re pat) t =
  if String.eqb t (pat ++ String "010" "") || String.eqb t pat then Some "" else None.
Proof.
  unfold exec_at, fence_end_re, fence_re. cbn [bm].
  rewrite bm_go_assoc, (seq_det _ _ _ _ _ _ (det_lit pat)). unfold lit_len.
  destruct (is_prefix pat t) eqn:Hp.
  - apply is_prefix_spec in Hp as [v ->]. rewrite sdrop_app.
    rewrite str_eqb_app_l, str_eqb_app_nil. apply fence_end_tail.
  - destruct (String.eqb_spec t (pat ++ String "010" "")) as [->|_].
    + by rewrite (proj2 (is_prefix_spec _ _)) in Hp by eauto.
    + destruct (String.eqb_spec t pat) as [->|_]; [|done].
      rewrite (proj2 (is_prefix_spec pat pat)) in Hp; [done|]. exists "". by rewrite str_app_nil_r.
Qed.

Lemma fence_end_consumes : consumes (fence_end_re pat).
Proof.
  intros t rest. rewrite exec_fence_end. destruct (String.eqb_spec t (pat ++ String "010" "")) as [->|_].
  - intros [= <-]. rewrite str_length_app. simpl. lia.
  - destruct (String.eqb_spec t pat) as [->|_]; [|done]. intros [= <-]. destruct pat; [done|]. simpl. lia.
Qed.

Lemma strip_end_nil : strip_end pat "" = "".
Proof. unfold strip_end, ends_with. by destruct pat. Qed.

(** Away from the end, [strip_end] keeps the first character. *)
Lemma strip_end_cons c s :
  String c s <> pat ++ String "010" "" -> String c s <> pat ->
  strip_end pat (String c s) = String c (strip_end pat s).
Proof.
  intros H1 H2. unfold strip_end. rewrite !ends_with_cons by done.
  destruct (ends_with s (pat ++ String "010" "")) eqn:E1; [by apply drop_suffix_cons, ends_with_length|].
  destruct (ends_with s pat) eqn:E2; [by apply drop_suffix_cons, ends_with_length|done].
Qed.

Lemma strip_end_step s :
  strip_end pat s =
  match search (fence_end_re pat) s with None => s | Some (b, _, rest) => b ++ "" ++ strip_end pat rest end.
Proof.
  induction s as [|c s IH].
  - cbn [search]. rewrite exec_fence_end, strip_end_nil. by destruct pat.
  - cbn [search]. rewrite exec_fence_end.
    destruct (String.eqb_spec (String c s) (pat ++ String "010" "")) as [E|E1]; cbn [orb].
    + cbv iota. rewrite strip_end_nil, E. unfold strip_end. by rewrite ends_with_self, drop_suffix_self.
    + destruct (String.eqb_spec (String c s) pat) as [E|E2]; cbn [orb]; cbv iota.
      * rewrite strip_end_nil, E. unfold strip_end.
        destruct (ends_with pat (pat ++ String "010" "")) eqn:F.
        { apply ends_with_length in F. rewrite str_length_app in F. simpl in F. lia. }
        by rewrite ends_with_self, drop_suffix_self.
      * rewrite strip_end_cons, IH by done. by destruct (search (fence_end_re pat) s) as [[[b m] rest]|].
Qed.
End Pat.
End Fence.

Lemma strip_all_regex (pat s : string) :
  pat <> "" -> strip_all pat s = js_replace_all (fence_re pat) "" s.
Proof.
  intros Hp. revert s. apply (replace_by_steps _ (Fence.fence_consumes pat Hp)), Fence.strip_all_step, Hp.
Qed.

Lemma strip_end_regex (pat s : string) :
  pat <> "" -> strip_end pat s = js_replace_all (fence_end_re pat) "" s.
Proof.
  intros Hp. revert s. apply (replace_by_steps _ (Fence.fence_end_consumes pat Hp)), Fence.strip_end_step, Hp.
Qed.

(** ** Properties *)

(** The scanner [price_matches], which models
    [text.match(/\$\d+(?:,\d{3})*(?:\.\d{2})?/g)] in [extractPricing],
    answers for every text exactly the matches of ECMAScript's
    backtracking matcher with the [g] loop: the greedy lengths it
    computes are the first match the backtracking finds, and it resumes
    where [lastIndex] does. *)
Theorem price_matches_regex (s : string) : price_matches s = js_match_all price_re s.
Proof. revert s. apply (match_all_by_steps _ Price.price_consumes), Price.price_step. Qed.

(** [collapse_ws], which models [.replace(/\s+/g, ' ')] in
    [extractMainContent] and [extractPricing], is the JavaScript
    replacement for every text. *)
Theorem collapse_ws_regex (s : string) : collapse_ws s = js_replace_all ws_re " " s.
Proof. revert s. apply (replace_by_steps _ Whitespace.ws_consumes), Whitespace.collapse_step. Qed.

(** [cleanResponse] as modelled ([Parse.clean_response], with its
    hand-written fence strippers) is, on every response text, the
    source's chain of [replace] calls with JavaScript's regular
    expressions [/```json\n?/g], [/```\n?$/g] and [/```\n?/g]. *)
Theorem clean_response_regex (s : string) : Parse.clean_response s = clean_response_js s.
Proof.
  unfold Parse.clean_response, clean_response_js.
  by rewrite !strip_all_regex, strip_end_regex by discriminate.
Qed.

(** The reference runs: a price with one decimal digit backtracks out
    of the optional cents and matches [$5]. *)
Example price_regex_run :
  js_match_all price_re "Pro $1,299.99/mo, Team $49, Add-on $5.5, $,99" = ["$1,299.99"; "$49"; "$5"].
Proof. vm_compute. reflexivity. Qed.

(** The pattern only knows the dollar sign: a page that prices in euros
    or pounds (both keywords of [extractPricing]) yields no amount. *)
Example euro_amounts_not_extracted :
  price_matches ("Team plan " ++ euro ++ "49/month, Pro plan " ++ String "194" (String "163" "") ++ "99") = [] /\
  js_match_all price_re ("Team plan " ++ euro ++ "49/month") = [].
Proof. vm_compute. split; reflexivity. Qed.
