(* ===== verification/Store.v ===== *)
(** * The Prisma store

    The three tables the API routes use ([prisma.shortlist],
    [prisma.vendor], [prisma.healthCheck]) as finite maps from fresh
    numeric ids to rows, and the Prisma calls of the routes as operations
    of the monad [run db store_error].  The Prisma schema is not part of
    [src/]: the column types are those of [src/src/types/index.ts] and of
    the spec (section 6), and a [vendor.create] whose data does not fit
    them fails the way Prisma's validation does.  [ORDER BY ... DESC]
    leaves ties in an unspecified order; it is modelled by a merge sort,
    which is one of the orders the database may return.  [prisma_call]
    is a call made while the database may be unreachable: it then
    rejects with [SE_Unavailable] and writes nothing. *)

From S2P Require Import Prelude JsString Json Types.
From Stdlib Require Import ZArith QArith.

Close Scope Q_scope.
Open Scope nat_scope.
Open Scope string_scope.

(** ** Rows *)

Record shortlist_row : Type := mk_shortlist {
  sl_needDescription : string;
  sl_requirements : list requirement;
  sl_status : status;
  sl_errorMessage : option string;
  sl_processingTime : option Z;
  sl_createdAt : Z
}.

Record vendor_row : Type := mk_vendor_row {
  vr_shortlistId : nat;
  vr_name : string;
  vr_website : string;
  vr_description : string;
  vr_priceRange : string;
  vr_pricingModel : string;
  vr_currency : string;
  vr_keyFeatures : list string;
  vr_matchedRequirements : json;
  vr_risks : list string;
  vr_evidenceLinks : json;
  vr_overallScore : Q;
  vr_requirementMatch : Q
}.

Record health_row : Type := mk_health_row {
  hc_service : string;
  hc_status : service_status;
  hc_responseTime : option Z;
  hc_errorMessage : option string
}.

Record db : Type := mk_db {
  db_shortlists : gmap nat shortlist_row;
  db_vendors : gmap nat vendor_row;
  db_health : list health_row;
  db_next : nat
}.

Inductive store_error : Type :=
| SE_NotFound (id : nat)       (** [update] of a missing row (P2025) *)
| SE_Validation                (** data that does not fit a column *)
| SE_Unavailable.              (** the database cannot be reached *)

Abbreviation store := (run db store_error).

(** ** Column conversions of [vendor.create] *)

Definition json_string (v : json) : option string :=
  match v with JStr s => Some s | _ => None end.

Definition json_number (v : json) : option Q :=
  match v with JNum q => Some q | _ => None end.

Definition json_string_list (v : json) : option (list string) :=
  match v with
  | JArr xs => mapM json_string xs
  | _ => None
  end.

(** The [data] of [prisma.vendor.create] in [route.ts] lines 78-93, as
    the store accepts it: string columns take strings, [keyFeatures] and
    [risks] arrays of strings, the two [Json] columns any value, the
    scores numbers. *)
Definition vendor_row_of (sid : nat) (v : vendor_comparison) : option vendor_row :=
  name ← json_string (vc_name v);
  website ← json_string (vc_website v);
  description ← json_string (vc_description v);
  priceRange ← json_string (vc_priceRange v);
  pricingModel ← json_string (vc_pricingModel v);
  currency ← json_string (vc_currency v);
  keyFeatures ← json_string_list (vc_keyFeatures v);
  risks ← json_string_list (vc_risks v);
  overallScore ← json_number (vc_overallScore v);
  requirementMatch ← json_number (vc_requirementMatch v);
  Some (mk_vendor_row sid name website description priceRange pricingModel currency
          keyFeatures (vc_matchedRequirements v) risks (vc_evidenceLinks v)
          overallScore requirementMatch).

(** ** Operations *)

(** [prisma.shortlist.create]: a fresh id, [createdAt] set by the
    database. *)
Definition create_shortlist (row : shortlist_row) : store nat :=
  fun d => (inr (db_next d),
            mk_db (<[db_next d := row]> (db_shortlists d)) (db_vendors d) (db_health d)
                  (S (db_next d))).

(** [prisma.shortlist.update({ where: { id }, data })], [data] as a
    function of the row. *)
Definition update_shortlist (id : nat) (f : shortlist_row -> shortlist_row)
    : store shortlist_row :=
  fun d => match db_shortlists d !! id with
           | None => (inl (SE_NotFound id), d)
           | Some r =>
               (inr (f r), mk_db (<[id := f r]> (db_shortlists d)) (db_vendors d)
                                 (db_health d) (db_next d))
           end.

(** [prisma.vendor.create]. *)
Definition create_vendor (sid : nat) (v : vendor_comparison) : store vendor_row :=
  fun d => match vendor_row_of sid v with
           | None => (inl SE_Validation, d)
           | Some row =>
               (inr row, mk_db (db_shortlists d) (<[db_next d := row]> (db_vendors d))
                               (db_health d) (S (db_next d)))
           end.

(** [prisma.healthCheck.create]. *)
Definition create_health (row : health_row) : store unit :=
  fun d => (inr tt, mk_db (db_shortlists d) (db_vendors d) (db_health d ++ [row]) (db_next d)).

(** A Prisma call made while the database is reachable ([up]) or not:
    an unreachable database rejects the call and writes nothing. *)
Definition prisma_call {A} (up : bool) (c : store A) : store A :=
  if up then c else throw SE_Unavailable.

(** [orderBy: { overallScore: 'desc' }] *)
Definition score_desc (a b : vendor_row) : Prop :=
  Qle_bool (vr_overallScore b) (vr_overallScore a) = true.

#[export] Instance score_desc_dec : RelDecision score_desc.
Proof. intros a b. unfold score_desc. apply _. Defined.

Definition order_by_score_desc (rs : list vendor_row) : list vendor_row :=
  merge_sort score_desc rs.

(** The vendor rows of shortlist [sid], in no particular order. *)
Definition vendors_for (sid : nat) (m : gmap nat vendor_row) : list vendor_row :=
  filter (fun r => vr_shortlistId r = sid) (map snd (map_to_list m)).

(** The vendors of shortlist [id] ([include: { vendors: ... }]). *)
Definition vendors_of (d : db) (id : nat) : list vendor_row :=
  order_by_score_desc (vendors_for id (db_vendors d)).

(** ** Invariants *)

(** Rows below id [n] are left as they are, and fresh ids stay at or
    above [n]. *)
Definition frame (n : nat) (d d' : db) : Prop :=
  n <= db_next d ->
  (forall id, id < n -> db_shortlists d' !! id = db_shortlists d !! id) /\
  (forall id, id < n -> db_vendors d' !! id = db_vendors d !! id) /\
  n <= db_next d'.

(** Well-formed store: every id is below the id counter, and every
    vendor row points at a shortlist row. *)
Definition wf (d : db) : Prop :=
  map_Forall (fun id _ => id < db_next d) (db_shortlists d) /\
  map_Forall (fun id _ => id < db_next d) (db_vendors d) /\
  map_Forall (fun _ v => is_Some (db_shortlists d !! vr_shortlistId v)) (db_vendors d).

(** [wf] together with the existence of row [sid]. *)
Definition wf_with (sid : nat) (d d' : db) : Prop :=
  wf d /\ is_Some (db_shortlists d !! sid) -> wf d' /\ is_Some (db_shortlists d' !! sid).

(** The shape of a row the pipeline writes: never [pending], a failed
    row carries its message and a completed row its processing time. *)
Definition row_ok (r : shortlist_row) : Prop :=
  sl_status r <> Pending /\
  (sl_status r = Failed -> sl_errorMessage r <> None) /\
  (sl_status r = Completed -> sl_processingTime r <> None).

Definition rows_ok (d d' : db) : Prop :=
  map_Forall (fun _ => row_ok) (db_shortlists d) -> map_Forall (fun _ => row_ok) (db_shortlists d').

(** ** Lemmas *)

#[export] Instance score_desc_total : Total score_desc.
Proof.
  intros a b. unfold score_desc. rewrite !Qle_bool_iff.
  destruct (Qlt_le_dec (vr_overallScore a) (vr_overallScore b)) as [H|H];
    [right; by apply Qlt_le_weak|by left].
Qed.

#[export] Instance score_desc_trans : Transitive score_desc.
Proof. intros a b c. unfold score_desc. rewrite !Qle_bool_iff. intros H1 H2. by eapply Qle_trans. Qed.

Lemma order_by_score_desc_sorted (rs : list vendor_row) :
  StronglySorted score_desc (order_by_score_desc rs).
Proof. apply StronglySorted_merge_sort; apply _. Qed.

Lemma order_by_score_desc_perm (rs : list vendor_row) : order_by_score_desc rs ≡ₚ rs.
Proof. apply merge_sort_Permutation. Qed.

(** An update changes the status of its own row only. *)
Lemma update_shortlist_other (id j : nat) (f : shortlist_row -> shortlist_row) (d : db) :
  id <> j -> db_shortlists (snd (update_shortlist id f d)) !! j = db_shortlists d !! j.
Proof.
  intros Hne. unfold update_shortlist. destruct (db_shortlists d !! id); [|done].
  simpl. by rewrite lookup_insert_ne.
Qed.

#[export] Instance frame_preorder (n : nat) : PreOrder (frame n).
Proof.
  split.
  - intros d Hn. done.
  - intros d1 d2 d3 H12 H23 Hn.
    destruct (H12 Hn) as (Hs12 & Hv12 & Hn2). destruct (H23 Hn2) as (Hs23 & Hv23 & Hn3).
    split_and!; [intros id Hid; by rewrite Hs23, Hs12|intros id Hid; by rewrite Hv23, Hv12|done].
Qed.

#[export] Instance wf_with_preorder (sid : nat) : PreOrder (wf_with sid).
Proof. split; [intros d H; exact H|intros d1 d2 d3 H12 H23 H; by apply H23, H12]. Qed.

Lemma create_shortlist_frame (n : nat) (row : shortlist_row) : stable (frame n) (create_shortlist row).
Proof.
  intros d Hn. simpl. split_and!; [intros id Hid; apply lookup_insert_ne; lia|done|lia].
Qed.

Lemma update_shortlist_frame (n id : nat) (f : shortlist_row -> shortlist_row) :
  n <= id -> stable (frame n) (update_shortlist id f).
Proof.
  intros Hle d Hn. unfold update_shortlist. destruct (db_shortlists d !! id); [|done].
  simpl. split_and!; [intros j Hj; apply lookup_insert_ne; lia|done|done].
Qed.

Lemma create_vendor_frame (n sid : nat) (v : vendor_comparison) :
  stable (frame n) (create_vendor sid v).
Proof.
  intros d Hn. unfold create_vendor. destruct (vendor_row_of sid v); [|done].
  simpl. split_and!; [done|intros id Hid; apply lookup_insert_ne; lia|lia].
Qed.

Lemma create_shortlist_wf_new (row : shortlist_row) (d : db) :
  wf d -> wf (snd (create_shortlist row d)) /\
          db_shortlists (snd (create_shortlist row d)) !! db_next d = Some row.
Proof.
  intros (Hs & Hv & Hr). simpl. split; [split_and!|by rewrite lookup_insert_eq].
  - apply map_Forall_insert_2; [simpl; lia|]. eapply map_Forall_impl; [exact Hs|]. simpl. lia.
  - eapply map_Forall_impl; [exact Hv|]. simpl. lia.
  - eapply map_Forall_impl; [exact Hr|]. intros i v [w Hw]. simpl.
    rewrite lookup_insert_ne; [by eexists|]. intros Heq. apply Hs in Hw. simpl in Hw. lia.
Qed.

Lemma create_shortlist_wf (sid : nat) (row : shortlist_row) :
  stable (wf_with sid) (create_shortlist row).
Proof.
  intros d [Hwf Hsid]. split; [by apply create_shortlist_wf_new|].
  destruct Hwf as (Hs & _ & _). simpl.
  rewrite lookup_insert_ne; [done|]. intros Heq. destruct Hsid as [w Hw].
  apply Hs in Hw. simpl in Hw. lia.
Qed.

Lemma update_shortlist_wf (sid id : nat) (f : shortlist_row -> shortlist_row) :
  stable (wf_with sid) (update_shortlist id f).
Proof.
  intros d [(Hs & Hv & Hr) Hsid]. unfold update_shortlist.
  destruct (db_shortlists d !! id) as [r|] eqn:E; [|done]. simpl. split; [split_and!|].
  - apply map_Forall_insert_2; [by apply Hs in E|done].
  - done.
  - eapply map_Forall_impl; [exact Hr|]. intros i v [w Hw]. simpl.
    rewrite lookup_insert. case_decide; by eexists.
  - rewrite lookup_insert. case_decide; [by eexists|done].
Qed.

Lemma create_vendor_wf (sid : nat) (v : vendor_comparison) :
  stable (wf_with sid) (create_vendor sid v).
Proof.
  intros d [(Hs & Hv & Hr) Hsid]. unfold create_vendor.
  destruct (vendor_row_of sid v) as [row|] eqn:E; [|done]. simpl. split; [split_and!|done].
  - eapply map_Forall_impl; [exact Hs|]. simpl. lia.
  - apply map_Forall_insert_2; [simpl; lia|]. eapply map_Forall_impl; [exact Hv|]. simpl. lia.
  - apply map_Forall_insert_2; [|done]. unfold vendor_row_of in E.
    repeat (match type of E with
            | context [json_string ?x] => destruct (json_string x); [|discriminate]
            | context [json_string_list ?x] => destruct (json_string_list x); [|discriminate]
            | context [json_number ?x] => destruct (json_number x); [|discriminate]
            end; simpl in E).
    by injection E as <-.
Qed.

#[export] Instance rows_ok_preorder : PreOrder rows_ok.
Proof. split; [intros d H; exact H|intros d1 d2 d3 H12 H23 H; by apply H23, H12]. Qed.

Lemma create_shortlist_ok (row : shortlist_row) :
  row_ok row -> stable rows_ok (create_shortlist row).
Proof. intros Hr d H. by apply map_Forall_insert_2. Qed.

Lemma update_shortlist_ok (id : nat) (f : shortlist_row -> shortlist_row) :
  (forall r, row_ok r -> row_ok (f r)) -> stable rows_ok (update_shortlist id f).
Proof.
  intros Hf d H. unfold update_shortlist. destruct (db_shortlists d !! id) eqn:E; [|done].
  apply map_Forall_insert_2; [|done]. apply Hf. by apply H in E.
Qed.

Lemma create_vendor_ok (sid : nat) (v : vendor_comparison) : stable rows_ok (create_vendor sid v).
Proof. intros d H. unfold create_vendor. by destruct (vendor_row_of sid v). Qed.

Lemma update_shortlist_found (id : nat) (f : shortlist_row -> shortlist_row) (d : db)
    (r : shortlist_row) :
  db_shortlists d !! id = Some r ->
  update_shortlist id f d =
  (inr (f r), mk_db (<[id := f r]> (db_shortlists d)) (db_vendors d) (db_health d) (db_next d)).
Proof. unfold update_shortlist. by intros ->. Qed.

Lemma vendor_row_of_sid (sid : nat) (v : vendor_comparison) (row : vendor_row) :
  vendor_row_of sid v = Some row -> vr_shortlistId row = sid.
Proof.
  unfold vendor_row_of.
  repeat (match goal with
          | |- context [json_string ?x] => destruct (json_string x); [|discriminate]
          | |- context [json_string_list ?x] => destruct (json_string_list x); [|discriminate]
          | |- context [json_number ?x] => destruct (json_number x); [|discriminate]
          end; simpl).
  by intros [= <-].
Qed.

Lemma vendors_for_insert (sid k : nat) (row : vendor_row) (m : gmap nat vendor_row) :
  m !! k = None -> vr_shortlistId row = sid ->
  vendors_for sid (<[k := row]> m) ≡ₚ row :: vendors_for sid m.
Proof.
  intros Hk Hs. unfold vendors_for. rewrite map_to_list_insert by done.
  simpl. rewrite filter_cons_True by done. done.
Qed.

(** One [vendor.create] for shortlist [sid] adds to the vendors of
    shortlist [sid'] the new row, when it fits and [sid' = sid]. *)
Lemma create_vendor_vendors_for (sid sid' : nat) (v : vendor_comparison) (d : db) :
  map_Forall (fun k _ => k < db_next d) (db_vendors d) ->
  vendors_for sid' (db_vendors (snd (create_vendor sid v d))) ≡ₚ
    filter (fun r => vr_shortlistId r = sid') (option_list (vendor_row_of sid v)) ++
    vendors_for sid' (db_vendors d).
Proof.
  intros Hk. unfold create_vendor. destruct (vendor_row_of sid v) as [row|]; [|done].
  assert (Hfresh : db_vendors d !! db_next d = None).
  { destruct (db_vendors d !! db_next d) eqn:E; [|done]. apply Hk in E. lia. }
  unfold vendors_for. simpl. rewrite map_to_list_insert by done. simpl.
  by rewrite <-filter_app.
Qed.

(** [Promise.all(vendorAnalysis.map(v => prisma.vendor.create(...)))]:
    it rejects unless every vendor fits the columns, and whatever it
    returns, every vendor that fits has been written. *)
Lemma promise_all_create_vendor (sid : nat) (vs : list vendor_comparison) (d : db) :
  map_Forall (fun k _ => k < db_next d) (db_vendors d) ->
  fst (promise_all (create_vendor sid) vs d) =
    match mapM (vendor_row_of sid) vs with Some rows => inr rows | None => inl SE_Validation end /\
  db_shortlists (snd (promise_all (create_vendor sid) vs d)) = db_shortlists d /\
  vendors_for sid (db_vendors (snd (promise_all (create_vendor sid) vs d))) ≡ₚ
    omap (vendor_row_of sid) vs ++ vendors_for sid (db_vendors d) /\
  map_Forall (fun k _ => k < db_next (snd (promise_all (create_vendor sid) vs d)))
    (db_vendors (snd (promise_all (create_vendor sid) vs d))).
Proof.
  revert d. induction vs as [|v vs IH]; intros d Hk; [done|].
  cbn [promise_all]. destruct (vendor_row_of sid v) as [row|] eqn:Ev.
  - set (d1 := mk_db (db_shortlists d) (<[db_next d := row]> (db_vendors d)) (db_health d)
                     (S (db_next d))).
    assert (Hc : create_vendor sid v d = (inr row, d1)) by (unfold create_vendor; by rewrite Ev).
    rewrite Hc.
    assert (Hk1 : map_Forall (fun k _ => k < db_next d1) (db_vendors d1)).
    { apply map_Forall_insert_2; [simpl; lia|]. eapply map_Forall_impl; [exact Hk|]. simpl. lia. }
    assert (Hfresh : db_vendors d !! db_next d = None).
    { destruct (db_vendors d !! db_next d) eqn:E; [|done]. apply Hk in E. lia. }
    assert (Hins : vendors_for sid (db_vendors d1) ≡ₚ row :: vendors_for sid (db_vendors d))
      by (apply vendors_for_insert; eauto using vendor_row_of_sid).
    destruct (IH d1 Hk1) as (Hr & Hs & Hp & Hf).
    simpl. rewrite Ev. simpl.
    destruct (promise_all (create_vendor sid) vs d1) as [[e|bs] d2]; simpl in *;
      (split_and!; [|done| |done]);
      try (rewrite Hp, Hins; by rewrite Permutation_middle).
    + by destruct (mapM (vendor_row_of sid) vs).
    + destruct (mapM (vendor_row_of sid) vs); by simplify_eq.
  - assert (Hc : create_vendor sid v d = (inl SE_Validation, d))
      by (unfold create_vendor; by rewrite Ev).
    rewrite Hc. destruct (IH d Hk) as (Hr & Hs & Hp & Hf). simpl. rewrite Ev. simpl.
    split_and!; done.
Qed.

(** In a well-formed store no vendor row points at the next fresh id. *)
Lemma wf_vendors_for_fresh (d : db) : wf d -> vendors_for (db_next d) (db_vendors d) = [].
Proof.
  intros (Hs & _ & Hr). unfold vendors_for.
  assert (Hall : Forall (fun r => vr_shortlistId r <> db_next d)
                   (map snd (map_to_list (db_vendors d)))).
  { apply Forall_forall. intros r Hin. apply list_elem_of_In, in_map_iff in Hin as [[k r'] [<- Hk]].
    apply list_elem_of_In, elem_of_map_to_list in Hk. apply Hr in Hk as [w Hw].
    apply Hs in Hw. simpl in *. lia. }
  induction Hall as [|x l Hx Hl IH]; [done|]. by rewrite filter_cons_False.
Qed.

#[export] Hint Resolve order_by_score_desc_sorted order_by_score_desc_perm : vdp.
#[export] Hint Resolve create_shortlist_ok update_shortlist_ok create_vendor_ok : vdp.
#[export] Hint Resolve create_shortlist_frame update_shortlist_frame create_vendor_frame
  create_shortlist_wf update_shortlist_wf create_vendor_wf : vdp.
