(* ===== verification/Health.v ===== *)
(** * The health route: [src/src/app/api/health/route.ts]

    [GET] probes three services one after the other (the database with
    [SELECT 1], the Gemini API with a [ping] prompt, SerpAPI with a one
    result search), records one [ServiceHealth] per service, writes the
    three records to the [healthCheck] table (a failure of the write is
    logged and ignored) and answers with an aggregate status.

    The probes' outcomes and the six [Date.now()] readings are inputs
    ([health_env], [health_clock]); the writes are operations of the
    store of [Store.v]. *)

From S2P Require Import Prelude JsString Json Http Types Store.
From Stdlib Require Import ZArith QArith.

Close Scope Q_scope.

Open Scope string_scope.

(** [ServiceHealth], lines 5-10 *)
Record service_health : Type := mk_service_health {
  service : string;
  sh_status : service_status;
  responseTime : option Z;
  message : option string
}.

(** The outcome of [prisma.$queryRaw`SELECT 1`] ([Some] message when
    it rejects), the two environment keys and [axios]. *)
Record health_env : Type := mk_health_env {
  select_one : option string;
  GOOGLE_GEMINI_API_KEY : option string;
  SERP_API_KEY : option string;
  health_post : http_request -> http_outcome;
  health_get : http_request -> http_outcome
}.

(** The readings of [Date.now()] before and after each probe, and
    [new Date().toISOString()]. *)
Record health_clock : Type := mk_health_clock {
  dbStart : Z; dbEnd : Z;
  geminiStart : Z; geminiEnd : Z;
  serpStart : Z; serpEnd : Z;
  timestamp : string
}.

(** [error.message || d] *)
Definition message_or (msg d : string) : string := if String.eqb msg "" then d else msg.

(** Lines 16-31 *)
Definition check_database (env : health_env) (clk : health_clock) : service_health :=
  match select_one env with
  | None => mk_service_health "Database" Healthy (Some (dbEnd clk - dbStart clk)%Z)
              (Some "PostgreSQL connection successful")
  | Some msg => mk_service_health "Database" Down None (Some msg)
  end.

(** Lines 40-50 *)
Definition gemini_ping (key : string) : http_request :=
  mk_request ("https://generativelanguage.googleapis.com/v1beta/models/gemini-2.5-flash:generateContent?key=" ++ key)
    [] [] 10000 None.

(** Lines 34-64 *)
Definition check_gemini (env : health_env) (clk : health_clock) : service_health :=
  match env_set (GOOGLE_GEMINI_API_KEY env) with
  | None => mk_service_health "Google Gemini AI" Down None
              (Some (message_or "GOOGLE_GEMINI_API_KEY not configured" "API key invalid"))
  | Some key =>
      match health_post env (gemini_ping key) with
      | HttpOk _ => mk_service_health "Google Gemini AI" Healthy
                      (Some (geminiEnd clk - geminiStart clk)%Z) (Some "Gemini API responding")
      | HttpFail msg _ => mk_service_health "Google Gemini AI" Down None
                            (Some (message_or msg "API key invalid"))
      end
  end.

(** Lines 73-81 *)
Definition serp_probe (key : string) : http_request :=
  mk_request "https://serpapi.com/search" []
    [("api_key", JStr key); ("q", JStr "test"); ("num", JNum 1%Q); ("engine", JStr "google")]
    10000 None.

(** Lines 67-95 *)
Definition check_serp (env : health_env) (clk : health_clock) : service_health :=
  match env_set (SERP_API_KEY env) with
  | None => mk_service_health "SerpAPI Search" Down None
              (Some (message_or "SERP_API_KEY not configured" "API key invalid or quota exceeded"))
  | Some key =>
      match health_get env (serp_probe key) with
      | HttpOk _ => mk_service_health "SerpAPI Search" Healthy
                      (Some (serpEnd clk - serpStart clk)%Z) (Some "Search API responding")
      | HttpFail msg _ => mk_service_health "SerpAPI Search" Down None
                            (Some (message_or msg "API key invalid or quota exceeded"))
      end
  end.

Definition is_healthy (r : service_health) : bool :=
  bool_decide (sh_status r = Healthy).

Definition is_down (r : service_health) : bool :=
  bool_decide (sh_status r = Down).

(** Lines 98-99 and 120 *)
Definition overall_status (results : list service_health) : string :=
  if existsb is_down results then "unhealthy"
  else if forallb is_healthy results then "healthy"
  else "degraded".

(** Lines 104-112: the row written for a result. *)
Definition health_row_of (r : service_health) : health_row :=
  mk_health_row (service r) (sh_status r) (responseTime r) (message r).

Record health_response : Type := mk_health_response {
  hr_status : string;
  hr_timestamp : string;
  services : list service_health
}.

Module HealthRoute.

(** [GET], lines 12-124 *)
Definition GET (env : health_env) (clk : health_clock) : store health_response :=
  let results := [check_database env clk; check_gemini env clk; check_serp env clk] in
  catch_run (promise_all (fun r => create_health (health_row_of r)) results ;; ret tt)
    (fun _ => ret tt) ;;
  ret (mk_health_response (overall_status results) (timestamp clk) results).

End HealthRoute.
Import HealthRoute.

(** ** Properties *)

Definition health_results (env : health_env) (clk : health_clock) : list service_health :=
  [check_database env clk; check_gemini env clk; check_serp env clk].

Lemma promise_all_create_health (rs : list service_health) (d : db) :
  promise_all (fun r => create_health (health_row_of r)) rs d =
    (inr (map (fun _ => tt) rs),
     mk_db (db_shortlists d) (db_vendors d) (db_health d ++ map health_row_of rs) (db_next d)).
Proof.
  revert d. induction rs as [|r rs IH]; intros [sl vs hs n]; simpl.
  - by rewrite app_nil_r.
  - rewrite IH. simpl. by rewrite <- app_assoc.
Qed.

Lemma check_status (r : service_health) (env : health_env) (clk : health_clock) :
  r ∈ health_results env clk -> sh_status r = Healthy \/ sh_status r = Down.
Proof.
  unfold health_results, check_database, check_gemini, check_serp.
  intros Hr. repeat (apply elem_of_cons in Hr as [->|Hr]; [repeat case_match; simpl; tauto|]).
  by apply elem_of_nil in Hr.
Qed.

(** [GET] answers with the three probe results and their aggregate
    status, and appends one [healthCheck] row per result to the store,
    in probe order, leaving the other tables as they are. *)
Lemma GET_run (env : health_env) (clk : health_clock) (d : db) :
  GET env clk d =
    (inr (mk_health_response (overall_status (health_results env clk)) (timestamp clk)
            (health_results env clk)),
     mk_db (db_shortlists d) (db_vendors d)
       (db_health d ++ map health_row_of (health_results env clk)) (db_next d)).
Proof.
  unfold GET, catch_run, bind. fold (health_results env clk).
  by rewrite promise_all_create_health.
Qed.

Lemma overall_status_two (rs : list service_health) :
  Forall (fun r => sh_status r = Healthy \/ sh_status r = Down) rs ->
  overall_status rs = "healthy" \/ overall_status rs = "unhealthy".
Proof.
  unfold overall_status. intros Hrs. destruct (existsb is_down rs) eqn:Hd; [by right|left].
  enough (forallb is_healthy rs = true) as -> by done.
  induction Hrs as [|r rs Hr _ IH]; [done|]. simpl in *.
  unfold is_down, is_healthy in *. destruct Hr as [Hh|Hh]; rewrite Hh in *; [|done].
  simpl in *. by apply IH.
Qed.

(** C23 (safety): every probe ends [healthy] or [down], so the aggregate status is
    [healthy] or [unhealthy]: the [degraded] branch of line 120 is
    never taken. *)
Theorem GET_never_degraded (env : health_env) (clk : health_clock) (d d' : db)
    (resp : health_response) :
  GET env clk d = (inr resp, d') -> hr_status resp = "healthy" \/ hr_status resp = "unhealthy".
Proof.
  rewrite GET_run. intros [= <- _]. apply overall_status_two, Forall_forall.
  intros r Hr. by eapply check_status.
Qed.

(** A probe of an HTTP service succeeded. *)
Definition probe_ok (key : option string) (call : string -> http_outcome) : Prop :=
  exists k data, env_set key = Some k /\ call k = HttpOk data.

(** The aggregate status is [healthy] exactly when [SELECT 1]
    succeeded and both HTTP probes answered. *)
Lemma health_results_healthy_iff (env : health_env) (clk : health_clock) :
  overall_status (health_results env clk) = "healthy" <->
  select_one env = None /\
  probe_ok (GOOGLE_GEMINI_API_KEY env) (fun k => health_post env (gemini_ping k)) /\
  probe_ok (SERP_API_KEY env) (fun k => health_get env (serp_probe k)).
Proof.
  unfold probe_ok, overall_status, health_results, check_database, check_gemini, check_serp.
  repeat case_match; simpl; split; try (intros; simplify_eq; fail);
    try (intros (? & (? & ? & ? & ?) & (? & ? & ? & ?)); congruence).
  intros _. eauto 10.
Qed.

(** C34 (functional): [GET] reports [healthy] exactly when [SELECT 1] succeeded, the
    Gemini key is set and its ping answered, and the SerpAPI key is set
    and its probe answered. *)
Theorem GET_healthy_iff (env : health_env) (clk : health_clock) (d : db) :
  fst (GET env clk d) = inr (mk_health_response "healthy" (timestamp clk) (health_results env clk))
  <->
  select_one env = None /\
  probe_ok (GOOGLE_GEMINI_API_KEY env) (fun k => health_post env (gemini_ping k)) /\
  probe_ok (SERP_API_KEY env) (fun k => health_get env (serp_probe k)).
Proof.
  rewrite GET_run. simpl. rewrite <- health_results_healthy_iff.
  split; [intros [= ->]|intros ->]; reflexivity.
Qed.

Module HealthWitnesses.

(** The database answers, the Gemini key is missing, SerpAPI answers. *)
Definition env : health_env :=
  mk_health_env None None (Some "serp-key") (fun _ => HttpOk JNull) (fun _ => HttpOk JNull).

Definition clk : health_clock := mk_health_clock 0 3 3 3 3 420 "2026-01-01T00:00:00.000Z".

Definition start : db := mk_db ∅ ∅ [] 0.

Definition probe_report : health_response :=
  Eval vm_compute in
  match fst (GET env clk start) with
  | inr r => r
  | inl _ => mk_health_response "" "" []
  end.

Lemma GET_never_degraded_witness :
  hr_status probe_report = "healthy" \/ hr_status probe_report = "unhealthy".
Proof. apply (GET_never_degraded env clk start (snd (GET env clk start))). vm_compute. reflexivity. Defined.

End HealthWitnesses.
