(* ===== verification/History.v ===== *)
(** * The history route: [src/src/app/api/shortlist/history/route.ts]

    [GET] asks the store for the completed shortlists, newest first, at
    most five, each with its vendors by descending score, and answers
    with them and their count; when the query rejects it answers 500.
    The query is [findMany_history] over the store of [Store.v]; ties of
    [createdAt] are ordered by the same stable merge sort as the vendor
    scores.  Whether the query rejects is an input, as the store does
    not model the database being unreachable. *)

From S2P Require Import Prelude JsString Json Types Store.
From Stdlib Require Import ZArith.

Open Scope string_scope.

(** [orderBy: { createdAt: 'desc' }] *)
Definition created_desc (a b : nat * shortlist_row) : Prop :=
  (sl_createdAt (snd b) <= sl_createdAt (snd a))%Z.

#[export] Instance created_desc_dec : RelDecision created_desc.
Proof. intros a b. unfold created_desc. apply _. Defined.

#[export] Instance created_desc_total : Total created_desc.
Proof. intros a b. unfold created_desc. lia. Qed.

#[export] Instance created_desc_trans : Transitive created_desc.
Proof. intros a b c. unfold created_desc. lia. Qed.

(** [where: { status: 'completed' }] *)
Definition completed_rows (d : db) : list (nat * shortlist_row) :=
  filter (fun p => sl_status (snd p) = Completed) (map_to_list (db_shortlists d)).

Record history_entry : Type := mk_entry {
  he_id : nat;
  he_row : shortlist_row;
  he_vendors : list vendor_row
}.

(** The [findMany] of lines 6-20. *)
Definition findMany_history (d : db) : list history_entry :=
  map (fun p => mk_entry (fst p) (snd p) (vendors_of d (fst p)))
    (take 5 (merge_sort created_desc (completed_rows d))).

Inductive history_response : Type :=
| HistoryOk (shortlists : list history_entry) (count : nat)   (** lines 23-27 *)
| HistoryError (status : Z) (error : string).                  (** lines 28-35 *)

Module HistoryRoute.

(** [GET], lines 4-36 *)
Definition GET (findMany_rejects : bool) : store history_response :=
  if findMany_rejects then ret (HistoryError 500 "Failed to fetch shortlist history")
  else d <- get_st ;;
       let shortlists := findMany_history d in
       ret (HistoryOk shortlists (length shortlists)).

End HistoryRoute.

(** ** Properties *)

Lemma completed_rows_spec (d : db) (id : nat) (r : shortlist_row) :
  (id, r) ∈ completed_rows d <-> db_shortlists d !! id = Some r /\ sl_status r = Completed.
Proof. unfold completed_rows. rewrite list_elem_of_filter, elem_of_map_to_list. simpl. tauto. Qed.

Lemma history_sorted (d : db) :
  StronglySorted created_desc (merge_sort created_desc (completed_rows d)).
Proof. apply StronglySorted_merge_sort; apply _. Qed.

Lemma history_elem (d : db) (p : nat * shortlist_row) :
  p ∈ merge_sort created_desc (completed_rows d) <-> p ∈ completed_rows d.
Proof. by rewrite merge_sort_Permutation. Qed.

(** C24 (safety): the history holds at most five entries, newest first; each is a
    completed shortlist of the store with its vendors by descending
    score. *)
Theorem findMany_history_sound (d : db) :
  length (findMany_history d) <= 5 /\
  StronglySorted (fun e1 e2 => sl_createdAt (he_row e2) <= sl_createdAt (he_row e1))%Z
    (findMany_history d) /\
  Forall (fun e => db_shortlists d !! he_id e = Some (he_row e) /\
                   sl_status (he_row e) = Completed /\
                   StronglySorted score_desc (he_vendors e)) (findMany_history d).
Proof.
  unfold findMany_history. rewrite length_map. split; [apply length_take_le|split].
  - apply StronglySorted_map. eapply StronglySorted_app_l.
    rewrite take_drop. apply history_sorted.
  - apply Forall_map, Forall_forall. intros [id r] Hp. simpl.
    assert ((id, r) ∈ merge_sort created_desc (completed_rows d)) as Hin
      by (rewrite <- (take_drop 5 (merge_sort _ _)); apply elem_of_app; by left).
    apply history_elem, completed_rows_spec in Hin as [? ?].
    split_and!; [done|done|apply order_by_score_desc_sorted].
Qed.

(** C33 (functional): a completed shortlist of the store is in the history, or the
    history is full (five entries) and none of its entries is older. *)
Theorem findMany_history_newest (d : db) (id : nat) (r : shortlist_row) :
  db_shortlists d !! id = Some r -> sl_status r = Completed ->
  (exists e, e ∈ findMany_history d /\ he_id e = id /\ he_row e = r) \/
  (length (findMany_history d) = 5 /\
   Forall (fun e => sl_createdAt r <= sl_createdAt (he_row e))%Z (findMany_history d)).
Proof.
  intros Hl Hc. pose proof (history_sorted d) as Hs.
  set (L := merge_sort created_desc (completed_rows d)) in *.
  assert ((id, r) ∈ L) as Hin by (apply history_elem, completed_rows_spec; done).
  rewrite <- (take_drop 5 L) in Hin, Hs. unfold findMany_history. fold L.
  apply elem_of_app in Hin as [Hin|Hin].
  - left. exists (mk_entry id r (vendors_of d id)). split; [|done].
    apply list_elem_of_fmap. by exists (id, r).
  - right. rewrite length_map. split.
    + assert (length (drop 5 L) <> 0) by (destruct (drop 5 L); [by apply elem_of_nil in Hin|done]).
      rewrite length_drop in *. rewrite length_take. lia.
    + apply Forall_map, Forall_forall. intros p Hp. simpl.
      exact (StronglySorted_app_rel _ _ _ Hs p (id, r) Hp Hin).
Qed.

Module HistoryWitnesses.

Definition run_at (t : Z) : shortlist_row :=
  mk_shortlist "Email delivery" [] Completed None (Some 3000%Z) t.

(** Six completed runs; run 0 is the oldest. *)
Definition store6 : db :=
  mk_db (list_to_map (imap (fun i _ => (i, run_at (Z.of_nat i))) (replicate 6 tt))) ∅ [] 6.

Lemma findMany_history_newest_witness :
  (exists e, e ∈ findMany_history store6 /\ he_id e = 0 /\ he_row e = run_at 0) \/
  (length (findMany_history store6) = 5 /\
   Forall (fun e => sl_createdAt (run_at 0) <= sl_createdAt (he_row e))%Z (findMany_history store6)).
Proof. apply findMany_history_newest; vm_compute; reflexivity. Defined.

End HistoryWitnesses.
