(* ===== verification/Orchestrator.v ===== *)
(** * The shortlist pipeline: [src/src/app/api/shortlist/create/route.ts]

    The [POST] handler as a computation of [run db pipeline_error].  Its
    three collaborators are the fields of [deps]: [searchVendors(need,
    10)], [scrapeMultipleUrls(urls)] (which never throws) and
    [analyzeVendors(need, requirements, scrapedData)]; their error types
    are parameters, as the handler only propagates them.  [Wiring]
    instantiates [deps] with the models of [serpapi.ts], [scraper.ts] and
    [gemini.ts].  The clock ([Date.now()] at the start and at the end, and
    the database's [now()] for [createdAt]) is an argument. *)

From S2P Require Import Prelude JsString Json Types Store.
From Stdlib Require Import ZArith QArith.

Close Scope Q_scope.
Open Scope nat_scope.
Open Scope string_scope.

Section Pipeline.
Context {SE AE : Type}.

(** What the handler needs from the search, scrape and analysis
    components. *)
Record deps : Type := mk_deps {
  dep_search : string -> nat -> SE + list search_result;
  dep_scrape : list json -> list scraped_data;
  dep_analyze : string -> list requirement -> list scraped_data -> AE + list vendor_comparison
}.

(** Everything the [try] block can throw. *)
Inductive pipeline_error : Type :=
| PErr_RequestJson             (** [request.json()] on a body that is not JSON *)
| PErr_Search (e : SE)
| PErr_Analysis (e : AE)
| PErr_Store (e : store_error).

(** The fields of the request body the handler reads; a missing or
    [null] [requirements] is [None]. *)
Record request_body : Type := mk_body {
  body_need : string;
  body_requirements : option (list requirement)
}.

Inductive response_body : Type :=
| BodyError (msg : string)                        (** [{ error: msg }] *)
| BodyThrown (e : pipeline_error)                 (** [{ error: error.message, ... }] *)
| BodyShortlist (id : nat) (row : shortlist_row) (vendors : list vendor_row)
    (processingTime : Z).                         (** [{ success, shortlist, processingTime }] *)

Record response : Type := mk_response {
  resp_status : Z;
  resp_body : response_body
}.

Record clock : Type := mk_clock {
  t_start : Z;      (** [startTime = Date.now()] *)
  t_created : Z;    (** the database's [now()] when the row is created *)
  t_end : Z         (** [Date.now()] after the vendors are written *)
}.

Abbreviation pipe := (run db pipeline_error).

Definition set_failed (msg : string) (r : shortlist_row) : shortlist_row :=
  mk_shortlist (sl_needDescription r) (sl_requirements r) Failed (Some msg)
    (sl_processingTime r) (sl_createdAt r).

Definition set_completed (pt : Z) (r : shortlist_row) : shortlist_row :=
  mk_shortlist (sl_needDescription r) (sl_requirements r) Completed (sl_errorMessage r)
    (Some pt) (sl_createdAt r).

Definition store_op {A} (c : store A) : pipe A := lift_err PErr_Store c.

Definition bad_request : response :=
  mk_response 400 (BodyError "Need and requirements are required").

(** Lines 54-96 and 98-120: scrape the top six results, analyse, write
    the vendors, complete the row. *)
Definition after_search (dp : deps) (clk : clock) (id : nat) (need : string)
    (requirements : list requirement) (searchResults : list search_result) : pipe response :=
  let urlsToScrape := map sr_url (take 6 searchResults) in
  match dep_scrape dp urlsToScrape with
  | [] =>
      store_op (update_shortlist id (set_failed "Failed to scrape vendor websites")) ;;
      ret (mk_response 500 (BodyError "Failed to gather vendor information"))
  | scrapedData =>
      vendorAnalysis <- lift_err PErr_Analysis (of_sum (dep_analyze dp need requirements scrapedData)) ;;
      store_op (promise_all (create_vendor id) vendorAnalysis) ;;
      let processingTime := (t_end clk - t_start clk)%Z in
      updated <- store_op (update_shortlist id (set_completed processingTime)) ;;
      d <- get_st ;;
      ret (mk_response 200 (BodyShortlist id updated (vendors_of d id) processingTime))
  end.

(** Lines 36-120, after the row [id] is created. *)
Definition after_create (dp : deps) (clk : clock) (id : nat) (need : string)
    (requirements : list requirement) : pipe response :=
  searchResults <- lift_err PErr_Search (of_sum (dep_search dp need 10)) ;;
  match searchResults with
  | [] =>
      store_op (update_shortlist id (set_failed "No vendors found for this search")) ;;
      ret (mk_response 404 (BodyError "No vendors found. Try rephrasing your need."))
  | _ => after_search dp clk id need requirements searchResults
  end.

(** The [try] block, lines 15-120. *)
Definition create_try (dp : deps) (clk : clock) (body : option request_body) : pipe response :=
  match body with
  | None => throw PErr_RequestJson
  | Some b =>
      let need := body_need b in
      if String.eqb need "" then ret bad_request else
      match body_requirements b with
      | None | Some [] => ret bad_request
      | Some requirements =>
          id <- store_op (create_shortlist
                            (mk_shortlist need requirements Processing None None (t_created clk))) ;;
          after_create dp clk id need requirements
      end
  end.

(** [POST]: the [catch] turns every thrown error into a 500 response. *)
Definition POST (dp : deps) (clk : clock) (body : option request_body) : pipe response :=
  catch_run (create_try dp clk body) (fun e => ret (mk_response 500 (BodyThrown e))).

End Pipeline.

Arguments deps : clear implicits.
Arguments pipeline_error : clear implicits.

(** [export const maxDuration = 60] (line 9): the platform stops the
    handler after this many seconds. *)
Definition maxDuration : Z := 60.
Abbreviation pipe SE AE := (run db (pipeline_error SE AE)).

(** ** Invariants of one request *)

Section PipelineInvariants.
Context {SE AE : Type} (dp : deps SE AE) (clk : clock).

Lemma store_op_stable {A} (R : db -> db -> Prop) (c : store A) :
  stable R c -> stable R (store_op (SE:=SE) (AE:=AE) c).
Proof. apply stable_lift_err. Qed.

#[local] Hint Resolve store_op_stable : vdp.

Lemma set_failed_ok (msg : string) (r : shortlist_row) : row_ok r -> row_ok (set_failed msg r).
Proof. intros _. unfold row_ok. simpl. split_and!; done. Qed.

Lemma set_completed_ok (pt : Z) (r : shortlist_row) : row_ok r -> row_ok (set_completed pt r).
Proof. intros _. unfold row_ok. simpl. split_and!; done. Qed.

#[local] Hint Resolve set_failed_ok set_completed_ok : vdp.

(** The first write of the handler: the row gets the id [db_next d]. *)
Lemma bind_create_shortlist {A} (row : shortlist_row) (k : nat -> pipe SE AE A) (d : db) :
  bind (store_op (create_shortlist row)) k d = k (db_next d) (snd (create_shortlist row d)).
Proof. reflexivity. Qed.

(** [catch] with a handler that only answers leaves the store of the
    [try] block. *)
Lemma POST_store (body : option request_body) (d : db) :
  snd (POST dp clk body d) = snd (create_try dp clk body d).
Proof. unfold POST, catch_run. by destruct (create_try dp clk body d) as [[e|r] d']. Qed.

(** Past the validation, the handler creates the row [db_next d] and
    runs [after_create] on it. *)
Lemma create_try_cases (body : option request_body) (d : db) :
  snd (create_try dp clk body d) = d \/
  exists b requirements,
    body = Some b /\ body_requirements b = Some requirements /\ requirements <> [] /\
    String.eqb (body_need b) "" = false /\
    create_try dp clk body d =
    after_create dp clk (db_next d) (body_need b) requirements
      (snd (create_shortlist
              (mk_shortlist (body_need b) requirements Processing None None (t_created clk)) d)).
Proof.
  unfold create_try. destruct body as [b|]; [|by left].
  destruct (String.eqb (body_need b) "") eqn:En; [by left|].
  destruct (body_requirements b) as [[|r rs]|] eqn:Er; try by left.
  right. exists b, (r :: rs). by split_and!.
Qed.

Lemma after_create_frame (n id : nat) (need : string) (reqs : list requirement) :
  n <= id -> stable (frame n) (after_create dp clk id need reqs).
Proof. intros Hle. unfold after_create, after_search, store_op. solve_stable. Qed.

Lemma after_create_wf (id : nat) (need : string) (reqs : list requirement) :
  stable (wf_with id) (after_create dp clk id need reqs).
Proof. unfold after_create, after_search, store_op. solve_stable. Qed.

Lemma after_create_ok (id : nat) (need : string) (reqs : list requirement) :
  stable rows_ok (after_create dp clk id need reqs).
Proof. unfold after_create, after_search, store_op. solve_stable. Qed.

(** (safety): a request changes no row that existed before it: the
    rows below the id counter, shortlists and vendors, are untouched. *)
Theorem POST_frame (body : option request_body) (d : db) :
  frame (db_next d) d (snd (POST dp clk body d)).
Proof.
  rewrite POST_store.
  destruct (create_try_cases body d) as [->|(b & reqs & _ & _ & _ & _ & ->)]; [reflexivity|].
  etrans; [apply create_shortlist_frame|]. by apply after_create_frame.
Qed.

(** A request keeps the store well formed. *)
Lemma wf_POST (body : option request_body) (d : db) :
  wf d -> wf (snd (POST dp clk body d)).
Proof.
  intros Hwf. rewrite POST_store.
  destruct (create_try_cases body d) as [->|(b & reqs & _ & _ & _ & _ & ->)]; [done|].
  edestruct create_shortlist_wf_new as [Hwf1 Hn]; [exact Hwf|].
  apply after_create_wf. split; [exact Hwf1|by eexists].
Qed.

(** C2 (invariant): a request keeps the store well formed. *)
Theorem POST_wf (body : option request_body) (d : db) :
  wf d -> wf (snd (POST dp clk body d)).
Proof. apply wf_POST. Qed.

(** Every row a request writes has the shape [row_ok]. *)
Lemma rows_ok_POST (body : option request_body) (d : db) :
  map_Forall (fun _ => row_ok) (db_shortlists d) ->
  map_Forall (fun _ => row_ok) (db_shortlists (snd (POST dp clk body d))).
Proof.
  intros Hok. rewrite POST_store.
  destruct (create_try_cases body d) as [->|(b & reqs & _ & _ & _ & _ & ->)]; [done|].
  apply after_create_ok. apply create_shortlist_ok; [|done].
  unfold row_ok. simpl. split_and!; done.
Qed.

(** Every row a request writes has the shape [row_ok]. *)
Theorem POST_rows_ok (body : option request_body) (d : db) :
  map_Forall (fun _ => row_ok) (db_shortlists d) ->
  map_Forall (fun _ => row_ok) (db_shortlists (snd (POST dp clk body d))).
Proof. apply rows_ok_POST. Qed.

End PipelineInvariants.

(** ** The answers the route gives *)

Section Contract.
Context {SE AE : Type} (dp : deps SE AE) (clk : clock).

(** A 200 carries a completed run and its vendors by descending score;
    every other answer is a 400, 404 or 500 with an error body. *)
Definition response_shape (resp : @response SE AE) : Prop :=
  match resp_body resp with
  | BodyShortlist _ row vendors _ =>
      resp_status resp = 200%Z /\ sl_status row = Completed /\ StronglySorted score_desc vendors
  | _ => resp_status resp = 400%Z \/ resp_status resp = 404%Z \/ resp_status resp = 500%Z
  end.

Lemma update_completed_returns (id : nat) (pt : Z) :
  returns (fun r => sl_status r = Completed)
    (store_op (SE:=SE) (AE:=AE) (update_shortlist id (set_completed pt))).
Proof.
  apply returns_lift_err. intros d. unfold update_shortlist.
  by destruct (db_shortlists d !! id).
Qed.

(** Follow the handler's structure down to its answers. *)
Ltac solve_returns :=
  repeat first
    [ apply returns_catch; [|intros ?]
    | apply returns_lift_err
    | apply returns_ret; unfold response_shape; simpl in *;
      split_and!; [done|assumption|apply order_by_score_desc_sorted]
    | match goal with
      | |- returns _ (bind (store_op (update_shortlist _ (set_completed _))) _) =>
          eapply returns_bind; [apply update_completed_returns|intros ? ?]
      end
    | eapply returns_bind; [apply returns_any|intros ? _]
    | apply returns_ret; unfold response_shape; simpl; tauto
    | apply returns_throw
    | match goal with |- returns _ (match ?x with _ => _ end) => destruct x end ].

Lemma POST_returns (body : option request_body) :
  returns response_shape (POST dp clk body).
Proof.
  unfold POST, create_try, after_create, after_search, bad_request.
  solve_returns.
Qed.

End Contract.

(** ** The outcome of each path of the handler *)

Section Outcomes.
Context {SE AE : Type} (dp : deps SE AE) (clk : clock).
Context (b : request_body) (requirements : list requirement).
Hypothesis Hneed : String.eqb (body_need b) "" = false.
Hypothesis Hreqs : body_requirements b = Some requirements.
Hypothesis Hne : requirements <> [].

(** The row the handler creates. *)
Definition new_row : shortlist_row :=
  mk_shortlist (body_need b) requirements Processing None None (t_created clk).

Lemma POST_valid (d : db) :
  POST dp clk (Some b) d =
  catch_run (after_create dp clk (db_next d) (body_need b) requirements)
    (fun e => ret (mk_response 500 (BodyThrown e))) (snd (create_shortlist new_row d)).
Proof.
  unfold POST, catch_run, create_try, new_row. rewrite Hneed, Hreqs.
  destruct requirements as [|r rs]; [done|]. reflexivity.
Qed.

Lemma lookup_new_row (d : db) :
  db_shortlists (snd (create_shortlist new_row d)) !! db_next d = Some new_row.
Proof. apply lookup_insert_eq. Qed.

Ltac settle := simpl; cbn [db_shortlists db_vendors db_health db_next fst snd].

Ltac run_unfold :=
  unfold after_create, after_search, store_op, bind, ret, catch_run, lift_err, of_sum,
    get_st, update_shortlist; settle.

(** C10 (error, spec section 8): when the search finds nothing the run
    fails with [No vendors found for this search], the caller gets a 404
    and no vendor row is written. *)
Theorem POST_no_results (d : db) :
  dep_search dp (body_need b) 10 = inr [] ->
  fst (POST dp clk (Some b) d) =
    inr (mk_response 404 (BodyError "No vendors found. Try rephrasing your need.")) /\
  db_shortlists (snd (POST dp clk (Some b) d)) !! db_next d =
    Some (set_failed "No vendors found for this search" new_row) /\
  db_vendors (snd (POST dp clk (Some b) d)) = db_vendors d.
Proof.
  intros Hs. rewrite POST_valid. run_unfold. rewrite Hs. settle.
  rewrite lookup_insert_eq. settle. by rewrite lookup_insert_eq.
Qed.

(** The outcome of a request none of whose pages could be scraped. *)
Lemma no_pages_outcome (d : db) (r : search_result) (rs : list search_result) :
  dep_search dp (body_need b) 10 = inr (r :: rs) ->
  dep_scrape dp (map sr_url (take 6 (r :: rs))) = [] ->
  fst (POST dp clk (Some b) d) =
    inr (mk_response 500 (BodyError "Failed to gather vendor information")) /\
  db_shortlists (snd (POST dp clk (Some b) d)) !! db_next d =
    Some (set_failed "Failed to scrape vendor websites" new_row) /\
  db_vendors (snd (POST dp clk (Some b) d)) = db_vendors d.
Proof.
  intros Hs Hp. rewrite POST_valid. run_unfold. rewrite Hs. simpl in Hp |- *. rewrite Hp. settle.
  rewrite lookup_insert_eq. settle. by rewrite lookup_insert_eq.
Qed.

(** C9 (error, spec section 8): when no page could be scraped the run
    fails with [Failed to scrape vendor websites], the caller gets a 500
    and no vendor row is written. *)
Theorem POST_no_pages (d : db) (r : search_result) (rs : list search_result) :
  dep_search dp (body_need b) 10 = inr (r :: rs) ->
  dep_scrape dp (map sr_url (take 6 (r :: rs))) = [] ->
  fst (POST dp clk (Some b) d) =
    inr (mk_response 500 (BodyError "Failed to gather vendor information")) /\
  db_shortlists (snd (POST dp clk (Some b) d)) !! db_next d =
    Some (set_failed "Failed to scrape vendor websites" new_row) /\
  db_vendors (snd (POST dp clk (Some b) d)) = db_vendors d.
Proof. apply no_pages_outcome. Qed.

(** The outcome of a request whose analysis throws. *)
Lemma analysis_error_outcome (d : db) (r : search_result) (rs : list search_result)
    (p : scraped_data) (ps : list scraped_data) (e : AE) :
  dep_search dp (body_need b) 10 = inr (r :: rs) ->
  dep_scrape dp (map sr_url (take 6 (r :: rs))) = p :: ps ->
  dep_analyze dp (body_need b) requirements (p :: ps) = inl e ->
  fst (POST dp clk (Some b) d) = inr (mk_response 500 (BodyThrown (PErr_Analysis e))) /\
  db_shortlists (snd (POST dp clk (Some b) d)) !! db_next d = Some new_row /\
  db_vendors (snd (POST dp clk (Some b) d)) = db_vendors d.
Proof.
  intros Hs Hp Ha. rewrite POST_valid. run_unfold. rewrite Hs. simpl in Hp |- *.
  rewrite Hp, Ha. settle. by rewrite lookup_insert_eq.
Qed.

(** When the analysis throws,
    the caller gets a 500 carrying the error, and the run is left in
    [processing]: no [failed] status is written. *)
Theorem POST_analysis_error (d : db) (r : search_result) (rs : list search_result)
    (p : scraped_data) (ps : list scraped_data) (e : AE) :
  dep_search dp (body_need b) 10 = inr (r :: rs) ->
  dep_scrape dp (map sr_url (take 6 (r :: rs))) = p :: ps ->
  dep_analyze dp (body_need b) requirements (p :: ps) = inl e ->
  fst (POST dp clk (Some b) d) = inr (mk_response 500 (BodyThrown (PErr_Analysis e))) /\
  db_shortlists (snd (POST dp clk (Some b) d)) !! db_next d = Some new_row /\
  db_vendors (snd (POST dp clk (Some b) d)) = db_vendors d.
Proof. apply analysis_error_outcome. Qed.

(** The answer and the row of a run whose stages succeed. *)
Lemma POST_completed_answer (d : db) (r : search_result) (rs : list search_result)
    (p : scraped_data) (ps : list scraped_data) (vs : list vendor_comparison)
    (rows : list vendor_row) :
  wf d ->
  dep_search dp (body_need b) 10 = inr (r :: rs) ->
  dep_scrape dp (map sr_url (take 6 (r :: rs))) = p :: ps ->
  dep_analyze dp (body_need b) requirements (p :: ps) = inr vs ->
  mapM (vendor_row_of (db_next d)) vs = Some rows ->
  exists vendors,
    fst (POST dp clk (Some b) d) =
      inr (mk_response 200 (BodyShortlist (db_next d)
             (set_completed (t_end clk - t_start clk) new_row) vendors (t_end clk - t_start clk))) /\
    vendors ≡ₚ rows /\ StronglySorted score_desc vendors /\
    db_shortlists (snd (POST dp clk (Some b) d)) !! db_next d =
      Some (set_completed (t_end clk - t_start clk) new_row).
Proof.
  intros Hwf Hs Hp Ha Hm. rewrite POST_valid. run_unfold. rewrite Hs. simpl in Hp |- *.
  rewrite Hp, Ha. settle.
  set (d1 := mk_db (<[db_next d:=new_row]> (db_shortlists d)) (db_vendors d) (db_health d)
                   (S (db_next d))).
  assert (Hk : map_Forall (fun k _ => k < db_next d1) (db_vendors d1)).
  { destruct Hwf as (_ & Hv & _). eapply map_Forall_impl; [exact Hv|]. simpl. lia. }
  destruct (promise_all_create_vendor (db_next d) vs d1 Hk) as (Hr & Hsl & Hpm & _).
  rewrite Hm in Hr. destruct (promise_all (create_vendor (db_next d)) vs d1) as [res d2].
  simpl in Hr, Hsl, Hpm. subst res. simpl. rewrite Hsl. simpl. rewrite lookup_insert_eq. settle.
  eexists. split_and!; [reflexivity| | |by rewrite lookup_insert_eq].
  - unfold vendors_of. simpl. rewrite order_by_score_desc_perm, Hpm.
    change (db_vendors d1) with (db_vendors d). rewrite wf_vendors_for_fresh by done.
    rewrite app_nil_r. by rewrite (omap_mapM _ _ _ Hm).
  - apply order_by_score_desc_sorted.
Qed.

(** C1 (functional, spec section 4.4 and 8): a run whose three stages
    succeed and whose vendors all fit the columns completes: the row is
    [completed] with the elapsed time, and the response lists exactly the
    analysed vendors, ordered by [overallScore], highest first. *)
Theorem POST_success (d : db) (r : search_result) (rs : list search_result)
    (p : scraped_data) (ps : list scraped_data) (vs : list vendor_comparison)
    (rows : list vendor_row) :
  wf d ->
  dep_search dp (body_need b) 10 = inr (r :: rs) ->
  dep_scrape dp (map sr_url (take 6 (r :: rs))) = p :: ps ->
  dep_analyze dp (body_need b) requirements (p :: ps) = inr vs ->
  mapM (vendor_row_of (db_next d)) vs = Some rows ->
  exists vendors,
    fst (POST dp clk (Some b) d) =
      inr (mk_response 200 (BodyShortlist (db_next d)
             (set_completed (t_end clk - t_start clk) new_row) vendors (t_end clk - t_start clk))) /\
    vendors ≡ₚ rows /\ StronglySorted score_desc vendors /\
    db_shortlists (snd (POST dp clk (Some b) d)) !! db_next d =
      Some (set_completed (t_end clk - t_start clk) new_row).
Proof. exact (POST_completed_answer d r rs p ps vs rows). Qed.

(** C6 (safety; spec section 3 says a run has no vendors until it is
    completed): when one analysed vendor does not fit the columns,
    [Promise.all] rejects after the other [vendor.create] calls have
    written their rows: the caller gets a 500, the run stays in
    [processing], and the vendors that fit are stored under it. *)
Theorem POST_partial_write (d : db) (r : search_result) (rs : list search_result)
    (p : scraped_data) (ps : list scraped_data) (vs : list vendor_comparison) :
  wf d ->
  dep_search dp (body_need b) 10 = inr (r :: rs) ->
  dep_scrape dp (map sr_url (take 6 (r :: rs))) = p :: ps ->
  dep_analyze dp (body_need b) requirements (p :: ps) = inr vs ->
  mapM (vendor_row_of (db_next d)) vs = None ->
  fst (POST dp clk (Some b) d) = inr (mk_response 500 (BodyThrown (PErr_Store SE_Validation))) /\
  db_shortlists (snd (POST dp clk (Some b) d)) !! db_next d = Some new_row /\
  vendors_for (db_next d) (db_vendors (snd (POST dp clk (Some b) d))) ≡ₚ
    omap (vendor_row_of (db_next d)) vs.
Proof.
  intros Hwf Hs Hp Ha Hm. rewrite POST_valid. run_unfold. rewrite Hs. simpl in Hp |- *.
  rewrite Hp, Ha. settle.
  set (d1 := mk_db (<[db_next d:=new_row]> (db_shortlists d)) (db_vendors d) (db_health d)
                   (S (db_next d))).
  assert (Hk : map_Forall (fun k _ => k < db_next d1) (db_vendors d1)).
  { destruct Hwf as (_ & Hv & _). eapply map_Forall_impl; [exact Hv|]. simpl. lia. }
  destruct (promise_all_create_vendor (db_next d) vs d1 Hk) as (Hr & Hsl & Hpm & _).
  rewrite Hm in Hr. destruct (promise_all (create_vendor (db_next d)) vs d1) as [res d2].
  simpl in Hr, Hsl, Hpm. subst res. settle. split_and!; [done|by rewrite Hsl, lookup_insert_eq|].
  rewrite Hpm. change (db_vendors d1) with (db_vendors d).
  by rewrite wf_vendors_for_fresh, app_nil_r.
Qed.

End Outcomes.

(** C11 (error): a request without a [need] or without requirements gets
    a 400 and leaves the store as it is. *)
Theorem POST_bad_request {SE AE : Type} (dp : deps SE AE) (clk : clock) (b : request_body)
    (d : db) :
  String.eqb (body_need b) "" = true \/ body_requirements b = None \/ body_requirements b = Some [] ->
  POST dp clk (Some b) d = (inr bad_request, d).
Proof.
  intros H. unfold POST, catch_run, create_try.
  destruct (String.eqb (body_need b) "") eqn:En; [done|].
  destruct H as [H|[H|H]]; [discriminate|by rewrite H|by rewrite H].
Qed.

(** ** The store across requests *)

(** One request handled to completion.  Requests touch disjoint rows (a
    fresh id each), so the order in which the awaits of concurrent
    requests interleave does not change the rows each one writes. *)
Inductive request_step : db -> db -> Prop :=
| step_POST {SE AE : Type} (dp : deps SE AE) (clk : clock) (body : option request_body) (d : db) :
    request_step d (snd (POST dp clk body d)).

Definition empty_db : db := mk_db ∅ ∅ [] 0.

Lemma wf_empty : wf empty_db.
Proof. split_and!; apply map_Forall_empty. Qed.

(** C3 (invariant): every store the application can reach is well formed
    and holds only rows of the shape [row_ok]: no [pending] row, a
    message on every failed row, a processing time on every completed
    one. *)
Theorem reachable_invariant (d : db) :
  rtc request_step empty_db d -> wf d /\ map_Forall (fun _ => row_ok) (db_shortlists d).
Proof.
  assert (Hgen : forall d0 d1, rtc request_step d0 d1 ->
            wf d0 /\ map_Forall (fun _ => row_ok) (db_shortlists d0) ->
            wf d1 /\ map_Forall (fun _ => row_ok) (db_shortlists d1)).
  { intros d0 d1 Hs. induction Hs as [|x y z Hxy _ IH]; [done|]. intros [Hwf Hok].
    apply IH. inversion Hxy; subst. split; [by apply wf_POST|by apply rows_ok_POST]. }
  intros Hr. apply (Hgen empty_db d Hr). split; [apply wf_empty|apply map_Forall_empty].
Qed.

(** Later requests leave the rows of earlier ones as they are. *)
Lemma rows_unchanged (d d' : db) (id : nat) (r : shortlist_row) :
  wf d -> rtc request_step d d' -> db_shortlists d !! id = Some r ->
  db_shortlists d' !! id = Some r.
Proof.
  intros Hwf Hs. revert Hwf. induction Hs as [|x y z Hxy _ IH]; [done|]. intros Hwf Hr.
  inversion Hxy as [SE AE dp clk body x' Hx Hy]; subst.
  apply IH; [by apply wf_POST|].
  destruct (POST_frame dp clk body x) as (Hfr & _ & _); [done|].
  rewrite Hfr; [done|]. destruct Hwf as (Hk & _ & _). by apply Hk in Hr.
Qed.

(** Once a request has returned, no later request changes
    its shortlist row: a completed or failed run stays as it is, and so
    does a run left in [processing]. *)
Theorem rows_frozen (d d' : db) (id : nat) (r : shortlist_row) :
  wf d -> rtc request_step d d' -> db_shortlists d !! id = Some r ->
  db_shortlists d' !! id = Some r.
Proof. apply rows_unchanged. Qed.

(** C7 (liveness, spec section 9): a run whose analysis throws never
    reaches a terminal status: in every store reachable afterwards its
    row is still [processing]. *)
Theorem analysis_failure_stuck {SE AE : Type} (dp : deps SE AE) (clk : clock) (b : request_body)
    (requirements : list requirement) (d d' : db) (r : search_result) (rs : list search_result)
    (p : scraped_data) (ps : list scraped_data) (e : AE) :
  wf d -> String.eqb (body_need b) "" = false -> body_requirements b = Some requirements ->
  requirements <> [] ->
  dep_search dp (body_need b) 10 = inr (r :: rs) ->
  dep_scrape dp (map sr_url (take 6 (r :: rs))) = p :: ps ->
  dep_analyze dp (body_need b) requirements (p :: ps) = inl e ->
  rtc request_step (snd (POST dp clk (Some b) d)) d' ->
  exists row, db_shortlists d' !! db_next d = Some row /\ sl_status row = Processing.
Proof.
  intros Hwf Hn Hr Hne Hs Hp Ha Hst.
  destruct (analysis_error_outcome dp clk b requirements Hn Hr Hne d r rs p ps e Hs Hp Ha)
    as (_ & Hrow & _).
  exists (new_row clk b requirements). split; [|reflexivity].
  eapply rows_unchanged; [by apply (wf_POST dp clk)|exact Hst|exact Hrow].
Qed.

(** ** The scenario of spec section 8 *)

Module Scenario.

Definition need : string := "Email delivery service for India".
Definition req : requirement := mk_requirement "1" "Under $50/month" MustHave (Some 9%Z).
Definition body : request_body := mk_body need (Some [req]).
Definition clk : clock := mk_clock 1000 1000 4000.

Definition results : list search_result :=
  [mk_search_result (JStr "A") (JStr "https://a.example") (JStr "") (JNum 1%Q);
   mk_search_result (JStr "B") (JStr "https://b.example") (JStr "") (JNum 2%Q);
   mk_search_result (JStr "C") (JStr "https://c.example") (JStr "") (JNum 3%Q)].

(** Two of the three pages could be fetched. *)
Definition pages : list scraped_data :=
  [mk_scraped "https://a.example" "A" "Email API" None (Some []);
   mk_scraped "https://c.example" "C" "SMTP relay" None (Some [])].

Definition vendor (name : string) (score : Z) : vendor_comparison :=
  mk_vendor (JStr name) (JStr "") (JStr "") (JStr "Contact Sales") (JStr "Contact Sales")
    (JStr "USD") (JArr []) (JArr []) (JArr []) (JArr []) (JNum (inject_Z score)) (JNum 0%Q).

Definition analysis : list vendor_comparison := [vendor "Mailer" 72; vendor "Sender" 88].

Definition deps_with (search : unit + list search_result) (scraped : list scraped_data)
    (analysed : unit + list vendor_comparison) : deps unit unit :=
  mk_deps (fun _ _ => search) (fun _ => scraped) (fun _ _ _ => analysed).

Definition ok_deps : deps unit unit := deps_with (inr results) pages (inr analysis).

Definition rows : list vendor_row :=
  Eval vm_compute in default [] (mapM (vendor_row_of 0) analysis).

End Scenario.

(** The scenario runs to a completed shortlist with the two vendors,
    88 before 72. *)
Example POST_scenario :
  match fst (POST Scenario.ok_deps Scenario.clk (Some Scenario.body) empty_db) with
  | inr (mk_response 200 (BodyShortlist _ row vendors _)) =>
      sl_status row = Completed /\ map vr_overallScore vendors = [inject_Z 88; inject_Z 72]
  | _ => False
  end.
Proof. vm_compute. split; reflexivity. Qed.

(** ** Witnesses *)

Module ScenarioWitnesses.
Import Scenario.

Definition r0 : search_result := mk_search_result JNull JNull JNull JNull.
Definition p0 : scraped_data := mk_scraped "" "" "" None None.

Definition after_ok : db := snd (POST ok_deps clk (Some body) empty_db).

Lemma POST_wf_witness : wf (snd (POST ok_deps clk (Some body) empty_db)).
Proof. apply POST_wf. apply wf_empty. Defined.

Lemma POST_rows_ok_witness :
  map_Forall (fun _ => row_ok) (db_shortlists (snd (POST ok_deps clk (Some body) empty_db))).
Proof. apply POST_rows_ok. apply map_Forall_empty. Defined.

Lemma POST_no_results_witness :
  fst (POST (deps_with (inr []) pages (inr analysis)) clk (Some body) empty_db) =
    inr (mk_response 404 (BodyError "No vendors found. Try rephrasing your need.")) /\
  db_shortlists (snd (POST (deps_with (inr []) pages (inr analysis)) clk (Some body) empty_db))
    !! db_next empty_db =
    Some (set_failed "No vendors found for this search" (new_row clk body [req])) /\
  db_vendors (snd (POST (deps_with (inr []) pages (inr analysis)) clk (Some body) empty_db)) =
    db_vendors empty_db.
Proof. apply POST_no_results; [reflexivity|reflexivity|discriminate|reflexivity]. Defined.

Lemma POST_no_pages_witness :
  fst (POST (deps_with (inr results) [] (inr analysis)) clk (Some body) empty_db) =
    inr (mk_response 500 (BodyError "Failed to gather vendor information")) /\
  db_shortlists (snd (POST (deps_with (inr results) [] (inr analysis)) clk (Some body) empty_db))
    !! db_next empty_db =
    Some (set_failed "Failed to scrape vendor websites" (new_row clk body [req])) /\
  db_vendors (snd (POST (deps_with (inr results) [] (inr analysis)) clk (Some body) empty_db)) =
    db_vendors empty_db.
Proof.
  apply (POST_no_pages _ clk body [req] eq_refl eq_refl ltac:(discriminate) empty_db
           (hd r0 results) (tail results)); reflexivity.
Defined.

Lemma POST_analysis_error_witness :
  fst (POST (deps_with (inr results) pages (inl tt)) clk (Some body) empty_db) =
    inr (mk_response 500 (BodyThrown (PErr_Analysis tt))) /\
  db_shortlists (snd (POST (deps_with (inr results) pages (inl tt)) clk (Some body) empty_db))
    !! db_next empty_db = Some (new_row clk body [req]) /\
  db_vendors (snd (POST (deps_with (inr results) pages (inl tt)) clk (Some body) empty_db)) =
    db_vendors empty_db.
Proof.
  apply (POST_analysis_error _ clk body [req] eq_refl eq_refl ltac:(discriminate) empty_db
           (hd r0 results) (tail results) (hd p0 pages) (tail pages)); reflexivity.
Defined.

Lemma POST_success_witness :
  exists vendors,
    fst (POST ok_deps clk (Some body) empty_db) =
      inr (mk_response 200 (BodyShortlist (db_next empty_db)
             (set_completed (t_end clk - t_start clk) (new_row clk body [req])) vendors
             (t_end clk - t_start clk))) /\
    vendors ≡ₚ rows /\ StronglySorted score_desc vendors /\
    db_shortlists (snd (POST ok_deps clk (Some body) empty_db)) !! db_next empty_db =
      Some (set_completed (t_end clk - t_start clk) (new_row clk body [req])).
Proof.
  apply (POST_success _ clk body [req] eq_refl eq_refl ltac:(discriminate) empty_db
           (hd r0 results) (tail results) (hd p0 pages) (tail pages) analysis);
    [apply wf_empty|reflexivity..].
Defined.

(** The second vendor's name is a number: [vendor.create] rejects it
    after the first row is written. *)
Definition bad_analysis : list vendor_comparison :=
  [vendor "Mailer" 72;
   mk_vendor (JNum 5%Q) (JStr "") (JStr "") (JStr "Contact Sales") (JStr "Contact Sales")
     (JStr "USD") (JArr []) (JArr []) (JArr []) (JArr []) (JNum 88%Q) (JNum 0%Q)].

Lemma POST_partial_write_witness :
  fst (POST (deps_with (inr results) pages (inr bad_analysis)) clk (Some body) empty_db) =
    inr (mk_response 500 (BodyThrown (PErr_Store SE_Validation))) /\
  db_shortlists (snd (POST (deps_with (inr results) pages (inr bad_analysis)) clk (Some body)
    empty_db)) !! db_next empty_db = Some (new_row clk body [req]) /\
  vendors_for (db_next empty_db)
    (db_vendors (snd (POST (deps_with (inr results) pages (inr bad_analysis)) clk (Some body)
      empty_db))) ≡ₚ omap (vendor_row_of (db_next empty_db)) bad_analysis.
Proof.
  apply (POST_partial_write _ clk body [req] eq_refl eq_refl ltac:(discriminate) empty_db
           (hd r0 results) (tail results) (hd p0 pages) (tail pages));
    [apply wf_empty|reflexivity..].
Defined.

Lemma POST_bad_request_witness :
  POST ok_deps clk (Some (mk_body "" (Some [req]))) empty_db = (inr bad_request, empty_db).
Proof. apply POST_bad_request. left. reflexivity. Defined.

Lemma reachable_invariant_witness :
  wf after_ok /\ map_Forall (fun _ => row_ok) (db_shortlists after_ok).
Proof. apply reachable_invariant. apply rtc_once. apply step_POST. Defined.

Definition completed_row : shortlist_row :=
  set_completed (t_end clk - t_start clk) (new_row clk body [req]).

(** The completed row survives a later request. *)
Lemma rows_frozen_witness :
  db_shortlists (snd (POST ok_deps clk (Some body) after_ok)) !! 0 = Some completed_row.
Proof.
  apply (rows_frozen after_ok); [apply wf_POST, wf_empty|apply rtc_once, step_POST|].
  vm_compute. reflexivity.
Defined.

Definition after_fail : db :=
  snd (POST (deps_with (inr results) pages (inl tt)) clk (Some body) empty_db).

(** A later successful request leaves the failed analysis's row in
    [processing]. *)
Lemma analysis_failure_stuck_witness :
  exists row, db_shortlists (snd (POST ok_deps clk (Some body) after_fail)) !! db_next empty_db =
    Some row /\ sl_status row = Processing.
Proof.
  apply (analysis_failure_stuck (deps_with (inr results) pages (inl tt)) clk body [req] empty_db
           _ (hd r0 results) (tail results) (hd p0 pages) (tail pages) tt);
    try reflexivity; [apply wf_empty|discriminate|apply rtc_once, step_POST].
Defined.

End ScenarioWitnesses.
