(* ===== verification/Concurrency.v ===== *)
(** * Concurrent requests to [POST /api/shortlist/create]

    Node runs every request of [src/src/app/api/shortlist/create/route.ts]
    on one event loop: between two [await]s of one request, the others
    run.  This file cuts the handler at its Prisma calls (lines 28, 40,
    59, each [vendor.create] of lines 76-96, and 99) and lets a schedule
    pick, at each step, which request resumes, which of its pending
    [vendor.create] calls settles next, and whether the database answers.
    The search, scrape and analysis awaits of lines 37-74 touch no shared
    state, so they run inside the step that leaves [Created].

    [POST] of [Orchestrator.v] is the run of one request alone with the
    database up ([run_alone_is_POST]).  Under every schedule the requests
    write disjoint rows, a finished row never changes, a [200] answer
    lists exactly the vendors of its own analysis, and every request
    finishes once it is resumed often enough. *)

From S2P Require Import Prelude JsString Json Types Store Orchestrator.
From Stdlib Require Import ZArith.

Open Scope nat_scope.
Open Scope string_scope.

Section Requests.
Context {SE AE : Type} (dp : deps SE AE).

(** Where one request of the handler is, between two Prisma calls. *)
Inductive stage : Type :=
| Received                                   (** before line 15 *)
| Created (id : nat) (need : string) (requirements : list requirement)
                                             (** after line 28 *)
| Writing (id : nat) (inflight : list vendor_comparison)
                                             (** [Promise.all] of lines 76-96 pending *)
| Answered (resp : @response SE AE) (orphans : list (nat * vendor_comparison)).
    (** the response is sent; [orphans] are [vendor.create] calls of a
        rejected [Promise.all] that still settle *)

(** The [catch] of lines 122-131 for a rejected Prisma call. *)
Definition thrown (e : store_error) : @response SE AE :=
  mk_response 500 (BodyThrown (PErr_Store e)).

Definition respond (r : @response SE AE) : stage := Answered r [].

(** Lines 40-51 and 59-70: mark the row failed, then answer [resp]. *)
Definition fail_run (up : bool) (id : nat) (msg : string) (resp : @response SE AE)
    (d : db) : stage * db :=
  match prisma_call up (update_shortlist id (set_failed msg)) d with
  | (inl e, d') => (respond (thrown e), d')
  | (inr _, d') => (respond resp, d')
  end.

(** One step of a request: [j] picks the pending [vendor.create] that
    settles, [up] whether the database answers the call of this step.
    [None] when the request has nothing left to do. *)
Definition handler_step (clk : clock) (body : option request_body) (up : bool) (j : nat)
    (st : stage) (d : db) : option (stage * db) :=
  match st with
  | Received =>
      Some match body with
      | None => (respond (mk_response 500 (BodyThrown PErr_RequestJson)), d)
      | Some b =>
          let need := body_need b in
          if String.eqb need "" then (respond bad_request, d) else
          match body_requirements b with
          | None | Some [] => (respond bad_request, d)
          | Some requirements =>
              match prisma_call up (create_shortlist
                      (mk_shortlist need requirements Processing None None (t_created clk))) d with
              | (inl e, d') => (respond (thrown e), d')
              | (inr id, d') => (Created id need requirements, d')
              end
          end
      end
  | Created id need requirements =>
      Some match dep_search dp need 10 with
      | inl e => (respond (mk_response 500 (BodyThrown (PErr_Search e))), d)
      | inr [] =>
          fail_run up id "No vendors found for this search"
            (mk_response 404 (BodyError "No vendors found. Try rephrasing your need.")) d
      | inr searchResults =>
          match dep_scrape dp (map sr_url (take 6 searchResults)) with
          | [] =>
              fail_run up id "Failed to scrape vendor websites"
                (mk_response 500 (BodyError "Failed to gather vendor information")) d
          | scrapedData =>
              match dep_analyze dp need requirements scrapedData with
              | inl e => (respond (mk_response 500 (BodyThrown (PErr_Analysis e))), d)
              | inr vendorAnalysis => (Writing id vendorAnalysis, d)
              end
          end
      end
  | Writing id [] =>
      let processingTime := (t_end clk - t_start clk)%Z in
      Some match prisma_call up (update_shortlist id (set_completed processingTime)) d with
      | (inl e, d') => (respond (thrown e), d')
      | (inr updated, d') =>
          (respond (mk_response 200 (BodyShortlist id updated (vendors_of d' id) processingTime)), d')
      end
  | Writing id inflight =>
      match inflight !! j with
      | None => None
      | Some v =>
          Some match prisma_call up (create_vendor id v) d with
          | (inl e, d') => (Answered (thrown e) (map (pair id) (delete j inflight)), d')
          | (inr _, d') => (Writing id (delete j inflight), d')
          end
      end
  | Answered resp orphans =>
      match orphans !! j with
      | None => None
      | Some (sid, v) =>
          Some (Answered resp (delete j orphans), snd (prisma_call up (create_vendor sid v) d))
      end
  end.

Record request : Type := mk_request {
  rq_clock : clock;
  rq_body : option request_body;   (** what [request.json()] gives *)
  rq_stage : stage
}.

Record server : Type := mk_server {
  srv_db : db;
  srv_requests : list request      (** by arrival *)
}.

Inductive event : Type :=
| Arrive (clk : clock) (body : option request_body)
| Resume (i j : nat) (up : bool).

Definition server_step (ev : event) (s : server) : option server :=
  match ev with
  | Arrive clk body => Some (mk_server (srv_db s) (srv_requests s ++ [mk_request clk body Received]))
  | Resume i j up =>
      match srv_requests s !! i with
      | None => None
      | Some r =>
          match handler_step (rq_clock r) (rq_body r) up j (rq_stage r) (srv_db s) with
          | None => None
          | Some (st', d') =>
              Some (mk_server d' (<[i := mk_request (rq_clock r) (rq_body r) st']> (srv_requests s)))
          end
      end
  end.

Fixpoint run_server (evs : list event) (s : server) : option server :=
  match evs with
  | [] => Some s
  | ev :: evs' => match server_step ev s with Some s' => run_server evs' s' | None => None end
  end.

End Requests.

Arguments stage : clear implicits.
Arguments request : clear implicits.
Arguments server : clear implicits.

(** ** One request alone is [POST] *)

Section Alone.
Context {SE AE : Type} (dp : deps SE AE) (clk : clock) (body : option request_body).

Definition solo (st : stage SE AE) (d : db) : server SE AE := mk_server d [mk_request clk body st].

(** Resuming the only request with the database up ends in [answer r]
    on the store [d']. *)
Definition alone_ends (st : stage SE AE) (d : db) (r : @response SE AE) (d' : db) : Prop :=
  exists n, run_server dp (repeat (Resume 0 0 true) n) (solo st d) = Some (solo (respond r) d').

Lemma alone_done (r : @response SE AE) (d : db) : alone_ends (respond r) d r d.
Proof. by exists 0. Qed.

Lemma alone_step (st st' : stage SE AE) (d d' d'' : db) (r : @response SE AE) :
  handler_step dp clk body true 0 st d = Some (st', d') ->
  alone_ends st' d' r d'' -> alone_ends st d r d''.
Proof. intros Hs [n Hn]. exists (S n). simpl. by rewrite Hs. Qed.

Lemma alone_step_pair (st : stage SE AE) (p : stage SE AE * db) (d d'' : db) (r : @response SE AE) :
  handler_step dp clk body true 0 st d = Some p ->
  alone_ends p.1 p.2 r d'' -> alone_ends st d r d''.
Proof. destruct p. apply alone_step. Qed.

Lemma alone_orphans (id : nat) (r : @response SE AE) (vs : list vendor_comparison) (d : db) :
  alone_ends (Answered r (map (pair id) vs)) d r (snd (promise_all (create_vendor id) vs d)).
Proof.
  revert d. induction vs as [|v vs IH]; intros d; [apply alone_done|].
  rewrite promise_all_cons_snd. eapply alone_step; [reflexivity|]. apply IH.
Qed.

(** The [Promise.all] of lines 76-96, one settled call per step. *)
Lemma alone_writing (id : nat) (va : list vendor_comparison) (d : db) :
  match promise_all (create_vendor id) va d with
  | (inl e, d1) => alone_ends (Writing id va) d (thrown e) d1
  | (inr _, d1) =>
      forall r d', alone_ends (Writing id []) d1 r d' -> alone_ends (Writing id va) d r d'
  end.
Proof.
  revert d. induction va as [|v vs IH]; intros d; simpl; [done|].
  destruct (create_vendor id v d) as [[e|row] d1] eqn:Hc.
  - eapply alone_step; [simpl; by rewrite Hc|]. apply alone_orphans.
  - specialize (IH d1). destruct (promise_all (create_vendor id) vs d1) as [[e|rows] d2].
    + eapply alone_step; [simpl; by rewrite Hc|]. exact IH.
    + intros r d' H. eapply alone_step; [simpl; by rewrite Hc|]. by apply IH.
Qed.

Definition on_error (e : pipeline_error SE AE) : pipe SE AE (@response SE AE) :=
  ret (mk_response 500 (BodyThrown e)).

(** The request at [st] ends as the block [c] of the handler does under
    its [catch]. *)
Definition ends_as (st : stage SE AE) (c : pipe SE AE (@response SE AE)) (d : db) : Prop :=
  match catch_run c on_error d with
  | (inr r, d') => alone_ends st d r d'
  | (inl _, _) => False
  end.

(** Take the step of the only request whose outcome the equations in
    the context fix. *)
Local Ltac alone_by_eqs :=
  eapply alone_step_pair; [reflexivity|]; unfold fail_run; simpl;
  repeat (match goal with H : ?a = _ |- context [?a] => rewrite H end; simpl).

Lemma alone_after_create (id : nat) (need : string) (requirements : list requirement) (d : db) :
  ends_as (Created id need requirements) (after_create dp clk id need requirements) d.
Proof.
  unfold ends_as, after_create, after_search, store_op, on_error, lift_err, of_sum. run_simpl.
  destruct (dep_search dp need 10) as [e|[|x xs]] eqn:Hs; simpl.
  - alone_by_eqs. apply alone_done.
  - destruct (update_shortlist id _ d) as [[e|row] d1] eqn:Hu; simpl; alone_by_eqs; apply alone_done.
  - match goal with |- context [dep_scrape dp ?u] => destruct (dep_scrape dp u) as [|p ps] eqn:Hp end;
      simpl.
    + destruct (update_shortlist id (set_failed "Failed to scrape vendor websites") d) as [[e|row] d1] eqn:Hu; simpl; alone_by_eqs; apply alone_done.
    + destruct (dep_analyze dp need requirements (p :: ps)) as [e|va] eqn:Ha; simpl;
        [alone_by_eqs; apply alone_done|].
      pose proof (alone_writing id va d) as Hw.
      destruct (promise_all (create_vendor id) va d) as [[e|rows] d1]; simpl;
        [alone_by_eqs; exact Hw|].
      destruct (update_shortlist id (set_completed (t_end clk - t_start clk)) d1)
        as [[e|row] d2] eqn:Hu; simpl; alone_by_eqs; apply Hw; alone_by_eqs; apply alone_done.
Qed.

Lemma alone_create_try (d : db) : ends_as Received (create_try dp clk body) d.
Proof.
  unfold ends_as, create_try, store_op, lift_err, on_error. run_simpl.
  destruct body as [b|] eqn:Hb; simpl; [|alone_by_eqs; apply alone_done].
  destruct (String.eqb (body_need b) "") eqn:En; simpl; [alone_by_eqs; apply alone_done|].
  destruct (body_requirements b) as [[|q qs]|] eqn:Hq; simpl; try (alone_by_eqs; apply alone_done).
  pose proof (alone_after_create (db_next d) (body_need b) (q :: qs)
                (snd (create_shortlist (mk_shortlist (body_need b) (q :: qs) Processing None None
                                                     (t_created clk)) d))) as H.
  unfold ends_as, catch_run, on_error, ret in H. simpl in H.
  match goal with |- context [after_create dp clk ?i ?n ?rs ?d1] =>
    destruct (after_create dp clk i n rs d1) as [[e|r] d'] end;
    simpl in *; alone_by_eqs; exact H.
Qed.

End Alone.

(** A request that runs alone with the database up
    ends, after finitely many resumes, with the response and the store
    of the sequential handler [POST]: cutting the handler at its Prisma
    calls adds no behaviour of its own. *)
Theorem run_alone_is_POST {SE AE : Type} (dp : deps SE AE) (clk : clock)
    (body : option request_body) (d : db) :
  exists (n : nat) (r : @response SE AE),
    fst (POST dp clk body d) = inr r /\
    run_server dp (Arrive clk body :: repeat (Resume 0 0 true) n) (mk_server d []) =
      Some (mk_server (snd (POST dp clk body d)) [mk_request clk body (Answered r [])]).
Proof.
  pose proof (alone_create_try dp clk body d) as H. unfold ends_as, on_error, POST in *.
  destruct (catch_run (create_try dp clk body) _ d) as [[e|r] d'] eqn:Hc; [done|].
  destruct H as [n Hn]. exists n, r. by split.
Qed.

(** ** What one step writes *)

Section Footprint.
Context {SE AE : Type}.

(** The shortlist rows a request may still write. *)
Definition stage_rows (st : stage SE AE) : list nat :=
  match st with
  | Received => []
  | Created id _ _ | Writing id _ => [id]
  | Answered _ orphans => map fst orphans
  end.

(** A step allowed to write the rows [held] (and to create a fresh
    one) keeps the store well formed and leaves every other row and its
    vendors as they are. *)
Definition footprint (held : list nat) (d d' : db) : Prop :=
  wf d' /\ db_next d <= db_next d' /\
  (forall id, id < db_next d -> id ∉ held -> db_shortlists d' !! id = db_shortlists d !! id) /\
  (forall sid, sid ∉ held -> vendors_for sid (db_vendors d') ≡ₚ vendors_for sid (db_vendors d)).

Lemma footprint_refl (held : list nat) (d : db) : wf d -> footprint held d d.
Proof. intros Hwf. by split_and!. Qed.

Lemma footprint_create_shortlist (held : list nat) (row : shortlist_row) (d : db) :
  wf d -> footprint held d (snd (create_shortlist row d)).
Proof.
  intros Hwf. split_and!; [by apply create_shortlist_wf_new|simpl; lia| |done].
  intros id Hid _. simpl. apply lookup_insert_ne. lia.
Qed.

Lemma footprint_update (held : list nat) (id : nat) (f : shortlist_row -> shortlist_row) (d : db) :
  wf d -> id ∈ held -> footprint held d (snd (update_shortlist id f d)).
Proof.
  intros Hwf Hid. destruct (db_shortlists d !! id) as [r|] eqn:E;
    [|unfold update_shortlist; rewrite E; by apply footprint_refl].
  split_and!.
  - apply (update_shortlist_wf id id f d). split; [done|by rewrite E].
  - unfold update_shortlist. by rewrite E.
  - intros j _ Hj. apply update_shortlist_other. set_solver.
  - unfold update_shortlist. by rewrite E.
Qed.

Lemma footprint_create_vendor (held : list nat) (sid : nat) (v : vendor_comparison) (d : db) :
  wf d -> sid ∈ held -> is_Some (db_shortlists d !! sid) ->
  footprint held d (snd (create_vendor sid v d)).
Proof.
  intros Hwf Hsid Hex. split_and!.
  - by apply (create_vendor_wf sid v d).
  - unfold create_vendor. destruct (vendor_row_of sid v); simpl; lia.
  - intros j _ _. unfold create_vendor. by destruct (vendor_row_of sid v).
  - intros sid' Hsid'. rewrite create_vendor_vendors_for by apply Hwf.
    destruct (vendor_row_of sid v) as [row|] eqn:E; [|done]. simpl.
    rewrite filter_cons_False; [done|]. rewrite (vendor_row_of_sid _ _ _ E). set_solver.
Qed.

Lemma footprint_prisma_call {A} (up : bool) (c : store A) (held : list nat) (d d1 : db) (x : store_error + A) :
  wf d -> footprint held d (snd (c d)) -> prisma_call up c d = (x, d1) -> footprint held d d1.
Proof.
  intros Hwf Hc. destruct up; simpl; [intros E; by rewrite E in Hc|].
  intros [= _ <-]. by apply footprint_refl.
Qed.

End Footprint.

Section StepFootprint.
Context {SE AE : Type} (dp : deps SE AE).

Definition rows_exist (st : stage SE AE) (d : db) : Prop :=
  forall id, id ∈ stage_rows st -> is_Some (db_shortlists d !! id).

Lemma orphan_held (orphans : list (nat * vendor_comparison)) (j sid : nat) (v : vendor_comparison) :
  orphans !! j = Some (sid, v) -> sid ∈ map fst orphans.
Proof. intros H. apply (list_elem_of_fmap_2' fst orphans (sid, v)); [by eapply list_elem_of_lookup_2|done]. Qed.

Lemma held_delete (orphans : list (nat * vendor_comparison)) (j sid : nat) :
  sid ∈ map fst (delete j orphans) -> sid ∈ map fst orphans.
Proof.
  intros (o & -> & Ho)%list_elem_of_fmap_1.
  apply list_elem_of_fmap_2, (list_elem_of_delete_inv _ j), Ho.
Qed.

Lemma held_pair (id sid : nat) (vs : list vendor_comparison) :
  sid ∈ map fst (map (pair id) vs) -> sid = id.
Proof. rewrite map_map. intros (v & -> & _)%list_elem_of_fmap_1. done. Qed.

Lemma prisma_create_vendor_shortlists (up : bool) (sid : nat) (v : vendor_comparison)
    (d d' : db) (x : store_error + vendor_row) :
  prisma_call up (create_vendor sid v) d = (x, d') -> db_shortlists d' = db_shortlists d.
Proof.
  destruct up; simpl; [|by intros [= _ <-]].
  unfold create_vendor. destruct (vendor_row_of sid v); by intros [= _ <-].
Qed.

(** A Prisma call of the step, on a row the stage holds. *)
Local Ltac footprint_call :=
  match goal with
  | H : prisma_call _ _ ?d = (_, ?d1) |- footprint _ ?d ?d1 =>
      eapply footprint_prisma_call; [done| |exact H]
  end;
  first [ by apply footprint_create_shortlist
        | apply footprint_update; [done|set_solver]
        | apply footprint_create_vendor; [done|set_solver|]; match goal with H : forall _, _ ∈ _ -> is_Some _ |- _ => apply H end;
          set_solver ].

Lemma handler_step_footprint (clk : clock) (body : option request_body) (up : bool) (j : nat)
    (st st' : stage SE AE) (d d' : db) :
  wf d -> rows_exist st d ->
  handler_step dp clk body up j st d = Some (st', d') -> footprint (stage_rows st) d d'.
Proof.
  unfold rows_exist. intros Hwf Hex Hs.
  destruct st as [|id need reqs|id inflight|resp orphans]; simpl in *; unfold fail_run in *;
    repeat (case_match; simplify_eq/=); try by apply footprint_refl.
  all: try footprint_call.
  match goal with
  | H : _ !! _ = Some (?sid, ?v) |- _ =>
      apply orphan_held in H; destruct (prisma_call up (create_vendor sid v) d) eqn:E
  end. simpl. footprint_call.
Qed.

(** After a step a request holds rows it held before, which the step
    left as they were, or the row it has just created. *)
Lemma handler_step_rows (clk : clock) (body : option request_body) (up : bool) (j : nat)
    (st st' : stage SE AE) (d d' : db) :
  handler_step dp clk body up j st d = Some (st', d') ->
  forall id, id ∈ stage_rows st' ->
    (id ∈ stage_rows st /\ db_shortlists d' !! id = db_shortlists d !! id) \/
    (id = db_next d /\ exists row, db_shortlists d' !! id = Some row /\ sl_status row = Processing).
Proof.
  intros Hs id Hid. destruct st as [|id0 need reqs|id0 inflight|resp orphans]; simpl in *;
    unfold fail_run, respond in *; repeat (case_match; simplify_eq/=); try set_solver.
  all: try match goal with |- context [prisma_call ?u (create_vendor ?sid ?v) ?d0] =>
      destruct (prisma_call u (create_vendor sid v) d0) as [x d1] eqn:E; simpl end.
  all: try (left; split;
      [first [set_solver|apply held_pair in Hid as ->; set_solver|by eapply held_delete]
      |by rewrite (prisma_create_vendor_shortlists _ _ _ _ _ _ ltac:(eassumption))]).
  destruct up; simpl in *; simplify_eq/=. unfold create_shortlist in *. simplify_eq/=.
  apply list_elem_of_singleton in Hid as ->.
  right. split; [done|]. eexists; split; [apply lookup_insert_eq|done].
Qed.

End StepFootprint.

(** ** Isolation of concurrent requests *)

Section Isolation.
Context {SE AE : Type} (dp : deps SE AE).

(** The store is well formed, every row a request still writes exists
    and is processing, and no two requests write the same row. *)
Record isolated (s : server SE AE) : Prop := {
  iso_wf : wf (srv_db s);
  iso_processing : forall i r id, srv_requests s !! i = Some r -> id ∈ stage_rows (rq_stage r) ->
    exists row, db_shortlists (srv_db s) !! id = Some row /\ sl_status row = Processing;
  iso_disjoint : forall i k ri rk id, i <> k ->
    srv_requests s !! i = Some ri -> srv_requests s !! k = Some rk ->
    id ∈ stage_rows (rq_stage ri) -> id ∉ stage_rows (rq_stage rk)
}.

Lemma isolated_empty (d : db) : wf d -> isolated (mk_server d []).
Proof. intros Hwf. split; [done|intros ???; simpl; by rewrite lookup_nil..]. Qed.

Lemma held_below (s : server SE AE) (i : nat) (r : request SE AE) (id : nat) :
  isolated s -> srv_requests s !! i = Some r -> id ∈ stage_rows (rq_stage r) -> id < db_next (srv_db s).
Proof.
  intros Hs Hi Hid. destruct (iso_processing s Hs i r id Hi Hid) as (row & Hrow & _).
  destruct (iso_wf s Hs) as (Hsl & _ & _). exact (Hsl id row Hrow).
Qed.

Lemma rows_exist_of (s : server SE AE) (i : nat) (r : request SE AE) :
  isolated s -> srv_requests s !! i = Some r -> rows_exist (rq_stage r) (srv_db s).
Proof.
  intros Hs Hi id Hid. destruct (iso_processing s Hs i r id Hi Hid) as (row & Hrow & _).
  by rewrite Hrow.
Qed.

Lemma isolated_arrive (s : server SE AE) (clk : clock) (body : option request_body) :
  isolated s -> isolated (mk_server (srv_db s) (srv_requests s ++ [mk_request clk body Received])).
Proof.
  intros [Hwf Hp Hd]. split; simpl; [done| |].
  - intros i r id [[_ Hi]|[_ <-]]%lookup_snoc_Some Hid; [by eapply Hp|set_solver].
  - intros i k ri rk id Hik [[_ Hi]|[_ <-]]%lookup_snoc_Some [[_ Hk]|[_ <-]]%lookup_snoc_Some;
      simpl; [by eapply Hd|set_solver..].
Qed.

Lemma isolated_resume (s : server SE AE) (i j : nat) (up : bool) (r : request SE AE)
    (st' : stage SE AE) (d' : db) :
  isolated s -> srv_requests s !! i = Some r ->
  handler_step dp (rq_clock r) (rq_body r) up j (rq_stage r) (srv_db s) = Some (st', d') ->
  isolated (mk_server d' (<[i := mk_request (rq_clock r) (rq_body r) st']> (srv_requests s))).
Proof.
  intros Hiso Hi Hs. pose proof Hiso as [Hwf Hp Hd].
  destruct (handler_step_footprint dp _ _ _ _ _ _ _ _ Hwf (rows_exist_of s i r Hiso Hi) Hs)
    as (Hwf' & _ & Hsl & _).
  pose proof (handler_step_rows dp _ _ _ _ _ _ _ _ Hs) as Hrows.
  assert (Hnew : forall k rk id, k <> i -> srv_requests s !! k = Some rk ->
                 id ∈ stage_rows st' -> id ∉ stage_rows (rq_stage rk)).
  { intros k rk id Hk Hrk Hid Hid'. destruct (Hrows id Hid) as [[Hold _]|[-> _]].
    - by apply (Hd i k r rk id).
    - pose proof (held_below s k rk _ Hiso Hrk Hid'). lia. }
  assert (Hother : forall k rk id, k <> i -> srv_requests s !! k = Some rk ->
                   id ∈ stage_rows (rq_stage rk) -> db_shortlists d' !! id = db_shortlists (srv_db s) !! id).
  { intros k rk id Hk Hrk Hid. apply Hsl; [by eapply held_below|]. by apply (Hd k i rk r id). }
  split; simpl; [done| |].
  - intros k rk id [(<- & <- & _)|(Hne & Hk)]%list_lookup_insert_Some Hid.
    + destruct (Hrows id Hid) as [[Hold ->]|[-> Hrow]]; [by eapply Hp|exact Hrow].
    + rewrite (Hother k rk id) by auto. by eapply Hp.
  - intros k1 k2 r1 r2 id Hne [(<- & <- & _)|(Hne1 & H1)]%list_lookup_insert_Some
      [(<- & <- & _)|(Hne2 & H2)]%list_lookup_insert_Some; simpl.
    + done.
    + intros Hid. by eapply Hnew.
    + intros Hid Hid'. by apply (Hnew k1 r1 id Hne H1 Hid').
    + exact (Hd k1 k2 r1 r2 id Hne H1 H2).
Qed.

Lemma server_step_isolated (ev : event) (s s' : server SE AE) :
  isolated s -> server_step dp ev s = Some s' -> isolated s'.
Proof.
  intros Hs. destruct ev as [clk body|i j up]; simpl; [intros [= <-]; by apply isolated_arrive|].
  destruct (srv_requests s !! i) as [r|] eqn:Hi; [|done].
  destruct (handler_step dp _ _ _ _ _ _) as [[st' d']|] eqn:Hst; [|done].
  intros [= <-]. by eapply isolated_resume.
Qed.

Lemma run_server_isolated (evs : list event) (s s' : server SE AE) :
  isolated s -> run_server dp evs s = Some s' -> isolated s'.
Proof.
  revert s. induction evs as [|ev evs IH]; intros s Hs; simpl; [by intros [= <-]|].
  destruct (server_step dp ev s) as [s1|] eqn:E; [|done]. apply IH. by eapply server_step_isolated.
Qed.

(** A property of servers that every step from an isolated server
    keeps holds after every run. *)
Lemma run_server_preserves (P : server SE AE -> Prop) :
  (forall ev s s', isolated s -> P s -> server_step dp ev s = Some s' -> P s') ->
  forall evs s s', isolated s -> P s -> run_server dp evs s = Some s' -> P s'.
Proof.
  intros Hstep evs. induction evs as [|ev evs IH]; intros s s' Hiso Hp; simpl; [by intros [= <-]|].
  destruct (server_step dp ev s) as [s1|] eqn:E; [|done].
  apply IH; [by eapply server_step_isolated|by eapply Hstep].
Qed.

(** A row no request holds, the one of a finished run in particular,
    is left as it is by every step, and so are its vendors. *)
Lemma server_step_unheld (ev : event) (s s' : server SE AE) (id : nat) (row : shortlist_row) :
  isolated s -> server_step dp ev s = Some s' ->
  db_shortlists (srv_db s) !! id = Some row -> sl_status row <> Processing ->
  db_shortlists (srv_db s') !! id = Some row /\
  vendors_for id (db_vendors (srv_db s')) ≡ₚ vendors_for id (db_vendors (srv_db s)).
Proof.
  intros Hiso. destruct ev as [clk body|i j up]; simpl; [by intros [= <-]|].
  destruct (srv_requests s !! i) as [r|] eqn:Hi; [|done].
  destruct (handler_step dp _ _ _ _ _ _) as [[st' d']|] eqn:Hst; [|done].
  intros [= <-] Hrow Hterm. simpl.
  destruct (handler_step_footprint dp _ _ _ _ _ _ _ _ (iso_wf s Hiso) (rows_exist_of s i r Hiso Hi) Hst)
    as (_ & _ & Hsl & Hv).
  assert (Hnot : id ∉ stage_rows (rq_stage r)).
  { intros Hid. destruct (iso_processing s Hiso i r id Hi Hid) as (row' & Hrow' & Hp). congruence. }
  split; [|by apply Hv]. rewrite Hsl; [done| |done].
  destruct (iso_wf s Hiso) as (Hs & _ & _). exact (Hs id row Hrow).
Qed.

End Isolation.

(** C4 (invariant): under every schedule of arriving and resuming
    requests, with the database up or down at each call, the store stays
    well formed, every row a request still writes exists and is
    processing, and no two requests write the same shortlist row. *)
Theorem concurrent_requests_isolated {SE AE : Type} (dp : deps SE AE) (d : db)
    (evs : list event) (s : server SE AE) :
  wf d -> run_server dp evs (mk_server d []) = Some s -> isolated s.
Proof. intros Hwf. apply run_server_isolated, isolated_empty, Hwf. Qed.

(** C5 (safety): once a row is completed or failed, no later step of any
    request changes it or the vendors listed under it, whatever the
    schedule and the database outages. *)
Theorem concurrent_finished_rows_frozen {SE AE : Type} (dp : deps SE AE) (d : db)
    (evs evs' : list event) (s s' : server SE AE) (id : nat) (row : shortlist_row) :
  wf d -> run_server dp evs (mk_server d []) = Some s -> run_server dp evs' s = Some s' ->
  db_shortlists (srv_db s) !! id = Some row -> sl_status row <> Processing ->
  db_shortlists (srv_db s') !! id = Some row /\
  vendors_for id (db_vendors (srv_db s')) ≡ₚ vendors_for id (db_vendors (srv_db s)).
Proof.
  intros Hwf Hrun. pose proof (run_server_isolated dp _ _ _ (isolated_empty d Hwf) Hrun) as Hiso.
  clear Hrun. revert s Hiso. induction evs' as [|ev evs1 IH]; intros s Hiso; simpl; [by intros [= <-]|].
  destruct (server_step dp ev s) as [s1|] eqn:E; [|done]. intros Hrun Hrow Hterm.
  destruct (server_step_unheld dp ev s s1 id row Hiso E Hrow Hterm) as [Hrow1 Hv1].
  destruct (IH s1 (server_step_isolated dp ev s s1 Hiso E) Hrun Hrow1 Hterm) as [-> Hv].
  split; [done|]. by rewrite Hv, Hv1.
Qed.

(** ** The vendors of a [200] answer are the request's own *)

Section OwnVendors.
Context {SE AE : Type} (dp : deps SE AE).

(** Lines 37-74 on a need and its requirements: the vendors the
    analysis returns, when the run gets that far. *)
Definition analysis_of (need : string) (requirements : list requirement)
    : option (list vendor_comparison) :=
  match dep_search dp need 10 with
  | inr ((_ :: _) as searchResults) =>
      match dep_scrape dp (map sr_url (take 6 searchResults)) with
      | [] => None
      | scrapedData =>
          match dep_analyze dp need requirements scrapedData with
          | inr vendorAnalysis => Some vendorAnalysis
          | inl _ => None
          end
      end
  | _ => None
  end.

(** A [200] answer for row [id] lists the rows of the analysis of the
    request's own body, each vendor written once. *)
Definition answer_own (body : option request_body) (resp : @response SE AE) : Prop :=
  forall id row vs pt, resp_body resp = BodyShortlist id row vs pt ->
  exists b requirements va rows,
    body = Some b /\ body_requirements b = Some requirements /\
    analysis_of (body_need b) requirements = Some va /\
    mapM (vendor_row_of id) va = Some rows /\ vs ≡ₚ rows.

(** What a request has written so far: nothing before its analysis, the
    settled part [settled] of its analysis while [Promise.all] runs. *)
Definition own_vendors (body : option request_body) (d : db) (st : stage SE AE) : Prop :=
  match st with
  | Received => True
  | Created id need requirements =>
      (exists b, body = Some b /\ body_need b = need /\ body_requirements b = Some requirements) /\
      vendors_for id (db_vendors d) = []
  | Writing id inflight =>
      exists b requirements va settled rows,
        body = Some b /\ body_requirements b = Some requirements /\
        analysis_of (body_need b) requirements = Some va /\ va ≡ₚ settled ++ inflight /\
        mapM (vendor_row_of id) settled = Some rows /\ vendors_for id (db_vendors d) ≡ₚ rows
  | Answered resp _ => answer_own body resp
  end.

Lemma own_vendors_frame (body : option request_body) (d d' : db) (st : stage SE AE) :
  (forall sid, sid ∈ stage_rows st -> vendors_for sid (db_vendors d') ≡ₚ vendors_for sid (db_vendors d)) ->
  own_vendors body d st -> own_vendors body d' st.
Proof.
  intros Hv. destruct st as [|id need reqs|id inflight|resp orphans]; simpl in *; [auto| | |auto].
  - intros [Hb Hnil]. split; [done|]. apply Permutation_nil_r. rewrite <-Hnil. apply Hv. set_solver.
  - intros (b & reqs & va & settled & rows & ? & ? & ? & ? & ? & Hp).
    exists b, reqs, va, settled, rows. split_and!; try done. rewrite <-Hp. apply Hv. set_solver.
Qed.

Lemma prisma_update_vendors (up : bool) (id : nat) (f : shortlist_row -> shortlist_row)
    (d d' : db) (x : store_error + shortlist_row) :
  prisma_call up (update_shortlist id f) d = (x, d') -> db_vendors d' = db_vendors d.
Proof.
  destruct up; simpl; [|by intros [= _ <-]].
  unfold update_shortlist. destruct (db_shortlists d !! id); by intros [= _ <-].
Qed.

Lemma prisma_create_vendor_ok (up : bool) (sid : nat) (v : vendor_comparison) (d d' : db)
    (row : vendor_row) :
  prisma_call up (create_vendor sid v) d = (inr row, d') ->
  vendor_row_of sid v = Some row /\ d' = snd (create_vendor sid v d).
Proof.
  destruct up; simpl; [|discriminate].
  unfold create_vendor. destruct (vendor_row_of sid v); by intros [= <- <-].
Qed.

Lemma answer_own_error (body : option request_body) (st : Z) (msg : response_body) :
  (forall id row vs pt, msg <> BodyShortlist id row vs pt) ->
  answer_own body (mk_response st msg).
Proof. intros Hn id row vs pt Hb. by destruct (Hn id row vs pt). Qed.

Lemma handler_step_own (clk : clock) (body : option request_body) (up : bool) (j : nat)
    (st st' : stage SE AE) (d d' : db) :
  wf d -> handler_step dp clk body up j st d = Some (st', d') ->
  own_vendors body d st -> own_vendors body d' st'.
Proof.
  intros Hwf Hs. destruct st as [|id need reqs|id inflight|resp orphans]; simpl in *;
    unfold fail_run, respond in *; repeat (case_match; simplify_eq/=);
    try (intros; apply answer_own_error; discriminate); [| | | |auto].
  - destruct up; simpl in *; [|discriminate]. unfold create_shortlist in *. simplify_eq/=.
    intros _. split; [by eexists|by apply wf_vendors_for_fresh].
  - intros [(b & -> & <- & Hr) Hnil]. exists b, reqs, l1, [], []. rewrite Hnil. split_and!; try done.
    unfold analysis_of. simpl.
    repeat (match goal with H : ?a = _ |- context [?a] => rewrite H end; simpl). done.
  - intros (b & reqs & va & settled & rows & -> & Hr & Ha & Hp & Hm & Hv) id' row vs pt [= <- <- <- <-].
    rewrite app_nil_r in Hp. destruct (mapM_Permutation _ _ _ _ (symmetry Hp) Hm) as (rows' & Hm' & Hp').
    exists b, reqs, va, rows'. split_and!; try done.
    unfold vendors_of. rewrite order_by_score_desc_perm, (prisma_update_vendors _ _ _ _ _ _ H), Hv.
    by symmetry.
  - intros (b & reqs & va & settled & rows & -> & Hr & Ha & Hp & Hm & Hv).
    match goal with H : prisma_call _ (create_vendor _ _) _ = (inr _, _) |- _ =>
      destruct (prisma_create_vendor_ok _ _ _ _ _ _ H) as [Hrow ->] end.
    match type of Hrow with vendor_row_of _ ?w = Some ?row =>
      exists b, reqs, va, (w :: settled), (row :: rows) end.
    split_and!; try done.
    + rewrite Hp. etrans; [apply Permutation_app_head, (delete_Permutation _ _ _ H)|].
      symmetry. apply Permutation_middle.
    + cbn. rewrite Hrow. cbn. by rewrite Hm.
    + destruct Hwf as (_ & Hk & _). rewrite (create_vendor_vendors_for _ _ _ _ Hk), Hrow. simpl.
      rewrite filter_cons_True by apply (vendor_row_of_sid _ _ _ Hrow). simpl. by rewrite Hv.
Qed.

Definition vendors_ok (s : server SE AE) : Prop :=
  forall i r, srv_requests s !! i = Some r -> own_vendors (rq_body r) (srv_db s) (rq_stage r).

Lemma server_step_vendors_ok (ev : event) (s s' : server SE AE) :
  isolated s -> vendors_ok s -> server_step dp ev s = Some s' -> vendors_ok s'.
Proof.
  intros Hiso Hok. destruct ev as [clk body|i j up]; simpl.
  - intros [= <-] k rk [[_ Hk]|[_ <-]]%lookup_snoc_Some; [exact (Hok k rk Hk)|done].
  - destruct (srv_requests s !! i) as [r|] eqn:Hi; [|done].
    destruct (handler_step dp _ _ _ _ _ _) as [[st' d']|] eqn:Hst; [|done].
    intros [= <-] k rk [(<- & <- & _)|(Hne & Hk)]%list_lookup_insert_Some; simpl.
    + eapply handler_step_own; [apply Hiso|exact Hst|exact (Hok i r Hi)].
    + destruct (handler_step_footprint dp _ _ _ _ _ _ _ _ (iso_wf s Hiso)
                  (rows_exist_of s i r Hiso Hi) Hst) as (_ & _ & _ & Hv).
      apply (own_vendors_frame _ (srv_db s)); [|exact (Hok k rk Hk)].
      intros sid Hsid. apply Hv. exact (iso_disjoint s Hiso k i rk r sid (not_eq_sym Hne) Hk Hi Hsid).
Qed.

End OwnVendors.

(** C8 (functional): whatever the schedule and the database outages,
    a [200] answer of a request lists exactly the vendor rows of its own
    analysis, each once: no vendor of a concurrent request leaks into
    it, and none of its own is missing. *)
Theorem concurrent_answer_own_vendors {SE AE : Type} (dp : deps SE AE) (d : db)
    (evs : list event) (s : server SE AE) (i : nat) (r : request SE AE)
    (resp : @response SE AE) (orphans : list (nat * vendor_comparison))
    (id : nat) (row : shortlist_row) (vs : list vendor_row) (pt : Z) :
  wf d -> run_server dp evs (mk_server d []) = Some s ->
  srv_requests s !! i = Some r -> rq_stage r = Answered resp orphans ->
  resp_body resp = BodyShortlist id row vs pt ->
  exists b requirements va rows,
    rq_body r = Some b /\ body_requirements b = Some requirements /\
    analysis_of dp (body_need b) requirements = Some va /\
    mapM (vendor_row_of id) va = Some rows /\ vs ≡ₚ rows.
Proof.
  intros Hwf Hrun Hi Hst Hb.
  assert (Hok : vendors_ok dp s).
  { eapply (run_server_preserves dp (vendors_ok dp)); [apply server_step_vendors_ok|
      by apply isolated_empty|intros ?? Hk; simpl in Hk; by rewrite lookup_nil in Hk|exact Hrun]. }
  specialize (Hok i r Hi). rewrite Hst in Hok. exact (Hok id row vs pt Hb).
Qed.

(** ** Every request finishes on its own *)

Section Progress.
Context {SE AE : Type} (dp : deps SE AE) (i : nat) (up : bool) (clk : clock)
  (body : option request_body).

(** Resuming request [i] alone, [n] times, ends in an answer with no
    write pending, and leaves the other requests as they are. *)
Definition finishes (s : server SE AE) : Prop :=
  exists n s' resp, run_server dp (repeat (Resume i 0 up) n) s = Some s' /\
    srv_requests s' !! i = Some (mk_request clk body (Answered resp [])) /\
    forall k, k <> i -> srv_requests s' !! k = srv_requests s !! k.

Definition finishes_at (st : stage SE AE) : Prop :=
  forall s, srv_requests s !! i = Some (mk_request clk body st) -> finishes s.

Lemma finishes_done (resp : @response SE AE) : finishes_at (Answered resp []).
Proof. intros s Hi. by exists 0, s, resp. Qed.

Lemma finishes_by (st st' : stage SE AE) (s : server SE AE) (d' : db) :
  finishes_at st' -> srv_requests s !! i = Some (mk_request clk body st) ->
  handler_step dp clk body up 0 st (srv_db s) = Some (st', d') -> finishes s.
Proof.
  intros Hf Hi Hs.
  destruct (Hf (mk_server d' (<[i := mk_request clk body st']> (srv_requests s))))
    as (n & s' & resp & Hrun & Hi' & Hk).
  { simpl. apply list_lookup_insert_eq. by eapply lookup_lt_Some. }
  exists (S n), s', resp. simpl. rewrite Hi. simpl. rewrite Hs.
  split_and!; [done|done|]. intros k Hne. rewrite Hk by done. simpl.
  by apply list_lookup_insert_ne.
Qed.

Lemma finishes_orphans (resp : @response SE AE) (orphans : list (nat * vendor_comparison)) :
  finishes_at (Answered resp orphans).
Proof.
  induction orphans as [|[sid v] os IH]; [apply finishes_done|].
  intros s Hi. eapply (finishes_by _ (Answered resp os)); [exact IH|exact Hi|reflexivity].
Qed.

Lemma finishes_writing (id : nat) (inflight : list vendor_comparison) :
  finishes_at (Writing id inflight).
Proof.
  induction inflight as [|v l IH]; intros s Hi.
  - destruct (prisma_call up (update_shortlist id (set_completed (t_end clk - t_start clk))) (srv_db s))
      as [[e|u] d1] eqn:E;
      (eapply (finishes_by _ (respond _)); [apply finishes_done|exact Hi|simpl; by rewrite E]).
  - destruct (prisma_call up (create_vendor id v) (srv_db s)) as [[e|u] d1] eqn:E.
    + eapply (finishes_by _ (Answered (thrown e) (map (pair id) l)));
        [apply finishes_orphans|exact Hi|simpl; by rewrite E].
    + eapply (finishes_by _ (Writing id l)); [exact IH|exact Hi|simpl; by rewrite E].
Qed.

Lemma finishes_created (id : nat) (need : string) (requirements : list requirement) :
  finishes_at (Created id need requirements).
Proof.
  intros s Hi.
  destruct (handler_step dp clk body up 0 (Created id need requirements) (srv_db s))
    as [[st' d']|] eqn:E; [|by simpl in E].
  eapply finishes_by; [|exact Hi|exact E].
  simpl in E. unfold fail_run, respond in E.
  repeat (case_match; simplify_eq/=); first [apply finishes_done|apply finishes_writing].
Qed.

Lemma finishes_received : finishes_at Received.
Proof.
  intros s Hi.
  destruct (handler_step dp clk body up 0 Received (srv_db s)) as [[st' d']|] eqn:E; [|by simpl in E].
  eapply finishes_by; [|exact Hi|exact E].
  simpl in E. unfold respond in E.
  repeat (case_match; simplify_eq/=); first [apply finishes_done|apply finishes_created].
Qed.

End Progress.

(** A request never waits for another: from any state
    of the server, resuming it alone (with the database up or down)
    ends, after finitely many steps, in an answer with no write still
    pending, and leaves the other requests where they are. *)
Theorem request_finishes {SE AE : Type} (dp : deps SE AE) (s : server SE AE) (i : nat)
    (r : request SE AE) (up : bool) :
  srv_requests s !! i = Some r ->
  exists n s' resp, run_server dp (repeat (Resume i 0 up) n) s = Some s' /\
    srv_requests s' !! i = Some (mk_request (rq_clock r) (rq_body r) (Answered resp [])) /\
    forall k, k <> i -> srv_requests s' !! k = srv_requests s !! k.
Proof.
  destruct r as [clk body st]. simpl. revert s.
  destruct st; [apply finishes_received|apply finishes_created|apply finishes_writing|
                apply finishes_orphans].
Qed.

(** ** Witnesses *)

Module ConcurrencyWitnesses.
Import Scenario.

(** Two requests for the same need, their Prisma calls interleaved and
    the vendor creates of request 0 settling out of order; request 1
    completes first. *)
Definition two_runs : list event :=
  [Arrive clk (Some body); Arrive clk (Some body);
   Resume 0 0 true; Resume 1 0 true; Resume 1 0 true; Resume 0 0 true;
   Resume 0 1 true; Resume 1 0 true; Resume 1 0 true; Resume 0 0 true;
   Resume 1 0 true].

Definition no_server : server unit unit := mk_server empty_db [].

Definition after_two : server unit unit :=
  Eval vm_compute in default no_server (run_server ok_deps two_runs no_server).

Definition after_both : server unit unit :=
  Eval vm_compute in default no_server (run_server ok_deps [Resume 0 0 true] after_two).

Definition blank_row : shortlist_row := mk_shortlist "" [] Pending None None 0.

Definition second_row : shortlist_row :=
  Eval vm_compute in default blank_row (db_shortlists (srv_db after_two) !! 1).

Definition first_request : request unit unit :=
  Eval vm_compute in default (mk_request clk None Received) (srv_requests after_both !! 0).

Definition first_response : @response unit unit :=
  Eval vm_compute in
  match rq_stage first_request with Answered r _ => r | _ => mk_response 0 (BodyError "") end.

Definition first_row : shortlist_row :=
  Eval vm_compute in
  match resp_body first_response with BodyShortlist _ row _ _ => row | _ => blank_row end.

Definition first_vendors : list vendor_row :=
  Eval vm_compute in
  match resp_body first_response with BodyShortlist _ _ vs _ => vs | _ => [] end.

Definition writing_request : request unit unit :=
  Eval vm_compute in default (mk_request clk None Received) (srv_requests after_two !! 0).

Lemma concurrent_requests_isolated_witness : isolated after_two.
Proof.
  apply (concurrent_requests_isolated ok_deps empty_db two_runs); [apply wf_empty|].
  vm_compute. reflexivity.
Defined.

Lemma concurrent_finished_rows_frozen_witness :
  db_shortlists (srv_db after_both) !! 1 = Some second_row /\
  vendors_for 1 (db_vendors (srv_db after_both)) ≡ₚ vendors_for 1 (db_vendors (srv_db after_two)).
Proof.
  apply (concurrent_finished_rows_frozen ok_deps empty_db two_runs [Resume 0 0 true]);
    [apply wf_empty|vm_compute; reflexivity..|vm_compute; discriminate].
Defined.

Lemma concurrent_answer_own_vendors_witness :
  exists b requirements va rows,
    rq_body first_request = Some b /\ body_requirements b = Some requirements /\
    analysis_of ok_deps (body_need b) requirements = Some va /\
    mapM (vendor_row_of 0) va = Some rows /\ first_vendors ≡ₚ rows.
Proof.
  apply (concurrent_answer_own_vendors ok_deps empty_db (two_runs ++ [Resume 0 0 true]) after_both 0
           first_request first_response [] 0 first_row first_vendors 3000);
    [apply wf_empty|vm_compute; reflexivity..].
Defined.

Lemma request_finishes_witness :
  exists n s' resp, run_server ok_deps (repeat (Resume 0 0 true) n) after_two = Some s' /\
    srv_requests s' !! 0 =
      Some (mk_request (rq_clock writing_request) (rq_body writing_request) (Answered resp [])) /\
    forall k, k <> 0 -> srv_requests s' !! k = srv_requests after_two !! k.
Proof. apply (request_finishes ok_deps after_two 0 writing_request true). vm_compute. reflexivity. Defined.

(** The database goes down for the first [vendor.create] of a run: the
    request answers [500] at once, the second create is still in flight
    and lands afterwards, under a row that stays [processing]. *)
Definition outage : list event :=
  [Arrive clk (Some body); Resume 0 0 true; Resume 0 0 true; Resume 0 0 false].

Example rejected_run_writes_after_answer :
  match run_server ok_deps outage no_server,
        run_server ok_deps (outage ++ [Resume 0 0 true]) no_server with
  | Some s1, Some s2 =>
      map (fun r => match rq_stage r with Answered resp _ => resp_status resp | _ => 0%Z end)
        (srv_requests s1) = [500%Z] /\
      length (vendors_for 0 (db_vendors (srv_db s1))) = 0 /\
      length (vendors_for 0 (db_vendors (srv_db s2))) = 1 /\
      option_map sl_status (db_shortlists (srv_db s2) !! 0) = Some Processing
  | _, _ => False
  end.
Proof. vm_compute. split_and!; reflexivity. Qed.

(** The database goes down for the final update of line 99: all the
    vendors are written, the answer is [500], and the run stays
    [processing] with no terminal status. *)
Example outage_at_completion_stuck :
  match run_server ok_deps
          [Arrive clk (Some body); Resume 0 0 true; Resume 0 0 true; Resume 0 0 true;
           Resume 0 0 true; Resume 0 0 false] no_server with
  | Some s =>
      map (fun r => match rq_stage r with Answered resp _ => resp_status resp | _ => 0%Z end)
        (srv_requests s) = [500%Z] /\
      length (vendors_for 0 (db_vendors (srv_db s))) = 2 /\
      option_map sl_status (db_shortlists (srv_db s) !! 0) = Some Processing
  | None => False
  end.
Proof. vm_compute. split_and!; reflexivity. Qed.

(** Alone, the scenario request ends as [POST] does. *)
Example run_alone_scenario :
  run_server ok_deps (Arrive clk (Some body) :: repeat (Resume 0 0 true) 5) no_server =
  Some (mk_server (snd (POST ok_deps clk (Some body) empty_db))
          [mk_request clk (Some body)
             (Answered (default (mk_response 0 (BodyError ""))
                          (match fst (POST ok_deps clk (Some body) empty_db) with
                           | inr r => Some r | inl _ => None end)) [])]).
Proof. vm_compute. reflexivity. Qed.

End ConcurrencyWitnesses.
