(* ===== verification/Wiring.v ===== *)
(** * The create route over its real components

    [route.ts] imports [searchVendors] from [serpapi.ts],
    [scrapeMultipleUrls] from [scraper.ts] and [analyzeVendors] from
    [gemini.ts] (lines 3-5).  [route_deps] plugs the models of those
    three functions into the [deps] the handler of [Orchestrator.v] is
    written against, so that the handler's theorems apply to the program
    as deployed and can be combined with the components' own. *)

From S2P Require Import Prelude JsString Json Http Types Search Scraper Analyzer Store Orchestrator.
From Stdlib Require Import ZArith QArith.

Close Scope Q_scope.
Open Scope nat_scope.
Open Scope string_scope.

Import Search.Serp Analyzer.Gemini.

(** The environments of the three components, and the timestamp the
    prompt carries. *)
Record route_env : Type := mk_route_env {
  serp : serp_env;
  scraper : scrape_env;
  gemini : gemini_env;
  now_iso : string
}.

(** Lines 3-5 *)
Definition route_deps (env : route_env) : deps search_error analysis_error :=
  mk_deps (fun need count => searchVendors (serp env) need count)
    (scrapeMultipleUrls (scraper env))
    (fun need requirements scrapedData =>
       analyzeVendors (gemini env) (now_iso env) need requirements scrapedData).

Section Deployed.
Context (env : route_env) (clk : clock) (b : request_body) (requirements : list requirement).
Hypothesis Hneed : String.eqb (body_need b) "" = false.
Hypothesis Hreqs : body_requirements b = Some requirements.
Hypothesis Hne : requirements <> [].


End Deployed.

(** ** The scenario of spec section 8 on the deployed components *)

Module DeployedScenario.

Definition organic : json :=
  JObj [("organic_results",
         JArr [JObj [("title", JStr "A"); ("link", JStr "https://a.example"); ("position", JNum 1%Q)];
               JObj [("title", JStr "B"); ("link", JStr "https://b.example"); ("position", JNum 2%Q)];
               JObj [("title", JStr "C"); ("link", JStr "https://c.example"); ("position", JNum 3%Q)]])].

(** The page served at a URL: the second site times out. *)
Definition serve (rq : http_request) : http_outcome :=
  if String.eqb (rq_url rq) "https://b.example" then HttpFail "timeout of 10000ms exceeded" None
  else HttpOk (JStr (rq_url rq)).

Definition load (data : json) : option (list node) :=
  match data with
  | JStr u => Some [NElem "html" [] [NElem "head" [] [NElem "title" [] [NText u]];
                                     NElem "body" [] [NElem "main" [] [NText "Transactional email API"]]]]
  | _ => None
  end.

(** The model's answer: two vendors, the lower score first. *)
Definition vendors_text : string :=
  "[{" ++ quoted "name" ++ ":" ++ quoted "Mailer" ++ "," ++ quoted "overallScore" ++ ":72}," ++
  "{" ++ quoted "name" ++ ":" ++ quoted "Sender" ++ "," ++ quoted "overallScore" ++ ":88}]".

Definition gemini_body : string :=
  "{" ++ quoted "candidates" ++ ":[{" ++ quoted "content" ++ ":{" ++ quoted "parts" ++ ":[{" ++
  quoted "text" ++ ":" ++ json_quote vendors_text ++ "}]}}]}".

Definition env : route_env :=
  mk_route_env (mk_serp_env (Some "serp-key") (fun _ => HttpOk organic))
    (mk_scrape_env 10000 serve load)
    (mk_gemini_env (Some "gemini-key") (fun _ => FetchResponse true 200 gemini_body))
    "2026-01-01T00:00:00.000Z".

(** On the spec's example (three search results, two pages scraped,
    an analysis with scores 72 and 88) the deployed route completes the
    run and returns both vendors, the 88 first. *)
Example deployed_scenario :
  scrapeMultipleUrls (scraper env)
    [JStr "https://a.example"; JStr "https://b.example"; JStr "https://c.example"] <> [] /\
  length (scrapeMultipleUrls (scraper env)
    [JStr "https://a.example"; JStr "https://b.example"; JStr "https://c.example"]) = 2 /\
  match fst (POST (route_deps env) Scenario.clk (Some Scenario.body) empty_db) with
  | inr (mk_response 200 (BodyShortlist _ row vendors _)) =>
      sl_status row = Completed /\ map vr_name vendors = ["Sender"; "Mailer"]
  | _ => False
  end.
Proof. vm_compute. split_and!; first [discriminate|reflexivity]. Qed.





End DeployedScenario.
