(* ===== verification/VendorForm.v ===== *)
(** * The requirement form: [src/src/components/VendorForm.tsx]

    The form holds two pieces of React state, [need] and [requirements]
    (lines 18-21), changed by five handlers: typing the need, adding,
    removing and editing a requirement, and submitting.  Each handler is
    a function from the state to the next state; [form_handle] applies
    the handler an event triggers and [run_form] runs a sequence of
    events, the form re-rendering between two events so that each
    handler sees the state the previous one left.  Which events the user
    can trigger is the rendered markup: every control is disabled while
    the page is loading, the add button from ten requirements on
    (line 106) and the remove button is only rendered when there are at
    least two (line 159); [enabled] collects these conditions.

    [Date.now()] at each click on "Add Requirement" is the event's
    argument; [parseInt] is modelled on ASCII text, its [NaN] as [None],
    which [JSON.stringify] sends as [null].  The submitted pair goes to
    [handleCreateShortlist] of the home page, which posts it as the body
    [{ need, requirements }] of the create route. *)

From S2P Require Import Prelude JsString Json Types Analyzer Store Orchestrator.
From Stdlib Require Import ZArith.

Open Scope string_scope.

(** ** State and handlers *)

Record form_state : Type := mk_form {
  need : string;
  requirements : list requirement
}.

(** Lines 18-21 *)
Definition initial_form : form_state :=
  mk_form "" [mk_requirement "1" "" MustHave (Some 8%Z)].

(** [addRequirement], lines 23-33: the new id is [Date.now().toString()]. *)
Definition addRequirement (now : Z) (st : form_state) : form_state :=
  mk_form (need st) (requirements st ++ [mk_requirement (pretty now) "" MustHave (Some 5%Z)])%list.

(** [removeRequirement], lines 35-39: every requirement with the id goes. *)
Definition removeRequirement (id : string) (st : form_state) : form_state :=
  if Nat.ltb 1 (length (requirements st))
  then mk_form (need st) (filter (fun req => req_id req <> id) (requirements st))
  else st.

(** The three fields the form edits, with the value the control gives. *)
Inductive field_value : Type :=
| FDescription (value : string)
| FPriority (value : priority)
| FWeight (value : option Z).

(** [{ ...req, [field]: value }] *)
Definition set_field (req : requirement) (v : field_value) : requirement :=
  match v with
  | FDescription s => mk_requirement (req_id req) s (req_priority req) (req_weight req)
  | FPriority p => mk_requirement (req_id req) (req_description req) p (req_weight req)
  | FWeight w => mk_requirement (req_id req) (req_description req) (req_priority req) w
  end.

(** [updateRequirement], lines 41-45: every requirement with the id is
    updated. *)
Definition updateRequirement (id : string) (v : field_value) (st : form_state) : form_state :=
  mk_form (need st)
    (map (fun req => if String.eqb (req_id req) id then set_field req v else req)
       (requirements st)).

(** The digits of [s] in base [radix], as far as [val] reads them; the
    value and how many digits were read. *)
Fixpoint read_radix (val : ascii -> option nat) (radix acc : Z) (k : nat) (s : string) : Z * nat :=
  match s with
  | String c r =>
      match val c with
      | Some d => read_radix val radix (acc * radix + Z.of_nat d) (S k) r
      | None => (acc, k)
      end
  | EmptyString => (acc, k)
  end.

(** The sign of [parseInt]'s input. *)
Definition sign_split (s1 : string) : bool * string :=
  match s1 with
  | String "-" r => (true, r)
  | String "+" r => (false, r)
  | _ => (false, s1)
  end.

(** A [0x] or [0X] prefix selects base 16. *)
Definition radix_split (s2 : string) : Z * (ascii -> option nat) * string :=
  match s2 with
  | String "0" (String x r) =>
      if Ascii.eqb x "x" || Ascii.eqb x "X" then (16%Z, hex_val, r) else (10%Z, digit_val, s2)
  | _ => (10%Z, digit_val, s2)
  end.

(** [parseInt(s)] without a radix: leading white space, a sign, a [0x]
    prefix for hexadecimal, then the longest run of digits; [None] is
    [NaN] (no digit). *)
Definition parseInt (s : string) : option Z :=
  let '(neg, s2) := sign_split (trim_start s) in
  let '(radix, val, s3) := radix_split s2 in
  let '(m, k) := read_radix val radix 0 0 s3 in
  if Nat.eqb k 0 then None else Some (if neg then (- m)%Z else m).

(** What [handleSubmit] does: an [alert], or [onSubmit(need, valid)]. *)
Inductive submit_outcome : Type :=
| Alert (msg : string)
| OnSubmit (need : string) (valid : list requirement).

(** [req.description.trim()] is truthy. *)
Definition described (req : requirement) : Prop := trim (req_description req) <> "".

#[export] Instance described_dec (req : requirement) : Decision (described req).
Proof. unfold described. apply _. Defined.

(** [handleSubmit], lines 47-63 *)
Definition handleSubmit (st : form_state) : submit_outcome :=
  if String.eqb (trim (need st)) "" then Alert "Please enter your vendor need"
  else
    let validRequirements := filter described (requirements st) in
    if Nat.eqb (length validRequirements) 0 then Alert "Please add at least one requirement"
    else OnSubmit (need st) validRequirements.

(** ** Events *)

Inductive form_event : Type :=
| TypeNeed (value : string)                  (** line 86 *)
| ClickAdd (now : Z)                         (** line 105 *)
| ClickRemove (id : string)                  (** line 164 *)
| TypeDescription (id value : string)        (** line 120 *)
| SelectPriority (id : string) (p : priority)  (** line 127: one of the three options *)
| TypeWeight (id value : string)             (** line 143 *)
| ClickSubmit.                               (** line 76 *)

Definition has_id (id : string) (st : form_state) : bool :=
  existsb (fun req => String.eqb (req_id req) id) (requirements st).

(** The controls the rendered form lets the user use. *)
Definition enabled (isLoading : bool) (st : form_state) (ev : form_event) : bool :=
  negb isLoading &&
  match ev with
  | TypeNeed _ | ClickSubmit => true
  | ClickAdd _ => Nat.ltb (length (requirements st)) 10
  | ClickRemove id => Nat.ltb 1 (length (requirements st)) && has_id id st
  | TypeDescription id _ | SelectPriority id _ | TypeWeight id _ => has_id id st
  end.

(** The handler an event runs. *)
Definition form_handle (ev : form_event) (st : form_state) : form_state * option submit_outcome :=
  match ev with
  | TypeNeed v => (mk_form v (requirements st), None)
  | ClickAdd now => (addRequirement now st, None)
  | ClickRemove id => (removeRequirement id st, None)
  | TypeDescription id v => (updateRequirement id (FDescription v) st, None)
  | SelectPriority id p => (updateRequirement id (FPriority p) st, None)
  | TypeWeight id v => (updateRequirement id (FWeight (parseInt v)) st, None)
  | ClickSubmit => (st, Some (handleSubmit st))
  end.

(** A sequence of events: the final state and what each submit did. *)
Fixpoint run_form (evs : list form_event) (st : form_state) : form_state * list submit_outcome :=
  match evs with
  | [] => (st, [])
  | ev :: evs' =>
      let '(st1, o) := form_handle ev st in
      let '(st2, os) := run_form evs' st1 in
      (st2, (option_list o ++ os)%list)
  end.

(** Every event of the sequence is enabled when it happens (the page is
    not loading). *)
Fixpoint ui_trace (evs : list form_event) (st : form_state) : Prop :=
  match evs with
  | [] => True
  | ev :: evs' => enabled false st ev = true /\ ui_trace evs' (fst (form_handle ev st))
  end.

(** The clock readings of the add clicks are above [t] and increase. *)
Fixpoint adds_after (t : Z) (evs : list form_event) : Prop :=
  match evs with
  | [] => True
  | ClickAdd now :: evs' => (t < now)%Z /\ adds_after now evs'
  | _ :: evs' => adds_after t evs'
  end.

(** The invariant: one to ten requirements with distinct ids. *)
Definition form_wf (st : form_state) : Prop :=
  1 <= length (requirements st) <= 10 /\ NoDup (map req_id (requirements st)).

(** ** The requirement list stays between one and ten rows with distinct ids *)

(** The ids are [Date.now()] readings no later than [t]. *)
Definition ids_before (t : Z) (st : form_state) : Prop :=
  Forall (fun i => exists u, i = pretty u /\ (u <= t)%Z) (map req_id (requirements st)).

Definition form_inv (t : Z) (st : form_state) : Prop := form_wf st /\ ids_before t st.

Lemma update_ids (id : string) (v : field_value) (l : list requirement) :
  map req_id (map (fun req => if String.eqb (req_id req) id then set_field req v else req) l) =
  map req_id l.
Proof. rewrite map_map. apply map_ext. intros req. case_match; [by destruct v|done]. Qed.

(** With distinct ids, removing one id removes at most one row. *)
Lemma remove_length (id : string) (l : list requirement) :
  NoDup (map req_id l) -> length l <= S (length (filter (fun req => req_id req <> id) l)).
Proof.
  induction l as [|req l IH]; simpl; [lia|]. intros [Hn Hd]%NoDup_cons.
  destruct (decide (req_id req = id)) as [<-|Hne].
  - rewrite filter_cons_False by tauto.
    enough (filter (fun r => req_id r <> req_id req) l = l) as -> by lia.
    clear IH Hd. induction l as [|r l IHl]; [done|].
    rewrite filter_cons_True by (intros Heq; apply Hn; rewrite <- Heq; left).
    f_equal. apply IHl. intros Hin. apply Hn. by right.
  - rewrite filter_cons_True by done. simpl. specialize (IH Hd). lia.
Qed.

Lemma remove_NoDup (id : string) (l : list requirement) :
  NoDup (map req_id l) -> NoDup (map req_id (filter (fun req => req_id req <> id) l)).
Proof.
  intros Hd. eapply sublist_NoDup; [exact Hd|].
  apply sublist_map_l, sublist_filter.
Qed.

Lemma remove_ids (id : string) (l : list requirement) (P : string -> Prop) :
  Forall P (map req_id l) -> Forall P (map req_id (filter (fun req => req_id req <> id) l)).
Proof.
  rewrite !Forall_map, !Forall_forall. intros H x Hx. apply H.
  by apply list_elem_of_filter in Hx as [_ ?].
Qed.

Lemma ids_before_mono (t t' : Z) (st : form_state) :
  (t <= t')%Z -> ids_before t st -> ids_before t' st.
Proof. intros Ht H. eapply Forall_impl; [exact H|]. intros i (u & -> & ?). exists u. split; [done|lia]. Qed.

(** A fresh reading of the clock is not the id of a row. *)
Lemma fresh_id (t now : Z) (st : form_state) :
  (t < now)%Z -> ids_before t st -> pretty now ∉ map req_id (requirements st).
Proof.
  intros Hlt H Hin. unfold ids_before in H. rewrite Forall_forall in H.
  destruct (H _ Hin) as (u & Hu & Hle). apply (inj pretty) in Hu. lia.
Qed.

(** The clock bound after an event. *)
Definition clock_after (t : Z) (ev : form_event) : Z :=
  match ev with ClickAdd now => now | _ => t end.

Lemma form_handle_inv (t : Z) (ev : form_event) (st : form_state) :
  form_inv t st -> enabled false st ev = true ->
  (match ev with ClickAdd now => (t < now)%Z | _ => True end) ->
  form_inv (clock_after t ev) (fst (form_handle ev st)).
Proof.
  intros [[Hlen Hnd] Hb] Hen Hclk. unfold form_inv, form_wf, ids_before, enabled in *.
  destruct ev as [v|now|id|id v|id p|id v|]; simpl in Hen, Hclk;
    cbn [form_handle fst clock_after updateRequirement addRequirement requirements need];
    rewrite ?update_ids, ?length_map; try tauto.
  - apply Nat.ltb_lt in Hen. rewrite map_app, length_app. simpl.
    pose proof (fresh_id t now st Hclk Hb).
    split_and!; [lia|lia| |].
    + apply NoDup_app. split_and!; [done| |by apply NoDup_singleton].
      intros x Hx ->%list_elem_of_singleton. contradiction.
    + apply Forall_app. split; [apply (ids_before_mono t); [lia|done]|].
      apply Forall_singleton. exists now. split; [done|lia].
  - apply andb_true_iff in Hen as [Hgt _]. apply Nat.ltb_lt in Hgt.
    unfold removeRequirement. rewrite (proj2 (Nat.ltb_lt _ _) Hgt). simpl.
    pose proof (remove_length id _ Hnd). pose proof (length_filter (fun req => req_id req <> id) (requirements st)).
    split_and!; [lia|lia|by apply remove_NoDup|by apply remove_ids].
Qed.

Lemma run_form_fst (ev : form_event) (evs : list form_event) (st : form_state) :
  fst (run_form (ev :: evs) st) = fst (run_form evs (fst (form_handle ev st))).
Proof. simpl. destruct (form_handle ev st) as [st1 o]. simpl. by destruct (run_form evs st1). Qed.

Lemma run_form_inv (evs : list form_event) (t : Z) (st : form_state) :
  form_inv t st -> ui_trace evs st -> adds_after t evs ->
  exists t', form_inv t' (fst (run_form evs st)).
Proof.
  revert t st. induction evs as [|ev evs IH]; intros t st Hinv Htr Hclk; [eauto|].
  destruct Htr as [Hen Htr]. rewrite run_form_fst.
  apply (IH (clock_after t ev)); [|done|].
  - apply form_handle_inv; [done|done|]. destruct ev; simpl in *; tauto.
  - destruct ev; simpl in *; tauto.
Qed.

Lemma initial_form_inv : form_inv 1 initial_form.
Proof.
  split; [split; [simpl; lia|repeat constructor; set_solver]|].
  repeat constructor. by exists 1%Z.
Qed.

(** ** [parseInt] reads back what [String(n)] prints *)






(** The need is blank only if it is empty after [trim]. *)
Lemma trim_nonempty (s : string) : String.eqb (trim s) "" = false -> String.eqb s "" = false.
Proof. destruct s; [done|reflexivity]. Qed.

Lemma handleSubmit_OnSubmit (st : form_state) (n : string) (v : list requirement) :
  handleSubmit st = OnSubmit n v ->
  n = need st /\ v = filter described (requirements st) /\ v <> [] /\
  String.eqb (need st) "" = false.
Proof.
  unfold handleSubmit. destruct (String.eqb (trim (need st)) "") eqn:Hn; [discriminate|].
  destruct (Nat.eqb (length (filter described (requirements st))) 0) eqn:Hl; [discriminate|].
  intros [= <- <-]. apply Nat.eqb_neq in Hl. split_and!; [done|done| |by apply trim_nonempty].
  intros Hv. rewrite Hv in Hl. done.
Qed.

(** C26 (invariant): one to ten requirement rows with distinct ids: from the
    initial form, every sequence of events the rendered form allows,
    with the clock readings of the add clicks increasing, leaves
    between one and ten requirements whose ids are pairwise distinct,
    so that [removeRequirement] and [updateRequirement], which act on
    every row with the id, act on one row. *)
Theorem form_rows_wf (evs : list form_event) :
  ui_trace evs initial_form -> adds_after 1 evs -> form_wf (fst (run_form evs initial_form)).
Proof.
  intros Htr Hclk.
  by destruct (run_form_inv evs 1 initial_form initial_form_inv Htr Hclk) as (t' & Hwf & _).
Qed.

(** The ids are [Date.now()] readings, so two clicks within one
    millisecond give two rows the same id; removing that id then
    removes both, and the guard [requirements.length > 1] does not stop
    the list from becoming empty. *)
Example same_ms_empties_form :
  ui_trace [ClickAdd 1700000000000; ClickAdd 1700000000000; ClickRemove "1";
            ClickRemove "1700000000000"] initial_form /\
  requirements (fst (run_form [ClickAdd 1700000000000; ClickAdd 1700000000000;
                               ClickRemove "1"; ClickRemove "1700000000000"] initial_form)) = [].
Proof. vm_compute. split_and!; reflexivity. Qed.




(** C25 (refinement): every request the form submits passes the create route's
    validation: [handleSubmit] sends the need as typed and the
    requirements whose description is not blank, and the route creates
    the [processing] row for them and goes on to the search, whatever
    the search, scrape and analysis components are. *)
Theorem submit_accepted {SE AE : Type} (dp : deps SE AE) (clk : clock) (st : form_state)
    (n : string) (v : list requirement) (d : db) :
  handleSubmit st = OnSubmit n v ->
  n = need st /\ v = filter described (requirements st) /\
  create_try dp clk (Some (mk_body n (Some v))) d =
    after_create dp clk (db_next d) n v
      (snd (create_shortlist (mk_shortlist n v Processing None None (t_created clk)) d)).
Proof.
  intros (-> & -> & Hv & Hn)%handleSubmit_OnSubmit. split_and!; [done|done|].
  unfold create_try. simpl. rewrite Hn.
  by destruct (filter described (requirements st)).
Qed.

Module FormWitnesses.
Import Analyzer.Prompt.

Definition evs : list form_event :=
  [TypeNeed "Email delivery service for India"; TypeDescription "1" "Under $50/month";
   ClickAdd 1700000000000; TypeDescription "1700000000000" "GDPR compliant";
   ClickAdd 1700000000500; ClickRemove "1700000000500"; TypeWeight "1" "42"].

Lemma form_rows_wf_witness :
  ui_trace evs initial_form /\ adds_after 1 evs /\ form_wf (fst (run_form evs initial_form)).
Proof.
  assert (ui_trace evs initial_form) as Htr by (vm_compute; split_and!; reflexivity).
  assert (adds_after 1 evs) as Hclk by (vm_compute; split_and!; reflexivity).
  split_and!; [exact Htr|exact Hclk|exact (form_rows_wf evs Htr Hclk)].
Defined.

Definition filled : form_state := fst (run_form evs initial_form).

Definition submitted : list requirement :=
  Eval vm_compute in filter described (requirements filled).

Lemma submit_accepted_witness :
  need filled = need filled /\ submitted = filter described (requirements filled) /\
  create_try Scenario.ok_deps Scenario.clk (Some (mk_body (need filled) (Some submitted))) empty_db =
    after_create Scenario.ok_deps Scenario.clk (db_next empty_db) (need filled) submitted
      (snd (create_shortlist (mk_shortlist (need filled) submitted Processing None None
                                (t_created Scenario.clk)) empty_db)).
Proof. apply (submit_accepted Scenario.ok_deps Scenario.clk filled (need filled) submitted empty_db). vm_compute. reflexivity. Defined.

(** The weight 42 typed in the box reaches the prompt unchanged. *)
Example weight_reaches_prompt :
  head submitted = Some (mk_requirement "1" "Under $50/month" MustHave (Some 42%Z)) /\
  requirement_line 0 (mk_requirement "1" "Under $50/month" MustHave (Some 42%Z)) =
    "1. [MUST-HAVE] Under $50/month (Weight: 42/10)".
Proof. split; vm_compute; reflexivity. Qed.



End FormWitnesses.
