(* ===== verification/FormView.v ===== *)
(** * What the requirement form draws: [src/src/components/VendorForm.tsx]

    Lines 65-201 render the form state of [VendorForm.v]: the need
    input, one row per requirement (description, priority select,
    weight input, priority badge, and a remove button when there are at
    least two rows), the add button and the submit button.  Every
    control is disabled while the page is loading, the add button also
    from ten rows on.  [form_view_offers_enabled] shows that the controls
    the view renders usable are exactly the events [enabled] allows, the
    predicate the form's invariants are proved under. *)

From S2P Require Import Prelude JsString Json Types Analyzer Store Orchestrator VendorForm.
From Stdlib Require Import ZArith.

Open Scope string_scope.

(** The variants of the [Badge] component. *)
Inductive badge_variant : Type := Destructive | Secondary | Outline.

(** Lines 150-155 *)
Definition badge_of (p : priority) : badge_variant * string :=
  (match p with MustHave => Destructive | NiceToHave => Secondary | Optional => Outline end,
   priority_str p).

Record row_view : Type := mk_row_view {
  row_key : string;                (** [key={req.id}], line 115 *)
  row_placeholder : string;        (** line 118 *)
  row_description : string;        (** line 119 *)
  row_priority : string;           (** the select's value, line 126 *)
  row_weight : option Z;           (** the weight input's value, line 142 *)
  row_badge : badge_variant * string;
  row_remove : bool;               (** the remove button is rendered, line 159 *)
  row_disabled : bool              (** lines 121, 128, 144 and 165 *)
}.

(** One row, lines 115-170, for the requirement at [index] of [n]. *)
Definition row_view_of (isLoading : bool) (n : nat) (index : nat) (req : requirement) : row_view :=
  mk_row_view (req_id req)
    ("Requirement " ++ pretty (S index) ++ " (e.g., Budget under $100/month, GDPR compliant)")
    (req_description req) (priority_str (req_priority req)) (req_weight req)
    (badge_of (req_priority req)) (Nat.ltb 1 n) isLoading.

(** The bytes in front of "Build Shortlist" (line 193), an emoji saved
    in the wrong encoding. *)
Definition build_icon : string :=
  of_bytes ["239"; "163"; "191"; "195"; "188"; "195"; "174"; "195"; "167"]%char.

Record form_view : Type := mk_form_view {
  fv_title : string;               (** lines 68-70 *)
  fv_subtitle : string;            (** lines 71-73 *)
  fv_need_value : string;          (** line 85 *)
  fv_need_placeholder : string;    (** line 84 *)
  fv_need_disabled : bool;         (** line 87 *)
  fv_add_disabled : bool;          (** line 106 *)
  fv_rows : list row_view;         (** lines 113-172 *)
  fv_hint : string;                (** lines 174-176 *)
  fv_submit_label : string;        (** lines 186-195 *)
  fv_submit_spinner : bool;        (** line 188 *)
  fv_submit_disabled : bool        (** line 184 *)
}.

(** Lines 65-201 *)
Definition VendorForm_view (isLoading : bool) (st : form_state) : form_view :=
  mk_form_view "Discover Your Perfect Vendor"
    "Tell us what you need, and we'll find and compare the best vendors for you"
    (need st) "e.g., Email delivery service for India, Vector database for small team" isLoading
    (isLoading || Nat.leb 10 (length (requirements st)))
    (imap (row_view_of isLoading (length (requirements st))) (requirements st))
    "Add 5-8 requirements. Use weights (1-10) to prioritize what matters most."
    (if isLoading then "Building Your Shortlist..." else build_icon ++ " Build Shortlist")
    isLoading isLoading.

(** The events a user can trigger on a rendered form: a control that is
    rendered and not disabled. *)
Definition offers (v : form_view) (ev : form_event) : bool :=
  match ev with
  | TypeNeed _ => negb (fv_need_disabled v)
  | ClickAdd _ => negb (fv_add_disabled v)
  | ClickRemove id =>
      existsb (fun r => String.eqb (row_key r) id && row_remove r && negb (row_disabled r)) (fv_rows v)
  | TypeDescription id _ | SelectPriority id _ | TypeWeight id _ =>
      existsb (fun r => String.eqb (row_key r) id && negb (row_disabled r)) (fv_rows v)
  | ClickSubmit => negb (fv_submit_disabled v)
  end.

(** ** Properties *)

Lemma existsb_imap {A B} (Q : B -> bool) (h : A -> bool) (f : nat -> A -> B) (l : list A) :
  (forall i x, Q (f i x) = h x) -> existsb Q (imap f l) = existsb h l.
Proof.
  revert f. induction l as [|x l IH]; intros f Hf; [done|].
  rewrite imap_cons. simpl. rewrite Hf. f_equal. apply IH. intros i y. apply Hf.
Qed.

Lemma existsb_andb_const {A} (f : A -> bool) (c : bool) (l : list A) :
  existsb (fun x => f x && c) l = existsb f l && c.
Proof. induction l as [|x l IH]; [by destruct c|]. simpl. rewrite IH. by destruct (f x), c, (existsb f l). Qed.

(** The controls the form renders usable are exactly the events
    [enabled] allows: the need input and the submit button unless
    loading, the add button below ten rows, the remove button of an
    existing row when there are at least two, and the fields of an
    existing row. *)
(** The fields of the row of [id] are usable iff the row exists and
    the page is not loading. *)
Lemma row_fields_offered (isLoading : bool) (st : form_state) (id : string) :
  existsb (fun r => String.eqb (row_key r) id && negb (row_disabled r))
    (imap (row_view_of isLoading (length (requirements st))) (requirements st)) =
  negb isLoading && existsb (fun req => String.eqb (req_id req) id) (requirements st).
Proof.
  rewrite (existsb_imap _ (fun req => String.eqb (req_id req) id && negb isLoading)) by done.
  rewrite existsb_andb_const. by destruct isLoading, (existsb _ _).
Qed.

(** The controls the form renders usable are exactly the events
    [enabled] allows: the need input and the submit button unless
    loading, the add button below ten rows, the remove button of an
    existing row when there are at least two, and the fields of an
    existing row. *)
Theorem form_view_offers_enabled (isLoading : bool) (st : form_state) (ev : form_event) :
  offers (VendorForm_view isLoading st) ev = enabled isLoading st ev.
Proof.
  unfold offers, enabled, has_id, VendorForm_view.
  cbn [fv_need_disabled fv_add_disabled fv_rows fv_submit_disabled].
  destruct ev as [v|now|id|id v|id p|id v|]; try apply row_fields_offered; try by rewrite andb_true_r.
  - by rewrite negb_orb, Nat.ltb_antisym.
  - rewrite (existsb_imap _ (fun req => String.eqb (req_id req) id &&
                                        Nat.ltb 1 (length (requirements st)) && negb isLoading)) by done.
    rewrite !existsb_andb_const. by destruct isLoading, (Nat.ltb 1 _), (existsb _ _).
Qed.

Module FormViewExamples.

(** Two rows: both numbered, both removable, badges after the
    priorities. *)
Example two_rows_view :
  let v := VendorForm_view false (addRequirement 100 initial_form) in
  map row_placeholder (fv_rows v) =
    ["Requirement 1 (e.g., Budget under $100/month, GDPR compliant)";
     "Requirement 2 (e.g., Budget under $100/month, GDPR compliant)"] /\
  map row_remove (fv_rows v) = [true; true] /\
  map row_badge (fv_rows v) = [(Destructive, "must-have"); (Destructive, "must-have")] /\
  map row_weight (fv_rows v) = [Some 8%Z; Some 5%Z] /\
  fv_add_disabled v = false.
Proof. vm_compute. split_and!; reflexivity. Qed.

(** The submit button's label does not start with the emoji U+1F50D
    (bytes F0 9F 94 8D) but with the characters of its mis-encoded
    bytes. *)
Example build_icon_garbled :
  is_prefix (of_bytes ["240"; "159"; "148"; "141"]%char) (fv_submit_label (VendorForm_view false initial_form)) = false /\
  fv_submit_label (VendorForm_view true initial_form) = "Building Your Shortlist...".
Proof. split; reflexivity. Qed.

End FormViewExamples.
