(* ===== verification/HomePage.v ===== *)
(** * The home page: [src/src/app/page.tsx]

    The page holds four pieces of React state (lines 15-18) and talks to
    two routes: [fetchHistory] (lines 24-34) calls the history route on
    mount and after every successful create, and [handleCreateShortlist]
    (lines 36-70) posts the form's need and requirements to the create
    route.  Both are [async]: between the moment a call is made and the
    moment it settles the user can go on clicking, and the calls settle
    in any order.  The model makes this explicit: a [page_world] is the
    page state with the list of calls in flight, and each event is a
    user action or one call settling, in the order the network delivers
    them.  [handleCreateShortlist] is cut at its [await]s: its first part
    runs on [Submit], the rest when the create call settles
    ([create_done]), and its [finally] when the history call it awaits
    settles.

    The route's answers are the [response] values of [Orchestrator.v],
    which [NextResponse.json] serialises and [response.json()] reads back
    unchanged; a shortlist the page shows is a [history_entry] (the run's
    id, row and vendors), as both routes send.  The message of an error
    the create route catches is an input ([error_message]). *)

From S2P Require Import Prelude JsString Json Types Store History Orchestrator.
From Stdlib Require Import ZArith.

Open Scope string_scope.

(** ** State *)

Record page_state : Type := mk_page {
  isLoading : bool;
  currentShortlist : option history_entry;
  history : list history_entry;
  error : option string
}.

(** Lines 15-18 *)
Definition initial_page : page_state := mk_page false None [] None.

(** A call in flight: the create call, or a history call, made on mount
    ([false]) or by [handleCreateShortlist], which awaits it ([true]). *)
Inductive task : Type :=
| CreatePending
| HistoryPending (in_create : bool).

#[export] Instance task_eq_dec : EqDecision task.
Proof. solve_decision. Defined.

Record page_world : Type := mk_world {
  page : page_state;
  pending : list task
}.

(** The page after its first render: [useEffect] (lines 20-22) has
    called [fetchHistory]. *)
Definition initial_world : page_world := mk_world initial_page [HistoryPending false].

Section Page.
Context {SE AE : Type}.
(** [error.message] of an error the create route catches. *)
Context (error_message : pipeline_error SE AE -> string).

(** How the create call settles: the route's answer, or a rejection
    ([fetch] fails) with its message. *)
Inductive create_reply : Type :=
| CreateAnswer (resp : @response SE AE)
| CreateRejected (message : string).

(** How a history call settles. *)
Inductive history_reply : Type :=
| HistoryAnswer (resp : history_response)
| HistoryRejected.

(** [data.error]: the create route's catch sends
    [error.message || 'Failed to create shortlist'] (route.ts line 125). *)
Definition data_error (b : @response_body SE AE) : option string :=
  match b with
  | BodyError msg => Some msg
  | BodyThrown e => Some (str_or (error_message e) "Failed to create shortlist")
  | BodyShortlist _ _ _ _ => None
  end.

(** [data.shortlist] *)
Definition data_shortlist (b : @response_body SE AE) : option history_entry :=
  match b with
  | BodyShortlist id row vendors _ => Some (mk_entry id row vendors)
  | _ => None
  end.

(** [response.ok] *)
Definition response_ok (status : Z) : bool := Z.leb 200 status && Z.ltb status 300.

(** [fetchHistory] after its call settled (lines 27-33): [setHistory]
    when [data.success]; a rejection is logged. *)
Definition fetchHistory_done (r : history_reply) (p : page_state) : page_state :=
  match r with
  | HistoryAnswer (HistoryOk shortlists _) =>
      mk_page (isLoading p) (currentShortlist p) shortlists (error p)
  | _ => p
  end.

(** Lines 37-39, before the first [await]. *)
Definition create_start (p : page_state) : page_state :=
  mk_page true None (history p) None.

(** The [catch] and [finally] of lines 64-69. *)
Definition create_failed (msg : string) (p : page_state) : page_state :=
  mk_page false (currentShortlist p) (history p)
    (Some (str_or msg "Failed to create shortlist. Please try again.")).

(** Lines 48-57 once the create call settled; the flag says whether
    [fetchHistory] is now awaited. *)
Definition create_done (r : create_reply) (p : page_state) : page_state * bool :=
  match r with
  | CreateAnswer resp =>
      if response_ok (resp_status resp) then
        (mk_page (isLoading p) (data_shortlist (resp_body resp)) (history p) (error p), true)
      else
        let msg := match data_error (resp_body resp) with
                   | Some m => str_or m "Failed to create shortlist"
                   | None => "Failed to create shortlist"
                   end in
        (create_failed msg p, false)
  | CreateRejected m => (create_failed m p, false)
  end.

(** ** Events *)

Inductive page_event : Type :=
| Submit (need : string) (requirements : list requirement)  (** the form's [onSubmit] *)
| CreateSettles (i : nat) (r : create_reply)                (** the [i]-th call in flight *)
| HistorySettles (i : nat) (r : history_reply)              (** the [i]-th call in flight *)
| OpenHistory (k : nat).                                    (** the [k]-th history card, line 228 *)

(** One event; [None] when it cannot happen: the form is disabled while
    loading, a call settles once, and only a listed card can be clicked. *)
Definition page_step (ev : page_event) (w : page_world) : option page_world :=
  match ev with
  | Submit _ _ =>
      if isLoading (page w) then None
      else Some (mk_world (create_start (page w)) (pending w ++ [CreatePending]))
  | CreateSettles i r =>
      match pending w !! i with
      | Some CreatePending =>
          let '(p', awaits) := create_done r (page w) in
          Some (mk_world p' (delete i (pending w) ++ (if awaits then [HistoryPending true] else [])))
      | _ => None
      end
  | HistorySettles i r =>
      match pending w !! i with
      | Some (HistoryPending in_create) =>
          let p1 := fetchHistory_done r (page w) in
          let p2 := if in_create then mk_page false (currentShortlist p1) (history p1) (error p1)
                    else p1 in
          Some (mk_world p2 (delete i (pending w)))
      | _ => None
      end
  | OpenHistory k =>
      match history (page w) !! k with
      | Some e => Some (mk_world (mk_page (isLoading (page w)) (Some e) (history (page w))
                                    (error (page w))) (pending w))
      | None => None
      end
  end.

Fixpoint run_page (evs : list page_event) (w : page_world) : option page_world :=
  match evs with
  | [] => Some w
  | ev :: evs' => page_step ev w ≫= run_page evs'
  end.

End Page.

Arguments create_reply : clear implicits.
Arguments history_reply : clear implicits.
Arguments page_event : clear implicits.

(** ** [isLoading] is true exactly while a create is in flight *)

(** The calls [handleCreateShortlist] is waiting for. *)
Definition awaited (t : task) : bool :=
  match t with CreatePending => true | HistoryPending in_create => in_create end.

Definition count_awaited (l : list task) : nat := length (filter (fun t => awaited t = true) l).

Definition loading_inv (w : page_world) : Prop :=
  count_awaited (pending w) = if isLoading (page w) then 1 else 0.

Lemma count_awaited_app (l1 l2 : list task) :
  count_awaited (l1 ++ l2) = count_awaited l1 + count_awaited l2.
Proof. unfold count_awaited. by rewrite filter_app, length_app. Qed.

Lemma count_awaited_nil : count_awaited [] = 0.
Proof. reflexivity. Qed.

Lemma count_awaited_singleton (t : task) :
  count_awaited [t] = if awaited t then 1 else 0.
Proof. unfold count_awaited. rewrite filter_cons. by destruct (awaited t). Qed.

Lemma count_awaited_delete (l : list task) (i : nat) (t : task) :
  l !! i = Some t -> count_awaited l = count_awaited (delete i l) + (if awaited t then 1 else 0).
Proof.
  intros Hi. rewrite <- (take_drop_middle l i t Hi) at 1.
  rewrite (delete_take_drop l i), !count_awaited_app. unfold count_awaited. simpl.
  rewrite filter_cons. destruct (awaited t); simpl; lia.
Qed.

Section Invariant.
Context {SE AE : Type} (error_message : pipeline_error SE AE -> string).

Lemma page_step_inv (ev : page_event SE AE) (w w' : page_world) :
  loading_inv w -> page_step error_message ev w = Some w' -> loading_inv w'.
Proof.
  unfold loading_inv. intros Hinv. destruct ev as [n rs|i r|i r|k]; simpl.
  - destruct (isLoading (page w)); intros ?; simplify_eq/=.
    rewrite count_awaited_app, Hinv. done.
  - destruct (pending w !! i) as [[|c]|] eqn:Hi; try discriminate.
    rewrite (count_awaited_delete _ _ _ Hi) in Hinv. simpl in Hinv.
    destruct (create_done error_message r (page w)) as [p' awaits] eqn:Hd. intros ?; simplify_eq/=.
    rewrite count_awaited_app. rewrite ?count_awaited_singleton, ?count_awaited_nil.
    destruct r as [resp|m]; simpl in Hd; [destruct (response_ok (resp_status resp))|];
      simplify_eq/=; rewrite ?count_awaited_singleton, ?count_awaited_nil; destruct (isLoading (page w)); simpl in *; lia.
  - destruct (pending w !! i) as [[|c]|] eqn:Hi; try discriminate. intros ?; simplify_eq/=.
    rewrite (count_awaited_delete _ _ _ Hi) in Hinv. simpl in Hinv.
    destruct c, r as [[]|]; simpl in *; destruct (isLoading (page w)); lia.
  - destruct (history (page w) !! k); intros ?; simplify_eq/=. done.
Qed.

Lemma run_page_inv (evs : list (page_event SE AE)) (w w' : page_world) :
  loading_inv w -> run_page error_message evs w = Some w' -> loading_inv w'.
Proof.
  revert w. induction evs as [|ev evs IH]; intros w Hinv; simpl; [intros; by simplify_eq|].
  destruct (page_step error_message ev w) as [w1|] eqn:Hs; [|discriminate]. simpl.
  apply IH. by eapply page_step_inv.
Qed.

End Invariant.

(** ** The create flow *)

Section Flow.
Context {SE AE : Type} (error_message : pipeline_error SE AE -> string).

Lemma lookup_snoc_length {A} (l : list A) (x : A) : (l ++ [x])%list !! length l = Some x.
Proof. by rewrite lookup_app_r, Nat.sub_diag by lia. Qed.

Lemma delete_snoc_length {A} (l : list A) (x : A) : delete (length l) (l ++ [x])%list = l.
Proof. by rewrite delete_middle, app_nil_r. Qed.

(** The page right after the create call settled with the route's
    answer [resp]. *)
Lemma create_settled (w : page_world) (n : string) (rs : list requirement) (resp : @response SE AE) :
  isLoading (page w) = false ->
  run_page error_message [Submit n rs; CreateSettles (length (pending w)) (CreateAnswer resp)] w =
    let '(p', awaits) := create_done error_message (CreateAnswer resp) (create_start (page w)) in
    Some (mk_world p' (pending w ++ (if awaits then [HistoryPending true] else []))%list).
Proof.
  intros Hl. simpl. rewrite Hl. simpl. rewrite lookup_snoc_length, delete_snoc_length.
  by destruct (response_ok (resp_status resp)).
Qed.

End Flow.

(** ** Which history the page lists *)

(** The list of the last history call, among [evs], that settled with
    [success: true]. *)
Fixpoint last_history_answer {SE AE : Type} (evs : list (page_event SE AE)) : option (list history_entry) :=
  match evs with
  | [] => None
  | ev :: evs' =>
      match last_history_answer evs' with
      | Some l => Some l
      | None => match ev with
                | HistorySettles _ (HistoryAnswer (HistoryOk l _)) => Some l
                | _ => None
                end
      end
  end.

Section HistoryTab.
Context {SE AE : Type} (error_message : pipeline_error SE AE -> string).

Lemma page_step_history (ev : page_event SE AE) (w w' : page_world) :
  page_step error_message ev w = Some w' ->
  history (page w') = match ev with
                      | HistorySettles _ (HistoryAnswer (HistoryOk l _)) => l
                      | _ => history (page w)
                      end.
Proof.
  destruct ev as [n rs|i r|i r|k]; simpl.
  - destruct (isLoading (page w)); intros ?; by simplify_eq/=.
  - destruct (pending w !! i) as [[|c]|]; try discriminate.
    destruct (create_done error_message r (page w)) eqn:Hd. intros ?; simplify_eq/=.
    destruct r as [resp|m]; simpl in Hd; [destruct (response_ok (resp_status resp))|]; by simplify_eq/=.
  - destruct (pending w !! i) as [[|c]|]; try discriminate. intros ?; simplify_eq/=.
    by destruct c, r as [[]|].
  - destruct (history (page w) !! k); intros ?; by simplify_eq/=.
Qed.

End HistoryTab.

(** C30 (invariant): the history tab lists the answer of the history call that
    settled last, not of the call made last: after any sequence of
    events, [history] is the list of the last successful history answer
    to arrive (or what it was before, when none arrived).  The call made
    on mount can therefore overwrite, with its older list, the one that
    [handleCreateShortlist] fetched after a create. *)
Theorem history_from_last_settled {SE AE : Type} (error_message : pipeline_error SE AE -> string)
    (evs : list (page_event SE AE)) (w w' : page_world) :
  run_page error_message evs w = Some w' ->
  history (page w') = default (history (page w)) (last_history_answer evs).
Proof.
  revert w. induction evs as [|ev evs IH]; intros w; simpl; [by intros; simplify_eq|].
  destruct (page_step error_message ev w) as [w1|] eqn:Hs; [|discriminate]. simpl.
  intros Hr. rewrite (IH w1 Hr). apply page_step_history in Hs. rewrite Hs.
  destruct (last_history_answer evs); [done|]. by destruct ev as [| |i [[]|]|].
Qed.

(** C28 (invariant): [isLoading] is true exactly while [handleCreateShortlist] runs:
    in every state the page reaches, the calls the handler awaits number
    one when the page is loading and none otherwise, so two creates are
    never in flight together. *)
Theorem loading_iff_create_in_flight {SE AE : Type} (error_message : pipeline_error SE AE -> string)
    (evs : list (page_event SE AE)) (w : page_world) :
  run_page error_message evs initial_world = Some w ->
  count_awaited (pending w) = if isLoading (page w) then 1 else 0.
Proof. apply run_page_inv. reflexivity. Qed.

(** From any page that is not loading, a submit whose create call
    answers 200 with a shortlist, followed by the history call that
    [handleCreateShortlist] awaits, leaves the page showing that
    shortlist and the history the call returned, with no error and no
    longer loading. *)
Theorem create_success_page {SE AE : Type} (error_message : pipeline_error SE AE -> string)
    (w : page_world) (n : string) (rs : list requirement) (id : nat) (row : shortlist_row)
    (vendors : list vendor_row) (pt : Z) (shortlists : list history_entry) (count : nat) :
  isLoading (page w) = false ->
  run_page error_message
    [Submit n rs;
     CreateSettles (length (pending w)) (CreateAnswer (mk_response 200 (BodyShortlist id row vendors pt)));
     HistorySettles (length (pending w)) (HistoryAnswer (HistoryOk shortlists count))] w =
    Some (mk_world (mk_page false (Some (mk_entry id row vendors)) shortlists None) (pending w)).
Proof.
  intros Hl. simpl. rewrite Hl. simpl. rewrite lookup_snoc_length, delete_snoc_length. simpl.
  by rewrite lookup_snoc_length, delete_snoc_length.
Qed.

(** C29 (functional): whatever the search, scrape and analysis components do, once
    the create call settles the page shows either a completed shortlist
    with its vendors by descending score and no error, or no shortlist
    and a non-empty error message. *)
Theorem page_shows_route_answer {SE AE : Type} (error_message : pipeline_error SE AE -> string)
    (dp : deps SE AE) (clk : clock) (n : string) (rs : list requirement) (d : db)
    (resp : @response SE AE) (w w' : page_world) :
  fst (POST dp clk (Some (mk_body n (Some rs))) d) = inr resp ->
  isLoading (page w) = false ->
  run_page error_message [Submit n rs; CreateSettles (length (pending w)) (CreateAnswer resp)] w =
    Some w' ->
  (exists e, currentShortlist (page w') = Some e /\ error (page w') = None /\
             sl_status (he_row e) = Completed /\ StronglySorted score_desc (he_vendors e)) \/
  (currentShortlist (page w') = None /\
   exists m, error (page w') = Some m /\ m <> "" /\ isLoading (page w') = false).
Proof.
  intros Hpost Hl. rewrite create_settled by done.
  pose proof (POST_returns dp clk (Some (mk_body n (Some rs))) d) as Hs. rewrite Hpost in Hs.
  destruct resp as [status body]. unfold response_shape in Hs. simpl in Hs.
  destruct body as [msg|e|id row vendors pt]; simpl.
  1,2: destruct Hs as [ -> | [ -> | -> ]]; intros ?; simplify_eq/=; right;
      (split; [done|]); eexists; (split; [reflexivity|]);
      (split; [apply str_or_nonempty; discriminate|reflexivity]).
  destruct Hs as (-> & Hc & Hv). intros ?; simplify_eq/=. left. by eexists.
Qed.

Module PageWitnesses.

Definition msg (_ : pipeline_error unit unit) : string := "Internal error".

(** The create route's answer on the scenario of spec section 8. *)
Definition answer : @response unit unit :=
  Eval vm_compute in
  match fst (POST Scenario.ok_deps Scenario.clk (Some Scenario.body) empty_db) with
  | inr r => r
  | inl _ => bad_request
  end.

Definition created : option history_entry := Eval vm_compute in data_shortlist (resp_body answer).

Definition old : history_entry :=
  mk_entry 7 (mk_shortlist "CRM for startups" [] Completed None (Some 2000%Z) 500) [].

Definition evs : list (page_event unit unit) :=
  [Submit Scenario.need [Scenario.req]; CreateSettles 1 (CreateAnswer answer);
   HistorySettles 0 (HistoryAnswer (HistoryOk [] 0))].

Definition after : page_world := Eval vm_compute in default initial_world (run_page msg evs initial_world).

Lemma loading_iff_create_in_flight_witness :
  count_awaited (pending after) = if isLoading (page after) then 1 else 0.
Proof. apply (loading_iff_create_in_flight msg evs). vm_compute. reflexivity. Defined.

Lemma create_success_page_witness :
  run_page msg
    [Submit Scenario.need [Scenario.req];
     CreateSettles 1 (CreateAnswer (mk_response 200 (BodyShortlist 0 (he_row old) [] 3000)));
     HistorySettles 1 (HistoryAnswer (HistoryOk [old] 1))] initial_world =
    Some (mk_world (mk_page false (Some (mk_entry 0 (he_row old) [])) [old] None) [HistoryPending false]).
Proof. apply (create_success_page msg initial_world). reflexivity. Defined.

Definition settled : page_world :=
  Eval vm_compute in
  default initial_world
    (run_page msg [Submit Scenario.need [Scenario.req]; CreateSettles 1 (CreateAnswer answer)]
       initial_world).

Lemma page_shows_route_answer_witness :
  (exists e, currentShortlist (page settled) = Some e /\ error (page settled) = None /\
             sl_status (he_row e) = Completed /\ StronglySorted score_desc (he_vendors e)) \/
  (currentShortlist (page settled) = None /\
   exists m, error (page settled) = Some m /\ m <> "" /\ isLoading (page settled) = false).
Proof.
  apply (page_shows_route_answer msg Scenario.ok_deps Scenario.clk Scenario.need [Scenario.req]
           empty_db answer initial_world settled); vm_compute; reflexivity.
Defined.

Definition stale_trace : list (page_event unit unit) :=
  [Submit Scenario.need [Scenario.req]; CreateSettles 1 (CreateAnswer answer);
   HistorySettles 1 (HistoryAnswer (HistoryOk (option_list created) 1));
   HistorySettles 0 (HistoryAnswer (HistoryOk [] 0))].

Definition stale_world : page_world := Eval vm_compute in default initial_world (run_page msg stale_trace initial_world).

(** The race: the call made on mount settles last with its empty list;
    the page shows the new shortlist while the history tab lists
    nothing. *)
Lemma history_from_last_settled_witness :
  run_page msg stale_trace initial_world = Some stale_world /\
  currentShortlist (page stale_world) = created /\ created <> None /\
  history (page stale_world) = [].
Proof.
  assert (Hr : run_page msg stale_trace initial_world = Some stale_world) by (vm_compute; reflexivity).
  split_and!; [exact Hr|reflexivity|discriminate|].
  exact (history_from_last_settled msg stale_trace initial_world stale_world Hr).
Defined.

(** A history card clicked while a create is loading stays on the
    page when the create then fails: the page shows the error of the new
    run next to the results of an older one. *)
Example error_beside_old_result :
  match run_page msg
          [HistorySettles 0 (HistoryAnswer (HistoryOk [old] 1));
           Submit Scenario.need [Scenario.req]; OpenHistory 0;
           CreateSettles 0 (CreateAnswer (mk_response 500 (BodyError "Failed to gather vendor information")))]
          initial_world with
  | Some w => isLoading (page w) = false /\ currentShortlist (page w) = Some old /\
              error (page w) = Some "Failed to gather vendor information"
  | None => False
  end.
Proof. vm_compute. split_and!; reflexivity. Qed.

End PageWitnesses.
