(* ===== verification/ComparisonTable.v ===== *)
(** * The comparison table: [src/src/components/ComparisonTable.tsx]

    The table renders the vendors of a shortlist as it receives them
    from the routes: one card per vendor, ranked by its position in the
    list, with the score coloured by [getScoreColor], the pricing, the
    features, the requirement analysis, the risks and the evidence.
    Rendering is a function from the vendor rows of [Store.v] to a view:
    the values each card displays, or [TableThrows] when rendering throws
    (a method called on a value that lacks it, a property read on [null],
    or an object given to React as a child).

    [matchedRequirements] and [evidenceLinks] are JSON columns holding
    whatever the model produced (the parser only replaces falsy values
    by [[]]), so their shape is checked here, where the code uses them.
    JavaScript's [x > 0] on a JSON value other than a number is an input
    ([gt_zero]); it only decides whether the evidence section of a
    vendor whose [evidenceLinks] is an object with a [length] member is
    shown. *)

From S2P Require Import Prelude JsString Json Http Types Search Scraper Analyzer Store History Orchestrator Wiring HomePage.
From Stdlib Require Import ZArith QArith Lqa.

Close Scope Q_scope.
Open Scope string_scope.

(** [getScoreColor], lines 19-23 *)
Definition getScoreColor (score : Q) : string :=
  if Qle_bool 80 score then "text-green-600 dark:text-green-400"
  else if Qle_bool 60 score then "text-yellow-600 dark:text-yellow-400"
  else "text-red-600 dark:text-red-400".

(** A JSON value given to React as a child ([{x}]): text for strings and
    numbers, nothing for [null] and booleans, its items for an array; a
    plain object makes React throw. *)
Fixpoint valid_child (v : json) : bool :=
  match v with
  | JObj _ => false
  | JArr xs => forallb valid_child xs
  | _ => true
  end.

(** [{o.f}]: [None] when rendering throws; the value shown, if any. *)
Definition child (r : prop_read) : option (option json) :=
  match r with
  | PropTypeError => None
  | PropValue v => if valid_child v then Some (Some v) else None
  | PropUndefined => Some None
  end.

(** [o.f] as a condition. *)
Definition prop_truthy (r : prop_read) : bool :=
  match r with PropValue v => truthy v | _ => false end.

(** [xs.map(f)] where [f] may throw: only arrays have [map]. *)
Definition js_map_render {A} (f : json -> option A) (v : json) : option (list A) :=
  match v with
  | JArr xs => mapM f xs
  | _ => None
  end.

Record match_view : Type := mk_match_view {
  mv_met : bool;
  mv_requirement : option json;
  mv_evidence : option json
}.

(** Lines 104-118: one entry of [vendor.matchedRequirements]. *)
Definition render_match (m : json) : option match_view :=
  match get_prop m "met" with
  | PropTypeError => None
  | met =>
      requirement ← child (get_prop m "requirement");
      evidence ← child (get_prop m "evidence");
      Some (mk_match_view (prop_truthy met) requirement evidence)
  end.

Record evidence_view : Type := mk_evidence_view {
  ev_snippet : option json;
  ev_url : option json
}.

(** Lines 147-162: one entry of [vendor.evidenceLinks]. *)
Definition render_evidence (e : json) : option evidence_view :=
  match get_prop e "snippet" with
  | PropTypeError => None
  | snippet =>
      s ← child snippet;
      Some (mk_evidence_view s (match get_prop e "url" with PropValue u => Some u | _ => None end))
  end.

Section Render.
(** JavaScript's [x > 0] for the value of a [length] member. *)
Context (gt_zero : json -> bool).

(** [vendor.evidenceLinks.length > 0] (line 141): [None] when it throws. *)
Definition length_positive (v : json) : option bool :=
  match v with
  | JNull => None
  | JArr xs => Some (Nat.ltb 0 (length xs))
  | JStr s => Some (Nat.ltb 0 (String.length s))
  | JObj kvs => Some (match assoc_last "length" kvs with Some n => gt_zero n | None => false end)
  | _ => Some false
  end.

Record vendor_card : Type := mk_card {
  rank : nat;
  card_name : string;
  card_description : string;
  card_website : string;
  card_score : Q;
  scoreColor : string;
  card_match : Q;
  card_price : string * string * string;
  card_features : list string;
  card_matches : list match_view;
  card_risks : option (list string);
  card_evidence : option (list evidence_view)
}.

(** One card, lines 38-167; the rank is [index + 1]. *)
Definition render_vendor (index : nat) (v : vendor_row) : option vendor_card :=
  matches ← js_map_render render_match (vr_matchedRequirements v);
  evidence ← match length_positive (vr_evidenceLinks v) with
             | None => None
             | Some false => Some None
             | Some true => match js_map_render render_evidence (vr_evidenceLinks v) with
                            | Some es => Some (Some es)
                            | None => None
                            end
             end;
  Some (mk_card (S index) (vr_name v) (vr_description v) (vr_website v)
          (vr_overallScore v) (getScoreColor (vr_overallScore v)) (vr_requirementMatch v)
          (vr_priceRange v, vr_pricingModel v, vr_currency v) (vr_keyFeatures v) matches
          (match vr_risks v with [] => None | rs => Some rs end) evidence).

Fixpoint render_cards (index : nat) (vs : list vendor_row) : option (list vendor_card) :=
  match vs with
  | [] => Some []
  | v :: vs' =>
      c ← render_vendor index v;
      cs ← render_cards (S index) vs';
      Some (c :: cs)
  end.

Inductive table_render : Type :=
| TableNull                                                  (** line 16 *)
| TableShown (exportButton : bool) (cards : list vendor_card)
| TableThrows.

(** [ComparisonTable({ vendors, onExport })], lines 14-172 *)
Definition ComparisonTable (vendors : list vendor_row) (onExport : bool) : table_render :=
  match vendors with
  | [] => TableNull
  | _ => match render_cards 0 vendors with
         | Some cards => TableShown onExport cards
         | None => TableThrows
         end
  end.

End Render.

(** ** Properties *)

(** The colour bands, from red to green. *)
Definition color_band (c : string) : nat :=
  if String.eqb c "text-green-600 dark:text-green-400" then 2
  else if String.eqb c "text-yellow-600 dark:text-yellow-400" then 1
  else 0.

Lemma getScoreColor_monotone (s1 s2 : Q) :
  Qle_bool s2 s1 = true -> color_band (getScoreColor s2) <= color_band (getScoreColor s1).
Proof.
  intros H%Qle_bool_iff. unfold getScoreColor.
  destruct (Qle_bool 80 s1) eqn:E1, (Qle_bool 80 s2) eqn:E2,
           (Qle_bool 60 s1) eqn:E3, (Qle_bool 60 s2) eqn:E4;
    unfold color_band; rewrite ?String.eqb_refl; try (vm_compute; lia); exfalso;
    repeat match goal with
    | E : Qle_bool _ _ = true |- _ => apply Qle_bool_iff in E
    | E : Qle_bool _ _ = false |- _ => apply Bool.not_true_iff_false in E; rewrite Qle_bool_iff in E
    end; lra.
Qed.

Section RenderProps.
Context (gt_zero : json -> bool).

Lemma render_vendor_fields (i : nat) (v : vendor_row) (c : vendor_card) :
  render_vendor gt_zero i v = Some c ->
  rank c = S i /\ card_name c = vr_name v /\ card_score c = vr_overallScore v /\
  scoreColor c = getScoreColor (vr_overallScore v).
Proof. unfold render_vendor. intros (ms & _ & (ev & _ & Hc)%bind_Some)%bind_Some. by simplify_eq/=. Qed.

Lemma render_cards_spec (i : nat) (vs : list vendor_row) (cs : list vendor_card) :
  render_cards gt_zero i vs = Some cs ->
  map rank cs = seq (S i) (length vs) /\
  Forall2 (fun v c => card_name c = vr_name v /\ card_score c = vr_overallScore v /\
                      scoreColor c = getScoreColor (vr_overallScore v)) vs cs.
Proof.
  revert i cs. induction vs as [|v vs IH]; intros i cs; simpl; [intros; by simplify_eq|].
  destruct (render_vendor gt_zero i v) as [c|] eqn:Hc; [|discriminate]. simpl.
  destruct (render_cards gt_zero (S i) vs) as [cs'|] eqn:Hcs; [|discriminate]. simpl.
  intros ?; simplify_eq. destruct (IH _ _ Hcs) as [Hr Hf].
  destruct (render_vendor_fields _ _ _ Hc) as (Hrk & Hn & Hs & Hcol).
  split; [simpl; rewrite Hrk; by f_equal|by constructor].
Qed.

Lemma render_cards_None (i : nat) (vs : list vendor_row) :
  Exists (fun v => forall j, render_vendor gt_zero j v = None) vs -> render_cards gt_zero i vs = None.
Proof.
  intros Hex. revert i. induction Hex as [v vs Hv|v vs _ IH]; intros i; simpl.
  - by rewrite Hv.
  - destruct (render_vendor gt_zero i v); simpl; [by rewrite IH|done].
Qed.

Lemma render_cards_total (i : nat) (vs : list vendor_row) :
  Forall (fun v => forall j, exists c, render_vendor gt_zero j v = Some c) vs ->
  exists cs, render_cards gt_zero i vs = Some cs.
Proof.
  intros Hall. revert i. induction Hall as [|v vs Hv _ IH]; intros i; [by eexists|]. simpl.
  destruct (Hv i) as [c ->]. destruct (IH (S i)) as [cs ->]. by eexists.
Qed.

End RenderProps.

(** The shapes [types/index.ts] declares for the JSON columns: an
    object whose displayed members are strings (or absent). *)
Definition string_member (o : json) (f : string) : Prop :=
  match get_prop o f with PropValue (JStr _) | PropUndefined => True | _ => False end.

Definition match_typed (m : json) : Prop :=
  (exists kvs, m = JObj kvs) /\ string_member m "requirement" /\ string_member m "evidence".

Definition evidence_typed (e : json) : Prop :=
  (exists kvs, e = JObj kvs) /\ string_member e "snippet".

Definition vendor_typed (v : vendor_row) : Prop :=
  (exists ms, vr_matchedRequirements v = JArr ms /\ Forall match_typed ms) /\
  (exists es, vr_evidenceLinks v = JArr es /\ Forall evidence_typed es).

Lemma child_string_member (o : json) (f : string) :
  string_member o f -> exists r, child (get_prop o f) = Some r.
Proof.
  unfold string_member, child. destruct (get_prop o f) as [v| |]; [destruct v| |];
    intros H; try contradiction; eexists; reflexivity.
Qed.

Lemma render_match_typed (m : json) : match_typed m -> exists mv, render_match m = Some mv.
Proof.
  intros ([kvs ->] & [r Hr]%child_string_member & [e He]%child_string_member).
  unfold render_match. rewrite Hr, He. simpl. destruct (assoc_last "met" kvs); by eexists.
Qed.

Lemma render_evidence_typed (e : json) : evidence_typed e -> exists ev, render_evidence e = Some ev.
Proof.
  intros ([kvs ->] & Hs). unfold render_evidence. destruct (child_string_member _ _ Hs) as [r Hr].
  unfold child in Hr. destruct (get_prop (JObj kvs) "snippet"); simpl in *; simplify_eq;
    try discriminate; try (destruct (valid_child _); simplify_eq); eexists; reflexivity.
Qed.

Lemma render_vendor_typed (gt_zero : json -> bool) (j : nat) (v : vendor_row) :
  vendor_typed v -> exists c, render_vendor gt_zero j v = Some c.
Proof.
  intros ((ms & Hm & Hms) & (es & He & Hes)). unfold render_vendor. rewrite Hm, He. simpl.
  destruct (mapM_total render_match ms) as [mvs [-> _]].
  { eapply Forall_impl; [exact Hms|]. apply render_match_typed. }
  destruct (mapM_total render_evidence es) as [evs [-> _]].
  { eapply Forall_impl; [exact Hes|]. apply render_evidence_typed. }
  simpl. by destruct (Nat.ltb 0 (length es)); eexists.
Qed.

(** C35 (functional): on a shortlist as the routes send it (vendors by descending
    score), the table labels the cards Rank #1, #2, ... in order, the
    scores do not increase down the ranks and neither does the colour
    band of [getScoreColor]. *)
Theorem table_ranks_follow_scores (gt_zero : json -> bool) (vendors : list vendor_row)
    (b b' : bool) (cards : list vendor_card) :
  StronglySorted score_desc vendors ->
  ComparisonTable gt_zero vendors b = TableShown b' cards ->
  map rank cards = seq 1 (length vendors) /\
  StronglySorted (fun c1 c2 => Qle_bool (card_score c2) (card_score c1) = true /\
                               color_band (scoreColor c2) <= color_band (scoreColor c1)) cards.
Proof.
  intros Hs. unfold ComparisonTable. destruct vendors as [|v vs]; [discriminate|].
  destruct (render_cards gt_zero 0 (v :: vs)) as [cs|] eqn:Hr; [|discriminate].
  intros [= _ <-]. destruct (render_cards_spec gt_zero 0 _ _ Hr) as [Hrank Hf].
  split; [exact Hrank|]. eapply StronglySorted_Forall2; [exact Hf| |exact Hs].
  intros a1 a2 c1 c2 (_ & -> & ->) (_ & -> & ->) Hle. split; [exact Hle|exact (getScoreColor_monotone _ _ Hle)].
Qed.

(** [vendor.matchedRequirements.map] throws when a vendor's
    [matchedRequirements] is not an array, which the analyzer lets
    through (a non-empty string, a number, [true] or an object): the
    whole table fails to render. *)
Theorem table_throws_on_untyped_matches (gt_zero : json -> bool) (vendors : list vendor_row)
    (b : bool) :
  Exists (fun v => forall xs, vr_matchedRequirements v <> JArr xs) vendors ->
  ComparisonTable gt_zero vendors b = TableThrows.
Proof.
  intros Hex. unfold ComparisonTable.
  rewrite render_cards_None.
  - by destruct vendors; [inversion Hex|].
  - eapply Exists_impl; [exact Hex|]. intros v Hv j. unfold render_vendor.
    destruct (vr_matchedRequirements v) as [| | | |xs|] eqn:Hm; try reflexivity.
    exfalso. by apply (Hv xs).
Qed.

Lemma vendor_row_of_matched (sid : nat) (v : vendor_comparison) (r : vendor_row) :
  vendor_row_of sid v = Some r -> vr_matchedRequirements r = vc_matchedRequirements v.
Proof. unfold vendor_row_of. intros H. by simplify_option_eq. Qed.

(** The rows [vendor.create] writes keep a [matchedRequirements] that is
    not an array. *)
Lemma vendor_rows_untyped (sid : nat) (vs : list vendor_comparison) (rows : list vendor_row) :
  mapM (vendor_row_of sid) vs = Some rows ->
  Exists (fun v => forall xs, vc_matchedRequirements v <> JArr xs) vs ->
  Exists (fun r => forall xs, vr_matchedRequirements r <> JArr xs) rows.
Proof.
  intros Hm. apply mapM_Some in Hm.
  induction Hm as [|v r vs rows Hv _ IH]; inversion 1; subst; [|by right; auto].
  left. by rewrite (vendor_row_of_matched _ _ _ Hv).
Qed.

(** Vendors whose JSON columns have the shapes [types/index.ts]
    declares render, one card each. *)
Theorem table_renders_typed (gt_zero : json -> bool) (vendors : list vendor_row) (b : bool) :
  vendors <> [] -> Forall vendor_typed vendors ->
  exists cards, ComparisonTable gt_zero vendors b = TableShown b cards /\
                length cards = length vendors.
Proof.
  intros Hne Hall. destruct (render_cards_total gt_zero 0 vendors) as [cs Hcs].
  { eapply Forall_impl; [exact Hall|]. intros v Hv j. by apply render_vendor_typed. }
  exists cs. unfold ComparisonTable. rewrite Hcs. split; [by destruct vendors|].
  destruct (render_cards_spec gt_zero 0 _ _ Hcs) as [Hrank _].
  rewrite <- (length_map rank cs), Hrank. apply length_seq.
Qed.

(** The declared types are enough: members of the types
    [VendorComparison] declares satisfy what rendering reads. *)
Lemma has_type_array (ty : ts_type) (P : json -> Prop) (x : json) :
  (forall y, has_type ty y = true -> P y) ->
  has_type (TArray ty) x = true -> exists xs, x = JArr xs /\ Forall P xs.
Proof.
  intros HP. destruct x as [| | | |xs|]; simpl; try discriminate. intros Hall.
  exists xs. split; [done|]. apply Forall_forall. intros y Hy. apply HP.
  apply forallb_forall with (x := y) in Hall; [done|]. by apply list_elem_of_In.
Qed.

Lemma string_member_typed (kvs : list (string * json)) (fs : list (string * bool * ts_type)) (f : string) :
  has_type (TObject fs) (JObj kvs) = true -> In (f, false, TString) fs -> string_member (JObj kvs) f.
Proof.
  intros H Hin. destruct (has_type_field _ _ _ _ H Hin) as (x & Hx & Ht).
  destruct (has_type_string _ Ht) as [s ->]. unfold string_member. simpl. by rewrite Hx.
Qed.

Lemma matched_requirement_typed (m : json) : has_type matched_requirement_ty m = true -> match_typed m.
Proof.
  intros H. destruct (has_type_object _ _ H) as [kvs ->].
  split; [by eexists|]. split; eapply string_member_typed; try exact H; simpl; tauto.
Qed.

Lemma evidence_declared_typed (e : json) : has_type evidence_ty e = true -> evidence_typed e.
Proof.
  intros H. destruct (has_type_object _ _ H) as [kvs ->].
  split; [by eexists|]. eapply string_member_typed; [exact H|]. simpl. tauto.
Qed.

Lemma declared_vendor_typed (v : vendor_row) :
  has_type (TArray matched_requirement_ty) (vr_matchedRequirements v) = true ->
  has_type (TArray evidence_ty) (vr_evidenceLinks v) = true -> vendor_typed v.
Proof.
  intros Hm He. split.
  - by apply (has_type_array _ _ _ matched_requirement_typed).
  - by apply (has_type_array _ _ _ evidence_declared_typed).
Qed.

(** C31 (type): vendors whose [matchedRequirements] and [evidenceLinks] columns have
    the types [types/index.ts] declares render, one card each: the
    table's [TypeError]s come only from values outside the declared
    types, which [parseVendorAnalysis] does not check. *)
Theorem table_renders_declared (gt_zero : json -> bool) (vendors : list vendor_row) (b : bool) :
  vendors <> [] ->
  Forall (fun v => has_type (TArray matched_requirement_ty) (vr_matchedRequirements v) = true /\
                   has_type (TArray evidence_ty) (vr_evidenceLinks v) = true) vendors ->
  exists cards, ComparisonTable gt_zero vendors b = TableShown b cards /\
                length cards = length vendors.
Proof.
  intros Hne Hall. apply table_renders_typed; [done|].
  eapply Forall_impl; [exact Hall|]. intros v [Hm He]. by apply declared_vendor_typed.
Qed.

(** C32 (safety): nothing between the analyzer and the table checks the shape of
    [matchedRequirements]: whenever a run succeeds (the route answers
    with its shortlist) and one analysed vendor's [matchedRequirements]
    is not an array, the home page shows the shortlist and the
    comparison table throws while rendering it. *)
Theorem untyped_analysis_crashes_page {SE AE : Type} (dp : deps SE AE) (clk : clock)
    (msg : pipeline_error SE AE -> string) (gt_zero : json -> bool) (b : request_body)
    (reqs : list requirement) (d : db) (r : search_result) (rs : list search_result)
    (p : scraped_data) (ps : list scraped_data) (vs : list vendor_comparison)
    (rows : list vendor_row) :
  String.eqb (body_need b) "" = false -> body_requirements b = Some reqs -> reqs <> [] ->
  wf d ->
  dep_search dp (body_need b) 10 = inr (r :: rs) ->
  dep_scrape dp (map sr_url (take 6 (r :: rs))) = p :: ps ->
  dep_analyze dp (body_need b) reqs (p :: ps) = inr vs ->
  mapM (vendor_row_of (db_next d)) vs = Some rows ->
  Exists (fun v => forall xs, vc_matchedRequirements v <> JArr xs) vs ->
  exists resp w e,
    fst (POST dp clk (Some b) d) = inr resp /\ resp_status resp = 200%Z /\
    run_page msg [Submit (body_need b) reqs; CreateSettles 1 (CreateAnswer resp)] initial_world = Some w /\
    currentShortlist (page w) = Some e /\ ComparisonTable gt_zero (he_vendors e) true = TableThrows.
Proof.
  intros Hn Hr Hne Hwf Hs Hp Ha Hm Hex.
  destruct (POST_completed_answer dp clk b reqs Hn Hr Hne d r rs p ps vs rows Hwf Hs Hp Ha Hm)
    as (vendors & Hpost & Hperm & _).
  do 3 eexists. split_and!; [exact Hpost|reflexivity|reflexivity|reflexivity|].
  apply table_throws_on_untyped_matches. cbn. rewrite Hperm.
  exact (vendor_rows_untyped _ _ _ Hm Hex).
Qed.

Module TableWitnesses.
Import Analyzer.Gemini Search.Serp Wiring.DeployedScenario.

Definition no_length (_ : json) : bool := false.

(** Two vendors by descending score, typed as the interface declares. *)
Definition row (name : string) (score : Z) (matches : json) : vendor_row :=
  mk_vendor_row 0 name "" "" "Contact Sales" "Contact Sales" "USD" [] matches []
    (JArr [JObj [("url", JStr "https://a.example"); ("snippet", JStr "Email API");
                 ("relevance", JStr "high"); ("timestamp", JStr "2026-01-01T00:00:00.000Z")]])
    (inject_Z score) 0.

Definition met : json :=
  JArr [JObj [("requirement", JStr "Under $50/month"); ("met", JBool true); ("evidence", JStr "$20")]].

Definition rows : list vendor_row := [row "Sender" 88 met; row "Mailer" 72 met].

Lemma table_renders_declared_witness :
  exists cards, ComparisonTable no_length rows true = TableShown true cards /\ length cards = length rows.
Proof. apply table_renders_declared; [discriminate|]. repeat constructor. Defined.

Definition cards : list vendor_card :=
  Eval vm_compute in
  match ComparisonTable no_length rows true with TableShown _ cs => cs | _ => [] end.

Lemma table_ranks_follow_scores_witness :
  map rank cards = seq 1 (length rows) /\
  StronglySorted (fun c1 c2 => Qle_bool (card_score c2) (card_score c1) = true /\
                               color_band (scoreColor c2) <= color_band (scoreColor c1)) cards.
Proof.
  apply (table_ranks_follow_scores no_length rows true true cards);
    [repeat constructor; vm_compute; reflexivity|vm_compute; reflexivity].
Defined.

Lemma table_throws_on_untyped_matches_witness :
  ComparisonTable no_length [row "Sender" 88 met; row "Mailer" 72 (JStr "All requirements met")] true =
    TableThrows.
Proof.
  apply table_throws_on_untyped_matches. apply Exists_cons_tl, Exists_cons_hd.
  intros xs. discriminate.
Defined.

Lemma table_renders_typed_witness :
  exists cs, ComparisonTable no_length rows true = TableShown true cs /\ length cs = length rows.
Proof.
  apply table_renders_typed; [discriminate|].
  repeat constructor; eexists; (split; [reflexivity|]); repeat constructor; by eexists.
Defined.

(** The model answers with [matchedRequirements] as a sentence. *)
Definition loose_text : string :=
  "[{" ++ quoted "name" ++ ":" ++ quoted "Sender" ++ "," ++ quoted "overallScore" ++ ":88," ++
  quoted "matchedRequirements" ++ ":" ++ quoted "All requirements met" ++ "}]".

Definition loose_body : string :=
  "{" ++ quoted "candidates" ++ ":[{" ++ quoted "content" ++ ":{" ++ quoted "parts" ++ ":[{" ++
  quoted "text" ++ ":" ++ json_quote loose_text ++ "}]}}]}".

Definition loose_env : route_env :=
  mk_route_env (serp env) (scraper env)
    (mk_gemini_env (Some "gemini-key") (fun _ => FetchResponse true 200 loose_body)) (now_iso env).

Definition msg (_ : pipeline_error search_error analysis_error) : string := "Internal error".

Definition loose_deps := route_deps loose_env.

Definition loose_results : list search_result :=
  Eval vm_compute in
  match dep_search loose_deps (body_need Scenario.body) 10 with inr l => l | inl _ => [] end.

Definition loose_pages : list scraped_data :=
  Eval vm_compute in dep_scrape loose_deps (map sr_url (take 6 loose_results)).

Definition loose_vendors : list vendor_comparison :=
  Eval vm_compute in
  match dep_analyze loose_deps (body_need Scenario.body) [Scenario.req] loose_pages with
  | inr vs => vs
  | inl _ => []
  end.

Definition loose_rows : list vendor_row :=
  Eval vm_compute in default [] (mapM (vendor_row_of (db_next empty_db)) loose_vendors).

(** On the deployed components, a model answer whose
    [matchedRequirements] is a sentence: the route answers 200 and the
    table of the page showing it throws. *)
Lemma untyped_analysis_crashes_page_witness :
  exists resp w e,
    fst (POST loose_deps Scenario.clk (Some Scenario.body) empty_db) = inr resp /\ resp_status resp = 200%Z /\
    run_page msg [Submit (body_need Scenario.body) [Scenario.req]; CreateSettles 1 (CreateAnswer resp)]
      initial_world = Some w /\
    currentShortlist (page w) = Some e /\ ComparisonTable no_length (he_vendors e) true = TableThrows.
Proof.
  apply (untyped_analysis_crashes_page loose_deps Scenario.clk msg no_length Scenario.body [Scenario.req]
           empty_db (hd Orchestrator.ScenarioWitnesses.r0 loose_results) (tail loose_results)
           (hd Orchestrator.ScenarioWitnesses.p0 loose_pages) (tail loose_pages) loose_vendors loose_rows);
    try (vm_compute; reflexivity); [discriminate|apply wf_empty|].
  apply Exists_cons_hd. intros xs. vm_compute. discriminate.
Defined.

End TableWitnesses.
