(* ===== verification/StatusPage.v ===== *)
(** * The status page: [src/src/app/status/page.tsx]

    The page calls the health route on mount and on every click on
    "Refresh" ([checkHealth], lines 28-40), and renders the answer: a
    title for the overall status (line 95) and one card per service with
    an icon, a badge, the message and the response time (lines 110-136).
    As on the home page, the call is asynchronous: the state records
    whether a check is in flight, and the reply arrives as an event.
    The answer is the [health_response] of [Health.v]; a reply that is
    not JSON (the route crashed) makes [response.json()] reject.
    [new Date()] at the reply is an input. *)

From S2P Require Import Prelude JsString Json Http Types Store Health.
From Stdlib Require Import ZArith.

Open Scope string_scope.

(** Lines 24-26 *)
Record status_state : Type := mk_status {
  health : option health_response;
  loading : bool;
  lastChecked : option Z
}.

(** The first render: [loading] is [true] and [useEffect] (lines 42-44)
    has started a check. *)
Definition initial_status : status_state := mk_status None true None.

(** How a health call settles. *)
Inductive health_reply : Type :=
| HealthAnswer (data : health_response)
| HealthRejected.

(** "Refresh" (line 101), enabled when not loading: [checkHealth] up to
    its [await]. *)
Definition refresh (st : status_state) : option status_state :=
  if loading st then None else Some (mk_status (health st) true (lastChecked st)).

(** Lines 32-39 once the call settled, [now] being [new Date()]. *)
Definition checkHealth_done (now : Z) (r : health_reply) (st : status_state) : status_state :=
  match r with
  | HealthAnswer data => mk_status (Some data) false (Some now)
  | HealthRejected => mk_status (health st) false (lastChecked st)
  end.

(** The title, line 95. *)
Definition title (st : status_state) : string :=
  if loading st then "Checking..."
  else match health st with
       | Some h => if String.eqb (hr_status h) "healthy" then "All Systems Operational"
                   else "Service Issues Detected"
       | None => "Service Issues Detected"
       end.

(** The icons of lucide-react the page uses for a status. *)
Inductive status_icon : Type := CheckCircle2 | AlertCircle | XCircle.

(** [getStatusIcon], lines 46-57: the icon and its colour class. *)
Definition getStatusIcon (status : string) : status_icon * string :=
  if String.eqb status "healthy" then (CheckCircle2, "text-green-600")
  else if String.eqb status "degraded" then (AlertCircle, "text-yellow-600")
  else if String.eqb status "down" then (XCircle, "text-red-600")
  else (AlertCircle, "text-gray-400").

(** [getStatusBadge], lines 59-70, on the status string the route sends. *)
Definition getStatusBadge (status : string) : string :=
  if String.eqb status "healthy" then "Operational"
  else if String.eqb status "degraded" then "Degraded"
  else if String.eqb status "down" then "Down"
  else "Unknown".

(** The JSON string of a [service_status]. *)
Definition status_string (s : service_status) : string :=
  match s with Healthy => "healthy" | Degraded => "degraded" | Down => "down" end.

(** [{service.responseTime && <div>{service.responseTime}ms</div>}]
    (lines 125-129): nothing when absent; [0] is falsy, and React
    renders the number [0] itself as text. *)
Definition response_time_text (t : option Z) : option string :=
  match t with
  | None => None
  | Some 0%Z => Some "0"
  | Some n => Some (pretty n ++ "ms")
  end.

Record service_card : Type := mk_service_card {
  sc_icon : status_icon * string;
  sc_title : string;
  sc_description : string;
  sc_badge : string;
  sc_time : option string
}.

(** One card, lines 113-133. *)
Definition service_card_of (s : service_health) : service_card :=
  mk_service_card (getStatusIcon (status_string (sh_status s))) (service s)
    (match message s with Some m => str_or m "No message" | None => "No message" end)
    (getStatusBadge (status_string (sh_status s)))
    (response_time_text (responseTime s)).

(** Lines 110-136 *)
Definition service_cards (st : status_state) : list service_card :=
  match health st with
  | Some h => map service_card_of (services h)
  | None => []
  end.

(** The overall card, lines 90-107: the title, the time of the last
    check ([toLocaleString] is an input), and the Refresh button,
    disabled and spinning while a check runs. *)
Record status_header : Type := mk_status_header {
  hd_title : string;
  hd_checked : string;
  refresh_enabled : bool;
  refresh_spinning : bool
}.

Definition status_header_of (toLocaleString : Z -> string) (st : status_state) : status_header :=
  mk_status_header (title st)
    (match lastChecked st with
     | Some d => "Last checked: " ++ toLocaleString d
     | None => "Checking system health..."
     end)
    (negb (loading st)) (loading st).

(** ** Properties *)


(** On the health route's answer every card shows the green check with
    "Operational" or the red cross with "Down": the yellow "Degraded"
    and the grey "Unknown" of [getStatusIcon] and [getStatusBadge] are
    never drawn. *)
Theorem status_cards_two_kinds (env : health_env) (clk : health_clock) (d : db)
    (data : health_response) (now : Z) :
  fst (HealthRoute.GET env clk d) = inr data ->
  Forall (fun c => (sc_icon c, sc_badge c) = ((CheckCircle2, "text-green-600"), "Operational") \/
                   (sc_icon c, sc_badge c) = ((XCircle, "text-red-600"), "Down"))
    (service_cards (checkHealth_done now (HealthAnswer data) initial_status)).
Proof.
  rewrite GET_run. intros [= <-]. apply Forall_map, Forall_forall. intros r Hr.
  destruct (check_status r env clk) as [Hs|Hs]; [exact Hr| |];
    unfold service_card_of; rewrite Hs; [left|right]; reflexivity.
Qed.

Module StatusWitnesses.

(** The database answers within the millisecond; no key is set. *)
Definition env : health_env :=
  mk_health_env None None None (fun _ => HttpOk JNull) (fun _ => HttpOk JNull).

Definition clk : health_clock := mk_health_clock 5 5 6 6 7 7 "2026-01-01T00:00:00.000Z".

Definition data : health_response :=
  Eval vm_compute in
  match fst (HealthRoute.GET env clk (mk_db ∅ ∅ [] 0)) with
  | inr r => r
  | inl _ => mk_health_response "" "" []
  end.


Lemma status_cards_two_kinds_witness :
  Forall (fun c => (sc_icon c, sc_badge c) = ((CheckCircle2, "text-green-600"), "Operational") \/
                   (sc_icon c, sc_badge c) = ((XCircle, "text-red-600"), "Down"))
    (service_cards (checkHealth_done 8 (HealthAnswer data) initial_status)).
Proof. apply (status_cards_two_kinds env clk (mk_db ∅ ∅ [] 0)). vm_compute. reflexivity. Defined.

(** A database check that completes within the millisecond
    reports [responseTime] 0, and the card shows a bare "0" where the
    other cards show "<n>ms": [0 && ...] evaluates to the number 0,
    which React renders. *)
Example zero_response_time_card :
  head (service_cards (checkHealth_done 8 (HealthAnswer data) initial_status)) =
    Some (mk_service_card (CheckCircle2, "text-green-600") "Database" "PostgreSQL connection successful"
            "Operational" (Some "0")).
Proof. vm_compute. reflexivity. Qed.

End StatusWitnesses.
