(* ===== verification/StatusContent.v ===== *)
(** * What the status page receives, and the rest of what it shows

    The health route answers with [NextResponse.json] of its results
    ([src/src/app/api/health/route.ts], lines 119-123): [health_json]
    writes that body as [JSON.stringify] does, each [ServiceHealth] with
    its members in the order the code writes them and an [undefined]
    member left out.  The status page declares the shape it expects
    ([ServiceStatus] and [HealthResponse], [src/src/app/status/page.tsx]
    lines 10-21); [types/index.ts] declares another one, [HealthStatus],
    which nothing uses.  The rest of the page (lines 72-88 and 138-233)
    is fixed text: its header with the link back home, the service
    information, the setup guide and the cost card. *)

From S2P Require Import Prelude JsString Json Http Types Store Health StatusPage.
From Stdlib Require Import ZArith QArith.

Close Scope Q_scope.
Open Scope string_scope.

(** ** The health route's body *)

(** A member written only when the value is not [undefined]. *)
Definition opt_member {A} (k : string) (f : A -> json) (x : option A) : list (string * json) :=
  match x with Some a => [(k, f a)] | None => [] end.

(** A [ServiceHealth] object (route lines 5-10, built at lines 19-30,
    52-63 and 83-94) as [JSON.stringify] writes it. *)
Definition service_json (s : service_health) : json :=
  JObj ([("service", JStr (service s)); ("status", JStr (status_string (sh_status s)))] ++
        opt_member "responseTime" (fun n => JNum (inject_Z n)) (responseTime s) ++
        opt_member "message" JStr (message s)).

(** [NextResponse.json({ status, timestamp, services: results })] *)
Definition health_json (h : health_response) : json :=
  JObj [("status", JStr (hr_status h)); ("timestamp", JStr (hr_timestamp h));
        ("services", JArr (map service_json (services h)))].

(** [ServiceStatus], status page lines 10-15 *)
Definition service_status_ty : ts_type :=
  TObject [("service", false, TString); ("status", false, TLiteral ["healthy"; "degraded"; "down"]);
           ("responseTime", true, TNumber); ("message", true, TString)].

(** [HealthResponse], status page lines 17-21 *)
Definition health_response_ty : ts_type :=
  TObject [("status", false, TString); ("timestamp", false, TString);
           ("services", false, TArray service_status_ty)].

(** ** The fixed parts of the page *)

Record link : Type := mk_link { href : string; link_label : string }.

(** The header, lines 72-88. *)
Definition status_heading : string := "System Status".
Definition back_home : link := mk_link "/" "Back to Home".

Record info_entry : Type := mk_info { info_heading : string; info_text : string }.

(** "Service Information", lines 138-166. *)
Definition service_information : list info_entry :=
  [mk_info "Database (PostgreSQL)"
     "Stores shortlists, vendor data, and health check history. Required for all operations.";
   mk_info "Google Gemini AI (Google Generative AI)"
     ("Powers intelligent vendor analysis, requirement matching, and evidence extraction." ++ " " ++
      "Free tier: 1,500 requests/day, 1 million tokens/month. 100% free, no credit card required.");
   mk_info "SerpAPI Search"
     "Finds relevant vendor websites and documentation using Google Search results. Free tier: 100 searches/month."].

(** A double quote, which the setup guide prints around a button name. *)
Definition dq : string := String "034"%char EmptyString.

Record guide_step : Type := mk_step { step_title : string; step_items : list string }.

(** "Setup Guide", lines 168-207; a link counts as its text. *)
Definition setup_guide : list guide_step :=
  [mk_step "1. Google Gemini API (100% FREE Forever):"
     ["Visit aistudio.google.com/app/apikey"; "Sign in with your Google account";
      "Click " ++ dq ++ "Create API Key" ++ dq ++ " in new project";
      "Copy the key (starts with AIza...) and add to .env as GOOGLE_GEMINI_API_KEY";
      "Free: 1,500 requests/day, no credit card needed"];
   mk_step "2. SerpAPI (Free 100 searches/month):"
     ["Visit serpapi.com/users/sign_up"; "Sign up for free account"; "Verify your email";
      "Get your API key from dashboard and add to .env as SERP_API_KEY";
      "Free: 100 searches/month, no credit card needed"];
   mk_step "3. Database (PostgreSQL):"
     ["Option A (Docker): docker run --name vendor-postgres -e POSTGRES_PASSWORD=password -e POSTGRES_DB=vendor_discovery -p 5432:5432 -d postgres:15-alpine";
      "Option B (Cloud): Use Vercel Postgres (free) or Supabase (free tier)";
      "Add connection string to .env as DATABASE_URL"; "Run: npx prisma db push to setup tables"]].

(** The bytes in front of the cost card's title (line 212): the UTF-8
    encoding of the text "ðŸ’°", an emoji saved in the wrong encoding. *)
Definition cost_icon : string :=
  of_bytes ["195"; "176"; "197"; "184"; "226"; "128"; "153"; "194"; "176"]%char.

(** The cost card, lines 209-233. *)
Definition cost_title : string := cost_icon ++ " Total Cost: $0/month".
Definition cost_description : string := "All APIs used are 100% free within their generous free tiers".
Definition cost_lines : list (string * string) :=
  [("Google Gemini:", "$0 (1,500/day free)"); ("SerpAPI:", "$0 (100/month free)");
   ("PostgreSQL:", "$0 (local/free tier)")].

(** ** Properties *)

Lemma opt_member_lookup {A} (k k' : string) (f : A -> json) (x : option A) (kvs : list (string * json)) :
  k <> k' -> assoc_last k' (opt_member k f x ++ kvs) = assoc_last k' kvs.
Proof.
  intros Hne. destruct x as [a|]; [|done]. simpl.
  destruct (assoc_last k' kvs); [done|]. by rewrite (proj2 (String.eqb_neq k' k)) by congruence.
Qed.

Lemma service_json_typed (s : service_health) : has_type service_status_ty (service_json s) = true.
Proof. destruct s as [n [| |] [t|] [m|]]; reflexivity. Qed.

Lemma service_json_untimed (s : service_health) : has_type health_status_ty (service_json s) = false.
Proof. destruct s as [n [| |] [t|] [m|]]; reflexivity. Qed.

(** The health route names its services as the service information
    does. *)
Lemma health_service_names (env : health_env) (clk : health_clock) :
  map service (health_results env clk) = ["Database"; "Google Gemini AI"; "SerpAPI Search"].
Proof.
  unfold health_results, check_database, check_gemini, check_serp. by repeat case_match.
Qed.

(** Every body the health route can send has the type [HealthResponse]
    the status page declares for it. *)
Theorem health_json_typed (h : health_response) : has_type health_response_ty (health_json h) = true.
Proof.
  cbn -[has_type]. simpl. rewrite andb_true_r.
  apply forallb_forall. intros x (s & <- & _)%in_map_iff. apply service_json_typed.
Qed.

(** No service object of a health answer has the type [HealthStatus]
    of [types/index.ts]: the route never writes the [timestamp] that type
    requires of each service. *)
Theorem health_answer_not_HealthStatus (env : health_env) (clk : health_clock) (d : db)
    (h : health_response) :
  fst (HealthRoute.GET env clk d) = inr h ->
  length (services h) = 3 /\ Forall (fun s => has_type health_status_ty (service_json s) = false) (services h).
Proof.
  rewrite GET_run. intros [= <-]. split; [done|]. apply Forall_forall. intros s _.
  apply service_json_untimed.
Qed.

Lemma info_heading_for (n : string) :
  existsb (fun e => is_prefix n (info_heading e)) service_information = true ->
  exists e, e ∈ service_information /\ is_prefix n (info_heading e) = true.
Proof. intros (e & He & Hp)%existsb_exists. exists e. split; [by apply list_elem_of_In|done]. Qed.

(** Every service of a health answer has its entry in the service
    information, whose heading starts with the service's name. *)
Theorem status_info_names_services (env : health_env) (clk : health_clock) :
  Forall (fun r => exists e, e ∈ service_information /\ is_prefix (service r) (info_heading e) = true)
    (health_results env clk).
Proof.
  assert (H : Forall (fun n => existsb (fun e => is_prefix n (info_heading e)) service_information = true)
                (map service (health_results env clk))).
  { rewrite health_service_names. repeat constructor. }
  apply Forall_map in H. eapply Forall_impl; [exact H|]. intros r. apply info_heading_for.
Qed.

(** When a key is missing, the health route's message names the
    variable, and the setup guide says where to set it. *)
Lemma missing_key_in_guide (env : health_env) (clk : health_clock) :
  (env_set (GOOGLE_GEMINI_API_KEY env) = None ->
   message (check_gemini env clk) = Some "GOOGLE_GEMINI_API_KEY not configured" /\
   Exists (fun st => Exists (fun item => includes item "GOOGLE_GEMINI_API_KEY" = true) (step_items st))
     setup_guide) /\
  (env_set (SERP_API_KEY env) = None ->
   message (check_serp env clk) = Some "SERP_API_KEY not configured" /\
   Exists (fun st => Exists (fun item => includes item "SERP_API_KEY" = true) (step_items st))
     setup_guide).
Proof.
  unfold check_gemini, check_serp. split; intros ->; (split; [reflexivity|]).
  - apply Exists_cons_hd. do 3 apply Exists_cons_tl. apply Exists_cons_hd. vm_compute. reflexivity.
  - apply Exists_cons_tl, Exists_cons_hd. do 3 apply Exists_cons_tl. apply Exists_cons_hd.
    vm_compute. reflexivity.
Qed.

Module StatusContentWitnesses.
Import StatusPage.StatusWitnesses.

Lemma health_answer_not_HealthStatus_witness :
  length (services data) = 3 /\
  Forall (fun s => has_type health_status_ty (service_json s) = false) (services data).
Proof. apply (health_answer_not_HealthStatus env clk (mk_db ∅ ∅ [] 0)). vm_compute. reflexivity. Defined.

(** The cost card's title does not start with the emoji U+1F4B0 (bytes
    F0 9F 92 B0) the source meant: the page shows the characters of
    its mis-encoded bytes. *)
Example cost_icon_garbled :
  is_prefix (of_bytes ["240"; "159"; "146"; "176"]%char) cost_title = false /\
  is_prefix cost_icon cost_title = true.
Proof. split; reflexivity. Qed.

End StatusContentWitnesses.
