(* ===== verification/Export.v ===== *)
(** * The markdown export of the home page: [generateMarkdown] and
    [handleExport] in [src/src/app/page.tsx]

    [generateMarkdown] (lines 289-319) builds the text by appending to
    [md] line after line; here the appends are grouped by the [forEach]
    that makes them: a header, one line per requirement, and one section
    per vendor.  The conversions the template literals apply are inputs:
    [toLocaleString] of the creation date and [String(n)] of a number;
    a requirement's [weight] prints as [String(weight)], [null] for the
    [NaN] the form sends as [null]. *)

From S2P Require Import Prelude JsString Json Types Analyzer Store History HomePage ComparisonTable.
From Stdlib Require Import ZArith QArith.

Close Scope Q_scope.
Open Scope string_scope.

Import Analyzer.Prompt.

Section Markdown.
Context (toLocaleString : Z -> string) (number_string : Q -> string).

(** [${req.weight}] *)
Definition weight_string (w : option Z) : string :=
  match w with Some n => pretty n | None => "null" end.

(** Line 295 *)
Definition requirement_md (idx : nat) (req : requirement) : string :=
  pretty (S idx) ++ ". [" ++ to_upper (priority_str (req_priority req)) ++ "] " ++
  req_description req ++ " (Weight: " ++ weight_string (req_weight req) ++ "/10)" ++ nl.

(** [- item] lines, lines 306 and 311. *)
Definition bullets (items : list string) : string :=
  String.concat "" (map (fun f => "- " ++ f ++ nl) items).

(** The heading of a vendor's section, line 301. *)
Definition vendor_heading (idx : nat) (v : vendor_row) : string :=
  "### " ++ pretty (S idx) ++ ". " ++ vr_name v ++ " (Score: " ++
  number_string (vr_overallScore v) ++ "/100)" ++ nl ++ nl.

(** Lines 300-316: one vendor's section. *)
Definition vendor_md (idx : nat) (v : vendor_row) : string :=
  vendor_heading idx v ++
  "**Website:** " ++ vr_website v ++ nl ++ nl ++
  "**Description:** " ++ vr_description v ++ nl ++ nl ++
  "**Pricing:** " ++ vr_priceRange v ++ " (" ++ vr_pricingModel v ++ ")" ++ nl ++ nl ++
  "**Key Features:**" ++ nl ++ bullets (vr_keyFeatures v) ++
  nl ++ "**Requirements Match:** " ++ number_string (vr_requirementMatch v) ++ "%" ++ nl ++ nl ++
  (match vr_risks v with
   | [] => ""
   | risks => "**Risks:**" ++ nl ++ bullets risks ++ nl
   end) ++
  "---" ++ nl ++ nl.

(** [generateMarkdown(shortlist)], lines 289-319 *)
Definition generateMarkdown (shortlist : history_entry) : string :=
  let row := he_row shortlist in
  "# Vendor Shortlist: " ++ sl_needDescription row ++ nl ++ nl ++
  "Generated: " ++ toLocaleString (sl_createdAt row) ++ nl ++ nl ++
  "## Requirements" ++ nl ++ nl ++
  String.concat "" (imap requirement_md (sl_requirements row)) ++
  nl ++ "## Vendor Comparison" ++ nl ++ nl ++
  String.concat "" (imap vendor_md (he_vendors shortlist)).

(** [handleExport], lines 72-83: nothing without a current shortlist;
    otherwise the file [vendor-shortlist-<Date.now()>.md] and its text. *)
Definition handleExport (now : Z) (p : page_state) : option (string * string) :=
  match currentShortlist p with
  | None => None
  | Some s => Some ("vendor-shortlist-" ++ pretty now ++ ".md", generateMarkdown s)
  end.

End Markdown.

(** ** Properties *)

Lemma includes_concat_imap {A} (f : nat -> A -> string) (l : list A) (i : nat) (x : A) :
  l !! i = Some x -> includes (String.concat "" (imap f l)) (f i x) = true.
Proof.
  intros Hi. apply (includes_join ""). apply list_elem_of_lookup_2 with i.
  by rewrite list_lookup_imap, Hi.
Qed.

Lemma includes_vendor_heading (number_string : Q -> string) (i : nat) (v : vendor_row) :
  includes (vendor_md number_string i v) (vendor_heading number_string i v) = true.
Proof. apply includes_prefix, is_prefix_spec. by eexists. Qed.

(** The card the table draws for the [i]-th vendor. *)
Lemma table_card (gt_zero : json -> bool) (vendors : list vendor_row) (b b' : bool)
    (cards : list vendor_card) (i : nat) (v : vendor_row) :
  vendors !! i = Some v -> ComparisonTable gt_zero vendors b = TableShown b' cards ->
  exists c, cards !! i = Some c /\ rank c = S i /\ card_name c = vr_name v /\
            card_score c = vr_overallScore v.
Proof.
  intros Hi. unfold ComparisonTable. destruct vendors as [|w ws]; [discriminate|].
  destruct (render_cards gt_zero 0 (w :: ws)) as [cs|] eqn:Hr; [|discriminate]. intros [= _ <-].
  destruct (render_cards_spec gt_zero 0 _ _ Hr) as [Hrank Hf].
  destruct (Forall2_lookup_l _ _ _ _ _ Hf Hi) as (c & Hc & Hn & Hs & _).
  exists c. split_and!; [done| |done|done].
  assert (map rank cs !! i = Some (rank c)) as Hm by (rewrite list_lookup_fmap, Hc; done).
  rewrite Hrank, lookup_seq in Hm. destruct Hm as [Hm _]. by simplify_eq.
Qed.

(** The export and the table number the vendors alike: the [i]-th
    vendor of the shortlist heads its markdown section as
    "### i+1. name (Score: s/100)" and is the card ranked #i+1 with that
    name and score. *)
Theorem export_numbers_as_table (toLocaleString : Z -> string) (number_string : Q -> string)
    (gt_zero : json -> bool) (s : history_entry) (b b' : bool) (cards : list vendor_card)
    (i : nat) (v : vendor_row) :
  he_vendors s !! i = Some v ->
  ComparisonTable gt_zero (he_vendors s) b = TableShown b' cards ->
  includes (generateMarkdown toLocaleString number_string s) (vendor_heading number_string i v) = true /\
  exists c, cards !! i = Some c /\ rank c = S i /\ card_name c = vr_name v /\
            card_score c = vr_overallScore v.
Proof.
  intros Hi Ht. split; [|by eapply table_card].
  unfold generateMarkdown. repeat apply includes_app_r.
  apply (includes_trans _ (vendor_md number_string i v)); [|apply includes_vendor_heading].
  by apply includes_concat_imap.
Qed.

Module ExportWitnesses.

Definition show_q (q : Q) : string := pretty (Qnum q).

Definition entry : history_entry :=
  mk_entry 0 (mk_shortlist "Email delivery" [] Completed None (Some 3000%Z) 1000)
    [ComparisonTable.TableWitnesses.row "Sender" 88 ComparisonTable.TableWitnesses.met].

Definition cards : list vendor_card :=
  Eval vm_compute in
  match ComparisonTable (fun _ => false) (he_vendors entry) true with TableShown _ cs => cs | _ => [] end.

Lemma export_numbers_as_table_witness :
  includes (generateMarkdown (fun _ => "1/1/1970") show_q entry)
    (vendor_heading show_q 0 (ComparisonTable.TableWitnesses.row "Sender" 88 ComparisonTable.TableWitnesses.met)) = true /\
  exists c, cards !! 0 = Some c /\ rank c = 1 /\
            card_name c = vr_name (ComparisonTable.TableWitnesses.row "Sender" 88 ComparisonTable.TableWitnesses.met) /\
            card_score c = vr_overallScore (ComparisonTable.TableWitnesses.row "Sender" 88 ComparisonTable.TableWitnesses.met).
Proof.
  apply (export_numbers_as_table _ _ (fun _ => false) entry true true cards 0); vm_compute; reflexivity.
Defined.

(** A requirement whose weight the form sent as [null] (a cleared
    weight box) or 0 is analysed with weight 5 ([req.weight || 5] in
    the prompt) but exported as "Weight: null/10" and "Weight: 0/10". *)
Example export_weight_differs_from_prompt :
  requirement_md 0 (mk_requirement "1" "GDPR compliant" MustHave None) =
    "1. [MUST-HAVE] GDPR compliant (Weight: null/10)" ++ nl /\
  requirement_line 0 (mk_requirement "1" "GDPR compliant" MustHave None) =
    "1. [MUST-HAVE] GDPR compliant (Weight: 5/10)" /\
  requirement_md 0 (mk_requirement "1" "GDPR compliant" MustHave (Some 0%Z)) =
    "1. [MUST-HAVE] GDPR compliant (Weight: 0/10)" ++ nl /\
  requirement_line 0 (mk_requirement "1" "GDPR compliant" MustHave (Some 0%Z)) =
    "1. [MUST-HAVE] GDPR compliant (Weight: 5/10)".
Proof. vm_compute. split_and!; reflexivity. Qed.

End ExportWitnesses.
