(* ===== verification/PageView.v ===== *)
(** * What the home page draws: the tabs of [src/src/app/page.tsx]

    Lines 140-240 render the page state of [HomePage.v]: the tab labels,
    the form (disabled while loading), the loading card, the error card,
    the results of the current shortlist with its comparison table, and
    the history cards.  Around them the page draws fixed text: the
    header with its link to the status page (lines 85-111), the hero
    (113-137), the features grid (242-276) and the footer (279-284).
    [toFixed(1)] of a number and [toLocaleDateString] of a date are
    inputs. *)

From S2P Require Import Prelude JsString Json Types Store Health History Orchestrator HomePage ComparisonTable StatusContent.
From Stdlib Require Import ZArith QArith.

Close Scope Q_scope.
Open Scope string_scope.

Section View.
Context (gt_zero : json -> bool) (toFixed1 : Q -> string) (toLocaleDateString : Z -> string).

(** The bullet of line 233, in UTF-8. *)
Definition bullet : string := String "226" (String "128" (String "162" "")).

(** Line 148 *)
Definition history_tab_label (p : page_state) : string :=
  "History (" ++ pretty (length (history p)) ++ ")".

(** [currentShortlist.processingTime / 1000] (line 197); [null / 1000]
    is 0. *)
Definition seconds (t : option Z) : Q :=
  match t with Some ms => (inject_Z ms / 1000)%Q | None => 0%Q end.

Record results_view : Type := mk_results {
  rv_summary : string;       (** lines 196-197 *)
  rv_need : string;          (** line 202 *)
  rv_requirements : string;  (** lines 203-205 *)
  rv_table : table_render    (** lines 210-213 *)
}.

(** Lines 187-215 for the current shortlist. *)
Definition results_of (s : history_entry) : results_view :=
  mk_results
    ("Analyzed " ++ pretty (length (he_vendors s)) ++ " vendors in" ++ " " ++
     toFixed1 (seconds (sl_processingTime (he_row s))) ++ "s")
    ("Need: " ++ sl_needDescription (he_row s))
    (pretty (length (sl_requirements (he_row s))) ++ " Requirements")
    (ComparisonTable gt_zero (he_vendors s) true).

(** A history card's title and description, lines 229-236. *)
Definition history_card (s : history_entry) : string * string :=
  (sl_needDescription (he_row s),
   toLocaleDateString (sl_createdAt (he_row s)) ++ " " ++ bullet ++ " " ++
   pretty (length (he_vendors s)) ++ " vendors found").

(** Lines 219-238 *)
Inductive history_view : Type :=
| HistoryEmpty                                (** line 222 *)
| HistoryCards (cards : list (string * string)).

Record page_view : Type := mk_view {
  pv_history_label : string;
  pv_form_loading : bool;             (** [isLoading] given to the form, line 153 *)
  pv_loading_card : bool;             (** lines 156-173 *)
  pv_error_card : option string;      (** lines 176-184 *)
  pv_results : option results_view;   (** lines 187-215 *)
  pv_history : history_view           (** lines 218-239 *)
}.

(** Lines 140-240. [{error && ...}] draws nothing for an empty message. *)
Definition render_page (p : page_state) : page_view :=
  mk_view (history_tab_label p) (isLoading p) (isLoading p)
    (match error p with Some e => if String.eqb e "" then None else Some e | None => None end)
    (match currentShortlist p with Some s => Some (results_of s) | None => None end)
    (match history p with [] => HistoryEmpty | h => HistoryCards (map history_card h) end).

End View.

(** ** The fixed parts of the page *)

(** The header, lines 87-111: the logo, the site's name and the link
    to the status page. *)
Definition logo_text : string := "VD".
Definition site_title : string := "Vendor Discovery".
Definition site_tagline : string := "AI-Powered Research Platform".
Definition status_link : link := mk_link "/status" "System Status".

(** The hero, lines 114-137: a title, a pitch and three figures. *)
Definition hero_title : string := "Find Your Perfect Vendor".
Definition hero_text : string :=
  "Stop wasting hours researching. Let AI discover, compare, and analyze vendors for you in minutes.".
Definition hero_stats : list (string * string) :=
  [("5-10", "Vendors Analyzed"); ("3-5min", "Average Time"); ("100%", "Automated")].

(** The icons in front of the three feature titles (lines 246, 257,
    268): emoji saved in the wrong encoding. *)
Definition research_icon : string :=
  of_bytes ["239"; "163"; "191"; "195"; "188"; "195"; "174"; "195"; "167"]%char.
Definition analysis_icon : string :=
  of_bytes ["239"; "163"; "191"; "195"; "188"; "194"; "167"; "195"; "177"]%char.
Definition comparison_icon : string :=
  of_bytes ["239"; "163"; "191"; "195"; "188"; "195"; "172"; "195"; "164"]%char.

(** The features grid, lines 242-276: title and text of each card. *)
Definition features : list (string * string) :=
  [(research_icon ++ " Automated Research",
    "Searches multiple sources, scrapes official docs, and extracts pricing & features automatically");
   (analysis_icon ++ " AI Analysis",
    "Claude AI analyzes vendors, matches requirements, identifies risks, and provides evidence-based insights");
   (comparison_icon ++ " Smart Comparison",
    "Weighted scoring, requirement matching, and exportable reports help you make informed decisions")].

(** The footer, lines 279-284. *)
Definition footer_text : string := "Vendor Discovery@2026".

(** ** Properties *)

Section Cards.
Context {SE AE : Type} (error_message : pipeline_error SE AE -> string).

(** The page never holds an empty message, which [{error && ...}]
    would hide. *)
Definition error_ok (p : page_state) : Prop := error p <> Some "".

Lemma page_step_error_ok (ev : page_event SE AE) (w w' : page_world) :
  error_ok (page w) -> page_step error_message ev w = Some w' -> error_ok (page w').
Proof.
  unfold error_ok. intros He. destruct ev as [n rs|i r|i r|k]; simpl.
  - destruct (isLoading (page w)); intros ?; simplify_eq/=. done.
  - destruct (pending w !! i) as [[|c]|]; try discriminate.
    destruct (create_done error_message r (page w)) as [p' awaits] eqn:Hd. intros ?; simplify_eq/=.
    destruct r as [resp|m]; simpl in Hd; [destruct (response_ok (resp_status resp))|];
      simplify_eq/=; try done; intros [= H]; revert H; apply str_or_nonempty; discriminate.
  - destruct (pending w !! i) as [[|c]|]; try discriminate. intros ?; simplify_eq/=.
    destruct c, r as [[]|]; done.
  - destruct (history (page w) !! k); intros ?; simplify_eq/=. done.
Qed.

Lemma run_page_error_ok (evs : list (page_event SE AE)) (w w' : page_world) :
  error_ok (page w) -> run_page error_message evs w = Some w' -> error_ok (page w').
Proof.
  revert w. induction evs as [|ev evs IH]; intros w He; simpl; [intros; by simplify_eq|].
  destruct (page_step error_message ev w) as [w1|] eqn:Hs; [|discriminate]. simpl.
  apply IH. by eapply page_step_error_ok.
Qed.

(** In every state the page reaches, the error card shows exactly the
    error the page holds: every failed create leaves a non-empty
    message. *)
Theorem error_card_iff_error (gt_zero : json -> bool) (toFixed1 : Q -> string)
    (toLocaleDateString : Z -> string) (evs : list (page_event SE AE)) (w : page_world) :
  run_page error_message evs initial_world = Some w ->
  pv_error_card (render_page gt_zero toFixed1 toLocaleDateString (page w)) = error (page w).
Proof.
  intros H. apply run_page_error_ok in H; [|done]. unfold error_ok in H. simpl.
  destruct (error (page w)) as [e|]; [|done]. destruct (String.eqb_spec e "") as [->|]; done.
Qed.

End Cards.

(** The summary above the table counts the cards the table draws. *)
Theorem results_count_matches_table (gt_zero : json -> bool) (toFixed1 : Q -> string)
    (s : history_entry) (b : bool) (cards : list vendor_card) :
  rv_table (results_of gt_zero toFixed1 s) = TableShown b cards ->
  b = true /\ length cards = length (he_vendors s) /\
  rv_summary (results_of gt_zero toFixed1 s) =
    "Analyzed " ++ pretty (length cards) ++ " vendors in" ++ " " ++
    toFixed1 (seconds (sl_processingTime (he_row s))) ++ "s".
Proof.
  simpl. unfold ComparisonTable. destruct (he_vendors s) as [|v vs] eqn:Hv; [discriminate|].
  destruct (render_cards gt_zero 0 (v :: vs)) as [cs|] eqn:Hr; [|discriminate]. intros [= <- <-].
  destruct (render_cards_spec gt_zero 0 _ _ Hr) as [_ Hf]. apply Forall2_length in Hf.
  by rewrite Hf.
Qed.

Module ViewWitnesses.
Import ComparisonTable.TableWitnesses HomePage.PageWitnesses.

Lemma error_card_iff_error_witness :
  pv_error_card (render_page no_length (fun _ => "3.0") (fun _ => "1/1/2026") (page after)) =
    error (page after).
Proof. apply (error_card_iff_error msg _ _ _ evs). vm_compute. reflexivity. Defined.

Definition current : history_entry :=
  mk_entry 0 (mk_shortlist "Email delivery" [] Completed None (Some 3000%Z) 1000)
    [row "Sender" 88 met].

Definition current_cards : list vendor_card :=
  Eval vm_compute in
  match ComparisonTable no_length (he_vendors current) true with TableShown _ cs => cs | _ => [] end.

Lemma results_count_matches_table_witness :
  true = true /\ length current_cards = length (he_vendors current) /\
  rv_summary (results_of no_length (fun _ => "3.0") current) =
    "Analyzed " ++ pretty (length current_cards) ++ " vendors in" ++ " " ++
    "3.0" ++ "s".
Proof.
  apply (results_count_matches_table no_length (fun _ => "3.0") current true).
  vm_compute. reflexivity.
Defined.

(** The page of [error_beside_old_result] draws the error card of the
    failed run and the results card of the older shortlist together. *)
Example error_and_old_results_drawn :
  match run_page msg
          [HistorySettles 0 (HistoryAnswer (HistoryOk [old] 1));
           Submit Scenario.need [Scenario.req]; OpenHistory 0;
           CreateSettles 0 (CreateAnswer (mk_response 500 (BodyError "Failed to gather vendor information")))]
          initial_world with
  | Some w =>
      let v := render_page no_length (fun _ => "2.0") (fun _ => "1/1/1970") (page w) in
      pv_error_card v = Some "Failed to gather vendor information" /\
      option_map rv_need (pv_results v) = Some "Need: CRM for startups" /\
      pv_loading_card v = false
  | None => False
  end.
Proof. vm_compute. split_and!; reflexivity. Qed.

(** The features grid credits Claude AI with the analysis, while the
    analyzer and the health route's probe are Google Gemini. *)
Example features_credit_claude :
  includes (snd (nth 1 features ("", ""))) "Claude AI" = true /\
  includes (snd (nth 1 features ("", ""))) "Gemini" = false /\
  map service (health_results StatusPage.StatusWitnesses.env StatusPage.StatusWitnesses.clk) !! 1 =
    Some "Google Gemini AI".
Proof. split_and!; reflexivity. Qed.

(** The hero's average time, three to five minutes, is beyond the 60
    seconds the create route may run. *)
Example hero_time_beyond_maxDuration :
  nth 1 hero_stats ("", "") = ("3-5min", "Average Time") /\ (maxDuration < 3 * 60)%Z.
Proof. split; [reflexivity|]. unfold maxDuration. lia. Qed.

(** The home page links to the status page and the status page back
    home. *)
Example pages_link_each_other :
  href status_link = "/status" /\ href back_home = "/".
Proof. split; reflexivity. Qed.

End ViewWitnesses.
